(* ===== verification/_CoqProject ===== *)
-Q . S2P
Prelude.v
Parse.v
OrderedMap.v
Units.v
Types.v
Cache.v
Upstream.v
World.v
Dates.v
WeatherApi.v
OpenWeather.v
Insights.v
Aggregator.v
Concurrent.v
Agent.v
Examples.v
Alerts.v
Sweep.v
Server.v
Index.v
Page.v
Cli.v
