(* ===== verification/Prelude.v ===== *)
(** * WeatherWise: a verification development of the weather service

    The program is a TypeScript service that answers weather queries from
    two upstream providers.  A query enters the aggregator, which consults
    a cache under a composite key; on a miss it asks the provider adapters
    in priority order (WeatherAPI, then OpenWeather), normalizes the answer
    to one schema with both unit systems, stores it and returns it.  An
    alert service keeps user-registered alerts and sweeps them on a timer,
    asking the aggregator like any caller and notifying by console or
    webhook.  A weather agent hands the records to a language model and
    returns its text.  Three entry points ([server.ts], [index.ts],
    [cli.ts]) expose the operations as MCP tools and as two REST routes,
    on a configuration read from the environment.  A test page fetches
    the REST routes from the browser, and two scripts demonstrate the
    agent.

    ** The files and the code they model

    - [Prelude] (this file): JavaScript numbers as exact rationals [Q]
      with [Math.round], [Math.max], [Math.min], [reduce], [sort] on
      strings and [slice]; the truthiness tests [||] and [??]; the pieces
      of template literals; the monad [M S A] of computations that read
      and write a state [S] and may throw, with [try_catch], [for_each]
      and [zoom] (a computation of a part run on the whole); [preserves],
      an invariant kept by a computation, with its rules; the tactics and
      hint databases of the development.
    - [Parse]: [parseInt(s, 10)], [parseFloat(s)] and [trim] after the
      ECMAScript definition, on strings of code units below 128; [None]
      stands for [NaN].
    - [OrderedMap]: insertion-ordered maps (a JavaScript object used as a
      dictionary, a [Map]) as association lists without duplicate keys.
    - [Units]: the unit conversions written inline in
      [weather/providers/openWeather.ts]; a unit system is the string it
      is at run time.
    - [Types]: the interfaces of [weather/types.ts]; the configuration of
      [config.ts] as a record, and [loadConfig], the record as the code
      reads it from an environment [Env] (names to values).
    - [Cache]: the [lru-cache] library as [weather/aggregator.ts] uses it,
      from its documented behaviour (it is not part of the sources); the
      interface [TtlStore] states what the aggregator relies on, and the
      least-recently-used cache implements it.
    - [Upstream]: the response bodies of the two providers, with exactly
      the fields the adapters read; a field the adapter reads with [?.],
      [||] or [??] is optional, one it dereferences is required.
    - [World]: what the code calls and does not define.  [Host] holds the
      library functions (printing a number, [JSON.stringify] of a string,
      [encodeURIComponent], dates), [Net] the outcome and the duration of
      a request.  [Sys] is the state every handler runs in: the clock, the
      requests sent, the console.
    - [Dates]: an executable [Host] ([toISOString], date parsing) for the
      examples.
    - [WeatherApi], [OpenWeather]: the adapters
      ([weather/providers/weatherApi.ts], [openWeather.ts]): query
      strings, URLs, the mapping of each body; for OpenWeather the
      grouping of three-hour slots into days.
    - [Insights]: [insights/insights.ts], the risk assessment.
    - [Aggregator]: [weather/aggregator.ts]: the three stores, [keyOf] and
      the three operations, on the state [Aggregator.State] (the system
      and the stores).
    - [Concurrent]: two calls of [getCurrentWeather] that interleave at
      the operation's first [await]: [start] is the code up to it (the
      read of the store), [resume] the code after it (the providers, the
      write), and [run] executes two calls under a schedule of turns.
    - [Agent]: [agents/weatherAgent.ts]: the two module variables,
      [initializeWeatherAgent], [getWeatherInsights],
      [getEnhancedWeatherSummary] with their prompts, [getBasicInsights],
      on [Agent.State] (the aggregator's state and the two variables).
      The language model is the interface [Llm]: a prompt and the time
      give an answer or a failure, and a duration.  What [console.error]
      prints of the exception of a failed call is a parameter.
    - [Examples]: the scripts under [examples]: the agent each builds,
      its question, what it prints and the exit code, on [Examples.Proc]
      (the system state and the exit code).
    - [Alerts]: [alerts/alertService.ts]: the registry, the evaluation of
      an alert, the sweep and the scheduler, on [Alerts.State] (the
      aggregator's state, the registry, the scheduler's variables, the
      runtime's timers).
    - [Sweep]: [pollAlerts] interleaved with the handlers of the registry:
      the evaluation of an alert split where it waits for the aggregator
      ([request], [settle]), a sweep in progress as the alerts left of the
      list it took ([Progress]), and [run], a sweep under a schedule of
      actions.
    - [Server]: [server.ts]: the schemas and handlers of the eight tools,
      the routes [/api/current] and [/api/forecast] on the query
      parameters as optional strings, and the start of the process.
    - [Index]: [index.ts]: the nine tools (those of [server.ts] with the
      answer in a field, [weather_insights] and [get_weather_summary]
      through the agent), the two routes and the start of the process, on
      [Index.State] (the state of the alert module and the agent's
      variables; [liftAlerts] and [liftAgent] run a computation of
      either module on it).
    - [Page]: [public/app.js]: the script of the test page on
      [Page.Browser] (the document as a finite map from ids to elements,
      the listeners, the clipboard, the timers, the dialogs) and
      [Page.World] (the browser and the server): [load], the copy buttons,
      [params] and the two handlers of the playground, which fetch a
      route of the interface [Backend]; [serverBackend] and
      [indexBackend] are [server.ts] and [index.ts] behind it.
    - [Cli]: [cli.ts]: [getArg], [hasFlag] and the five settings read
      from the arguments, the nine tools under their names there, the
      check of the [Authorization] header in front of [/mcp], and [main]
      for both transports.

    An [async] function is a computation in [M]: each [await] of a request
    runs [axios_get] or [axios_post], which records the URL, advances the
    clock by the duration the network gives, and returns the body or
    throws.  Except in [Concurrent] and [Sweep], a handler runs from start
    to end without another handler in between.

    ** What the theorems show

    - Units: round trips, monotonicity, agreement of the Celsius and
      Fahrenheit fields for the two declared unit systems, and their
      disagreement for any other string.
    - Parse: [parseInt] reads back the numeral of every integer, also when
      text that does not start with a digit follows; it answers [NaN] on
      text that starts with no numeral.
    - Configuration: the defaults of an empty environment; the port and
      the unit system as the environment gives them.
    - Cache: each operation keeps the cache well formed and within its
      capacity; a read after a write within the time to live hits, after
      it misses; the entry evicted is the least recently used; runs of the
      cache refine runs of an unbounded map of timestamped entries.
    - Adapters: invalid queries are refused before any request; one
      request per call; the normalized record in terms of the body; for
      OpenWeather the days are those of a reference grouping, ascending,
      at most the number asked for, with whole percentages from 0 to 100
      and a mean between minimum and maximum.
    - Aggregator: every branch of each operation (hit, first provider,
      fallback, nothing configured, failures); idempotence within the time
      to live and refetch after it; along any run the stores stay well
      formed, hold provider records only, and the system state only grows.
    - Concurrent: calls that overlap on one key both miss, send two
      requests, and the store keeps the second answer.
    - Agent: initialisation happens once when a key is configured and
      warns at every call when none is; each outcome of
      [getWeatherInsights] (no agent, weather failure, model answer, model
      failure); the module's invariant along any run.
    - Alerts: registration, removal and their round trip; the effect of
      the sensitivity on each condition type; notification and its
      failure modes; isolation of failures in the sweep; the sweep ends
      and stamps the alert that is due; the scheduler as a transition
      system with at most one timer.
    - Sweep: in every interleaving with registrations and removals the
      registry has the ids the handlers give it, the sweep evaluates alerts
      of its list only, and the module keeps its invariant; an alert
      removed after the list was taken is notified once more and stays
      removed.
    - Insights: the risk level characterized by the readings; tips.
    - Server: schema refusal; an alert set, listed and removed through
      the tools, and the list as it was; the REST routes' answers, errors
      as status 400; every tool call and route preserves the invariant of
      the alert module.
    - Page: the query a form becomes; what a click shows, online,
      offline, with an input or the output missing; from the form to the
      aggregator through [server.ts]; the copy buttons and their labels;
      the script stopping at a missing button.
    - Examples: what each script prints when the model answers and when
      it fails; the first exits with code 1 on a failure, the second
      never.
    - Index, Cli: the tools and routes of [index.ts] answer as those of
      [server.ts], and the tools of [cli.ts] as those of [index.ts], up to
      the names of tools and fields; the invariant of the whole state;
      what the authorization check accepts; which transport starts the
      scheduler.

    [Concurrent] and [Sweep] each cut an operation of another file at
    its awaits.  [Concurrent.run_alone], [Concurrent.current_calls_in_turn]
    and [Sweep.sweep_alone] put the pieces together again and find the
    operation they were cut from; they check the cut, and say nothing
    about the program that the definitions do not say.

    Witness lemmas (named [..._witness]) apply a theorem at a concrete
    scenario: a table of URLs and bodies as the network, a scripted
    language model, the executable host of [Dates], the state at load.

    ** Bounds and assumptions

    Numbers are rationals: no rounding error, no [NaN] and no infinity.
    Where the code can produce one inside a computation ([Math.max] of no
    numbers, a mean of no numbers) the model answers [None] and the
    theorems show the case does not arise; where it comes from the
    outside ([parseInt] or [parseFloat] of text that is no number, in the
    environment, the arguments or a query) the function that reads it is
    partial: [loadConfig], [Cli.port], the REST routes and the handlers
    of the page that fetch them answer [None] there, and their theorems
    speak of the inputs on which they are defined.  No fuel is used: every
    loop of the code is over a finite list and is a structural recursion
    here.  The capacity of the stores
    is the 500 of the code; times are integers of milliseconds.  Building
    an agent ([AgentBuilder ... build()]) is taken to succeed, and is not
    a point at which another handler runs.

    An alert is an object the registry and the list of a sweep share.
    [Alerts.stamp_alert] writes the stamp of a notification to the entry
    the registry holds under the id of the alert, which is that object
    unless the alert was removed and its id registered anew in between;
    no sequence of handlers does that within a sweep of [Alerts], and in
    [Sweep], where a schedule can, the theorems speak of the ids of the
    registry and of the console, not of the stamp.

    In [Concurrent] a call has two turns, and the request to a provider,
    which the program sends before it waits, is sent and answered within
    the second: the requests of two overlapping calls follow each other
    on the clock where the program has them under way together, and the
    chain of providers is one turn.  In [Sweep] the sweep may be
    interrupted between the request of an alert and its test, and between
    two alerts; a handler of the registry that runs during a request does
    what it does before or after it, since the two touch different parts
    of the state.  The wait for the webhook inside [notify] is not a point
    of interruption: a handler the program runs there runs after the
    notification here, on the same registry.

    In [Page] the document has no nesting: an assignment to
    [textContent] changes the text of its element and nothing else, as in
    a page whose labels, buttons and output hold text only (the page
    itself is not among the sources).  The inputs of the form come with
    the click, the timers fire in the order they were set, and the query
    the server reads is the one the page wrote ([URLSearchParams] and the
    server's parser are taken to be inverse).

    ** Not modelled

    The MCP transports and the dispatch of a message to a tool (the SDK's;
    [callTool] stands for its result: the check of the arguments and then
    the handler, without the check of the answer against the output schema
    and without the SDK's turning an exception of a handler into an answer
    marked as an error), the routes that send a static page
    ([public/index.html] is not among the sources), the [.env] file
    (dotenv), the text field of a tool's answer where it is
    [JSON.stringify] of the content, and the rejection handler of
    [cli.ts]'s [main]. *)

From Stdlib Require Export QArith Qround Qminmax Lqa.
From stdpp Require Export prelude strings sorting.

Declare Scope weather_scope.
Delimit Scope weather_scope with W.
#[global] Open Scope weather_scope.

(** ** JavaScript numbers

    A JavaScript [number] is modelled by an exact rational.  Equality of
    numbers is [Qeq], registered as stdpp's [≡] so that options, lists and
    pairs of numbers inherit it. *)

#[export] Instance number_equiv : Equiv Q := Qeq.
#[export] Instance number_equivalence : Equivalence (≡@{Q}) := Q_Setoid.

(** [x >= y] and [x <= y] on numbers, as the booleans the code branches on. *)
Definition num_ge (x y : Q) : bool := Qle_bool y x.
Definition num_le (x y : Q) : bool := Qle_bool x y.

Infix ">=?" := num_ge (at level 70, no associativity) : weather_scope.

(** [Math.round]: the nearest integer, halves rounded towards +infinity. *)
Definition js_round (x : Q) : Z := Qfloor (x + (1 # 2)).

(** [a.reduce((x, y) => x + y, 0)] *)
Definition js_sum (xs : list Q) : Q := foldl Qplus 0%Q xs.

(** [Math.max(...xs)] and [Math.min(...xs)] for a non-empty [xs]; the empty
    case ([-Infinity], [Infinity]) has no rational and is [None]. *)
Definition js_max (xs : list Q) : option Q :=
  match xs with
  | [] => None
  | x :: xs' => Some (foldl Qmax x xs')
  end.

Definition js_min (xs : list Q) : option Q :=
  match xs with
  | [] => None
  | x :: xs' => Some (foldl Qmin x xs')
  end.

(** [ToIntegerOrInfinity]: truncation towards zero. *)
Definition js_trunc (x : Q) : Z := if Qle_bool 0 x then Qfloor x else Qceiling x.

(** [l.slice(0, n)]: the first [n] elements, and for a negative [n] all but
    the last [-n]. *)
Definition js_slice0 {A} (n : Q) (l : list A) : list A :=
  let k := js_trunc n in
  if (0 <=? k)%Z then take (Z.to_nat k) l
  else take (Z.to_nat (Z.of_nat (length l) + k)) l.

(** A number used as a condition: zero is falsy. *)
Definition truthy_num (o : option Q) : bool :=
  match o with
  | Some x => negb (Qeq_bool x 0)
  | None => false
  end.

(** ** Strings in code-unit order

    [Array.prototype.sort()] without a comparison function orders strings
    by code units.  A list of distinct strings has one sorted arrangement,
    so the algorithm used to reach it does not matter. *)

Definition str_le (a b : string) : Prop := String.leb a b = true.

#[export] Instance str_le_dec : RelDecision str_le.
Proof. intros a b. unfold str_le. apply _. Defined.

Definition js_sort (l : list string) : list string := merge_sort str_le l.

(** ** Truthiness and defaults

    An optional string is truthy when it is present and not empty; [a || b]
    keeps [a] when it is truthy; [a ?? b], written [nullish a b], keeps [a]
    when it is present. *)

Definition truthy (o : option string) : bool :=
  match o with
  | Some s => negb (String.eqb s "")
  | None => false
  end.

Definition js_or (a b : option string) : option string :=
  if truthy a then a else b.

Definition nullish {A} (a : option A) (b : A) : A := default b a.

(** ** Template literals

    The double quote and the line feed as strings, the lines of a literal
    that spans several, and an optional string placed in a template: an
    absent one prints as [undefined]. *)

Definition dquote : string := String (Ascii.ascii_of_nat 34) EmptyString.
Definition newline : string := String (Ascii.ascii_of_nat 10) EmptyString.
Definition unlines (ls : list string) : string := String.concat newline ls.
Definition shown (o : option string) : string := default "undefined" o.

(** ** Errors and the state-and-exception monad

    A thrown [Error] carries its message.  A computation over a state [S]
    returns a value or throws, and in both cases hands back the state it
    reached: what a handler wrote before it threw stays written. *)

Inductive Error : Type := mkError (message : string).

Definition message (e : Error) : string := let 'mkError m := e in m.

Inductive result (A : Type) : Type :=
| Ok (a : A)
| Throw (e : Error).
Arguments Ok {A} a.
Arguments Throw {A} e.

Definition M (S A : Type) : Type := S → result A * S.

Definition ret {S A} (a : A) : M S A := λ s, (Ok a, s).

Definition bind {S A B} (m : M S A) (k : A → M S B) : M S B :=
  λ s, match m s with
       | (Ok a, s') => k a s'
       | (Throw e, s') => (Throw e, s')
       end.

Definition throw {S A} (e : Error) : M S A := λ s, (Throw e, s).

(** [try { m } catch (e) { h e }] *)
Definition try_catch {S A} (m : M S A) (h : Error → M S A) : M S A :=
  λ s, match m s with
       | (Ok a, s') => (Ok a, s')
       | (Throw e, s') => h e s'
       end.

Definition get_st {S} : M S S := λ s, (Ok s, s).
Definition put_st {S} (s : S) : M S unit := λ _, (Ok tt, s).
Definition modify_st {S} (f : S → S) : M S unit := λ s, (Ok tt, f s).

(** Run a computation of a component on the component's part of a larger
    state. *)
Definition zoom {S T A} (get : S → T) (set : T → S → S) (m : M T A) : M S A :=
  λ s, let '(r, t) := m (get s) in (r, set t s).

Notation "'let!' x ':=' m 'in' k" := (bind m (λ x, k))
  (at level 10, x pattern, m at level 100, k at level 200,
   format "'[v' 'let!'  x  ':='  m  'in' '/' k ']'") : weather_scope.
Notation "m1 ;; m2" := (bind m1 (λ _, m2))
  (at level 100, m2 at level 200, right associativity) : weather_scope.

(** [for (const x of xs) body x] *)
Fixpoint for_each {S A} (xs : list A) (body : A → M S unit) : M S unit :=
  match xs with
  | [] => ret tt
  | x :: xs' => body x ;; for_each xs' body
  end.

(** The value and the final state of a run. *)
Definition value_of {A} (r : result A) : option A :=
  match r with Ok a => Some a | Throw _ => None end.

Definition map_result {A B} (f : A → B) (r : result A) : result B :=
  match r with Ok a => Ok (f a) | Throw e => Throw e end.

Definition is_ok {A} (r : result A) : bool :=
  match r with Ok _ => true | Throw _ => false end.

(** ** Automation *)

Create HintDb weather discriminated.
Create Rewrite HintDb weather_rw.

(** Case analysis on the test of the first [if] or [match] of the goal. *)
Ltac case_test :=
  match goal with
  | |- context [if ?b then _ else _] => destruct b eqn:?
  | |- context [match ?x with _ => _ end] => destruct x eqn:?
  end.

(** Turn divisions by constants into multiplications, which [lra] reads. *)
Ltac qnorm := unfold Qdiv in *; cbn [Qinv Qnum Qden] in *.

(** Close an equation or an inequality between numbers by linear
    arithmetic. *)
Ltac solve_num :=
  unfold equiv, number_equiv in *; simpl length in *;
  change (inject_Z (Z.of_nat 0)) with 0%Q in *; qnorm; lra.

(** Unfold the monad's combinators in the goal and in the hypotheses. *)
Ltac unfold_monad :=
  unfold bind, ret, throw, try_catch, get_st, put_st, modify_st, zoom in *.

(** ** Lemmas on numbers *)

Lemma num_ge_spec (x y : Q) : (x >=? y) = true ↔ (y <= x)%Q.
Proof. apply Qle_bool_iff. Qed.

Lemma num_ge_false (x y : Q) : (x >=? y) = false ↔ (x < y)%Q.
Proof.
  unfold num_ge. rewrite <-not_true_iff_false, Qle_bool_iff.
  split; [apply Qnot_le_lt | apply Qlt_not_le].
Qed.

Lemma num_le_spec (x y : Q) : num_le x y = true ↔ (x <= y)%Q.
Proof. apply Qle_bool_iff. Qed.

Lemma num_le_false (x y : Q) : num_le x y = false ↔ (y < x)%Q.
Proof. apply num_ge_false. Qed.

#[export] Instance num_ge_proper : Proper ((≡) ==> (≡) ==> (=)) num_ge.
Proof. intros x x' Hx y y' Hy. unfold num_ge. by rewrite Hx, Hy. Qed.

#[export] Instance num_le_proper : Proper ((≡) ==> (≡) ==> (=)) num_le.
Proof. intros x x' Hx y y' Hy. unfold num_le. by rewrite Hx, Hy. Qed.

#[export] Instance js_round_proper : Proper ((≡) ==> (=)) js_round.
Proof. intros x y Hxy. unfold js_round. by rewrite Hxy. Qed.

Lemma js_round_Z (z : Z) : js_round (inject_Z z) = z.
Proof.
  unfold js_round. apply Z.le_antisymm.
  - assert (H : (Qfloor (inject_Z z + (1 # 2)) < z + 1)%Z); [|lia].
    rewrite Zlt_Qlt. eapply Qle_lt_trans; [apply Qfloor_le|].
    rewrite inject_Z_plus. change (inject_Z 1) with 1%Q. lra.
  - rewrite <-(Qfloor_Z z) at 1. apply Qfloor_resp_le. lra.
Qed.

Lemma js_round_mono (x y : Q) : (x <= y)%Q → (js_round x ≤ js_round y)%Z.
Proof. intros H. apply Qfloor_resp_le. lra. Qed.

#[export] Hint Rewrite num_ge_spec num_ge_false num_le_spec num_le_false
  : weather_rw.
#[export] Hint Resolve js_round_mono : weather.

(** ** Lemmas on lists of numbers *)

Lemma foldl_Qplus (a : Q) (xs : list Q) : foldl Qplus a xs ≡ (a + js_sum xs)%Q.
Proof.
  unfold js_sum. revert a. induction xs as [|x xs IH]; intros a; simpl.
  - unfold equiv, number_equiv. lra.
  - rewrite (IH (a + x)%Q), (IH (0 + x)%Q). unfold equiv, number_equiv. lra.
Qed.

Lemma js_sum_cons (x : Q) (xs : list Q) : js_sum (x :: xs) ≡ (x + js_sum xs)%Q.
Proof.
  unfold js_sum at 1. simpl. rewrite foldl_Qplus.
  unfold equiv, number_equiv. lra.
Qed.

#[export] Instance js_sum_proper : Proper ((≡) ==> (≡)) js_sum.
Proof.
  intros xs ys Hxy. induction Hxy as [|x y xs ys Hx _ IH]; [done|].
  rewrite !js_sum_cons. unfold equiv, number_equiv in *. by rewrite Hx, IH.
Qed.

(** The sum of the images under [x * a + b]. *)
Lemma js_sum_affine (a b : Q) (xs : list Q) :
  js_sum ((λ x, x * a + b)%Q <$> xs) ≡
  (js_sum xs * a + b * inject_Z (Z.of_nat (length xs)))%Q.
Proof.
  induction xs as [|x xs IH]; [unfold js_sum; simpl; solve_num|].
  rewrite fmap_cons, !js_sum_cons, IH. simpl length.
  rewrite Nat2Z.inj_succ, <-Z.add_1_r, inject_Z_plus.
  change (inject_Z 1) with 1%Q. unfold equiv, number_equiv. lra.
Qed.

Lemma js_sum_bounds (lo hi : Q) (xs : list Q) :
  Forall (λ x, lo <= x <= hi)%Q xs →
  (lo * inject_Z (Z.of_nat (length xs)) <= js_sum xs <=
   hi * inject_Z (Z.of_nat (length xs)))%Q.
Proof.
  induction 1 as [|x xs [??] _ [??]]; [unfold js_sum; simpl; solve_num|].
  rewrite js_sum_cons. simpl length.
  rewrite Nat2Z.inj_succ, <-Z.add_1_r, inject_Z_plus.
  change (inject_Z 1) with 1%Q. lra.
Qed.

Lemma foldl_Qmax_ub (a : Q) (xs : list Q) :
  (a <= foldl Qmax a xs)%Q ∧ Forall (λ x, x <= foldl Qmax a xs)%Q xs.
Proof.
  revert a. induction xs as [|x xs IH]; intros a; simpl.
  - split; [lra|constructor].
  - destruct (IH (Qmax a x)) as [Hm Hall].
    pose proof (Q.le_max_l a x). pose proof (Q.le_max_r a x).
    split; [lra|]. constructor; [lra|done].
Qed.

Lemma foldl_Qmin_lb (a : Q) (xs : list Q) :
  (foldl Qmin a xs <= a)%Q ∧ Forall (λ x, foldl Qmin a xs <= x)%Q xs.
Proof.
  revert a. induction xs as [|x xs IH]; intros a; simpl.
  - split; [lra|constructor].
  - destruct (IH (Qmin a x)) as [Hm Hall].
    pose proof (Q.le_min_l a x). pose proof (Q.le_min_r a x).
    split; [lra|]. constructor; [lra|done].
Qed.

(** [Math.max] is an upper bound and [Math.min] a lower bound. *)
Lemma js_max_ub (xs : list Q) (m : Q) :
  js_max xs = Some m → Forall (λ x, x <= m)%Q xs.
Proof.
  destruct xs as [|x xs]; [done|]. intros [= <-].
  destruct (foldl_Qmax_ub x xs). by constructor.
Qed.

Lemma js_min_lb (xs : list Q) (m : Q) :
  js_min xs = Some m → Forall (λ x, m <= x)%Q xs.
Proof.
  destruct xs as [|x xs]; [done|]. intros [= <-].
  destruct (foldl_Qmin_lb x xs). by constructor.
Qed.

Lemma foldl_Qmax_equiv (a b : Q) (xs : list Q) :
  a ≡ b → foldl Qmax a xs ≡ foldl Qmax b xs.
Proof.
  revert a b. induction xs as [|x xs IH]; intros a b Hab; simpl; [done|].
  apply IH. unfold equiv, number_equiv in *. by rewrite Hab.
Qed.

Lemma foldl_Qmin_equiv (a b : Q) (xs : list Q) :
  a ≡ b → foldl Qmin a xs ≡ foldl Qmin b xs.
Proof.
  revert a b. induction xs as [|x xs IH]; intros a b Hab; simpl; [done|].
  apply IH. unfold equiv, number_equiv in *. by rewrite Hab.
Qed.

(** [Math.max] and [Math.min] commute with a monotone function. *)
Section monotone_map.
Context (f : Q → Q) `{!Proper (Qeq ==> Qeq) f} `{!Proper (Qle ==> Qle) f}.

Lemma foldl_Qmax_mono (a : Q) (xs : list Q) :
  foldl Qmax (f a) (f <$> xs) ≡ f (foldl Qmax a xs).
Proof.
  revert a. induction xs as [|x xs IH]; intros a; simpl; [done|].
  rewrite <-IH. apply foldl_Qmax_equiv, (Q.max_mono f); apply _.
Qed.

Lemma foldl_Qmin_mono (a : Q) (xs : list Q) :
  foldl Qmin (f a) (f <$> xs) ≡ f (foldl Qmin a xs).
Proof.
  revert a. induction xs as [|x xs IH]; intros a; simpl; [done|].
  rewrite <-IH. apply foldl_Qmin_equiv, (Q.min_mono f); apply _.
Qed.

Lemma js_max_mono (xs : list Q) : js_max (f <$> xs) ≡ f <$> js_max xs.
Proof.
  destruct xs as [|x xs]; [done|]. simpl. constructor. apply foldl_Qmax_mono.
Qed.

Lemma js_min_mono (xs : list Q) : js_min (f <$> xs) ≡ f <$> js_min xs.
Proof.
  destruct xs as [|x xs]; [done|]. simpl. constructor. apply foldl_Qmin_mono.
Qed.

End monotone_map.

#[export] Instance js_max_proper : Proper ((≡) ==> (≡)) js_max.
Proof.
  intros xs ys Hxy. destruct Hxy as [|x y xs ys Hx Hxs]; [done|].
  simpl. constructor. revert x y Hx.
  induction Hxs as [|x' y' xs ys Hx' _ IH]; intros x y Hx; simpl; [done|].
  apply IH. unfold equiv, number_equiv in *. by rewrite Hx, Hx'.
Qed.

#[export] Instance js_min_proper : Proper ((≡) ==> (≡)) js_min.
Proof.
  intros xs ys Hxy. destruct Hxy as [|x y xs ys Hx Hxs]; [done|].
  simpl. constructor. revert x y Hx.
  induction Hxs as [|x' y' xs ys Hx' _ IH]; intros x y Hx; simpl; [done|].
  apply IH. unfold equiv, number_equiv in *. by rewrite Hx, Hx'.
Qed.

(** ** Lemmas on the order of strings *)

Lemma ascii_compare_refl c : Ascii.compare c c = Eq.
Proof. unfold Ascii.compare. apply N.compare_refl. Qed.

Lemma ascii_compare_lt_trans c1 c2 c3 :
  Ascii.compare c1 c2 = Lt → Ascii.compare c2 c3 = Lt →
  Ascii.compare c1 c3 = Lt.
Proof. unfold Ascii.compare. rewrite !N.compare_lt_iff. lia. Qed.

Lemma string_compare_refl a : String.compare a a = Eq.
Proof. induction a as [|c a IH]; simpl; [done|]. by rewrite ascii_compare_refl. Qed.

Lemma string_compare_lt_trans a : ∀ b c,
  String.compare a b = Lt → String.compare b c = Lt → String.compare a c = Lt.
Proof.
  induction a as [|c1 a IH]; intros [|c2 b] [|c3 c]; simpl; try done.
  destruct (Ascii.compare c1 c2) eqn:H12; try done;
    destruct (Ascii.compare c2 c3) eqn:H23; try done; intros Hab Hbc.
  - apply Ascii.compare_eq_iff in H12, H23. subst.
    rewrite ascii_compare_refl. eauto.
  - apply Ascii.compare_eq_iff in H12. subst. by rewrite H23.
  - apply Ascii.compare_eq_iff in H23. subst. by rewrite H12.
  - by rewrite (ascii_compare_lt_trans _ _ _ H12 H23).
Qed.

Lemma str_le_alt a b : str_le a b ↔ String.compare a b = Lt ∨ a = b.
Proof.
  unfold str_le, String.leb. destruct (String.compare a b) eqn:Hc.
  - apply String.compare_eq_iff in Hc. by split; [right|].
  - by split; [left|].
  - split; [done|]. intros [?| ->]; [done|].
    by rewrite string_compare_refl in Hc.
Qed.

#[export] Instance str_le_total : Total str_le.
Proof. intros a b. apply String.leb_total. Qed.

#[export] Instance str_le_trans : Transitive str_le.
Proof.
  intros a b c. rewrite !str_le_alt. intros [Hab| ->] [Hbc| ->]; eauto.
  left. by eapply string_compare_lt_trans.
Qed.

#[export] Instance str_le_refl : Reflexive str_le.
Proof. intros a. apply str_le_alt. by right. Qed.

#[export] Instance str_le_antisym : AntiSymm (=) str_le.
Proof. intros a b. apply String.leb_antisym. Qed.

Lemma js_sort_sorted l : StronglySorted str_le (js_sort l).
Proof. apply StronglySorted_merge_sort; apply _. Qed.

Lemma js_sort_perm l : js_sort l ≡ₚ l.
Proof. apply merge_sort_Permutation. Qed.

Lemma js_sort_elem x l : x ∈ js_sort l ↔ x ∈ l.
Proof. by rewrite js_sort_perm. Qed.

Lemma js_sort_NoDup l : NoDup l → NoDup (js_sort l).
Proof. by rewrite js_sort_perm. Qed.

Lemma js_sort_length l : length (js_sort l) = length l.
Proof. by rewrite js_sort_perm. Qed.

(** A sorted list without duplicates is strictly sorted. *)
Definition str_lt (a b : string) : Prop := str_le a b ∧ a ≠ b.

Lemma StronglySorted_strict (l : list string) :
  StronglySorted str_le l → NoDup l → StronglySorted str_lt l.
Proof.
  induction 1 as [|a l Hs IH Hall]; intros Hnd; [constructor|].
  apply NoDup_cons in Hnd as [Hnin Hnd]. constructor; [by apply IH|].
  apply Forall_forall. intros x Hx. split.
  - by eapply Forall_forall in Hall.
  - by intros ->.
Qed.

(** ** Lemmas on slices *)

Lemma StronglySorted_take {A} (R : relation A) n (l : list A) :
  StronglySorted R l → StronglySorted R (take n l).
Proof.
  intros Hs. rewrite <-(take_drop n l) in Hs.
  by apply StronglySorted_app_1_l in Hs.
Qed.

Lemma js_slice0_take {A} (n : Q) (l : list A) :
  ∃ k, js_slice0 n l = take k l.
Proof. unfold js_slice0. case_match; eauto. Qed.

Lemma js_slice0_nat {A} (n : nat) (l : list A) :
  js_slice0 (inject_Z (Z.of_nat n)) l = take n l.
Proof.
  unfold js_slice0, js_trunc.
  assert (Qle_bool 0 (inject_Z (Z.of_nat n)) = true) as ->.
  { apply Qle_bool_iff. change 0%Q with (inject_Z 0). rewrite <-Zle_Qle. lia. }
  rewrite Qfloor_Z. rewrite (proj2 (Z.leb_le _ _)) by lia. by rewrite Nat2Z.id.
Qed.

Lemma js_slice0_sublist {A} (n : Q) (l : list A) : js_slice0 n l `sublist_of` l.
Proof. destruct (js_slice0_take n l) as [k ->]. apply sublist_take. Qed.

Lemma js_slice0_length_le {A} (n : Q) (l : list A) :
  length (js_slice0 n l) ≤ length l.
Proof. destruct (js_slice0_take n l) as [k ->]. rewrite length_take. lia. Qed.

(** ** Lemmas on the monad *)

Section monad_laws.
Context {S A B C : Type}.
Implicit Types (s : S) (a : A).

Lemma bind_ret_l a (k : A → M S B) s : bind (ret a) k s = k a s.
Proof. done. Qed.

Lemma bind_ret_r (m : M S A) s : bind m ret s = m s.
Proof. unfold bind, ret. by destruct (m s) as [[]]. Qed.

Lemma bind_assoc (m : M S A) (k : A → M S B) (h : B → M S C) s :
  bind (bind m k) h s = bind m (λ a, bind (k a) h) s.
Proof. unfold bind. by destruct (m s) as [[]]. Qed.

Lemma bind_ok (m : M S A) (k : A → M S B) s a s' :
  m s = (Ok a, s') → bind m k s = k a s'.
Proof. unfold bind. by intros ->. Qed.

Lemma bind_throw (m : M S A) (k : A → M S B) s e s' :
  m s = (Throw e, s') → bind m k s = (Throw e, s').
Proof. unfold bind. by intros ->. Qed.

Lemma try_catch_ok (m : M S A) h s a s' :
  m s = (Ok a, s') → try_catch m h s = (Ok a, s').
Proof. unfold try_catch. by intros ->. Qed.

Lemma try_catch_throw (m : M S A) h s e s' :
  m s = (Throw e, s') → try_catch m h s = h e s'.
Proof. unfold try_catch. by intros ->. Qed.

End monad_laws.

(** A loop whose body never throws and keeps [I] never throws and keeps
    [I]. *)
Lemma for_each_total {S A} (I : S → Prop) (xs : list A) (body : A → M S unit) s :
  (∀ x s, I s → (body x s).1 = Ok tt ∧ I (body x s).2) →
  I s → (for_each xs body s).1 = Ok tt ∧ I (for_each xs body s).2.
Proof.
  intros Hb. revert s. induction xs as [|x xs IH]; intros s Hs; [done|].
  simpl. unfold bind. destruct (Hb x s Hs) as [Hr Hi].
  destruct (body x s) as [[[]|e] s1]; [by apply IH|done].
Qed.

(** Such a loop is the fold of its body over the list. *)
Lemma for_each_fold {S A} (xs : list A) (body : A → M S unit) s :
  (∀ x s, (body x s).1 = Ok tt) →
  for_each xs body s = (Ok tt, foldl (λ s x, (body x s).2) s xs).
Proof.
  intros Hb. revert s. induction xs as [|x xs IH]; intros s; [done|].
  simpl. unfold bind. specialize (Hb x s).
  destruct (body x s) as [[[]|e] s1]; [by rewrite IH|done].
Qed.

Lemma for_each_app {S A} (xs ys : list A) (body : A → M S unit) s :
  for_each (xs ++ ys) body s = (for_each xs body ;; for_each ys body) s.
Proof.
  revert s. induction xs as [|x xs IH]; intros s; simpl; [done|].
  rewrite bind_assoc. destruct (body x s) as [[[]|e] s1] eqn:E.
  - rewrite !(bind_ok _ _ _ _ _ E). apply IH.
  - by rewrite !(bind_throw _ _ _ _ _ E).
Qed.

(** ** Invariants of computations

    [preserves I m]: the state [m] reaches satisfies [I] when the state it
    started from did, whether it returned or threw. *)

Definition preserves {S A} (I : S → Prop) (m : M S A) : Prop :=
  ∀ s, I s → I (m s).2.

Section preserves.
Context {S : Type} (I : S → Prop).

Lemma preserves_ret {A} (a : A) : preserves I (ret a).
Proof. by intros s. Qed.

Lemma preserves_throw {A} e : preserves I (@throw S A e).
Proof. by intros s. Qed.

Lemma preserves_bind {A B} (m : M S A) (k : A → M S B) :
  preserves I m → (∀ a, preserves I (k a)) → preserves I (bind m k).
Proof.
  intros Hm Hk s Hs. unfold bind. specialize (Hm s Hs).
  destruct (m s) as [[a|e] s1]; [by apply Hk|done].
Qed.

Lemma preserves_catch {A} (m : M S A) (h : Error → M S A) :
  preserves I m → (∀ e, preserves I (h e)) → preserves I (try_catch m h).
Proof.
  intros Hm Hh s Hs. unfold try_catch. specialize (Hm s Hs).
  destruct (m s) as [[a|e] s1]; [done|by apply Hh].
Qed.

Lemma preserves_for_each {A} (xs : list A) (body : A → M S unit) :
  (∀ x, preserves I (body x)) → preserves I (for_each xs body).
Proof.
  intros Hb. induction xs as [|x xs IH]; simpl.
  - apply preserves_ret.
  - by apply preserves_bind.
Qed.

(** A computation of a component keeps the invariant of the whole when it
    keeps the component's and writing the component back keeps the
    whole's. *)
Lemma preserves_zoom {T A} (J : T → Prop) (get : S → T) (set : T → S → S)
    (m : M T A) :
  (∀ s, I s → J (get s)) → preserves J m →
  (∀ t s, I s → J t → I (set t s)) → preserves I (zoom get set m).
Proof.
  intros Hget Hm Hset s Hs. unfold zoom. specialize (Hm (get s) (Hget s Hs)).
  destruct (m (get s)) as [r t]. by apply Hset.
Qed.

End preserves.

#[export] Hint Resolve preserves_ret preserves_throw : weather.
