(* ===== verification/Parse.v ===== *)
(** * Parse: the numeric parsers of the runtime

    [parseInt(s, 10)] and [parseFloat(s)] are library functions the program
    calls on strings from outside: the variables of the environment
    ([config.ts]), the arguments of the command line ([cli.ts]) and the
    parameters of a REST request ([server.ts]).  This file defines both
    after the ECMAScript specification, on strings of bytes: leading white
    space is dropped, a sign is read, then the longest prefix that is a
    number; what follows it is ignored.

    The result is [None] where the runtime answers [NaN] (no digit where
    the number should start) and, for [parseFloat], where it answers an
    infinity: the numbers of the model are rationals.  A decimal numeral
    denotes the rational it writes; the rounding to a double is not
    modelled. *)

From Stdlib Require Import Ascii.
From stdpp Require Import pretty.
From S2P Require Import Prelude.

Module Parse.

(** The white space and line terminators among the first 128 code units:
    TAB, LF, VT, FF, CR and the space. *)
Definition is_space (c : Ascii.ascii) : bool :=
  let n := Ascii.N_of_ascii c in
  bool_decide (9 ≤ n ≤ 13 ∨ n = 32)%N.

(** [TrimString(s, start)] *)
Fixpoint trimStart (s : string) : string :=
  match s with
  | String c s' => if is_space c then trimStart s' else s
  | EmptyString => s
  end.

(** [s.trim()] *)
Definition trim (s : string) : string :=
  String.rev (trimStart (String.rev (trimStart s))).

(** The value of a decimal digit. *)
Definition digit (c : Ascii.ascii) : option N :=
  let n := Ascii.N_of_ascii c in
  if bool_decide (48 ≤ n ≤ 57)%N then Some (n - 48)%N else None.

(** The longest prefix of digits of [s], read onto [acc]: the number read,
    how many digits it took, and the rest of the string. *)
Fixpoint span (acc : N) (len : nat) (s : string) : N * nat * string :=
  match s with
  | String c s' =>
      match digit c with
      | Some d => span (acc * 10 + d) (S len) s'
      | None => (acc, len, s)
      end
  | EmptyString => (acc, len, s)
  end.

(** A sign, and the rest of the string. *)
Definition sign (s : string) : bool * string :=
  match s with
  | String c s' =>
      if Ascii.eqb c "-"%char then (true, s')
      else if Ascii.eqb c "+"%char then (false, s')
      else (false, s)
  | EmptyString => (false, s)
  end.

Definition signed (negative : bool) (n : N) : Z :=
  if negative then (- Z.of_N n)%Z else Z.of_N n.

(** [parseInt(s, 10)] *)
Definition parseInt (s : string) : option Z :=
  let '(negative, s1) := sign (trimStart s) in
  let '(n, len, _) := span 0 0 s1 in
  if bool_decide (len = 0%nat) then None else Some (signed negative n).

(** The exponent part that starts [s], when [s] starts with one: [e] or
    [E], a sign, and at least one digit. *)
Definition exponent (s : string) : Z :=
  match s with
  | String c s' =>
      if Ascii.eqb c "e"%char || Ascii.eqb c "E"%char then
        let '(negative, s1) := sign s' in
        let '(n, len, _) := span 0 0 s1 in
        if bool_decide (len = 0%nat) then 0%Z else signed negative n
      else 0%Z
  | EmptyString => 0%Z
  end.

(** Ten to the power [e]. *)
Definition pow10 (e : Z) : Q := ((10 # 1) ^ e)%Q.

(** [parseFloat(s)]: digits, a point and digits, an exponent; at least one
    digit before the exponent. *)
Definition parseFloat (s : string) : option Q :=
  let '(negative, s1) := sign (trimStart s) in
  let '(i, ilen, s2) := span 0 0 s1 in
  let '(m, flen, s3) :=
    match s2 with
    | String c s' => if Ascii.eqb c "."%char then span i 0 s' else (i, 0%nat, s2)
    | EmptyString => (i, 0%nat, s2)
    end in
  if bool_decide (ilen = 0%nat ∧ flen = 0%nat) then None
  else Some (inject_Z (signed negative m)
             * pow10 (exponent s3 - Z.of_nat flen))%Q.

(** ** The digits of a printed number *)

Lemma digit_char (x : N) : (x < 10)%N → digit (pretty_N_char x) = Some x.
Proof.
  intros ?.
  assert (x = 0 ∨ x = 1 ∨ x = 2 ∨ x = 3 ∨ x = 4 ∨ x = 5 ∨ x = 6 ∨ x = 7
          ∨ x = 8 ∨ x = 9)%N by lia.
  naive_solver.
Qed.

Lemma digit_not_space c d : digit c = Some d → is_space c = false.
Proof.
  unfold digit, is_space. case_bool_decide; [|done]. intros _.
  apply bool_decide_eq_false. lia.
Qed.

Lemma digit_not_sign c d s : digit c = Some d → sign (String c s) = (false, String c s).
Proof.
  unfold digit, sign. case_bool_decide as Hc; [|done]. intros _.
  destruct (Ascii.eqb_spec c "-"%char) as [->|]; [cbn in Hc; lia|].
  destruct (Ascii.eqb_spec c "+"%char) as [->|]; [cbn in Hc; lia|done].
Qed.

(** Reading the digits [pretty_N_go x] puts before [s]: the number read
    so far is shifted by as many places and [x] is added. *)
Lemma span_pretty_go (x : N) s :
  ∃ k, ((0 < x)%N → (0 < k)%nat) ∧
    ∀ acc len, span acc len (pretty_N_go x s)
               = span (acc * 10 ^ N.of_nat k + x) (len + k) s.
Proof.
  revert s. induction (N.lt_wf_0 x) as [x _ IH]; intros s.
  assert (x = 0 ∨ 0 < x)%N as [->|Hx] by lia.
  - exists 0%nat. split; [lia|]. intros acc len. rewrite pretty_N_go_0.
    f_equal; [lia|]. by rewrite Nat.add_0_r.
  - rewrite pretty_N_go_step by done.
    destruct (IH (x `div` 10)%N (N.div_lt x 10 Hx ltac:(done))
                (String (pretty_N_char (x `mod` 10)) s)) as (k & _ & Hk).
    exists (S k). split; [lia|]. intros acc len. rewrite Hk. simpl.
    rewrite digit_char by (by apply N.mod_lt).
    f_equal; [|lia]. rewrite Nat2N.inj_succ, N.pow_succ_r'.
    pose proof (N.div_mod x 10). lia.
Qed.

(** A printed positive number starts with a digit. *)
Lemma pretty_go_head (x : N) s :
  (0 < x)%N → ∃ c d s', pretty_N_go x s = String c s' ∧ digit c = Some d.
Proof.
  revert s. induction (N.lt_wf_0 x) as [x _ IH]; intros s Hx.
  rewrite pretty_N_go_step by done.
  destruct (N.eq_0_gt_0_cases (x `div` 10)) as [->|Hd].
  - rewrite pretty_N_go_0. eexists _, _, _. split; [done|].
    by apply digit_char, N.mod_lt.
  - by apply IH; [apply N.div_lt|].
Qed.

(** What [parseInt] reads from the digits of a positive number followed
    by [s], when [s] does not go on with a digit. *)
Definition ends_number (s : string) : Prop :=
  match s with
  | String c _ => digit c = None
  | EmptyString => True
  end.

Lemma span_stop acc len s : ends_number s → span acc len s = (acc, len, s).
Proof. destruct s as [|c s]; simpl; [done|]. by intros ->. Qed.

Lemma span_positive (x : N) s :
  (0 < x)%N → ends_number s →
  ∃ k, (0 < k)%nat ∧ span 0 0 (pretty_N_go x s) = (x, k, s).
Proof.
  intros Hx Hs. destruct (span_pretty_go x s) as (k & Hk & Hspan).
  exists k. split; [by apply Hk|]. by rewrite Hspan, span_stop.
Qed.

Lemma parse_positive (x : N) s :
  (0 < x)%N → ends_number s →
  trimStart (pretty_N_go x s) = pretty_N_go x s
  ∧ sign (pretty_N_go x s) = (false, pretty_N_go x s).
Proof.
  intros Hx Hs. destruct (pretty_go_head x s Hx) as (c & d & s' & -> & Hc).
  split; [|by eapply digit_not_sign].
  simpl. by erewrite digit_not_space.
Qed.

(** ** [parseInt] *)

Lemma pretty_go_app (x : N) s1 s2 :
  pretty_N_go x s1 +:+ s2 = pretty_N_go x (s1 +:+ s2).
Proof.
  revert s1. induction (N.lt_wf_0 x) as [x _ IH]; intros s1.
  assert (x = 0 ∨ 0 < x)%N as [->|Hx] by lia; [by rewrite !pretty_N_go_0|].
  rewrite (pretty_N_go_step x s1), (pretty_N_go_step x (s1 +:+ s2)) by done.
  exact (IH _ (N.div_lt x 10 Hx ltac:(done)) (String _ s1)).
Qed.

Lemma parseInt_positive (x : N) s :
  (0 < x)%N → ends_number s → parseInt (pretty_N_go x s) = Some (Z.of_N x).
Proof.
  intros Hx Hs. unfold parseInt.
  destruct (parse_positive x s Hx Hs) as [-> ->].
  destruct (span_positive x s Hx Hs) as (k & Hk & ->).
  by rewrite bool_decide_eq_false_2 by lia.
Qed.

Lemma parseInt_negative (x : N) s :
  (0 < x)%N → ends_number s →
  parseInt (String "-" (pretty_N_go x s)) = Some (- Z.of_N x)%Z.
Proof.
  intros Hx Hs. unfold parseInt. simpl.
  destruct (span_positive x s Hx Hs) as (k & Hk & ->).
  by rewrite bool_decide_eq_false_2 by lia.
Qed.

(** [parseInt] reads back the decimal numeral of an integer, whatever
    follows it, as long as that is not one more digit: it answers 3000 on
    [3000], on [3000.5] and on [3000abc]. *)
Theorem parseInt_prefix (z : Z) (s : string) :
  ends_number s → parseInt (pretty z +:+ s) = Some z.
Proof.
  intros Hs. destruct z as [|p|p].
  - unfold parseInt. simpl. by rewrite span_stop.
  - change (pretty (Z.pos p)) with (pretty_N_go (N.pos p) "").
    rewrite pretty_go_app. by apply parseInt_positive.
  - change (pretty (Z.neg p) +:+ s)
      with (String "-" (pretty_N_go (N.pos p) "" +:+ s)).
    rewrite pretty_go_app. by apply parseInt_negative.
Qed.

(** A numeral is not the empty string. *)
Lemma numeral_nonempty (z : Z) (s : string) :
  ends_number s → pretty z +:+ s ≠ EmptyString.
Proof.
  intros Hs Heq. pose proof (parseInt_prefix z s Hs) as Hparse.
  by rewrite Heq in Hparse.
Qed.

Lemma app_empty_r (s : string) : s +:+ "" = s.
Proof. induction s as [|c s IH]; [done|exact (f_equal (String c) IH)]. Qed.

(** [parseInt(String(n), 10)] is [n]. *)
Theorem parseInt_pretty (z : Z) : parseInt (pretty z) = Some z.
Proof. rewrite <-(parseInt_prefix z "") by done. by rewrite app_empty_r. Qed.

(** A string that does not start, after its white space and sign, with a
    digit has no integer: [parseInt] answers [NaN]. *)
Theorem parseInt_NaN (s : string) :
  ends_number (sign (trimStart s)).2 → parseInt s = None.
Proof.
  unfold parseInt. destruct (sign (trimStart s)) as [negative s1]. simpl.
  intros Hs. by rewrite span_stop.
Qed.

(** ** [parseFloat] *)

(** On the numeral of an integer [parseFloat] agrees with [parseInt]. *)
Theorem parseFloat_pretty (z : Z) : parseFloat (pretty z) ≡ Some (inject_Z z).
Proof.
  assert (∀ n, (inject_Z n * pow10 (0 - Z.of_nat 0) == inject_Z n)%Q) as Hq.
  { intros n. unfold pow10. simpl. lra. }
  destruct z as [|p|p].
  - constructor. by vm_compute.
  - change (pretty (Z.pos p)) with (pretty_N_go (N.pos p) "").
    unfold parseFloat. destruct (parse_positive (N.pos p) "") as [-> ->]; [done..|].
    destruct (span_positive (N.pos p) "") as (k & Hk & ->); [done..|].
    rewrite bool_decide_eq_false_2 by lia. constructor. apply Hq.
  - change (pretty (Z.neg p)) with (String "-" (pretty_N_go (N.pos p) "")).
    unfold parseFloat. simpl.
    destruct (span_positive (N.pos p) "") as (k & Hk & ->); [done..|].
    rewrite bool_decide_eq_false_2 by lia. constructor. apply Hq.
Qed.

Example parseInt_examples :
  parseInt "3000" = Some 3000%Z ∧ parseInt "  -12px" = Some (-12)%Z
  ∧ parseInt "7.9" = Some 7%Z ∧ parseInt "abc" = None ∧ parseInt "" = None
  ∧ parseInt "-" = None ∧ parseInt "+5" = Some 5%Z.
Proof. by vm_compute. Qed.

Example parseFloat_examples :
  (Qred <$> parseFloat "51.5") = Some (103 # 2)%Q
  ∧ (Qred <$> parseFloat "-0.25e1") = Some (-5 # 2)%Q
  ∧ (Qred <$> parseFloat ".5") = Some (1 # 2)%Q
  ∧ (Qred <$> parseFloat "1e") = Some 1%Q
  ∧ (Qred <$> parseFloat "12abc") = Some 12%Q
  ∧ parseFloat "." = None ∧ parseFloat "abc" = None
  ∧ parseFloat "Infinity" = None.
Proof. by vm_compute. Qed.

Example trim_examples :
  trim "  London " = "London" ∧ trim "New York" = "New York" ∧ trim "   " = "".
Proof. by vm_compute. Qed.

End Parse.
