(* ===== verification/OrderedMap.v ===== *)
(** * OrderedMap: maps that remember insertion order

    A JavaScript [Map], and an object used as a dictionary with keys that
    are not array indices, iterate in insertion order: writing an existing
    key keeps its place, writing a new key appends, deleting a key and
    writing it again moves it to the end.  The model is an association list
    without duplicate keys. *)

From S2P Require Import Prelude.

Module omap.

Section omap.
Context {K V : Type} `{EqDecision K}.

Implicit Types m : list (K * V).

Definition empty : list (K * V) := [].

(** [m.get(k)], [obj[k]] *)
Fixpoint get (k : K) (m : list (K * V)) : option V :=
  match m with
  | [] => None
  | (k', v) :: m' => if decide (k' = k) then Some v else get k m'
  end.

(** [m.has(k)] *)
Definition has (k : K) (m : list (K * V)) : bool := bool_decide (is_Some (get k m)).

(** [m.set(k, v)], [obj[k] = v] *)
Fixpoint set (k : K) (v : V) (m : list (K * V)) : list (K * V) :=
  match m with
  | [] => [(k, v)]
  | (k', v') :: m' =>
      if decide (k' = k) then (k, v) :: m' else (k', v') :: set k v m'
  end.

(** [m.delete(k)]: the map without the key. *)
Definition delete (k : K) (m : list (K * V)) : list (K * V) := filter (λ kv, kv.1 ≠ k) m.

(** [Array.from(m.keys())], [Object.keys(obj)] *)
Definition keys (m : list (K * V)) : list K := m.*1.

(** [Array.from(m.values())] *)
Definition values (m : list (K * V)) : list V := m.*2.

Definition wf (m : list (K * V)) : Prop := NoDup (keys m).

(** ** Lookup after update *)

Lemma get_set_eq k v m : get k (set k v m) = Some v.
Proof.
  induction m as [|[k' v'] m IH]; simpl; [by rewrite decide_True|].
  case_decide; simpl; [by rewrite decide_True|by rewrite decide_False].
Qed.

Lemma get_set_ne k k' v m : k ≠ k' → get k' (set k v m) = get k' m.
Proof.
  intros Hne. induction m as [|[k0 v0] m IH]; simpl; [by rewrite decide_False|].
  case_decide; simpl; subst.
  - by rewrite !decide_False.
  - by rewrite IH.
Qed.

Lemma get_set k k' v m :
  get k' (set k v m) = if decide (k = k') then Some v else get k' m.
Proof.
  case_decide; [subst; apply get_set_eq|by apply get_set_ne].
Qed.

Lemma get_Some_elem k v m : get k m = Some v → (k, v) ∈ m.
Proof.
  induction m as [|[k' v'] m IH]; simpl; [done|].
  case_decide; [intros [= ->]; subst; left|right; auto].
Qed.

Lemma get_None k m : get k m = None ↔ k ∉ keys m.
Proof.
  unfold keys. induction m as [|[k' v'] m IH]; simpl.
  - split; [intros _; apply not_elem_of_nil|done].
  - rewrite not_elem_of_cons. case_decide.
    + split; [done|intros [? _]; congruence].
    + rewrite IH. split; [done|by intros [_ ?]].
Qed.

Lemma get_is_Some k m : is_Some (get k m) ↔ k ∈ keys m.
Proof.
  rewrite <-not_eq_None_Some, get_None. split; [apply dec_stable|auto].
Qed.

Lemma elem_get k v m : wf m → (k, v) ∈ m → get k m = Some v.
Proof.
  unfold wf, keys. induction m as [|[k' v'] m IH]; [by intros _ ?%elem_of_nil|].
  rewrite fmap_cons, NoDup_cons. intros [Hnin Hnd] [[= -> ->]|Hin]%elem_of_cons;
    simpl; [by rewrite decide_True|].
  rewrite decide_False; [by apply IH|]. intros ->. apply Hnin.
  by apply (list_elem_of_fmap_2 fst) in Hin.
Qed.

(** ** Order of the keys *)

(** Writing an existing key keeps the order; writing a new key appends. *)
Lemma keys_set k v m :
  keys (set k v m) = if decide (k ∈ keys m) then keys m else keys m ++ [k].
Proof.
  unfold keys. induction m as [|[k' v'] m IH]; csimpl; [done|].
  destruct (decide (k' = k)) as [->|Hne]; csimpl.
  - rewrite decide_True; [done|left].
  - rewrite IH. destruct (decide (k ∈ m.*1)).
    + rewrite decide_True; [done|by right].
    + rewrite decide_False; [done|]. rewrite elem_of_cons. naive_solver.
Qed.

Lemma keys_set_present k v m : k ∈ keys m → keys (set k v m) = keys m.
Proof. intros. by rewrite keys_set, decide_True. Qed.

Lemma keys_set_fresh k v m : k ∉ keys m → keys (set k v m) = keys m ++ [k].
Proof. intros. by rewrite keys_set, decide_False. Qed.

Lemma set_fresh k v m : k ∉ keys m → set k v m = m ++ [(k, v)].
Proof.
  unfold keys. induction m as [|[k' v'] m IH]; csimpl; [done|].
  rewrite not_elem_of_cons. intros [Hne Hnin].
  rewrite decide_False by done. by rewrite IH.
Qed.

Lemma length_set k v m :
  length (set k v m) = if decide (k ∈ keys m) then length m else S (length m).
Proof.
  rewrite <-!(length_fmap fst). change (set k v m).*1 with (keys (set k v m)).
  rewrite keys_set. unfold keys. case_decide; [done|].
  rewrite length_app. simpl. lia.
Qed.

(** ** Deletion *)

Lemma keys_delete k m : keys (delete k m) = filter (λ x, x ≠ k) (keys m).
Proof.
  unfold keys, delete. induction m as [|[k' v'] m IH]; [done|].
  rewrite fmap_cons, !filter_cons. simpl.
  case_decide; [rewrite fmap_cons|]; by rewrite IH.
Qed.

Lemma get_delete_eq k m : get k (delete k m) = None.
Proof.
  apply get_None. rewrite keys_delete, list_elem_of_filter. naive_solver.
Qed.

Lemma get_delete_ne k k' m : k ≠ k' → get k' (delete k m) = get k' m.
Proof.
  intros Hne. unfold delete. induction m as [|[k0 v0] m IH]; [done|].
  rewrite filter_cons. simpl. repeat case_decide; simplify_eq/=; try done.
  - by rewrite decide_True.
  - by rewrite decide_False.
Qed.

Lemma delete_absent k m : k ∉ keys m → delete k m = m.
Proof.
  unfold keys, delete. induction m as [|[k' v'] m IH]; [done|].
  rewrite fmap_cons, not_elem_of_cons. intros [??].
  rewrite filter_cons, decide_True by done. by rewrite IH.
Qed.

(** ** The invariant *)

Lemma delete_set_fresh k v m : k ∉ keys m → delete k (set k v m) = m.
Proof.
  intros Hk. rewrite set_fresh by done. unfold delete.
  rewrite filter_app, filter_cons_False, filter_nil, app_nil_r by naive_solver.
  by apply delete_absent.
Qed.

Lemma values_set_fresh k v m : k ∉ keys m → values (set k v m) = values m ++ [v].
Proof. intros Hk. rewrite set_fresh by done. unfold values. by rewrite fmap_app. Qed.

Lemma length_set_present k v m : k ∈ keys m → length (set k v m) = length m.
Proof.
  intros Hk. rewrite <-(length_fmap fst (set k v m)), <-(length_fmap fst m).
  fold (keys (set k v m)) (keys m). by rewrite keys_set_present.
Qed.

Lemma wf_empty : wf empty.
Proof. constructor. Qed.

Lemma wf_set k v m : wf m → wf (set k v m).
Proof.
  unfold wf. rewrite keys_set. case_decide; [done|].
  intros Hnd. apply NoDup_app. split_and!; [done| |apply NoDup_singleton].
  intros x Hx ->%list_elem_of_singleton. done.
Qed.

Lemma wf_delete k m : wf m → wf (delete k m).
Proof. unfold wf. rewrite keys_delete. apply NoDup_filter. Qed.

End omap.

(** The type of maps from [K] to [V]. *)
Definition t (K V : Type) : Type := list (K * V).

End omap.
