(* ===== verification/Units.v ===== *)
(** * Units: the unit systems and the conversions between them

    The conversions the OpenWeather adapter applies inline so that every
    normalized record carries both unit systems, with their round trips,
    their monotonicity and the agreement of the two fields of a record. *)

From S2P Require Import Prelude.

Module Units.

(** [type Units = "metric" | "imperial"].  The type is erased at run time:
    the configuration casts an environment variable to it and the REST
    handlers pass a query parameter on, both unchecked, so a value of the
    type is any string, and the tests [units === "metric"] and
    [units === "imperial"] can both fail. *)
Definition Units : Type := string.

Definition metric : Units := "metric".
Definition imperial : Units := "imperial".

(** One of the two values the type declares. *)
Definition declared (u : Units) : Prop := u = metric ∨ u = imperial.

#[export] Instance declared_dec u : Decision (declared u).
Proof. unfold declared. apply _. Defined.

(** [x * (9 / 5) + 32] *)
Definition celsiusToFahrenheit (c : Q) : Q := c * (9 / 5) + 32.

(** [(x - 32) * (5 / 9)] *)
Definition fahrenheitToCelsius (f : Q) : Q := (f - 32) * (5 / 9).

(** Metres per second to kilometres per hour: [x * 3.6]. *)
Definition msToKph (v : Q) : Q := v * 3.6.

(** [x * 1.60934] *)
Definition mphToKph (v : Q) : Q := v * 1.60934.

(** [x / 1.60934] *)
Definition kphToMph (v : Q) : Q := v / 1.60934.

(** [units === "metric" ? t : (t - 32) * (5 / 9)] *)
Definition toCelsius (units : Units) (t : Q) : Q :=
  if decide (units = metric) then t else fahrenheitToCelsius t.

(** [units === "imperial" ? t : t * (9 / 5) + 32] *)
Definition toFahrenheit (units : Units) (t : Q) : Q :=
  if decide (units = imperial) then t else celsiusToFahrenheit t.

(** [units === "metric" ? v * 3.6 : v * 1.60934]: the native wind speed is
    in metres per second for metric requests and in miles per hour for
    imperial ones. *)
Definition toKph (units : Units) (v : Q) : Q :=
  if decide (units = metric) then msToKph v else mphToKph v.

(** [units === "imperial" ? v : (v * 3.6) / 1.60934] *)
Definition toMph (units : Units) (v : Q) : Q :=
  if decide (units = imperial) then v else kphToMph (msToKph v).

(** [units === "imperial" ? "imperial" : "metric"] *)
Definition unitsParam (units : Units) : string :=
  if decide (units = imperial) then "imperial" else "metric".

(** ** The conversions respect equality of numbers *)

#[export] Instance celsiusToFahrenheit_proper :
  Proper ((≡) ==> (≡)) celsiusToFahrenheit.
Proof. intros x y H. unfold celsiusToFahrenheit. by rewrite H. Qed.

#[export] Instance fahrenheitToCelsius_proper :
  Proper ((≡) ==> (≡)) fahrenheitToCelsius.
Proof. intros x y H. unfold fahrenheitToCelsius. by rewrite H. Qed.

#[export] Instance mphToKph_proper : Proper ((≡) ==> (≡)) mphToKph.
Proof. intros x y H. unfold mphToKph. by rewrite H. Qed.

#[export] Instance kphToMph_proper : Proper ((≡) ==> (≡)) kphToMph.
Proof. intros x y H. unfold kphToMph. by rewrite H. Qed.

#[export] Instance toCelsius_proper u : Proper ((≡) ==> (≡)) (toCelsius u).
Proof. intros x y H. unfold toCelsius. case_decide; by rewrite H. Qed.

#[export] Instance toFahrenheit_proper u :
  Proper ((≡) ==> (≡)) (toFahrenheit u).
Proof. intros x y H. unfold toFahrenheit. case_decide; by rewrite H. Qed.

(** Unfold every conversion down to rational arithmetic. *)
Ltac unfold_units :=
  unfold toCelsius, toFahrenheit, toKph, toMph, celsiusToFahrenheit,
    fahrenheitToCelsius, msToKph, mphToKph, kphToMph, equiv, number_equiv in *;
  qnorm.

(** ** Round trips *)

(** Converting a Celsius value to Fahrenheit and back gives the value
    again (exactly, in the rational model). *)
Lemma celsius_roundtrip (c : Q) :
  fahrenheitToCelsius (celsiusToFahrenheit c) ≡ c.
Proof. unfold_units. lra. Qed.

Lemma fahrenheit_roundtrip (f : Q) :
  celsiusToFahrenheit (fahrenheitToCelsius f) ≡ f.
Proof. unfold_units. lra. Qed.

Lemma kph_roundtrip (v : Q) : mphToKph (kphToMph v) ≡ v.
Proof. unfold_units. lra. Qed.

Lemma mph_roundtrip (v : Q) : kphToMph (mphToKph v) ≡ v.
Proof. unfold_units. lra. Qed.

(** ** Order *)

Lemma celsiusToFahrenheit_mono (c d : Q) :
  (c <= d)%Q ↔ (celsiusToFahrenheit c <= celsiusToFahrenheit d)%Q.
Proof. unfold_units. split; intros; lra. Qed.

Lemma fahrenheitToCelsius_mono (f g : Q) :
  (f <= g)%Q ↔ (fahrenheitToCelsius f <= fahrenheitToCelsius g)%Q.
Proof. unfold_units. split; intros; lra. Qed.

#[export] Instance celsiusToFahrenheit_le :
  Proper (Qle ==> Qle) celsiusToFahrenheit.
Proof. intros x y Hxy. by apply (proj1 (celsiusToFahrenheit_mono x y)). Qed.

#[export] Instance celsiusToFahrenheit_eq :
  Proper (Qeq ==> Qeq) celsiusToFahrenheit.
Proof. apply celsiusToFahrenheit_proper. Qed.

(** The two scales meet at -40 and nowhere else. *)
Lemma celsiusToFahrenheit_fixpoint (c : Q) :
  celsiusToFahrenheit c ≡ c ↔ c ≡ (-40)%Q.
Proof. unfold_units. split; intros; lra. Qed.

(** ** The two fields of a record agree *)

(** For a declared unit system, the Fahrenheit field the adapter
    computes is the conversion of the Celsius field it computes. *)
Lemma dual_temperature_consistent (u : Units) (t : Q) :
  declared u → toFahrenheit u t ≡ celsiusToFahrenheit (toCelsius u t).
Proof.
  intros [->| ->]; unfold toFahrenheit, toCelsius; simpl.
  - done.
  - by rewrite fahrenheit_roundtrip.
Qed.

(** Likewise for the wind: the km/h field is the conversion of the
    mph field. *)
Lemma dual_wind_consistent (u : Units) (v : Q) :
  declared u → toKph u v ≡ mphToKph (toMph u v).
Proof.
  intros [->| ->]; unfold toKph, toMph; simpl.
  - by rewrite kph_roundtrip.
  - done.
Qed.

(** What the conversions do with a value that is not declared: the
    Celsius field takes the reading for Fahrenheit, the Fahrenheit field
    takes it for Celsius. *)
Lemma undeclared_conversions (u : Units) (t : Q) :
  ¬ declared u →
  toCelsius u t = fahrenheitToCelsius t ∧ toFahrenheit u t = celsiusToFahrenheit t.
Proof.
  unfold declared, toCelsius, toFahrenheit. intros Hu.
  by rewrite !decide_False by tauto.
Qed.

(** With a unit system that is not declared the two temperature
    fields of a record contradict each other, except at 40 below zero. *)
Theorem undeclared_inconsistent (u : Units) (t : Q) :
  ¬ declared u →
  toFahrenheit u t ≡ celsiusToFahrenheit (toCelsius u t) ↔ t ≡ (-40)%Q.
Proof.
  intros [-> ->]%(undeclared_conversions u t). unfold_units.
  split; intros; lra.
Qed.

(** The request asks for metric readings unless the value is
    ["imperial"]. *)
Lemma unitsParam_declared (u : Units) : declared u → unitsParam u = u.
Proof. by intros [->| ->]. Qed.

Lemma unitsParam_undeclared (u : Units) : ¬ declared u → unitsParam u = metric.
Proof.
  unfold declared, unitsParam. intros Hu. by rewrite decide_False by tauto.
Qed.

(** ["Metric"], with a capital, is not declared. *)
Lemma undeclared_inconsistent_witness :
  toFahrenheit "Metric" 20 ≡ celsiusToFahrenheit (toCelsius "Metric" 20)
  ↔ 20%Q ≡ (-40)%Q.
Proof. apply undeclared_inconsistent. by intros [[=]|[=]]. Defined.

End Units.
