(* ===== verification/Types.v ===== *)
(** * Types: the normalized schema and the configuration

    The records of [weather/types.ts] and the [config] object of
    [config.ts].  A field the TypeScript interface marks optional is an
    [option]; a number is a rational; an instant or a calendar date is the
    string the code stores (ISO 8601).  [loadConfig] is the object as
    [config.ts] computes it from the environment: numbers by [parseInt]
    with the default numerals, strings by [||] with their defaults. *)

From stdpp Require Import pretty.
From S2P Require Import Prelude Parse Units.
Export Units.

(** [interface LocationQuery]: a city with an optional country, or a
    latitude and a longitude. *)
Record LocationQuery : Type := mkLocationQuery {
  city : option string;
  country : option string;
  lat : option Q;
  lon : option Q;
}.

(** The [location] object of a normalized record. *)
Record Location : Type := mkLocation {
  loc_name : string;
  loc_lat : Q;
  loc_lon : Q;
  loc_country : option string;
}.

(** The [condition] object of a normalized record.  [text] is declared
    [string] for current conditions and optional for a forecast day; the
    WeatherAPI adapter fills it with [d.current.condition?.text], which can
    be undefined, so it is optional here in both places. *)
Record Condition : Type := mkCondition {
  text : option string;
  iconUrl : option string;
  code : option Q;
}.

(** [interface CurrentWeather] *)
Record CurrentWeather : Type := mkCurrentWeather {
  provider : string;
  location : Location;
  observedAt : string;
  temperatureC : Q;
  temperatureF : Q;
  feelsLikeC : option Q;
  feelsLikeF : option Q;
  humidity : option Q;
  windKph : option Q;
  windMph : option Q;
  windDir : option string;
  pressureMb : option Q;
  uv : option Q;
  condition : Condition;
}.

(** [interface ForecastDay] *)
Record ForecastDay : Type := mkForecastDay {
  date : string;
  avgTempC : option Q;
  avgTempF : option Q;
  maxTempC : option Q;
  maxTempF : option Q;
  minTempC : option Q;
  minTempF : option Q;
  chanceOfRainPct : option Q;
  chanceOfSnowPct : option Q;
  day_condition : option Condition;
}.

(** [interface Forecast] *)
Record Forecast : Type := mkForecast {
  fc_provider : string;
  fc_location : Location;
  days : list ForecastDay;
}.

(** [interface HistoricalWeather extends CurrentWeather] *)
Record HistoricalWeather : Type := mkHistoricalWeather {
  hist_date : string;
  hist_current : CurrentWeather;
}.

(** The [config] object.  Keys are strings, empty when the environment does
    not set them; durations are in seconds. *)
Record Config : Type := mkConfig {
  port : Z;
  openWeatherApiKey : string;
  weatherApiKey : string;
  defaultUnits : Units;
  cacheTtlSeconds : Z;
  forecastCacheTtlSeconds : Z;
  alertPollIntervalSeconds : Z;
  googleApiKey : string;
}.

(** A string used as a condition: the empty string is falsy. *)
Definition nonempty (s : string) : bool := negb (String.eqb s "").

(** [hasProviderKeys()]: which provider has a key, as a pair
    [(openWeather, weatherApi)]. *)
Definition hasProviderKeys (config : Config) : bool * bool :=
  (nonempty (openWeatherApiKey config), nonempty (weatherApiKey config)).

(** The defaults [config.ts] falls back to for the variables the
    environment leaves unset. *)
Definition defaultConfig : Config :=
  {| port := 3000; openWeatherApiKey := ""; weatherApiKey := "";
     defaultUnits := metric; cacheTtlSeconds := 600;
     forecastCacheTtlSeconds := 10800; alertPollIntervalSeconds := 600;
     googleApiKey := "" |}.

(** The environment of the process, after [dotenv.config()]: the value of
    each variable that is set. *)
Definition Env : Type := string → option string.

(** [process.env.NAME || fallback]: an unset and an empty variable both
    take the fallback. *)
Definition env_or (env : Env) (name fallback : string) : string :=
  if truthy (env name) then default fallback (env name) else fallback.

(** The [config] object as [config.ts] builds it at load.  A numeric
    variable is read with [parseInt]; the configuration is [None] when one
    of them has no integer to read and the field would be [NaN]. *)
Definition loadConfig (env : Env) : option Config :=
  port ← Parse.parseInt (env_or env "PORT" "3000");
  cacheTtlSeconds ← Parse.parseInt (env_or env "CACHE_TTL_SECONDS" "600");
  forecastCacheTtlSeconds ←
    Parse.parseInt (env_or env "FORECAST_CACHE_TTL_SECONDS" "10800");
  alertPollIntervalSeconds ←
    Parse.parseInt (env_or env "ALERT_POLL_INTERVAL_SECONDS" "600");
  Some {| port := port;
          openWeatherApiKey := env_or env "OPENWEATHER_API_KEY" "";
          weatherApiKey := env_or env "WEATHERAPI_API_KEY" "";
          defaultUnits := env_or env "DEFAULT_UNITS" "metric";
          cacheTtlSeconds := cacheTtlSeconds;
          forecastCacheTtlSeconds := forecastCacheTtlSeconds;
          alertPollIntervalSeconds := alertPollIntervalSeconds;
          googleApiKey := env_or env "GOOGLE_API_KEY" "" |}.

(** A query is addressable when it gives both coordinates or a non-empty
    city: the condition under which both adapters build a request. *)
Definition addressable (q : LocationQuery) : bool :=
  match lat q, lon q with
  | Some _, Some _ => true
  | _, _ => truthy (city q)
  end.

(** ** Decidable equality of the query, used as a cache-key component *)

#[export] Instance Q_eq_dec : EqDecision Q.
Proof. solve_decision. Defined.

#[export] Instance LocationQuery_eq_dec : EqDecision LocationQuery.
Proof. solve_decision. Defined.

(** ** Lemmas *)

Lemma nonempty_true (s : string) : nonempty s = true ↔ s ≠ "".
Proof.
  unfold nonempty. rewrite negb_true_iff, <-not_true_iff_false.
  by rewrite String.eqb_eq.
Qed.

Lemma nonempty_false (s : string) : nonempty s = false ↔ s = "".
Proof. unfold nonempty. by rewrite negb_false_iff, String.eqb_eq. Qed.

Lemma truthy_Some (s : string) : truthy (Some s) = nonempty s.
Proof. done. Qed.

Lemma hasProviderKeys_default : hasProviderKeys defaultConfig = (false, false).
Proof. done. Qed.

#[export] Hint Rewrite nonempty_true nonempty_false : weather_rw.

(** ** The configuration at load *)

Lemma env_or_unset env name fallback :
  env name = None → env_or env name fallback = fallback.
Proof. unfold env_or. by intros ->. Qed.

Lemma env_or_set env name fallback v :
  env name = Some v → v ≠ "" → env_or env name fallback = v.
Proof.
  unfold env_or. intros -> Hv.
  by rewrite truthy_Some, (proj2 (nonempty_true v) Hv).
Qed.

(** With no variable set the configuration is the default one. *)
Theorem loadConfig_unset : loadConfig (λ _, None) = Some defaultConfig.
Proof. by vm_compute. Qed.

(** C33: the configuration takes the unit system from the environment as
    it is written there: a value that is neither of the two declared
    systems becomes the default units of every call that names none. *)
Theorem loadConfig_units (env : Env) (u : string) (config : Config) :
  env "DEFAULT_UNITS" = Some u → u ≠ "" →
  loadConfig env = Some config → defaultUnits config = u.
Proof.
  intros Hu Hne. unfold loadConfig. intros Hc. simplify_option_eq.
  by apply env_or_set.
Qed.

(** A port written in decimal in the environment is the port of the
    configuration, whatever follows the digits. *)
Theorem loadConfig_port (env : Env) (p : Z) (rest : string) (config : Config) :
  env "PORT" = Some (pretty p +:+ rest) → Parse.ends_number rest →
  loadConfig env = Some config → port config = p.
Proof.
  intros Hp Hrest. unfold loadConfig.
  assert (env_or env "PORT" "3000" = pretty p +:+ rest) as ->.
  { apply env_or_set; [done|by apply Parse.numeral_nonempty]. }
  rewrite Parse.parseInt_prefix by done. intros Hc. by simplify_option_eq.
Qed.

(** An environment that writes the unit system with a capital. *)
Definition capital_env : Env :=
  λ name, if String.eqb name "DEFAULT_UNITS" then Some "Metric" else None.

Example loadConfig_capital :
  defaultUnits <$> loadConfig capital_env = Some "Metric"
  ∧ ¬ declared "Metric".
Proof. split; [by vm_compute|]. by intros [[=]|[=]]. Qed.

Lemma loadConfig_units_witness :
  ∃ config, loadConfig capital_env = Some config ∧ defaultUnits config = "Metric".
Proof.
  destruct (loadConfig capital_env) as [config|] eqn:Hc; [|by vm_compute in Hc].
  exists config. split; [done|].
  by apply (loadConfig_units capital_env "Metric" config).
Defined.
