(* ===== verification/Cache.v ===== *)
(** * Cache: a bounded store whose entries expire

    The cache the aggregator instantiates three times ([new LRUCache({max,
    ttl})]).  The library is not part of the repository: this model follows
    the contract the specification gives for it (a maximum entry count, a
    time to live per store, an entry logically absent once
    [now - insertedAt > ttl], expiry observed lazily on read, the least
    recently used entry evicted when the capacity is exceeded, [get]
    refreshing recency and [set] resetting the age) and the library's
    reading of a time to live of zero as no expiry.

    The file gives the operations, the well-formedness invariant, a
    refinement to an unbounded map of timestamped values, and an interface
    ([TtlStore]) stating what clients rely on, which the cache
    implements. *)

From stdpp Require Import gmap.
From S2P Require Import Prelude.

Module Cache.

Section cache.
Context {V : Type}.

(** A cache entry: [{key, value, insertedAt, ttl}], times in milliseconds. *)
Record Entry : Type := mkEntry {
  e_key : string;
  e_value : V;
  insertedAt : Z;
  e_ttl : Z;
}.

(** The store: its bounds and its entries, most recently used first. *)
Record LRUCache : Type := mkCache {
  max : nat;
  ttl : Z;
  entries : list Entry;
}.

Definition create (max : nat) (ttl : Z) : LRUCache := mkCache max ttl [].

(** An entry is stale once [now - insertedAt > ttl]; a time to live of zero
    means that entries do not expire. *)
Definition stale (now : Z) (e : Entry) : bool :=
  bool_decide (e_ttl e ≠ 0 ∧ e_ttl e < now - insertedAt e)%Z.

Fixpoint find (k : string) (es : list Entry) : option Entry :=
  match es with
  | [] => None
  | e :: es' => if decide (e_key e = k) then Some e else find k es'
  end.

Definition remove (k : string) (es : list Entry) : list Entry :=
  filter (λ e, e_key e ≠ k) es.

Definition with_entries (c : LRUCache) (es : list Entry) : LRUCache :=
  mkCache (max c) (ttl c) es.

(** [get(key)]: the value when the key is present and not stale, and the
    store after the read: a hit moves the entry to the front, a stale entry
    is dropped. *)
Definition get (now : Z) (k : string) (c : LRUCache) : option V * LRUCache :=
  match find k (entries c) with
  | None => (None, c)
  | Some e =>
      if stale now e then (None, with_entries c (remove k (entries c)))
      else (Some (e_value e), with_entries c (e :: remove k (entries c)))
  end.

(** [set(key, value)]: insert or replace at the front with age zero, then
    keep the [max] most recently used entries. *)
Definition set (now : Z) (k : string) (v : V) (c : LRUCache) : LRUCache :=
  with_entries c (take (max c) (mkEntry k v now (ttl c) :: remove k (entries c))).

(** What a read at time [now] would return, without the effect on the
    store. *)
Definition peek (now : Z) (k : string) (c : LRUCache) : option V :=
  match find k (entries c) with
  | Some e => if stale now e then None else Some (e_value e)
  | None => None
  end.

Definition keys (c : LRUCache) : list string := e_key <$> entries c.

(** Well-formedness: a key occurs once, and the capacity is respected. *)
Definition wf (c : LRUCache) : Prop :=
  NoDup (keys c) ∧ length (entries c) ≤ max c.

(** The abstract view: an unbounded map from keys to timestamped entries. *)
Definition abs (c : LRUCache) : gmap string Entry :=
  list_to_map ((λ e, (e_key e, e)) <$> entries c).

(** An abstract lookup at time [now]. *)
Definition abs_lookup (now : Z) (k : string) (m : gmap string Entry) : option V :=
  match m !! k with
  | Some e => if stale now e then None else Some (e_value e)
  | None => None
  end.

(** ** Lemmas on [find] and [remove] *)

Lemma find_Some k es e : find k es = Some e → e ∈ es ∧ e_key e = k.
Proof.
  induction es as [|e' es IH]; simpl; [done|].
  case_decide; [intros [= ->]; split; [left|done]|].
  intros [??]%IH. split; [by right|done].
Qed.

Lemma find_None k es : find k es = None ↔ k ∉ e_key <$> es.
Proof.
  induction es as [|e' es IH]; simpl.
  - split; [intros _; apply not_elem_of_nil|done].
  - rewrite not_elem_of_cons. case_decide.
    + split; [done|intros [? _]; congruence].
    + rewrite IH. split; [done|by intros [_ ?]].
Qed.

Lemma find_remove k es : find k (remove k es) = None.
Proof.
  apply find_None. unfold remove. rewrite list_elem_of_fmap.
  intros (e & Hk & [Hne _]%list_elem_of_filter). congruence.
Qed.

Lemma find_remove_ne k k' es : k ≠ k' → find k' (remove k es) = find k' es.
Proof.
  intros Hne. induction es as [|e es IH]; [done|].
  unfold remove in *. rewrite filter_cons. simpl.
  repeat case_decide; simplify_eq/=; try done.
  by rewrite decide_True.
  by rewrite decide_False.
Qed.

Lemma keys_remove k es : e_key <$> remove k es = filter (λ x, x ≠ k) (e_key <$> es).
Proof.
  induction es as [|e es IH]; [done|].
  unfold remove in *. rewrite fmap_cons, !filter_cons.
  case_decide; [rewrite fmap_cons|]; by rewrite IH.
Qed.

Lemma NoDup_keys_remove k es : NoDup (e_key <$> es) → NoDup (e_key <$> remove k es).
Proof. rewrite keys_remove. apply NoDup_filter. Qed.

Lemma remove_length k es : length (remove k es) ≤ length es.
Proof. apply length_filter. Qed.

Lemma remove_absent k es : k ∉ e_key <$> es → remove k es = es.
Proof.
  induction es as [|e es IH]; [done|].
  rewrite fmap_cons, not_elem_of_cons. intros [??].
  unfold remove in *. rewrite filter_cons, decide_True by done.
  by rewrite IH.
Qed.

Lemma remove_present_length k es :
  NoDup (e_key <$> es) → k ∈ e_key <$> es → S (length (remove k es)) = length es.
Proof.
  induction es as [|e es IH]; [by intros _ ?%elem_of_nil|].
  rewrite fmap_cons, NoDup_cons, elem_of_cons. intros [Hnin Hnd] Hin.
  unfold remove in *. rewrite filter_cons. case_decide as Hk; simpl.
  - f_equal. apply IH; [done|]. by destruct Hin.
  - subst k. simpl. f_equal. fold (remove (e_key e) es). by rewrite remove_absent.
Qed.

(** ** Reads *)

Lemma get_peek now k c : (get now k c).1 = peek now k c.
Proof. unfold get, peek. destruct (find k (entries c)); [by case_match|done]. Qed.

Lemma get_bounds now k c :
  max (get now k c).2 = max c ∧ ttl (get now k c).2 = ttl c.
Proof. unfold get. by repeat case_match. Qed.

Lemma peek_Some now k c v :
  peek now k c = Some v ↔
  ∃ e, find k (entries c) = Some e ∧ e_value e = v ∧
       (e_ttl e = 0 ∨ now - insertedAt e ≤ e_ttl e)%Z.
Proof.
  unfold peek, stale. destruct (find k (entries c)) as [e|]; [|naive_solver].
  case_bool_decide; split; try naive_solver lia.
Qed.

(** A hit moves the entry to the front: it becomes the most recently used. *)
Lemma get_hit_front now k c v :
  (get now k c).1 = Some v →
  ∃ e, entries (get now k c).2 = e :: remove k (entries c) ∧
       e_key e = k ∧ e_value e = v.
Proof.
  unfold get. destruct (find k (entries c)) as [e|] eqn:Hf; [|done].
  apply find_Some in Hf as [_ Hk]. case_match; [done|].
  intros [= <-]. by exists e.
Qed.

Lemma get_miss_absent now k c :
  find k (entries c) = None → get now k c = (None, c).
Proof. unfold get. by intros ->. Qed.

(** ** Writes *)

Lemma entries_set now k v c :
  entries (set now k v c) =
  take (max c) (mkEntry k v now (ttl c) :: remove k (entries c)).
Proof. done. Qed.

Lemma set_bounds now k v c :
  max (set now k v c) = max c ∧ ttl (set now k v c) = ttl c.
Proof. done. Qed.

Lemma find_set_same now k v c :
  0 < max c → find k (entries (set now k v c)) = Some (mkEntry k v now (ttl c)).
Proof.
  intros Hm. rewrite entries_set. destruct (max c) as [|m]; [lia|].
  simpl. by rewrite decide_True.
Qed.

(** No eviction happens when the key is already stored or a slot is free. *)
Lemma set_no_overflow now k v c :
  length (remove k (entries c)) < max c →
  entries (set now k v c) = mkEntry k v now (ttl c) :: remove k (entries c).
Proof. intros H. rewrite entries_set. apply take_ge. simpl. lia. Qed.

Lemma find_set_ne now k k' v c :
  k ≠ k' → length (remove k (entries c)) < max c →
  find k' (entries (set now k v c)) = find k' (entries c).
Proof.
  intros Hne Hlen. rewrite set_no_overflow by done. simpl.
  rewrite decide_False by done. by apply find_remove_ne.
Qed.

(** A read within the time to live returns what was written. *)
Lemma peek_set_live now now' k v c :
  0 < max c → (now' - now ≤ ttl c)%Z → peek now' k (set now k v c) = Some v.
Proof.
  intros Hm Ht. unfold peek. rewrite find_set_same by done.
  unfold stale. simpl. by rewrite bool_decide_eq_false_2 by lia.
Qed.

(** A read after the time to live finds nothing. *)
Lemma peek_set_expired now now' k v c :
  ttl c ≠ 0%Z → (ttl c < now' - now)%Z → peek now' k (set now k v c) = None.
Proof.
  intros Hz Ht. unfold peek. rewrite entries_set.
  destruct (max c) as [|m]; [done|]. simpl. rewrite decide_True by done.
  unfold stale. simpl. by rewrite bool_decide_eq_true_2.
Qed.

(** Writing a key does not disturb a read of another key, unless it
    evicts. *)
Lemma peek_set_ne now now' k k' v c :
  k ≠ k' → length (remove k (entries c)) < max c →
  peek now' k' (set now k v c) = peek now' k' c.
Proof. intros. unfold peek. by rewrite find_set_ne. Qed.

(** When the store is full and the key is new, the entry that leaves is the
    last one: the least recently used. *)
Lemma set_evicts_lru now k v c :
  0 < max c → length (entries c) = max c → k ∉ keys c →
  entries (set now k v c) =
  mkEntry k v now (ttl c) :: take (max c - 1) (entries c).
Proof.
  intros Hm Hlen Hk. rewrite entries_set, remove_absent by done.
  destruct (max c) as [|m]; [lia|]. simpl. by rewrite Nat.sub_0_r.
Qed.

(** A read never invents a value either, whatever the two instants. *)
Lemma peek_get_sound now now' k k' w c :
  peek now' k' (get now k c).2 = Some w → peek now' k' c = Some w.
Proof.
  unfold get, peek.
  destruct (find k (entries c)) as [e|] eqn:Hf; [|done].
  pose proof (find_Some _ _ _ Hf) as [_ Hk].
  destruct (stale now e) eqn:Hs; simpl.
  - destruct (decide (k = k')) as [<-|].
    + by rewrite find_remove.
    + by rewrite find_remove_ne.
  - case_decide; [by subst; rewrite Hf|].
    rewrite find_remove_ne; [done|congruence].
Qed.

(** ** The invariant *)

Lemma create_wf m t : wf (create m t).
Proof. split; [constructor|simpl; lia]. Qed.

Lemma set_wf now k v c : wf c → wf (set now k v c).
Proof.
  intros [Hnd Hlen]. split.
  - unfold keys. rewrite entries_set, fmap_take.
    eapply sublist_NoDup; [|apply sublist_take].
    rewrite fmap_cons. apply NoDup_cons. split; [|by apply NoDup_keys_remove].
    rewrite keys_remove, list_elem_of_filter. naive_solver.
  - rewrite entries_set, length_take. destruct (set_bounds now k v c) as [-> _]. lia.
Qed.

Lemma get_wf now k c : wf c → wf (get now k c).2.
Proof.
  intros [Hnd Hlen]. unfold get.
  destruct (find k (entries c)) as [e|] eqn:Hf; [|done].
  apply find_Some in Hf as [Hin Hk].
  assert (k ∈ e_key <$> entries c) by (subst k; by apply list_elem_of_fmap_2).
  pose proof (remove_present_length k _ Hnd ltac:(done)).
  pose proof (NoDup_keys_remove k _ Hnd).
  case_match; split; unfold keys; simpl; try done; try lia.
  apply NoDup_cons. split; [|done].
  rewrite Hk, keys_remove, list_elem_of_filter. naive_solver.
Qed.

(** ** Refinement: the store is a map of timestamped values that may forget *)

Lemma abs_lookup_find k es :
  (list_to_map ((λ e, (e_key e, e)) <$> es) : gmap string Entry) !! k = find k es.
Proof.
  induction es as [|e es IH]; [done|]. simpl.
  case_decide; [subst; by rewrite lookup_insert_eq|].
  by rewrite lookup_insert_ne.
Qed.

(** A read is a lookup in the abstract map. *)
Lemma peek_abs now k c : peek now k c = abs_lookup now k (abs c).
Proof. unfold peek, abs_lookup, abs. by rewrite abs_lookup_find. Qed.

(** Without eviction a write is an insertion in the abstract map. *)
Lemma abs_set now k v c :
  length (remove k (entries c)) < max c →
  abs (set now k v c) = <[k := mkEntry k v now (ttl c)]> (abs c).
Proof.
  intros Hlen. apply map_eq. intros k'. unfold abs.
  rewrite abs_lookup_find, set_no_overflow by done. simpl.
  case_decide; [subst; by rewrite lookup_insert_eq|].
  by rewrite lookup_insert_ne, abs_lookup_find, find_remove_ne.
Qed.

Lemma find_take k n es e : find k (take n es) = Some e → find k es = Some e.
Proof.
  revert n. induction es as [|e' es IH]; intros [|n]; simpl; try done.
  case_decide; [done|]. apply IH.
Qed.

(** A write never invents a value: after it, a read returns the value
    written, for the key written, or what it returned before. *)
Lemma peek_set_sound now now' k k' v w c :
  peek now' k' (set now k v c) = Some w →
  (k' = k ∧ w = v ∧ (ttl c = 0 ∨ now' - now ≤ ttl c)%Z) ∨
  (k' ≠ k ∧ peek now' k' c = Some w).
Proof.
  rewrite !peek_Some. intros (e & Hf & <- & Ht).
  rewrite entries_set in Hf. apply find_take in Hf. simpl in Hf.
  case_decide; simplify_eq/=; [by left|right].
  split; [done|]. rewrite find_remove_ne in Hf by done. eauto.
Qed.

(** A read changes no later read of another key, and of the same key only
    by dropping an entry that is stale for good. *)
Lemma peek_get now now' k k' c :
  (now ≤ now')%Z → peek now' k' (get now k c).2 = peek now' k' c.
Proof.
  intros Hle. unfold get, peek.
  destruct (find k (entries c)) as [e|] eqn:Hf; [|done].
  pose proof (find_Some _ _ _ Hf) as [_ Hk].
  destruct (stale now e) eqn:Hs; simpl.
  - destruct (decide (k = k')) as [<-|].
    + rewrite find_remove, Hf. unfold stale in *.
      apply bool_decide_eq_true in Hs. by rewrite bool_decide_eq_true_2 by lia.
    + by rewrite find_remove_ne.
  - case_decide; [by subst; rewrite Hf|].
    rewrite find_remove_ne; [done|congruence].
Qed.

(** ** Refinement of runs

    The specification is an unbounded map of timestamped values: a write
    inserts, a read looks up and leaves the map alone.  The cache refines it
    up to forgetting: along any run whose clock does not go back, an answer
    of the cache is the answer of the map. *)

Inductive op : Type :=
| OpGet (now : Z) (k : string)
| OpSet (now : Z) (k : string) (v : V).

Definition op_time (o : op) : Z :=
  match o with OpGet now _ | OpSet now _ _ => now end.

Definition step_cache (o : op) (c : LRUCache) : option V * LRUCache :=
  match o with
  | OpGet now k => get now k c
  | OpSet now k v => (None, set now k v c)
  end.

Definition step_map (t : Z) (o : op) (m : gmap string Entry)
    : option V * gmap string Entry :=
  match o with
  | OpGet now k => (abs_lookup now k m, m)
  | OpSet now k v => (None, <[k := mkEntry k v now t]> m)
  end.

Fixpoint run_cache (os : list op) (c : LRUCache) : list (option V) :=
  match os with
  | [] => []
  | o :: os' => let '(r, c') := step_cache o c in r :: run_cache os' c'
  end.

Fixpoint run_map (t : Z) (os : list op) (m : gmap string Entry)
    : list (option V) :=
  match os with
  | [] => []
  | o :: os' => let '(r, m') := step_map t o m in r :: run_map t os' m'
  end.

(** The clock of a run: no operation is earlier than the one before it. *)
Fixpoint clock_from (t : Z) (os : list op) : Prop :=
  match os with
  | [] => True
  | o :: os' => (t ≤ op_time o)%Z ∧ clock_from (op_time o) os'
  end.

(** From time [t] on, the cache answers only what the map answers. *)
Definition refines (t : Z) (c : LRUCache) (m : gmap string Entry) : Prop :=
  ∀ now k v, (t ≤ now)%Z → peek now k c = Some v → abs_lookup now k m = Some v.

Lemma refines_abs t c : refines t c (abs c).
Proof. intros now k v _. by rewrite peek_abs. Qed.

Lemma refines_mono t t' c m : (t ≤ t')%Z → refines t c m → refines t' c m.
Proof. intros Hle H now k v Hnow. apply H. lia. Qed.

Lemma refines_step t o c m :
  (t ≤ op_time o)%Z → refines t c m →
  refines (op_time o) (step_cache o c).2 (step_map (ttl c) o m).2.
Proof.
  intros Hle Href now' k' w Hnow. destruct o as [now k|now k v]; simpl in *.
  - rewrite peek_get by done. apply Href. lia.
  - unfold abs_lookup.
    intros [(-> & -> & Ht)|[Hne Hp]]%peek_set_sound.
    + rewrite lookup_insert_eq. unfold stale. simpl.
      by rewrite bool_decide_eq_false_2 by lia.
    + rewrite lookup_insert_ne by done. apply Href; [lia|done].
Qed.

Lemma step_cache_ttl o c : ttl (step_cache o c).2 = ttl c.
Proof. destruct o; simpl; [apply get_bounds|done]. Qed.

(** An answer of the cache is a miss or the answer of the map. *)
Definition answers_agree (rc rm : option V) : Prop := rc = None ∨ rc = rm.

Lemma run_refines os : ∀ t c m,
  clock_from t os → refines t c m →
  Forall2 answers_agree (run_cache os c) (run_map (ttl c) os m).
Proof.
  induction os as [|o os IH]; intros t c m Hclock Href; simpl; [constructor|].
  destruct Hclock as [Hle Hclock].
  pose proof (refines_step t o c m Hle Href) as Hstep.
  pose proof (step_cache_ttl o c) as Httl.
  destruct (step_cache o c) as [rc c'] eqn:Hc.
  destruct (step_map (ttl c) o m) as [rm m'] eqn:Hm. simpl in *.
  constructor; [|rewrite <-Httl; by eapply IH].
  destruct o as [now k|now k v]; simplify_eq/=; [|by left].
  pose proof (get_peek now k c) as Hp. rewrite Hc in Hp. simpl in Hp. subst rc.
  destruct (peek now k c) as [v|] eqn:Hp; [right|by left].
  symmetry. by apply Href.
Qed.

(** Starting from the empty store, every hit is the specification's
    answer. *)
Corollary run_from_empty os n t t0 :
  clock_from t0 os →
  Forall2 answers_agree (run_cache os (create n t)) (run_map t os ∅).
Proof. intros H. by apply (run_refines os t0 (create n t) ∅). Qed.

End cache.

Arguments Entry : clear implicits.
Arguments LRUCache : clear implicits.

(** ** The interface clients rely on

    What the aggregator needs of a store, whatever its eviction policy: a
    read right after a write returns the value within the time to live and
    nothing after it, a read does not change what later reads return, and
    neither operation makes a later read return a value that was not
    written. *)

Class TtlStore (C : Type → Type) : Type := {
  store_get {V} : Z → string → C V → option V * C V;
  store_set {V} : Z → string → V → C V → C V;
  store_ttl {V} : C V → Z;
  store_ok {V} : C V → Prop;
  store_get_ok {V} now k (c : C V) :
    store_ok c → store_ok (store_get now k c).2;
  store_set_ok {V} now k v (c : C V) :
    store_ok c → store_ok (store_set now k v c);
  store_get_ttl {V} now k (c : C V) :
    store_ttl (store_get now k c).2 = store_ttl c;
  store_set_ttl {V} now k v (c : C V) :
    store_ttl (store_set now k v c) = store_ttl c;
  store_hit {V} now now' k v (c : C V) :
    store_ok c → (now' - now ≤ store_ttl c)%Z →
    (store_get now' k (store_set now k v c)).1 = Some v;
  store_expired {V} now now' k v (c : C V) :
    store_ttl c ≠ 0%Z → (store_ttl c < now' - now)%Z →
    (store_get now' k (store_set now k v c)).1 = None;
  store_get_get {V} now now' k k' (c : C V) :
    (now ≤ now')%Z →
    (store_get now' k' (store_get now k c).2).1 = (store_get now' k' c).1;
  store_set_sound {V} now now' k k' v w (c : C V) :
    (store_get now' k' (store_set now k v c)).1 = Some w →
    (k' = k ∧ w = v) ∨ (store_get now' k' c).1 = Some w;
  store_get_sound {V} now now' k k' w (c : C V) :
    (store_get now' k' (store_get now k c).2).1 = Some w →
    (store_get now' k' c).1 = Some w;
}.

(** The least-recently-used store implements the interface, provided it has
    room for at least one entry. *)
#[export, refine] Instance LRU_store : TtlStore LRUCache := {|
  store_get V := get;
  store_set V := set;
  store_ttl V := ttl;
  store_ok V c := wf c ∧ 0 < max c;
|}.
Proof.
  - intros V now k c [??]. split; [by apply get_wf|].
    by destruct (get_bounds now k c) as [-> _].
  - intros V now k v c [??]. split; [by apply set_wf|done].
  - intros. apply get_bounds.
  - done.
  - intros V now now' k v c [_ ?] ?. rewrite get_peek. by apply peek_set_live.
  - intros. rewrite get_peek. by apply peek_set_expired.
  - intros. rewrite !get_peek. by apply peek_get.
  - intros V now now' k k' v w c. rewrite !get_peek.
    intros [(?&?&?)|[??]]%peek_set_sound; auto.
  - intros V now now' k k' w c. rewrite !get_peek. apply peek_get_sound.
Defined.

(** ** The eviction scenario of the specification

    Capacity 2: write [a], write [b], read [a] (which refreshes it), write
    [c].  The entry that leaves is [b]. *)

Definition demo_store : LRUCache nat :=
  set 3 "c" 30 (get 2 "a" (set 1 "b" 20 (set 0 "a" 10 (create 2 1000)))).2.

Example eviction_keeps_refreshed :
  keys demo_store = ["c"; "a"] ∧ peek 4 "a" demo_store = Some 10 ∧
  peek 4 "b" demo_store = None.
Proof. by vm_compute. Qed.

End Cache.
