(* ===== verification/Upstream.v ===== *)
(** * Upstream: the bodies the two providers answer with

    Each record lists the fields an adapter reads from [res.data].  A field
    the adapter reads through [?.], [||] or [??] is optional; a field it
    dereferences is required: a body without it is not of this shape, and
    the call that returned it counts as failed (see [World]). *)

From S2P Require Import Prelude.

(** ** WeatherAPI *)

(** [d.location] *)
Record WaLocation : Type := mkWaLocation {
  wa_name : string;
  wa_lat : Q;
  wa_lon : Q;
  wa_country : option string;
}.

(** [condition] of [d.current] or of a forecast day *)
Record WaCondition : Type := mkWaCondition {
  wa_text : option string;
  wa_icon : option string;
  wa_code : option Q;
}.

(** [d.current] of [current.json] *)
Record WaCurrentBlock : Type := mkWaCurrentBlock {
  last_updated : option string;
  temp_c : Q;
  temp_f : Q;
  feelslike_c : option Q;
  feelslike_f : option Q;
  wa_humidity : option Q;
  wind_kph : option Q;
  wind_mph : option Q;
  wind_dir : option string;
  pressure_mb : option Q;
  wa_uv : option Q;
  wa_condition : option WaCondition;
}.

(** The body of [current.json] *)
Record WaCurrent : Type := mkWaCurrent {
  wac_location : WaLocation;
  wac_current : WaCurrentBlock;
}.

(** [fd.day] of a forecast day *)
Record WaDay : Type := mkWaDay {
  avgtemp_c : option Q;
  avgtemp_f : option Q;
  maxtemp_c : option Q;
  maxtemp_f : option Q;
  mintemp_c : option Q;
  mintemp_f : option Q;
  daily_chance_of_rain : option Q;
  daily_chance_of_snow : option Q;
  avghumidity : option Q;
  maxwind_kph : option Q;
  maxwind_mph : option Q;
  wad_condition : option WaCondition;
}.

(** An element of [d.forecast.forecastday] of [forecast.json] *)
Record WaForecastDay : Type := mkWaForecastDay {
  fd_date : string;
  fd_day : option WaDay;
}.

(** The first element of [d.forecast.forecastday] of [history.json] *)
Record WaHistoryDay : Type := mkWaHistoryDay {
  hd_date : option string;
  hd_day : option WaDay;
}.

(** The body of [forecast.json]; [forecastday] is [None] when [d.forecast]
    or [d.forecast.forecastday] is missing. *)
Record WaForecast : Type := mkWaForecast {
  waf_location : WaLocation;
  forecastday : option (list WaForecastDay);
}.

(** [d.current] of [history.json], every field optional *)
Record WaHistCurrent : Type := mkWaHistCurrent {
  h_temp_c : option Q;
  h_temp_f : option Q;
  h_feelslike_c : option Q;
  h_feelslike_f : option Q;
  h_humidity : option Q;
  h_wind_kph : option Q;
  h_wind_mph : option Q;
  h_wind_dir : option string;
  h_pressure_mb : option Q;
  h_uv : option Q;
}.

(** The body of [history.json]; [wah_day0] is
    [d.forecast?.forecastday?.[0]]. *)
Record WaHistory : Type := mkWaHistory {
  wah_location : WaLocation;
  wah_day0 : option WaHistoryDay;
  wah_current : option WaHistCurrent;
}.

(** ** OpenWeather *)

(** An element of [weather] *)
Record OwWeather : Type := mkOwWeather {
  description : option string;
  icon : option string;
  ow_id : option Q;
}.

(** [coord] *)
Record OwCoord : Type := mkOwCoord {
  ow_lat : Q;
  ow_lon : Q;
}.

(** The body of [data/2.5/weather] *)
Record OwCurrent : Type := mkOwCurrent {
  ow_name : option string;
  coord : OwCoord;
  sys_country : option string;
  dt : Z;
  main_temp : Q;
  main_feels_like : Q;
  main_humidity : option Q;
  main_pressure : option Q;
  wind_speed : Q;
  wind_deg : option Q;
  weather : list OwWeather;
}.

(** An element of [list]: one three-hour slot *)
Record OwSlot : Type := mkOwSlot {
  slot_dt : Z;
  slot_temp : Q;
  slot_weather : list OwWeather;
  rain_3h : option Q;
  snow_3h : option Q;
}.

(** The body of [data/2.5/forecast] *)
Record OwForecast : Type := mkOwForecast {
  city_name : option string;
  city_coord : OwCoord;
  city_country : option string;
  slots : list OwSlot;
}.

(** ** A response body, by endpoint *)

Inductive Response : Type :=
| WaCurrentBody (d : WaCurrent)
| WaForecastBody (d : WaForecast)
| WaHistoryBody (d : WaHistory)
| OwCurrentBody (d : OwCurrent)
| OwForecastBody (d : OwForecast).
