(* ===== verification/World.v ===== *)
(** * World: the runtime, the network and the clock

    What the code calls and does not define: library functions of the
    JavaScript runtime ([Host]), the network ([Net]) and the system state
    every handler runs in ([Sys]: the clock, the requests sent, the console).
    A request takes time: the clock a handler reads after an [await] is later
    than the one it read before. *)

From S2P Require Import Prelude Upstream.

(** The library functions, as parameters: number formatting in a template
    literal and in [JSON.stringify], [JSON.stringify] of a string,
    [encodeURIComponent], [new Date(ms).toISOString()] and
    [new Date(s).getTime()] ([None] for an invalid date). *)
Class Host : Type := {
  numToString : Q → string;
  jsonString : string → string;
  encodeURIComponent : string → string;
  toISOString : Z → string;
  dateParse : string → option Z;
}.

(** The network: the outcome of a GET of [url] sent at time [t], and how
    long it took (milliseconds).  A body that is not of the shape the caller
    dereferences makes the caller throw. *)
Class Net : Type := {
  http_get : string → Z → result Response * Z;
  http_post : string → string → Z → result unit * Z;
  http_get_duration url t : (0 ≤ (http_get url t).2)%Z;
  http_post_duration url body t : (0 ≤ (http_post url body t).2)%Z;
}.

(** The system state shared by every component. *)
Record Sys : Type := mkSys {
  clock : Z;
  calls : list string;
  console : list string;
}.

Definition sys_init (t : Z) : Sys := mkSys t [] [].

(** The [TypeError] of reading a property of [undefined]: what an adapter
    throws on a body of another shape. *)
Definition shapeError : Error := mkError "TypeError: unexpected response shape".

(** The [RangeError] of [new Date(s).toISOString()] on an invalid date. *)
Definition rangeError : Error := mkError "RangeError: Invalid time value".

(** A pure result as a computation. *)
Definition lift {S A} (r : result A) : M S A := λ s, (r, s).

Section world.
Context `{Net}.

(** [Date.now()] *)
Definition now : M Sys Z := λ s, (Ok (clock s), s).

(** [await axios.get(url)]: the request is recorded, the clock advances by
    the duration of the call, and the outcome is a body or an exception. *)
Definition axios_get (url : string) : M Sys Response :=
  λ s, let '(r, dt) := http_get url (clock s) in
       (r, mkSys (clock s + dt) (calls s ++ [url]) (console s)).

(** [await axios.post(url, body)] *)
Definition axios_post (url body : string) : M Sys unit :=
  λ s, let '(r, dt) := http_post url body (clock s) in
       (r, mkSys (clock s + dt) (calls s ++ [url]) (console s)).

(** [console.warn(line)] and [console.log(line)] *)
Definition console_log (line : string) : M Sys unit :=
  λ s, (Ok tt, mkSys (clock s) (calls s) (console s ++ [line])).

(** Time passing between two handlers. *)
Definition advance (dt : Z) (s : Sys) : Sys :=
  mkSys (clock s + dt) (calls s) (console s).

(** ** Frame lemmas: what each primitive leaves alone *)

Lemma now_spec s : now s = (Ok (clock s), s).
Proof. done. Qed.

Lemma axios_get_calls url s : calls (axios_get url s).2 = calls s ++ [url].
Proof. unfold axios_get. by destruct (http_get url (clock s)). Qed.

Lemma axios_get_clock url s : (clock s ≤ clock (axios_get url s).2)%Z.
Proof.
  unfold axios_get. pose proof (http_get_duration url (clock s)).
  destruct (http_get url (clock s)); simpl in *. lia.
Qed.

Lemma axios_get_console url s : console (axios_get url s).2 = console s.
Proof. unfold axios_get. by destruct (http_get url (clock s)). Qed.

Lemma axios_get_result url s : (axios_get url s).1 = (http_get url (clock s)).1.
Proof. unfold axios_get. by destruct (http_get url (clock s)). Qed.

Lemma axios_post_clock url body s : (clock s ≤ clock (axios_post url body s).2)%Z.
Proof.
  unfold axios_post. pose proof (http_post_duration url body (clock s)).
  destruct (http_post url body (clock s)); simpl in *. lia.
Qed.

Lemma console_log_spec line s :
  console_log line s = (Ok tt, mkSys (clock s) (calls s) (console s ++ [line])).
Proof. done. Qed.

End world.

(** A computation over [Sys] that only ever lets time pass and only adds to
    the request log and to the console. *)
Definition sys_le (s s' : Sys) : Prop :=
  (clock s ≤ clock s')%Z ∧ calls s `prefix_of` calls s' ∧
  console s `prefix_of` console s'.

#[export] Instance sys_le_preorder : PreOrder sys_le.
Proof.
  split.
  - by intros s.
  - intros s1 s2 s3 (?&?&?) (?&?&?). split_and!; [lia|by etrans..].
Qed.

Lemma axios_get_le `{Net} url s : sys_le s (axios_get url s).2.
Proof.
  split_and!.
  - apply axios_get_clock.
  - rewrite axios_get_calls. by apply prefix_app_r.
  - by rewrite axios_get_console.
Qed.

Lemma console_log_le line s : sys_le s (console_log line s).2.
Proof. split_and!; simpl; [lia|done|by apply prefix_app_r]. Qed.

#[export] Hint Resolve axios_get_le console_log_le : weather.

(** ** A scripted network, to run examples

    Every request takes [latency] milliseconds; a URL of the table is
    answered with its entry, any other is refused. *)

Definition refused : Error := mkError "connect ECONNREFUSED".

Fixpoint table_get (tbl : list (string * result Response)) (url : string)
    : result Response :=
  match tbl with
  | [] => Throw refused
  | (u, r) :: tbl' => if String.eqb u url then r else table_get tbl' url
  end.

#[refine] Instance tableNet (tbl : list (string * result Response))
    (latency : N) : Net := {|
  http_get url t := (table_get tbl url, Z.of_N latency);
  http_post url body t := (Ok tt, Z.of_N latency);
|}.
Proof. all: intros; simpl; lia. Defined.

(** ** Computations that respect the order of system states *)

Definition monotone {A} (m : M Sys A) : Prop := ∀ s, sys_le s (m s).2.

Section monotone.
Context {A B : Type}.

Lemma monotone_ret (a : A) : monotone (ret a).
Proof. by intros s. Qed.

Lemma monotone_throw e : monotone (@throw Sys A e).
Proof. by intros s. Qed.

Lemma monotone_lift (r : result A) : monotone (lift r).
Proof. by intros s. Qed.

Lemma monotone_now : monotone now.
Proof. by intros s. Qed.

Lemma monotone_bind (m : M Sys A) (k : A → M Sys B) :
  monotone m → (∀ a, monotone (k a)) → monotone (bind m k).
Proof.
  intros Hm Hk s. unfold bind. specialize (Hm s).
  destruct (m s) as [[a|e] s1]; [|done]. etrans; [done|apply Hk].
Qed.

Lemma monotone_catch (m : M Sys A) (h : Error → M Sys A) :
  monotone m → (∀ e, monotone (h e)) → monotone (try_catch m h).
Proof.
  intros Hm Hh s. unfold try_catch. specialize (Hm s).
  destruct (m s) as [[a|e] s1]; [done|]. etrans; [done|apply Hh].
Qed.

End monotone.

Lemma monotone_axios_get `{Net} url : monotone (axios_get url).
Proof. intros s. apply axios_get_le. Qed.

Lemma monotone_axios_post `{Net} url body : monotone (axios_post url body).
Proof.
  intros s. split_and!.
  - apply axios_post_clock.
  - unfold axios_post. destruct (http_post _ _ _). by apply prefix_app_r.
  - unfold axios_post. by destruct (http_post _ _ _).
Qed.

Lemma monotone_console_log line : monotone (console_log line).
Proof. intros s. apply console_log_le. Qed.

Lemma monotone_mfor {A} (xs : list A) (body : A → M Sys unit) :
  (∀ x, monotone (body x)) → monotone (for_each xs body).
Proof.
  intros Hb. induction xs as [|x xs IH]; simpl.
  - apply monotone_ret.
  - apply monotone_bind; [apply Hb|done].
Qed.

#[export] Hint Resolve monotone_ret monotone_throw monotone_lift monotone_now
  monotone_axios_get monotone_axios_post monotone_console_log : weather.

(** Prove [monotone m] for a computation built from the primitives:
    decompose binds and handlers, and split on every match in the way. *)
Ltac solve_monotone :=
  repeat first
    [ progress eauto with weather
    | apply monotone_bind; [|intros ?]
    | apply monotone_catch; [|intros ?]
    | apply monotone_mfor; intros ?
    | case_match ].
