(* ===== verification/Dates.v ===== *)
(** * Dates: instants as ISO 8601 strings

    [new Date(ms).toISOString()] is a library function; this file gives it a
    definition ([isoString]) after the ECMAScript specification: the UTC
    calendar date of the day number (proleptic Gregorian calendar), four
    digits for the years 0 to 9999 and a sign with six digits outside, then
    the time of day.  With a parser of the ISO formats and a printer of
    numbers it makes the host the examples of the development run on. *)

From stdpp Require Import pretty.
From S2P Require Import Prelude Upstream World.

Module Dates.

Definition msPerDay : Z := 86400000.

(** The day number of an instant: days since 1970-01-01, rounded down. *)
Definition day_of_ms (ms : Z) : Z := ms `div` msPerDay.

(** Year, month and day of a day number. *)
Definition civil (days : Z) : Z * Z * Z :=
  let z := (days + 719468)%Z in
  let era := (z `div` 146097)%Z in
  let doe := (z - era * 146097)%Z in
  let yoe := ((doe - doe `div` 1460 + doe `div` 36524 - doe `div` 146096) `div` 365)%Z in
  let doy := (doe - (365 * yoe + yoe `div` 4 - yoe `div` 100))%Z in
  let mp := ((5 * doy + 2) `div` 153)%Z in
  let d := (doy - (153 * mp + 2) `div` 5 + 1)%Z in
  let m := (if (mp <? 10)%Z then mp + 3 else mp - 9)%Z in
  let y := (yoe + era * 400)%Z in
  ((if (m <=? 2)%Z then y + 1 else y)%Z, m, d).

(** The day number of a year, month and day. *)
Definition days_from_civil (y m d : Z) : Z :=
  let y' := (if (m <=? 2)%Z then y - 1 else y)%Z in
  let era := (y' `div` 400)%Z in
  let yoe := (y' - era * 400)%Z in
  let mp := (if (m >? 2)%Z then m - 3 else m + 9)%Z in
  let doy := ((153 * mp + 2) `div` 5 + d - 1)%Z in
  let doe := (yoe * 365 + yoe `div` 4 - yoe `div` 100 + doy)%Z in
  (era * 146097 + doe - 719468)%Z.

(** A natural number in decimal, padded with zeros to a width. *)
Definition pad (width : nat) (n : Z) : string :=
  let s := pretty (Z.to_N n) in
  String.concat "" (replicate (width - String.length s) "0") +:+ s.

Definition year_string (y : Z) : string :=
  if bool_decide (0 ≤ y ≤ 9999)%Z then pad 4 y
  else (if bool_decide (y < 0)%Z then "-" else "+") +:+ pad 6 (Z.abs y).

(** [YYYY-MM-DD] *)
Definition date_string (days : Z) : string :=
  let '(y, m, d) := civil days in
  year_string y +:+ "-" +:+ pad 2 m +:+ "-" +:+ pad 2 d.

(** [HH:mm:ss.sss] of the milliseconds since midnight *)
Definition time_string (ms : Z) : string :=
  pad 2 (ms `div` 3600000) +:+ ":" +:+ pad 2 (ms `div` 60000 `mod` 60) +:+ ":"
  +:+ pad 2 (ms `div` 1000 `mod` 60) +:+ "." +:+ pad 3 (ms `mod` 1000).

(** [new Date(ms).toISOString()] *)
Definition isoString (ms : Z) : string :=
  date_string (day_of_ms ms) +:+ "T" +:+ time_string (ms `mod` msPerDay) +:+ "Z".

(** ** A host to run examples

    Numbers print as integers when they are integers and as fractions
    otherwise, a string is quoted without escapes, [encodeURIComponent] is
    the identity, and only dates of the form [YYYY-MM-DD] parse; the first
    three are stand-ins. *)

Definition digit (c : Ascii.ascii) : option Z :=
  let n := Z.of_N (Ascii.N_of_ascii c) in
  if bool_decide (48 ≤ n ≤ 57)%Z then Some (n - 48)%Z else None.

Fixpoint digits (acc : Z) (s : string) : option Z :=
  match s with
  | EmptyString => Some acc
  | String c s' => d ← digit c; digits (acc * 10 + d) s'
  end.

Definition parse_date (s : string) : option Z :=
  if bool_decide (String.length s = 10%nat) then
    y ← digits 0 (String.substring 0 4 s);
    m ← digits 0 (String.substring 5 2 s);
    d ← digits 0 (String.substring 8 2 s);
    Some (days_from_civil y m d * msPerDay)%Z
  else None.

(** The double quote character, as a string. *)
Definition quote : string := String (Ascii.ascii_of_nat 34) EmptyString.

Definition print_number (q : Q) : string :=
  let r := Qred q in
  if bool_decide (Qden r = 1%positive) then pretty (Qnum r)
  else pretty (Qnum r) +:+ "/" +:+ pretty (Zpos (Qden r)).

#[export] Instance demoHost : Host := {|
  numToString := print_number;
  jsonString s := quote +:+ s +:+ quote;
  encodeURIComponent := id;
  toISOString := isoString;
  dateParse := parse_date;
|}.

(** ** Examples *)

Example isoString_epoch : isoString 0 = "1970-01-01T00:00:00.000Z".
Proof. by vm_compute. Qed.

Example isoString_2024 : isoString 1709210096789 = "2024-02-29T12:34:56.789Z".
Proof. by vm_compute. Qed.

Example isoString_before_epoch : isoString (-1) = "1969-12-31T23:59:59.999Z".
Proof. by vm_compute. Qed.

Example isoString_year_10000 :
  isoString 253402300800000 = "+010000-01-01T00:00:00.000Z".
Proof. by vm_compute. Qed.

Example parse_date_2024 : parse_date "2024-02-29" = Some 1709164800000%Z.
Proof. by vm_compute. Qed.

End Dates.
