(* ===== verification/WeatherApi.v ===== *)
(** * WeatherApi: the adapter of the WeatherAPI provider

    [weather/providers/weatherApi.ts]: the query string, the three requests
    and the mapping of each body into the normalized schema.  The provider
    answers in both unit systems and with daily data, so the adapter copies
    fields; its only computations are the defaults of the historical
    record. *)

From S2P Require Import Prelude Types Upstream World Dates.

Module wa.

Section adapter.
Context {host : Host} {net : Net} (config : Config).

(** [resolveQuery(q)]: coordinates when both are given, else a truthy city
    with its country when that is truthy, else an exception. *)
Definition resolveQuery (q : LocationQuery) : result string :=
  match lat q, lon q with
  | Some la, Some lo => Ok (numToString la +:+ "," +:+ numToString lo)
  | _, _ =>
      match city q with
      | Some c =>
          if nonempty c then
            match country q with
            | Some co => if nonempty co then Ok (c +:+ "," +:+ co) else Ok c
            | None => Ok c
            end
          else Throw (mkError "WeatherAPI: provide city or lat/lon")
      | None => Throw (mkError "WeatherAPI: provide city or lat/lon")
      end
  end.

Definition location_of (l : WaLocation) : Location :=
  mkLocation (wa_name l) (wa_lat l) (wa_lon l) (wa_country l).

(** [{ text: c?.text, iconUrl: c?.icon, code: c?.code }] *)
Definition condition_of (c : option WaCondition) : Condition :=
  mkCondition (c ≫= wa_text) (c ≫= wa_icon) (c ≫= wa_code).

(** [s ? new Date(s).toISOString() : new Date().toISOString()] *)
Definition observed (s : option string) : M Sys string :=
  match s with
  | Some str =>
      if nonempty str then
        match dateParse str with
        | Some ms => ret (toISOString ms)
        | None => throw rangeError
        end
      else let! t := now in ret (toISOString t)
  | None => let! t := now in ret (toISOString t)
  end.

Definition current_url (qStr : string) : string :=
  "https://api.weatherapi.com/v1/current.json?key=" +:+ weatherApiKey config
  +:+ "&q=" +:+ encodeURIComponent qStr +:+ "&aqi=no".

(** [getCurrent(q)] *)
Definition getCurrent (q : LocationQuery) : M Sys CurrentWeather :=
  let! qStr := lift (resolveQuery q) in
  let! res := axios_get (current_url qStr) in
  match res with
  | WaCurrentBody d =>
      let cur := wac_current d in
      let! at_ := observed (last_updated cur) in
      ret {|
        provider := "weatherapi";
        location := location_of (wac_location d);
        observedAt := at_;
        temperatureC := temp_c cur;
        temperatureF := temp_f cur;
        feelsLikeC := feelslike_c cur;
        feelsLikeF := feelslike_f cur;
        humidity := wa_humidity cur;
        windKph := wind_kph cur;
        windMph := wind_mph cur;
        windDir := wind_dir cur;
        pressureMb := pressure_mb cur;
        uv := wa_uv cur;
        condition := condition_of (wa_condition cur);
      |}
  | _ => throw shapeError
  end.

Definition forecast_url (qStr : string) (days : Q) : string :=
  "https://api.weatherapi.com/v1/forecast.json?key=" +:+ weatherApiKey config
  +:+ "&q=" +:+ encodeURIComponent qStr +:+ "&days=" +:+ numToString days
  +:+ "&aqi=no&alerts=no".

(** One element of [forecastday] as a normalized day. *)
Definition day_of (fd : WaForecastDay) : ForecastDay :=
  let day := fd_day fd in
  {| date := fd_date fd;
     avgTempC := day ≫= avgtemp_c;
     avgTempF := day ≫= avgtemp_f;
     maxTempC := day ≫= maxtemp_c;
     maxTempF := day ≫= maxtemp_f;
     minTempC := day ≫= mintemp_c;
     minTempF := day ≫= mintemp_f;
     chanceOfRainPct := day ≫= daily_chance_of_rain;
     chanceOfSnowPct := day ≫= daily_chance_of_snow;
     day_condition := Some (condition_of (day ≫= wad_condition)) |}.

(** [getForecast(q, days)]: the days the provider answered with, in its
    order and number. *)
Definition getForecast (q : LocationQuery) (days : Q) : M Sys Forecast :=
  let! qStr := lift (resolveQuery q) in
  let! res := axios_get (forecast_url qStr days) in
  match res with
  | WaForecastBody d =>
      ret {|
        fc_provider := "weatherapi";
        fc_location := location_of (waf_location d);
        days := day_of <$> default [] (forecastday d);
      |}
  | _ => throw shapeError
  end.

(** [dateISO.slice(0, 10)] *)
Definition date_part (dateISO : string) : string := String.substring 0 10 dateISO.

Definition history_url (qStr dateISO : string) : string :=
  "https://api.weatherapi.com/v1/history.json?key=" +:+ weatherApiKey config
  +:+ "&q=" +:+ encodeURIComponent qStr
  +:+ "&dt=" +:+ encodeURIComponent (date_part dateISO).

(** [a ?? b ?? c] on numbers *)
Definition first_of (a b : option Q) (c : Q) : Q := nullish a (nullish b c).

(** [a ?? b] where [b] may be absent too *)
Definition or_of {A} (a b : option A) : option A :=
  match a with Some _ => a | None => b end.

(** [getHistorical(q, dateISO)]: the daily summary of the first day of the
    answer, completed by the [current] block and, for the temperature, by
    zero. *)
Definition getHistorical (q : LocationQuery) (dateISO : string)
    : M Sys HistoricalWeather :=
  let! qStr := lift (resolveQuery q) in
  let! res := axios_get (history_url qStr dateISO) in
  match res with
  | WaHistoryBody d =>
      let day0 := wah_day0 d in
      let day := day0 ≫= hd_day in
      let cur := wah_current d in
      let date0 := day0 ≫= hd_date in
      let! at_ := observed date0 in
      ret {|
        hist_date := default (date_part dateISO) (js_or date0 None);
        hist_current := {|
          provider := "weatherapi";
          location := location_of (wah_location d);
          observedAt := at_;
          temperatureC := first_of (day ≫= avgtemp_c) (cur ≫= h_temp_c) 0;
          temperatureF := first_of (day ≫= avgtemp_f) (cur ≫= h_temp_f) 0;
          feelsLikeC := cur ≫= h_feelslike_c;
          feelsLikeF := cur ≫= h_feelslike_f;
          humidity := or_of (day ≫= avghumidity) (cur ≫= h_humidity);
          windKph := or_of (day ≫= maxwind_kph) (cur ≫= h_wind_kph);
          windMph := or_of (day ≫= maxwind_mph) (cur ≫= h_wind_mph);
          windDir := cur ≫= h_wind_dir;
          pressureMb := cur ≫= h_pressure_mb;
          uv := cur ≫= h_uv;
          condition := condition_of (day ≫= wad_condition);
        |}
      |}
  | _ => throw shapeError
  end.

(** ** Specification of the query *)

Definition invalidQuery : Error := mkError "WeatherAPI: provide city or lat/lon".

Lemma resolveQuery_ok (q : LocationQuery) :
  is_ok (resolveQuery q) = addressable q.
Proof.
  unfold resolveQuery, addressable, truthy.
  destruct (lat q), (lon q), (city q) as [c|]; try done;
    fold (nonempty c); destruct (nonempty c); try done;
    destruct (country q) as [co|]; try done; by destruct (nonempty co).
Qed.

Lemma resolveQuery_throw (q : LocationQuery) :
  addressable q = false → resolveQuery q = Throw invalidQuery.
Proof.
  unfold resolveQuery, addressable, truthy.
  destruct (lat q), (lon q), (city q) as [c|]; try done;
    fold (nonempty c); by intros ->.
Qed.

Lemma resolveQuery_addressable (q : LocationQuery) :
  addressable q = true → ∃ qStr, resolveQuery q = Ok qStr.
Proof.
  rewrite <-resolveQuery_ok. destruct (resolveQuery q); [eauto|done].
Qed.

(** Coordinates take precedence over the city. *)
Lemma resolveQuery_coords (q : LocationQuery) la lo :
  lat q = Some la → lon q = Some lo →
  resolveQuery q = Ok (numToString la +:+ "," +:+ numToString lo).
Proof. unfold resolveQuery. by intros -> ->. Qed.

(** ** The requests *)

(** The shape of a run of an adapter operation: resolve, or throw without
    touching the state; then one request. *)
Lemma wa_getCurrent_unfold q s :
  getCurrent q s =
  match resolveQuery q with
  | Throw e => (Throw e, s)
  | Ok qStr =>
      match axios_get (current_url qStr) s with
      | (Ok (WaCurrentBody d), s1) =>
          match observed (last_updated (wac_current d)) s1 with
          | (Ok at_, s2) =>
              (Ok {|
                 provider := "weatherapi";
                 location := location_of (wac_location d);
                 observedAt := at_;
                 temperatureC := temp_c (wac_current d);
                 temperatureF := temp_f (wac_current d);
                 feelsLikeC := feelslike_c (wac_current d);
                 feelsLikeF := feelslike_f (wac_current d);
                 humidity := wa_humidity (wac_current d);
                 windKph := wind_kph (wac_current d);
                 windMph := wind_mph (wac_current d);
                 windDir := wind_dir (wac_current d);
                 pressureMb := pressure_mb (wac_current d);
                 uv := wa_uv (wac_current d);
                 condition := condition_of (wa_condition (wac_current d));
               |}, s2)
          | (Throw e, s2) => (Throw e, s2)
          end
      | (Ok _, s1) => (Throw shapeError, s1)
      | (Throw e, s1) => (Throw e, s1)
      end
  end.
Proof.
  unfold getCurrent, bind, lift. destruct (resolveQuery q); [|done].
  by destruct (axios_get _ s) as [[[]|] s1].
Qed.

Lemma observed_state o s : (observed o s).2 = s.
Proof.
  unfold observed. destruct o as [str|]; [|done].
  destruct (nonempty str); [|done]. by destruct (dateParse str).
Qed.

(** A query with neither both coordinates nor a city is refused before
    any request is sent: the state, request log included, is unchanged. *)
Theorem wa_getCurrent_invalid q s :
  addressable q = false → getCurrent q s = (Throw invalidQuery, s).
Proof.
  intros Hq. rewrite wa_getCurrent_unfold. by rewrite (resolveQuery_throw q Hq).
Qed.

(** An addressable query costs exactly one request, to the
    [current.json] endpoint, whatever the outcome. *)
Theorem wa_getCurrent_one_call q qStr s :
  resolveQuery q = Ok qStr →
  calls (getCurrent q s).2 = calls s ++ [current_url qStr].
Proof.
  intros Hq. rewrite wa_getCurrent_unfold, Hq.
  pose proof (axios_get_calls (current_url qStr) s) as Hc.
  destruct (axios_get _ s) as [[[]|] s1]; simpl in *; try done.
  pose proof (observed_state (last_updated (wac_current d)) s1) as Ho.
  destruct (observed _ s1) as [[]]; simpl in *; by subst.
Qed.

(** Every record the adapter returns carries the adapter's tag. *)
Theorem wa_getCurrent_provider q s w s' :
  getCurrent q s = (Ok w, s') → provider w = "weatherapi".
Proof.
  rewrite wa_getCurrent_unfold. repeat case_match; by intros [= <- _].
Qed.

(** The adapter copies both temperatures from the body. *)
Lemma wa_getCurrent_temperature q s w s' :
  getCurrent q s = (Ok w, s') →
  ∃ qStr d, resolveQuery q = Ok qStr ∧
    (http_get (current_url qStr) (clock s)).1 = Ok (WaCurrentBody d) ∧
    temperatureC w = temp_c (wac_current d) ∧
    temperatureF w = temp_f (wac_current d).
Proof.
  rewrite wa_getCurrent_unfold. destruct (resolveQuery q) as [qStr|]; [|done].
  pose proof (axios_get_result (current_url qStr) s) as Hr.
  destruct (axios_get _ s) as [[[d| | | |]|] s1]; try done.
  destruct (observed _ s1) as [[]]; [|done].
  intros [= <- _]. by exists qStr, d.
Qed.

(** A failed request is the adapter's failure: nothing is retried. *)
Lemma wa_getCurrent_transport q qStr s e :
  resolveQuery q = Ok qStr →
  (http_get (current_url qStr) (clock s)).1 = Throw e →
  (getCurrent q s).1 = Throw e.
Proof.
  intros Hq He. rewrite wa_getCurrent_unfold, Hq.
  pose proof (axios_get_result (current_url qStr) s) as Hr.
  destruct (axios_get _ s) as [[|] s1]; simpl in *; congruence.
Qed.

Lemma wa_getCurrent_monotone q : monotone (getCurrent q).
Proof. unfold getCurrent, observed. solve_monotone. Qed.

Lemma wa_getForecast_unfold q n s :
  getForecast q n s =
  match resolveQuery q with
  | Throw e => (Throw e, s)
  | Ok qStr =>
      match axios_get (forecast_url qStr n) s with
      | (Ok (WaForecastBody d), s1) =>
          (Ok (mkForecast "weatherapi" (location_of (waf_location d))
                 (day_of <$> default [] (forecastday d))), s1)
      | (Ok _, s1) => (Throw shapeError, s1)
      | (Throw e, s1) => (Throw e, s1)
      end
  end.
Proof.
  unfold getForecast, bind, lift. destruct (resolveQuery q); [|done].
  by destruct (axios_get _ s) as [[[]|] s1].
Qed.

Lemma wa_getForecast_invalid q n s :
  addressable q = false → getForecast q n s = (Throw invalidQuery, s).
Proof.
  intros Hq. rewrite wa_getForecast_unfold. by rewrite (resolveQuery_throw q Hq).
Qed.

(** C36: the forecast the adapter returns has one day per element of the
    provider's [forecastday], in the provider's order, each with the
    provider's date: the adapter neither sorts nor truncates. *)
Theorem wa_getForecast_days q n s f s' :
  getForecast q n s = (Ok f, s') →
  ∃ qStr d, resolveQuery q = Ok qStr ∧
    (http_get (forecast_url qStr n) (clock s)).1 = Ok (WaForecastBody d) ∧
    fc_provider f = "weatherapi" ∧
    date <$> days f = fd_date <$> default [] (forecastday d).
Proof.
  rewrite wa_getForecast_unfold. destruct (resolveQuery q) as [qStr|]; [|done].
  pose proof (axios_get_result (forecast_url qStr n) s) as Hr.
  destruct (axios_get _ s) as [[[|d| | |]|] s1]; try done.
  intros [= <- _]. exists qStr, d. split_and!; try done.
  simpl. by rewrite <-list_fmap_compose.
Qed.

Lemma wa_getForecast_provider q n s f s' :
  getForecast q n s = (Ok f, s') → fc_provider f = "weatherapi".
Proof.
  rewrite wa_getForecast_unfold. repeat case_match; by intros [= <- _].
Qed.

Lemma wa_getForecast_monotone q n : monotone (getForecast q n).
Proof. unfold getForecast. solve_monotone. Qed.

Lemma wa_getHistorical_unfold q dateISO s :
  getHistorical q dateISO s =
  match resolveQuery q with
  | Throw e => (Throw e, s)
  | Ok qStr =>
      match axios_get (history_url qStr dateISO) s with
      | (Ok (WaHistoryBody d), s1) =>
          bind (observed (wah_day0 d ≫= hd_date)) (λ at_, ret {|
            hist_date :=
              default (date_part dateISO) (js_or (wah_day0 d ≫= hd_date) None);
            hist_current := {|
              provider := "weatherapi";
              location := location_of (wah_location d);
              observedAt := at_;
              temperatureC :=
                first_of ((wah_day0 d ≫= hd_day) ≫= avgtemp_c)
                  (wah_current d ≫= h_temp_c) 0;
              temperatureF :=
                first_of ((wah_day0 d ≫= hd_day) ≫= avgtemp_f)
                  (wah_current d ≫= h_temp_f) 0;
              feelsLikeC := wah_current d ≫= h_feelslike_c;
              feelsLikeF := wah_current d ≫= h_feelslike_f;
              humidity :=
                or_of ((wah_day0 d ≫= hd_day) ≫= avghumidity)
                  (wah_current d ≫= h_humidity);
              windKph :=
                or_of ((wah_day0 d ≫= hd_day) ≫= maxwind_kph)
                  (wah_current d ≫= h_wind_kph);
              windMph :=
                or_of ((wah_day0 d ≫= hd_day) ≫= maxwind_mph)
                  (wah_current d ≫= h_wind_mph);
              windDir := wah_current d ≫= h_wind_dir;
              pressureMb := wah_current d ≫= h_pressure_mb;
              uv := wah_current d ≫= h_uv;
              condition :=
                condition_of ((wah_day0 d ≫= hd_day) ≫= wad_condition);
            |} |}) s1
      | (Ok _, s1) => (Throw shapeError, s1)
      | (Throw e, s1) => (Throw e, s1)
      end
  end.
Proof.
  unfold getHistorical, lift. unfold bind at 1 2.
  destruct (resolveQuery q); [|done].
  by destruct (axios_get _ s) as [[[]|] s1].
Qed.

(** The temperature of a historical record is the day's average, else
    the [current] block's temperature, else zero. *)
Theorem wa_getHistorical_temperature q dateISO s h s' :
  getHistorical q dateISO s = (Ok h, s') →
  ∃ qStr d, resolveQuery q = Ok qStr ∧
    (http_get (history_url qStr dateISO) (clock s)).1 = Ok (WaHistoryBody d) ∧
    temperatureC (hist_current h) =
      match (wah_day0 d ≫= hd_day) ≫= avgtemp_c, wah_current d ≫= h_temp_c with
      | Some t, _ => t
      | None, Some t => t
      | None, None => 0%Q
      end.
Proof.
  rewrite wa_getHistorical_unfold. destruct (resolveQuery q) as [qStr|]; [|done].
  pose proof (axios_get_result (history_url qStr dateISO) s) as Hr.
  destruct (axios_get _ s) as [[[| |d| |]|] s1]; try done.
  unfold bind, ret. destruct (observed _ s1) as [[at_|] s2]; [|done].
  intros [= <- _]. exists qStr, d. split_and!; try done.
Qed.

Lemma wa_getHistorical_provider q dateISO s h s' :
  getHistorical q dateISO s = (Ok h, s') →
  provider (hist_current h) = "weatherapi".
Proof.
  rewrite wa_getHistorical_unfold. repeat case_match; try done.
  unfold bind, ret. destruct (observed _ _) as [[]]; by intros [= <- _].
Qed.

Lemma wa_getHistorical_monotone q dateISO : monotone (getHistorical q dateISO).
Proof. unfold getHistorical, observed. solve_monotone. Qed.

End adapter.

(** ** The theorems at an example

    Paris is asked for; the provider answers the forecast with its days in
    the order it chose, and a history without a day's average. *)

Import Dates.

Definition paris : LocationQuery :=
  {| city := Some "Paris"; country := None; lat := None; lon := None |}.

Definition wa_config : Config := mkConfig 3000 "" "wa-key" "metric" 600 10800 600 "".

Definition paris_location : WaLocation := mkWaLocation "Paris" 48.85 2.35 (Some "France").

Definition paris_days : WaForecast :=
  mkWaForecast paris_location
    (Some [mkWaForecastDay "2024-03-02" None; mkWaForecastDay "2024-03-01" None;
           mkWaForecastDay "2024-03-03" None; mkWaForecastDay "2024-03-04" None]).

Definition paris_past : WaHistory :=
  mkWaHistory paris_location (Some (mkWaHistoryDay (Some "2024-02-01") None)) None.

Definition paris_net : Net :=
  tableNet
    [("https://api.weatherapi.com/v1/forecast.json?key=wa-key&q=Paris&days=3&aqi=no&alerts=no",
      Ok (WaForecastBody paris_days));
     ("https://api.weatherapi.com/v1/history.json?key=wa-key&q=Paris&dt=2024-02-01",
      Ok (WaHistoryBody paris_past))] 25.

(** Three days were asked for; the four of the body come back, in the
    order of the body. *)
Example paris_forecast :
  (λ f, date <$> days f)
    <$> value_of (getForecast (net := paris_net) wa_config paris 3 (sys_init 0)).1
  = Some ["2024-03-02"; "2024-03-01"; "2024-03-03"; "2024-03-04"].
Proof. by vm_compute. Qed.

Lemma wa_getCurrent_one_call_witness :
  calls (getCurrent (net := paris_net) wa_config paris (sys_init 0)).2
  = [] ++ [current_url wa_config "Paris"].
Proof. by apply (wa_getCurrent_one_call (net := paris_net)). Defined.

Lemma wa_getForecast_days_witness :
  ∃ f qStr d, resolveQuery paris = Ok qStr ∧
    (http_get (Net := paris_net) (forecast_url wa_config qStr 3) 0).1
      = Ok (WaForecastBody d) ∧
    fc_provider f = "weatherapi" ∧
    date <$> days f = fd_date <$> default [] (forecastday d).
Proof.
  eexists.
  eapply (wa_getForecast_days (net := paris_net) wa_config paris 3 (sys_init 0)).
  by vm_compute.
Defined.

Lemma wa_getHistorical_temperature_witness :
  ∃ h qStr d, resolveQuery paris = Ok qStr ∧
    (http_get (Net := paris_net) (history_url wa_config qStr "2024-02-01") 0).1
      = Ok (WaHistoryBody d) ∧
    temperatureC (hist_current h) =
      match (wah_day0 d ≫= hd_day) ≫= avgtemp_c, wah_current d ≫= h_temp_c with
      | Some t, _ => t
      | None, Some t => t
      | None, None => 0%Q
      end.
Proof.
  eexists.
  eapply (wa_getHistorical_temperature (net := paris_net) wa_config paris
            "2024-02-01" (sys_init 0)).
  by vm_compute.
Defined.

End wa.
