(* ===== verification/OpenWeather.v ===== *)
(** * OpenWeather: the adapter of the OpenWeather provider

    [weather/providers/openWeather.ts]: the query parameters, the current
    conditions converted into both unit systems, and the forecast, which
    the provider gives in three-hour slots and the adapter groups by UTC
    calendar date.  The grouping is a single pass that accumulates into a
    dictionary keyed by date; the file proves it equal to a reference
    definition that filters the slots of each date, and proves the
    invariant of the accumulated buckets, the order and the number of the
    days returned and the bounds of the percentages. *)

From S2P Require Import Prelude OrderedMap Types Upstream World Dates.

Module ow.

(** The accumulator of one calendar date. *)
Record Bucket : Type := mkBucket {
  tempsC : list Q;
  tempsF : list Q;
  rainSlots : nat;
  snowSlots : nat;
  totalSlots : nat;
  condText : option string;
  b_icon : option string;
  b_code : option Q;
}.

(** [{ tempsC: [], tempsF: [], rainSlots: 0, snowSlots: 0, totalSlots: 0 }] *)
Definition newBucket : Bucket := mkBucket [] [] 0 0 0 None None None.

(** [a || b] on optional numbers *)
Definition js_or_num (a b : option Q) : option Q :=
  if truthy_num a then a else b.

(** [xs.reduce((a, b) => a + b, 0) / xs.length]; the empty case ([NaN]) is
    [None]. *)
Definition average (xs : list Q) : option Q :=
  match xs with
  | [] => None
  | _ => Some (js_sum xs / inject_Z (Z.of_nat (length xs)))%Q
  end.

(** [total ? Math.round((slots / total) * 100) : undefined] *)
Definition chance (slots total : nat) : option Q :=
  if decide (total = 0) then None
  else Some (inject_Z (js_round
         (inject_Z (Z.of_nat slots) / inject_Z (Z.of_nat total) * 100)%Q)).

(** [icon ? `https://openweathermap.org/img/wn/${icon}@2x.png` : undefined] *)
Definition icon_url (icon : option string) : option string :=
  match icon with
  | Some i =>
      if nonempty i then Some ("https://openweathermap.org/img/wn/" +:+ i +:+ "@2x.png")
      else None
  | None => None
  end.

Section adapter.
Context {host : Host} {net : Net} (config : Config).

(** [resolveQueryParams(q)] *)
Definition resolveQueryParams (q : LocationQuery) : result string :=
  match lat q, lon q with
  | Some la, Some lo =>
      Ok ("lat=" +:+ numToString la +:+ "&lon=" +:+ numToString lo)
  | _, _ =>
      match city q with
      | Some c =>
          if nonempty c then
            let co := if truthy (country q)
                      then "," +:+ encodeURIComponent (default "" (country q))
                      else "" in
            Ok ("q=" +:+ encodeURIComponent (c +:+ co))
          else Throw (mkError "OpenWeather: provide city or lat/lon")
      | None => Throw (mkError "OpenWeather: provide city or lat/lon")
      end
  end.

Definition current_url (params : string) (units : Units) : string :=
  "https://api.openweathermap.org/data/2.5/weather?" +:+ params
  +:+ "&appid=" +:+ openWeatherApiKey config +:+ "&units=" +:+ unitsParam units.

(** [name || `${lat},${lon}`] *)
Definition name_of (name : option string) (c : OwCoord) : string :=
  default (numToString (ow_lat c) +:+ "," +:+ numToString (ow_lon c))
    (js_or name None).

(** The [condition] of current conditions, from the first element of
    [weather]. *)
Definition condition_of (w : option OwWeather) : Condition :=
  {| text := Some (default "Unknown" (js_or (w ≫= description) None));
     iconUrl := icon_url (w ≫= icon);
     code := w ≫= ow_id |}.

(** The normalized record of a body of [data/2.5/weather]. *)
Definition current_of (units : Units) (d : OwCurrent) : CurrentWeather :=
  {| provider := "openweather";
     location :=
       mkLocation (name_of (ow_name d) (coord d)) (ow_lat (coord d))
         (ow_lon (coord d)) (sys_country d);
     observedAt := toISOString (dt d * 1000);
     temperatureC := toCelsius units (main_temp d);
     temperatureF := toFahrenheit units (main_temp d);
     feelsLikeC := Some (toCelsius units (main_feels_like d));
     feelsLikeF := Some (toFahrenheit units (main_feels_like d));
     humidity := main_humidity d;
     windKph := Some (toKph units (wind_speed d));
     windMph := Some (toMph units (wind_speed d));
     windDir := (λ deg, numToString deg +:+ "°") <$> wind_deg d;
     pressureMb := main_pressure d;
     uv := None;
     condition := condition_of (head (weather d)) |}.

(** [getCurrent(q, units)] *)
Definition getCurrent (q : LocationQuery) (units : Units) : M Sys CurrentWeather :=
  let! params := lift (resolveQueryParams q) in
  let! res := axios_get (current_url params units) in
  match res with
  | OwCurrentBody d => ret (current_of units d)
  | _ => throw shapeError
  end.

Definition forecast_url (params : string) (units : Units) : string :=
  "https://api.openweathermap.org/data/2.5/forecast?" +:+ params
  +:+ "&appid=" +:+ openWeatherApiKey config +:+ "&units=" +:+ unitsParam units.

(** [new Date(dt * 1000).toISOString().slice(0, 10)] *)
Definition isoDate (dt : Z) : string :=
  String.substring 0 10 (toISOString (dt * 1000)).

(** The body of the loop, on the bucket of the slot's date. *)
Definition add_slot (units : Units) (item : OwSlot) (b : Bucket) : Bucket :=
  let cond := head (slot_weather item) in
  {| tempsC := tempsC b ++ [toCelsius units (slot_temp item)];
     tempsF := tempsF b ++ [toFahrenheit units (slot_temp item)];
     totalSlots := totalSlots b + 1;
     rainSlots := if truthy_num (rain_3h item) then rainSlots b + 1 else rainSlots b;
     snowSlots := if truthy_num (snow_3h item) then snowSlots b + 1 else snowSlots b;
     condText := js_or (cond ≫= description) (condText b);
     b_icon := js_or (cond ≫= icon) (b_icon b);
     b_code := js_or_num (cond ≫= ow_id) (b_code b) |}.

(** One iteration of [for (const item of d.list)]: create the bucket of the
    date on its first slot, then update it. *)
Definition bucket_step (units : Units) (byDate : list (string * Bucket))
    (item : OwSlot) : list (string * Bucket) :=
  let k := isoDate (slot_dt item) in
  omap.set k (add_slot units item (default newBucket (omap.get k byDate))) byDate.

Definition bucketize (units : Units) (items : list OwSlot)
    : list (string * Bucket) :=
  foldl (bucket_step units) omap.empty items.

(** The callback of [sortedDates.map]. *)
Definition day_of (d : string) (rec : Bucket) : ForecastDay :=
  {| date := d;
     avgTempC := average (tempsC rec);
     avgTempF := average (tempsF rec);
     maxTempC := js_max (tempsC rec);
     maxTempF := js_max (tempsF rec);
     minTempC := js_min (tempsC rec);
     minTempF := js_min (tempsF rec);
     chanceOfRainPct := chance (rainSlots rec) (totalSlots rec);
     chanceOfSnowPct := chance (snowSlots rec) (totalSlots rec);
     day_condition :=
       Some (mkCondition (condText rec) (icon_url (b_icon rec)) (b_code rec)) |}.

(** [Object.keys(byDate).sort().slice(0, days)] *)
Definition sortedDates (days : Q) (byDate : list (string * Bucket)) : list string :=
  js_slice0 days (js_sort (omap.keys byDate)).

Definition daysOut (units : Units) (days : Q) (items : list OwSlot)
    : list ForecastDay :=
  let byDate := bucketize units items in
  (λ d, day_of d (default newBucket (omap.get d byDate))) <$> sortedDates days byDate.

(** The normalized forecast of a body of [data/2.5/forecast]. *)
Definition forecast_of (units : Units) (days : Q) (d : OwForecast) : Forecast :=
  {| fc_provider := "openweather";
     fc_location :=
       mkLocation (name_of (city_name d) (city_coord d)) (ow_lat (city_coord d))
         (ow_lon (city_coord d)) (city_country d);
     Types.days := daysOut units days (slots d) |}.

(** [getForecast(q, units, days)] *)
Definition getForecast (q : LocationQuery) (units : Units) (days : Q)
    : M Sys Forecast :=
  let! params := lift (resolveQueryParams q) in
  let! res := axios_get (forecast_url params units) in
  match res with
  | OwForecastBody d => ret (forecast_of units days d)
  | _ => throw shapeError
  end.

(** [getHistorical()]: not supported, answers [null]. *)
Definition getHistorical : M Sys (option HistoricalWeather) := ret None.

(** ** The query *)

Definition invalidQuery : Error := mkError "OpenWeather: provide city or lat/lon".

Lemma resolveQueryParams_ok (q : LocationQuery) :
  is_ok (resolveQueryParams q) = addressable q.
Proof.
  unfold resolveQueryParams, addressable.
  destruct (lat q), (lon q), (city q) as [c|]; try done;
    rewrite truthy_Some; by destruct (nonempty c).
Qed.

Lemma resolveQueryParams_throw (q : LocationQuery) :
  addressable q = false → resolveQueryParams q = Throw invalidQuery.
Proof.
  unfold resolveQueryParams, addressable.
  destruct (lat q), (lon q), (city q) as [c|]; try done;
    rewrite truthy_Some; by intros ->.
Qed.

(** For a city with a country the [q] parameter is the encoding of the
    city, a comma and the already encoded country: the country is encoded
    twice. *)
Theorem resolveQueryParams_city_country c co :
  nonempty c = true → nonempty co = true →
  resolveQueryParams (mkLocationQuery (Some c) (Some co) None None) =
  Ok ("q=" +:+ encodeURIComponent (c +:+ "," +:+ encodeURIComponent co)).
Proof.
  unfold nonempty. intros Hc Hco. unfold resolveQueryParams, truthy, nonempty.
  simpl. by rewrite Hc, Hco.
Qed.

(** ** Current conditions *)

Lemma ow_getCurrent_unfold q units s :
  getCurrent q units s =
  match resolveQueryParams q with
  | Throw e => (Throw e, s)
  | Ok params =>
      match axios_get (current_url params units) s with
      | (Ok (OwCurrentBody d), s1) => (Ok (current_of units d), s1)
      | (Ok _, s1) => (Throw shapeError, s1)
      | (Throw e, s1) => (Throw e, s1)
      end
  end.
Proof.
  unfold getCurrent, bind, lift. destruct (resolveQueryParams q); [|done].
  by destruct (axios_get _ s) as [[[]|] s1].
Qed.

Lemma ow_getCurrent_invalid q units s :
  addressable q = false → getCurrent q units s = (Throw invalidQuery, s).
Proof.
  intros Hq. rewrite ow_getCurrent_unfold. by rewrite (resolveQueryParams_throw q Hq).
Qed.

Lemma ow_getCurrent_Ok q units s w s' :
  getCurrent q units s = (Ok w, s') →
  ∃ params d, resolveQueryParams q = Ok params ∧
    (http_get (current_url params units) (clock s)).1 = Ok (OwCurrentBody d) ∧
    w = current_of units d ∧ s' = (axios_get (current_url params units) s).2.
Proof.
  rewrite ow_getCurrent_unfold. destruct (resolveQueryParams q) as [params|]; [|done].
  pose proof (axios_get_result (current_url params units) s) as Hr.
  destruct (axios_get _ s) as [[[| | |d|]|] s1] eqn:Ha; try done.
  intros [= <- <-]. exists params, d. by rewrite Ha, <-Hr.
Qed.

(** C39: in every record the adapter returns for a declared unit system,
    the Fahrenheit temperature is the conversion of the Celsius temperature
    and the km/h wind speed the conversion of the mph wind speed, whichever
    of the two systems was requested from the provider. *)
Theorem ow_getCurrent_dual_units q units s w s' :
  declared units →
  getCurrent q units s = (Ok w, s') →
  temperatureF w ≡ celsiusToFahrenheit (temperatureC w) ∧
  feelsLikeF w ≡ celsiusToFahrenheit <$> feelsLikeC w ∧
  windKph w ≡ mphToKph <$> windMph w.
Proof.
  intros Hu (params & d & _ & _ & -> & _)%ow_getCurrent_Ok. simpl. split_and!.
  - by apply dual_temperature_consistent.
  - constructor. by apply dual_temperature_consistent.
  - constructor. by apply dual_wind_consistent.
Qed.

(** C23: a unit system that is not declared is requested from the provider
    as metric, and the reading is then converted as if it were in
    Fahrenheit: the Celsius temperature of the record is not the one the
    provider reported. *)
Theorem ow_getCurrent_undeclared q units s w s' :
  ¬ declared units →
  getCurrent q units s = (Ok w, s') →
  ∃ params d,
    (http_get ("https://api.openweathermap.org/data/2.5/weather?" +:+ params
               +:+ "&appid=" +:+ openWeatherApiKey config +:+ "&units=metric")
       (clock s)).1 = Ok (OwCurrentBody d)
    ∧ temperatureC w = fahrenheitToCelsius (main_temp d)
    ∧ temperatureF w = celsiusToFahrenheit (main_temp d).
Proof.
  intros Hu (params & d & _ & Hd & -> & _)%ow_getCurrent_Ok.
  exists params, d. unfold current_url in Hd.
  rewrite unitsParam_undeclared in Hd by done. split; [done|].
  apply undeclared_conversions, Hu.
Qed.

(** The record carries the adapter's tag and a condition text. *)
Lemma ow_getCurrent_tagged q units s w s' :
  getCurrent q units s = (Ok w, s') →
  provider w = "openweather" ∧ is_Some (text (condition w)).
Proof. intros (params & d & _ & _ & -> & _)%ow_getCurrent_Ok. by split. Qed.

Lemma ow_getCurrent_one_call q params units s :
  resolveQueryParams q = Ok params →
  calls (getCurrent q units s).2 = calls s ++ [current_url params units].
Proof.
  intros Hq. rewrite ow_getCurrent_unfold, Hq.
  pose proof (axios_get_calls (current_url params units) s) as Hc.
  by destruct (axios_get _ s) as [[[]|] s1].
Qed.

Lemma ow_getCurrent_monotone q units : monotone (getCurrent q units).
Proof. unfold getCurrent. solve_monotone. Qed.

(** ** The forecast: grouping by date

    The reference definition: the bucket of a date is the accumulation,
    from the empty bucket, of the slots of that date in the order of the
    body. *)

Definition date_of (item : OwSlot) : string := isoDate (slot_dt item).

Definition slots_of (d : string) (items : list OwSlot) : list OwSlot :=
  filter (λ i, date_of i = d) items.

Definition summary (units : Units) (its : list OwSlot) : Bucket :=
  foldl (λ b i, add_slot units i b) newBucket its.

Definition rainy (item : OwSlot) : bool := truthy_num (rain_3h item).
Definition snowy (item : OwSlot) : bool := truthy_num (snow_3h item).

Lemma bucketize_snoc units items i :
  bucketize units (items ++ [i]) = bucket_step units (bucketize units items) i.
Proof. unfold bucketize. by rewrite foldl_app. Qed.

Lemma summary_snoc units its i :
  summary units (its ++ [i]) = add_slot units i (summary units its).
Proof. unfold summary. by rewrite foldl_app. Qed.

Lemma slots_of_snoc d items i :
  slots_of d (items ++ [i]) =
  slots_of d items ++ (if decide (date_of i = d) then [i] else []).
Proof.
  unfold slots_of. rewrite filter_app, filter_cons, filter_nil.
  by case_decide.
Qed.

(** The dictionary the loop builds, read at a date, is the summary of the
    slots of that date; a date without slots has no entry. *)
Lemma get_bucketize units d items :
  omap.get d (bucketize units items) =
  match slots_of d items with
  | [] => None
  | its => Some (summary units its)
  end.
Proof.
  induction items as [|i items IH] using rev_ind; [done|].
  rewrite bucketize_snoc, slots_of_snoc. unfold bucket_step.
  rewrite omap.get_set. fold (date_of i). case_decide as Hd.
  - subst d. rewrite IH. destruct (slots_of (date_of i) items) as [|j its]; [done|].
    simpl. by rewrite <-summary_snoc.
  - by rewrite IH, app_nil_r.
Qed.

Lemma bucketize_wf units items : omap.wf (bucketize units items).
Proof.
  induction items as [|i items IH] using rev_ind; [apply omap.wf_empty|].
  rewrite bucketize_snoc. by apply omap.wf_set.
Qed.

(** The dates of the dictionary are the dates of the slots. *)
Lemma keys_bucketize units d items :
  d ∈ omap.keys (bucketize units items) ↔ d ∈ date_of <$> items.
Proof.
  rewrite <-omap.get_is_Some, get_bucketize, list_elem_of_fmap.
  unfold slots_of. split.
  - destruct (filter _ items) as [|j its] eqn:Hf; [by intros []|]. intros _.
    assert (j ∈ filter (λ i, date_of i = d) items) as [??]%list_elem_of_filter
      by (rewrite Hf; left). eauto.
  - intros (j & -> & Hin).
    assert (j ∈ filter (λ i, date_of i = date_of j) items) as Hj
      by (by apply list_elem_of_filter).
    destruct (filter _ items); [by apply elem_of_nil in Hj|done].
Qed.

(** What a summary holds. *)
Lemma summary_spec units its :
  tempsC (summary units its) = (λ i, toCelsius units (slot_temp i)) <$> its ∧
  tempsF (summary units its) = (λ i, toFahrenheit units (slot_temp i)) <$> its ∧
  totalSlots (summary units its) = length its ∧
  rainSlots (summary units its) = length (filter rainy its) ∧
  snowSlots (summary units its) = length (filter snowy its).
Proof.
  induction its as [|i its (IH1 & IH2 & IH3 & IH4 & IH5)] using rev_ind; [done|].
  rewrite summary_snoc, !fmap_app, !filter_app, !length_app. simpl.
  rewrite IH1, IH2, IH3, IH4, IH5, !filter_cons, !filter_nil.
  unfold rainy, snowy. split_and!; try done;
    destruct (truthy_num _); simpl; lia.
Qed.

(** ** The forecast: the days returned *)

Lemma sortedDates_sorted days (byDate : list (string * Bucket)) :
  StronglySorted str_le (sortedDates days byDate).
Proof.
  unfold sortedDates. destruct (js_slice0_take days (js_sort (omap.keys byDate)))
    as [k ->]. apply StronglySorted_take, js_sort_sorted.
Qed.

Lemma sortedDates_keys days (byDate : list (string * Bucket)) d :
  d ∈ sortedDates days byDate → d ∈ omap.keys byDate.
Proof.
  unfold sortedDates. intros Hd. apply js_sort_elem.
  eapply elem_of_sublist; [done|]. apply js_slice0_sublist.
Qed.

Lemma sortedDates_NoDup days (byDate : list (string * Bucket)) :
  omap.wf byDate → NoDup (sortedDates days byDate).
Proof.
  intros Hwf. eapply sublist_NoDup; [|apply js_slice0_sublist].
  by apply js_sort_NoDup.
Qed.

Lemma dates_daysOut units days items :
  date <$> daysOut units days items = sortedDates days (bucketize units items).
Proof.
  unfold daysOut. rewrite <-list_fmap_compose. by rewrite <-(list_fmap_id (sortedDates _ _)) at 2.
Qed.

(** C5: the days of the forecast are in strictly ascending order of their
    date strings: sorted, and no date twice. *)
Theorem daysOut_ascending units days items :
  StronglySorted str_lt (date <$> daysOut units days items).
Proof.
  rewrite dates_daysOut. apply StronglySorted_strict.
  - apply sortedDates_sorted.
  - apply sortedDates_NoDup, bucketize_wf.
Qed.

(** A request for [n] days returns [n] days, or every date of the body
    when it has fewer. *)
Theorem daysOut_length units (n : nat) items :
  length (daysOut units (inject_Z (Z.of_nat n)) items) =
  n `min` length (omap.keys (bucketize units items)).
Proof.
  rewrite <-(length_fmap date), dates_daysOut. unfold sortedDates.
  by rewrite js_slice0_nat, length_take, js_sort_length.
Qed.

(** Each day returned is the summary of the slots of its date, of which
    there is at least one: a date without slots is not returned, and no day
    mixes the slots of two dates. *)
Theorem daysOut_summary units days items day :
  day ∈ daysOut units days items →
  slots_of (date day) items ≠ [] ∧
  day = day_of (date day) (summary units (slots_of (date day) items)).
Proof.
  unfold daysOut. intros (d & -> & Hd)%list_elem_of_fmap. simpl.
  apply sortedDates_keys, omap.get_is_Some in Hd. revert Hd.
  rewrite get_bucketize. destruct (slots_of d items); [by intros []|done].
Qed.

(** ** The forecast: percentages and temperatures *)

Lemma chance_bounds (r t : nat) :
  r ≤ t → t ≠ 0 →
  ∃ p : Z, chance r t = Some (inject_Z p) ∧ (0 ≤ p ≤ 100)%Z.
Proof.
  intros Hrt Ht. unfold chance. rewrite decide_False by done.
  eexists. split; [done|].
  assert (0 < inject_Z (Z.of_nat t))%Q as Hpos.
  { change 0%Q with (inject_Z 0). rewrite <-Zlt_Qlt. lia. }
  assert (0 <= inject_Z (Z.of_nat r) <= inject_Z (Z.of_nat t))%Q as [Hr0 Hr1].
  { change 0%Q with (inject_Z 0). rewrite <-!Zle_Qle. lia. }
  assert (0 <= inject_Z (Z.of_nat r) / inject_Z (Z.of_nat t) <= 1)%Q as [??].
  { split; [apply Qle_shift_div_l|apply Qle_shift_div_r]; try done; lra. }
  generalize dependent (inject_Z (Z.of_nat r) / inject_Z (Z.of_nat t))%Q.
  intros x ??. pose proof (js_round_Z 0) as H0'. pose proof (js_round_Z 100) as H100.
  pose proof (js_round_mono (inject_Z 0) (x * 100)) as Hlo.
  pose proof (js_round_mono (x * 100) (inject_Z 100)) as Hhi.
  change (inject_Z 0) with 0%Q in *. change (inject_Z 100) with 100%Q in *.
  split; [rewrite <-H0'; apply Hlo|rewrite <-H100; apply Hhi]; lra.
Qed.

#[export] Instance average_proper : Proper ((≡) ==> (≡)) average.
Proof.
  intros xs ys Hxy. assert (length xs = length ys) as Hlen by (by rewrite Hxy).
  pose proof (js_sum_proper _ _ Hxy) as Hs.
  destruct Hxy as [|x y xs ys Hx Hxs]; [done|].
  unfold average. constructor. rewrite Hlen.
  unfold equiv, number_equiv in *. by rewrite Hs.
Qed.

(** The mean of the Fahrenheit values is the conversion of the mean of the
    Celsius values. *)
Lemma average_fahrenheit (xs : list Q) :
  average (celsiusToFahrenheit <$> xs) ≡ celsiusToFahrenheit <$> average xs.
Proof.
  destruct xs as [|x xs]; [done|].
  pose proof (js_sum_affine (9 / 5) 32 (x :: xs)) as Hs.
  assert (0 < inject_Z (Z.of_nat (length (x :: xs))))%Q as Hpos.
  { change 0%Q with (inject_Z 0). rewrite <-Zlt_Qlt. simpl. lia. }
  unfold average. rewrite fmap_cons. constructor.
  rewrite <-fmap_cons, length_fmap. unfold celsiusToFahrenheit at 2.
  change celsiusToFahrenheit with (λ c, c * (9 / 5) + 32)%Q.
  unfold equiv, number_equiv in *. rewrite Hs. field. lra.
Qed.

Lemma average_between (xs : list Q) (lo hi : Q) :
  xs ≠ [] → Forall (λ x, lo <= x <= hi)%Q xs →
  ∃ a, average xs = Some a ∧ (lo <= a <= hi)%Q.
Proof.
  intros Hne Hall. destruct xs as [|x xs]; [done|].
  eexists. split; [done|].
  pose proof (js_sum_bounds lo hi _ Hall) as [??].
  assert (0 < inject_Z (Z.of_nat (length (x :: xs))))%Q as Hpos.
  { change 0%Q with (inject_Z 0). rewrite <-Zlt_Qlt. simpl. lia. }
  split; [apply Qle_shift_div_l|apply Qle_shift_div_r]; done.
Qed.

Lemma temps_dual units (its : list OwSlot) :
  declared units →
  tempsF (summary units its) ≡ celsiusToFahrenheit <$> tempsC (summary units its).
Proof.
  intros Hu. destruct (summary_spec units its) as (-> & -> & _).
  rewrite <-list_fmap_compose. apply list_equiv_Forall2.
  apply Forall2_fmap, Forall_Forall2_diag.
  apply Forall_forall. intros i _. by apply dual_temperature_consistent.
Qed.

(** C6: every day of the forecast has both percentages, each a whole number
    between 0 and 100. *)
Theorem daysOut_chances units days items day :
  day ∈ daysOut units days items →
  ∃ p q : Z,
    chanceOfRainPct day = Some (inject_Z p) ∧
    chanceOfSnowPct day = Some (inject_Z q) ∧
    (0 ≤ p ≤ 100)%Z ∧ (0 ≤ q ≤ 100)%Z.
Proof.
  intros [Hne ->]%daysOut_summary. simpl.
  destruct (summary_spec units (slots_of (date day) items))
    as (_ & _ & -> & -> & ->).
  assert (length (slots_of (date day) items) ≠ 0) by by destruct (slots_of _ _).
  destruct (chance_bounds (length (filter rainy (slots_of (date day) items)))
    (length (slots_of (date day) items))) as (p & ? & ?);
    [apply length_filter|done|].
  destruct (chance_bounds (length (filter snowy (slots_of (date day) items)))
    (length (slots_of (date day) items))) as (q & ? & ?);
    [apply length_filter|done|].
  by exists p, q.
Qed.

(** In every day of the forecast for a declared unit system the
    Fahrenheit mean, maximum and minimum are the conversions of the Celsius
    mean, maximum and minimum, whichever of the two systems was requested
    from the provider. *)
Theorem daysOut_dual_units units days items day :
  declared units →
  day ∈ daysOut units days items →
  avgTempF day ≡ celsiusToFahrenheit <$> avgTempC day ∧
  maxTempF day ≡ celsiusToFahrenheit <$> maxTempC day ∧
  minTempF day ≡ celsiusToFahrenheit <$> minTempC day.
Proof.
  intros Hu [_ ->]%daysOut_summary. simpl.
  pose proof (temps_dual units (slots_of (date day) items) Hu) as Hd.
  rewrite Hd. split_and!.
  - apply average_fahrenheit.
  - apply (js_max_mono celsiusToFahrenheit).
  - apply (js_min_mono celsiusToFahrenheit).
Qed.

(** Every day of the forecast has a mean, a minimum and a maximum
    Celsius temperature, and the mean lies between the other two. *)
Theorem daysOut_mean_between units days items day :
  day ∈ daysOut units days items →
  ∃ a lo hi, avgTempC day = Some a ∧ minTempC day = Some lo ∧
    maxTempC day = Some hi ∧ (lo <= a <= hi)%Q.
Proof.
  intros [Hne ->]%daysOut_summary. simpl.
  destruct (summary_spec units (slots_of (date day) items)) as (Hc & _).
  assert (tempsC (summary units (slots_of (date day) items)) ≠ []) as Hne'.
  { rewrite Hc. by destruct (slots_of _ _). }
  destruct (tempsC _) as [|x xs] eqn:Hxs; [done|].
  pose proof (js_max_ub (x :: xs) _ eq_refl) as Hub.
  pose proof (js_min_lb (x :: xs) _ eq_refl) as Hlb.
  edestruct (average_between (x :: xs)) as (a & Ha & ?); [done| |].
  { apply Forall_and. split; [exact Hlb|exact Hub]. }
  by eexists a, _, _.
Qed.

(** ** The forecast request *)

Lemma ow_getForecast_unfold q units days s :
  getForecast q units days s =
  match resolveQueryParams q with
  | Throw e => (Throw e, s)
  | Ok params =>
      match axios_get (forecast_url params units) s with
      | (Ok (OwForecastBody d), s1) => (Ok (forecast_of units days d), s1)
      | (Ok _, s1) => (Throw shapeError, s1)
      | (Throw e, s1) => (Throw e, s1)
      end
  end.
Proof.
  unfold getForecast, bind, lift. destruct (resolveQueryParams q); [|done].
  by destruct (axios_get _ s) as [[[]|] s1].
Qed.

Lemma ow_getForecast_invalid q units days s :
  addressable q = false → getForecast q units days s = (Throw invalidQuery, s).
Proof.
  intros Hq. rewrite ow_getForecast_unfold. by rewrite (resolveQueryParams_throw q Hq).
Qed.

Lemma ow_getForecast_Ok q units days s f s' :
  getForecast q units days s = (Ok f, s') →
  ∃ params d, resolveQueryParams q = Ok params ∧
    (http_get (forecast_url params units) (clock s)).1 = Ok (OwForecastBody d) ∧
    f = forecast_of units days d ∧ s' = (axios_get (forecast_url params units) s).2.
Proof.
  rewrite ow_getForecast_unfold. destruct (resolveQueryParams q) as [params|]; [|done].
  pose proof (axios_get_result (forecast_url params units) s) as Hr.
  destruct (axios_get _ s) as [[[| | | |d]|] s1] eqn:Ha; try done.
  intros [= <- <-]. exists params, d. by rewrite Ha, <-Hr.
Qed.

Lemma ow_getForecast_monotone q units days : monotone (getForecast q units days).
Proof. unfold getForecast. solve_monotone. Qed.

End adapter.
(** ** The example of the specification

    Two calendar days: 2024-03-01 with four slots of which two carry rain
    (a third reports a rain volume of zero, which does not count), and
    2024-03-02 with two dry slots, the body listing a slot of the second day
    first.  The forecast reports 50 and 0, in ascending order of date. *)

Import Dates.

Definition example_slot (t : Z) (temp : Q) (rain : option Q) : OwSlot :=
  mkOwSlot t temp [] rain None.

Definition example_slots : list OwSlot :=
  [ example_slot 1709337600 10 None;
    example_slot 1709251200 8 (Some 1.5%Q);
    example_slot 1709262000 9 None;
    example_slot 1709272800 11 (Some 0.2%Q);
    example_slot 1709283600 12 (Some 0%Q);
    example_slot 1709348400 14 None ].

Definition example_days : list ForecastDay := daysOut metric 3 example_slots.

Example example_forecast :
  (λ d, (date d, chanceOfRainPct d)) <$> example_days =
  [("2024-03-01", Some 50%Q); ("2024-03-02", Some 0%Q)].
Proof. by vm_compute. Qed.

Lemma example_day_in :
  hd (day_of "" newBucket) example_days ∈ example_days.
Proof. vm_compute. left. Qed.

Lemma daysOut_summary_witness :
  slots_of (date (hd (day_of "" newBucket) example_days)) example_slots ≠ [] ∧
  hd (day_of "" newBucket) example_days =
  day_of (date (hd (day_of "" newBucket) example_days))
    (summary metric
       (slots_of (date (hd (day_of "" newBucket) example_days)) example_slots)).
Proof. apply (daysOut_summary metric 3 example_slots), example_day_in. Defined.

Lemma daysOut_chances_witness :
  ∃ p q : Z,
    chanceOfRainPct (hd (day_of "" newBucket) example_days) = Some (inject_Z p) ∧
    chanceOfSnowPct (hd (day_of "" newBucket) example_days) = Some (inject_Z q) ∧
    (0 ≤ p ≤ 100)%Z ∧ (0 ≤ q ≤ 100)%Z.
Proof. apply (daysOut_chances metric 3 example_slots), example_day_in. Defined.

Lemma daysOut_dual_units_witness :
  avgTempF (hd (day_of "" newBucket) example_days) ≡
    celsiusToFahrenheit <$> avgTempC (hd (day_of "" newBucket) example_days) ∧
  maxTempF (hd (day_of "" newBucket) example_days) ≡
    celsiusToFahrenheit <$> maxTempC (hd (day_of "" newBucket) example_days) ∧
  minTempF (hd (day_of "" newBucket) example_days) ≡
    celsiusToFahrenheit <$> minTempC (hd (day_of "" newBucket) example_days).
Proof.
  apply (daysOut_dual_units metric 3 example_slots); [by left|apply example_day_in].
Defined.

Lemma daysOut_mean_between_witness :
  ∃ a lo hi,
    avgTempC (hd (day_of "" newBucket) example_days) = Some a ∧
    minTempC (hd (day_of "" newBucket) example_days) = Some lo ∧
    maxTempC (hd (day_of "" newBucket) example_days) = Some hi ∧
    (lo <= a <= hi)%Q.
Proof. apply (daysOut_mean_between metric 3 example_slots), example_day_in. Defined.

(** Oslo at 20 degrees, asked for in a declared unit system and in one that
    is not. *)
Definition oslo : LocationQuery :=
  {| city := Some "Oslo"; country := None; lat := None; lon := None |}.

Definition ow_config : Config := mkConfig 3000 "ow-key" "" "metric" 600 10800 600 "".

Definition oslo_body : OwCurrent :=
  mkOwCurrent (Some "Oslo") (mkOwCoord 59.91 10.75) (Some "NO") 1709251200
    20 19 (Some 60%Q) (Some 1012%Q) 3 (Some 180%Q)
    [mkOwWeather (Some "clear sky") (Some "01d") (Some 800%Q)].

Definition oslo_net : Net :=
  tableNet
    [("https://api.openweathermap.org/data/2.5/weather?q=Oslo&appid=ow-key&units=metric",
      Ok (OwCurrentBody oslo_body))] 25.

(** Asked for in ["Metric"], the 20 degrees Celsius of the provider come
    back as 6.67 below zero, beside 68 degrees Fahrenheit. *)
Example oslo_undeclared :
  (λ w, (Qred (temperatureC w), Qred (temperatureF w)))
    <$> value_of (getCurrent (net := oslo_net) ow_config oslo "Metric" (sys_init 0)).1
  = Some ((-20) # 3, 68)%Q.
Proof. by vm_compute. Qed.

Lemma ow_getCurrent_dual_units_witness :
  ∃ w, temperatureF w ≡ celsiusToFahrenheit (temperatureC w) ∧
       feelsLikeF w ≡ celsiusToFahrenheit <$> feelsLikeC w ∧
       windKph w ≡ mphToKph <$> windMph w.
Proof.
  eexists.
  eapply (ow_getCurrent_dual_units (net := oslo_net) ow_config oslo metric
            (sys_init 0)); [by left|by vm_compute].
Defined.

Lemma ow_getCurrent_undeclared_witness :
  ∃ w params d,
    (http_get (Net := oslo_net)
       ("https://api.openweathermap.org/data/2.5/weather?" +:+ params
        +:+ "&appid=" +:+ openWeatherApiKey ow_config +:+ "&units=metric") 0).1
      = Ok (OwCurrentBody d)
    ∧ temperatureC w = fahrenheitToCelsius (main_temp d)
    ∧ temperatureF w = celsiusToFahrenheit (main_temp d).
Proof.
  eexists.
  eapply (ow_getCurrent_undeclared (net := oslo_net) ow_config oslo "Metric"
            (sys_init 0)); [by intros [[=]|[=]]|by vm_compute].
Defined.

End ow.
