(* ===== verification/Insights.v ===== *)
(** * Insights: the risk of an activity in the weather

    [insights/insights.ts]: [rainRiskPct] and [assessActivity].  The risk
    starts low and is raised by three tests in turn (rain, wind, heat or
    cold), each of which may add a tip; tips for the activity follow.

    [toLowerCase] is modelled on the letters A to Z; other characters are
    left as they are. *)

From S2P Require Import Prelude Types World Dates.

Module Insights.

Inductive RiskLevel : Type := low | moderate | high.

#[export] Instance RiskLevel_eq_dec : EqDecision RiskLevel.
Proof. solve_decision. Defined.

Record InsightResult : Type := mkInsight {
  activity : string;
  riskLevel : RiskLevel;
  summary : string;
  tips : list string;
}.

(** The risk as the template literal prints it. *)
Definition risk_name (r : RiskLevel) : string :=
  match r with low => "low" | moderate => "moderate" | high => "high" end.

(** The order of the levels. *)
Definition rank (r : RiskLevel) : nat :=
  match r with low => 0 | moderate => 1 | high => 2 end.

(** [c.toLowerCase()] on one character. *)
Definition lower_ascii (c : Ascii.ascii) : Ascii.ascii :=
  let n := Ascii.nat_of_ascii c in
  if (65 <=? n)%nat && (n <=? 90)%nat then Ascii.ascii_of_nat (n + 32) else c.

(** [s.toLowerCase()] *)
Fixpoint toLowerCase (s : string) : string :=
  match s with
  | EmptyString => EmptyString
  | String c s' => String (lower_ascii c) (toLowerCase s')
  end.

(** [s.includes(sub)] *)
Fixpoint includes (s sub : string) : bool :=
  String.prefix sub s ||
  match s with
  | EmptyString => false
  | String _ s' => includes s' sub
  end.

(** [rainRiskPct(forecast)] *)
Definition rainRiskPct (forecast : option Forecast) : Q :=
  match forecast with
  | None => 0
  | Some f =>
      let days := js_slice0 1 (days f) in
      default 0%Q (js_max (((λ d, nullish (chanceOfRainPct d) 0%Q) <$> days) ++ [0%Q]))
  end.

(** The risk and the tips so far. *)
Definition Acc : Type := RiskLevel * list string.

(** The rain test. *)
Definition rain_stage (rainChance : Q) (cond : string) (acc : Acc) : Acc :=
  if (rainChance >=? 70) || includes cond "rain" || includes cond "storm" then
    (high, acc.2 ++ ["Carry waterproof gear or reschedule if possible."])
  else if rainChance >=? 40 then
    (moderate, acc.2 ++ ["Light rain possible. Check radar before heading out."])
  else acc.

(** The wind test. *)
Definition wind_stage (wind : Q) (acc : Acc) : Acc :=
  if wind >=? 40 then
    (high, acc.2 ++ ["Strong winds expected. Avoid exposed areas."])
  else if (wind >=? 25) && negb (bool_decide (acc.1 = high)) then
    (moderate, acc.2 ++ ["Gusty conditions. Secure loose items and be cautious."])
  else acc.

(** The heat and cold test. *)
Definition temp_stage (tempC : Q) (acc : Acc) : Acc :=
  if tempC >=? 32 then
    (high, acc.2 ++ ["High heat risk. Hydrate, use sunscreen, and limit exposure."])
  else if (tempC >=? 26) && negb (bool_decide (acc.1 = high)) then
    (moderate, acc.2 ++ ["Warm conditions. Hydrate well and pace yourself."])
  else if num_le tempC (-5) then
    (high, acc.2 ++ ["Extreme cold. Layer up and limit time outside."])
  else if num_le tempC 5 && negb (bool_decide (acc.1 = high)) then
    (moderate, acc.2 ++ ["Cold conditions. Wear warm layers and protect extremities."])
  else acc.

(** The tips of the activity. *)
Definition activity_tips (a : string) (wind rainChance : Q) : list string :=
  if includes a "running" || includes a "cycling" then
    (if wind >=? 30 then ["Plan route to avoid headwinds."] else [])
    ++ ["Warm up properly and monitor hydration."]
  else if includes a "hiking" then
    ["Check trail conditions and bring appropriate footwear."]
  else if includes a "picnic" || includes a "outdoor" then
    (if rainChance >=? 40 then ["Have a backup indoor location."] else [])
    ++ ["Pack shade and water; check UV index."]
  else [].

Section insights.
Context {host : Host}.

(** [assessActivity(activity, current, forecast)] *)
Definition assessActivity (activity : string) (current : CurrentWeather)
    (forecast : option Forecast) : InsightResult :=
  let rainChance := rainRiskPct forecast in
  let wind := nullish (windKph current) 0%Q in
  let tempC := temperatureC current in
  let cond := toLowerCase (default "" (js_or (text (condition current)) None)) in
  let acc := temp_stage tempC (wind_stage wind (rain_stage rainChance cond (low, []))) in
  let tips := acc.2 ++ activity_tips (toLowerCase activity) wind rainChance in
  let summary :=
    "Risk for " +:+ activity +:+ ": " +:+ risk_name acc.1 +:+ ". Temp "
    +:+ numToString (inject_Z (js_round tempC)) +:+ "Â°C, wind "
    +:+ numToString (inject_Z (js_round wind)) +:+ " kph, rain chance "
    +:+ numToString rainChance +:+ "%" in
  mkInsight activity acc.1 summary tips.

(** ** The rain risk *)

(** The rain risk is that of the first day of the forecast, and zero when
    there is none or its chance is missing or negative. *)
Lemma rainRiskPct_first (f : Forecast) :
  rainRiskPct (Some f) =
  match days f with
  | [] => 0%Q
  | d :: _ => Qmax (nullish (chanceOfRainPct d) 0%Q) 0
  end.
Proof. unfold rainRiskPct. by destruct (days f). Qed.

Lemma rainRiskPct_nonneg forecast : (0 <= rainRiskPct forecast)%Q.
Proof.
  destruct forecast as [f|]; [|done]. rewrite rainRiskPct_first.
  destruct (days f); [done|]. apply Q.le_max_r.
Qed.

(** ** The risk *)

(** The weather as the tests see it. *)
Record Signals : Type := mkSignals {
  rainChance : Q;
  cond : string;
  wind : Q;
  tempC : Q;
}.

Definition signals_of (current : CurrentWeather) (forecast : option Forecast)
    : Signals :=
  mkSignals (rainRiskPct forecast)
    (toLowerCase (default "" (js_or (text (condition current)) None)))
    (nullish (windKph current) 0%Q) (temperatureC current).

Definition risk_of (x : Signals) : Acc :=
  temp_stage (tempC x) (wind_stage (wind x) (rain_stage (rainChance x) (cond x) (low, []))).

(** The conditions that make the risk high, and those that make it at
    least moderate. *)
Definition severe (x : Signals) : Prop :=
  (70 <= rainChance x)%Q ∨ includes (cond x) "rain" = true
  ∨ includes (cond x) "storm" = true ∨ (40 <= wind x)%Q
  ∨ (32 <= tempC x)%Q ∨ (tempC x <= -5)%Q.

Definition notable (x : Signals) : Prop :=
  severe x ∨ (40 <= rainChance x)%Q ∨ (25 <= wind x)%Q
  ∨ (26 <= tempC x)%Q ∨ (tempC x <= 5)%Q.

(** Every test of the stages as a proposition on the numbers. *)
Ltac tests :=
  repeat match goal with
  | H : (_ >=? _) = true |- _ => apply num_ge_spec in H
  | H : (_ >=? _) = false |- _ => apply num_ge_false in H
  | H : num_le _ _ = true |- _ => apply num_le_spec in H
  | H : num_le _ _ = false |- _ => apply num_le_false in H
  end.

Ltac close := first [done | lra | congruence].
Ltac pick := first [close | left; close | right; pick].
Ltac refute := intros; destruct_and?; destruct_or?; close.

(** A statement about one stage, by the cases of its tests. *)
Ltac stage :=
  intros; simpl;
  repeat match goal with
  | |- context [?x >=? ?y] => destruct (x >=? y) eqn:?
  | |- context [num_le ?x ?y] => destruct (num_le x y) eqn:?
  | |- context [includes ?x ?y] => destruct (includes x y) eqn:?
  | |- context [bool_decide ?P] => destruct (bool_decide_reflect P)
  end; simpl; tests;
  (split; [first [done|intros _; first [pick|split; close]]|first [done|refute]]).

Lemma rain_stage_high r c :
  (rain_stage r c (low, [])).1 = high
  ↔ (70 <= r)%Q ∨ includes c "rain" = true ∨ includes c "storm" = true.
Proof. unfold rain_stage. stage. Qed.

Lemma rain_stage_low r c :
  (rain_stage r c (low, [])).1 = low
  ↔ (r < 40)%Q ∧ includes c "rain" = false ∧ includes c "storm" = false.
Proof.
  unfold rain_stage.
  destruct (r >=? 70) eqn:?, (includes c "rain"), (includes c "storm"),
    (r >=? 40) eqn:?; simpl; tests; split; first [done|refute|split; close].
Qed.

Lemma wind_stage_high w acc :
  (wind_stage w acc).1 = high ↔ (40 <= w)%Q ∨ acc.1 = high.
Proof. unfold wind_stage. destruct acc as [[] l]; stage. Qed.

Lemma wind_stage_low w acc :
  (wind_stage w acc).1 = low ↔ (w < 25)%Q ∧ acc.1 = low.
Proof. unfold wind_stage. destruct acc as [[] l]; stage. Qed.

Lemma temp_stage_high t acc :
  (temp_stage t acc).1 = high ↔ (32 <= t)%Q ∨ (t <= -5)%Q ∨ acc.1 = high.
Proof. unfold temp_stage. destruct acc as [[] l]; stage. Qed.

Lemma temp_stage_low t acc :
  (temp_stage t acc).1 = low ↔ (5 < t)%Q ∧ (t < 26)%Q ∧ acc.1 = low.
Proof.
  unfold temp_stage. destruct acc as [[] l]; simpl;
    destruct (t >=? 32) eqn:?, (t >=? 26) eqn:?, (num_le t (-5)) eqn:?,
      (num_le t 5) eqn:?; simpl; tests;
    split; first [done|refute|split_and!; close].
Qed.

Lemma risk_of_high x : (risk_of x).1 = high ↔ severe x.
Proof.
  unfold risk_of, severe.
  rewrite temp_stage_high, wind_stage_high, rain_stage_high. tauto.
Qed.

Lemma risk_of_low x : (risk_of x).1 = low ↔ ¬ notable x.
Proof.
  unfold risk_of, notable, severe.
  rewrite temp_stage_low, wind_stage_low, rain_stage_low.
  rewrite <-!not_true_iff_false. split; [intros (?&?&?&?&?&?)|intros Hn].
  - intros ?. destruct_or?; close.
  - split_and!; first [apply Qnot_le_lt|idtac]; intros ?; apply Hn; tauto.
Qed.

Lemma assessActivity_risk a current forecast :
  riskLevel (assessActivity a current forecast)
  = (risk_of (signals_of current forecast)).1.
Proof. done. Qed.

(** C37: the risk is high exactly when it rains hard or is likely to, the
    wind reaches 40 kph, or the temperature reaches 32 degrees or falls to
    5 below zero; no later test lowers a risk an earlier one raised. *)
Theorem assessActivity_high a current forecast :
  riskLevel (assessActivity a current forecast) = high
  ↔ severe (signals_of current forecast).
Proof. rewrite assessActivity_risk. apply risk_of_high. Qed.

(** The risk is low exactly when no test holds, at either level. *)
Theorem assessActivity_low a current forecast :
  riskLevel (assessActivity a current forecast) = low
  ↔ ¬ notable (signals_of current forecast).
Proof. rewrite assessActivity_risk. apply risk_of_low. Qed.

(** ** The tips *)

(** Each stage adds at most one tip and keeps those before it. *)
Lemma rain_stage_tips r c acc :
  ∃ new, (rain_stage r c acc).2 = acc.2 ++ new ∧ (length new ≤ 1)%nat.
Proof.
  unfold rain_stage. repeat case_match; simpl;
    first [by exists []; rewrite app_nil_r; auto | eexists [_]; auto].
Qed.

Lemma wind_stage_tips w acc :
  ∃ new, (wind_stage w acc).2 = acc.2 ++ new ∧ (length new ≤ 1)%nat.
Proof.
  unfold wind_stage. repeat case_match; simpl;
    first [by exists []; rewrite app_nil_r; auto | eexists [_]; auto].
Qed.

Lemma temp_stage_tips t acc :
  ∃ new, (temp_stage t acc).2 = acc.2 ++ new ∧ (length new ≤ 1)%nat.
Proof.
  unfold temp_stage. repeat case_match; simpl;
    first [by exists []; rewrite app_nil_r; auto | eexists [_]; auto].
Qed.

Lemma activity_tips_length a w r : (length (activity_tips a w r) ≤ 2)%nat.
Proof. unfold activity_tips. repeat case_match; simpl; lia. Qed.

(** An assessment carries at most five tips: one for each of the three
    tests and two for the activity. *)
Theorem assessActivity_tips_bound a current forecast :
  (length (tips (assessActivity a current forecast)) ≤ 5)%nat.
Proof.
  unfold assessActivity. simpl. rewrite length_app.
  pose proof (activity_tips_length (toLowerCase a)
    (nullish (windKph current) 0%Q) (rainRiskPct forecast)).
  destruct (temp_stage_tips (temperatureC current)
    (wind_stage (nullish (windKph current) 0%Q)
       (rain_stage (rainRiskPct forecast)
          (toLowerCase (default "" (js_or (text (condition current)) None)))
          (low, [])))) as (n3 & -> & ?).
  destruct (wind_stage_tips (nullish (windKph current) 0%Q)
    (rain_stage (rainRiskPct forecast)
       (toLowerCase (default "" (js_or (text (condition current)) None)))
       (low, []))) as (n2 & -> & ?).
  destruct (rain_stage_tips (rainRiskPct forecast)
    (toLowerCase (default "" (js_or (text (condition current)) None)))
    (low, [])) as (n1 & -> & ?).
  rewrite !length_app. simpl. lia.
Qed.

(** A stage that raises the risk says why. *)
Lemma risk_of_tips x : (risk_of x).1 ≠ low → (risk_of x).2 ≠ [].
Proof.
  destruct x as [r c w t]. unfold risk_of. simpl. intros Hr Ht. apply Hr.
  unfold temp_stage, wind_stage, rain_stage in *.
  repeat case_match; simplify_eq/=; try done;
    by apply (f_equal length) in Ht; rewrite ?length_app in Ht; simpl in Ht; lia.
Qed.

(** An assessment whose risk is not low carries a tip that says
    why. *)
Theorem assessActivity_explains a current forecast :
  riskLevel (assessActivity a current forecast) ≠ low →
  tips (assessActivity a current forecast) ≠ [].
Proof.
  intros Hr. apply (risk_of_tips (signals_of current forecast)) in Hr.
  unfold assessActivity. simpl. by intros [? _]%app_eq_nil.
Qed.

(** Only the first day of the forecast counts: two forecasts with the
    same first day give the same assessment. *)
Theorem assessActivity_first_day a current f f' :
  head (days f) = head (days f') →
  assessActivity a current (Some f) = assessActivity a current (Some f').
Proof.
  intros Hd. unfold assessActivity. rewrite !rainRiskPct_first.
  by destruct (days f), (days f'); simplify_eq/=.
Qed.

End insights.

(** ** Examples *)

Import Dates.

Definition weather (t : Q) (w : option Q) (c : option string) : CurrentWeather :=
  mkCurrentWeather "weatherapi" (mkLocation "London" 51.5 (-0.1) None) ""
    t (celsiusToFahrenheit t) None None None w None None None None
    (mkCondition c None None).

Definition rainy_day (p : Q) : ForecastDay :=
  mkForecastDay "2024-03-01" None None None None None None (Some p) None None.

Definition outlook (ps : list Q) : Forecast :=
  mkForecast "weatherapi" (mkLocation "London" 51.5 (-0.1) None) (rainy_day <$> ps).

(** A mild day with a 45 % chance of rain: moderate, and a picnic is told
    to have a place indoors. *)
Example picnic_example :
  assessActivity "Picnic in the park" (weather 18.4 (Some 12.6%Q) (Some "Cloudy"))
    (Some (outlook [45; 90]%Q))
  = mkInsight "Picnic in the park" moderate
      "Risk for Picnic in the park: moderate. Temp 18Â°C, wind 13 kph, rain chance 45%"
      ["Light rain possible. Check radar before heading out.";
       "Have a backup indoor location.";
       "Pack shade and water; check UV index."].
Proof. by vm_compute. Qed.

(** Heavy rain reported, whatever the forecast says. *)
Example storm_example :
  riskLevel (assessActivity "Cycling" (weather 20 None (Some "Thunderstorm")) None)
  = high.
Proof. by vm_compute. Qed.

Lemma assessActivity_explains_witness :
  tips (assessActivity "Cycling" (weather 20 None (Some "Thunderstorm")) None)
  ≠ [].
Proof. by apply assessActivity_explains. Defined.

Lemma assessActivity_first_day_witness :
  assessActivity "Hiking" (weather 3 None None) (Some (outlook [45; 90]%Q))
  = assessActivity "Hiking" (weather 3 None None) (Some (outlook [45; 10; 0]%Q)).
Proof. by apply assessActivity_first_day. Defined.

End Insights.
