(* ===== verification/Aggregator.v ===== *)
(** * Aggregator: cache, then providers in priority order

    [weather/aggregator.ts]: the three stores, the cache key and the three
    operations.  Each operation reads its store and answers from it on a
    hit; on a miss it asks WeatherAPI when its key is configured, absorbing
    and logging a failure, then OpenWeather when nothing was obtained and
    its key is configured (current conditions and forecast only), and
    stores what it obtained.

    The operations are written against the store interface [TtlStore]; the
    stores of the program are least-recently-used caches of 500 entries
    ([Cache.LRU_store]). *)

From S2P Require Import Prelude Types Upstream World Dates Cache WeatherApi OpenWeather.
Import Cache.

Module Aggregator.

Section aggregator.
Context {host : Host} {net : Net} {C : Type → Type} {store : TtlStore C}
  (config : Config).

(** The state of the module: the system and the three stores. *)
Record State : Type := mkState {
  sys : Sys;
  currentCache : C CurrentWeather;
  forecastCache : C Forecast;
  historicalCache : C HistoricalWeather;
}.

Definition set_sys (y : Sys) (s : State) : State :=
  mkState y (currentCache s) (forecastCache s) (historicalCache s).

(** A computation on the system, run on the system of the module. *)
Definition liftSys {A} (m : M Sys A) : M State A := zoom sys set_sys m.

(** [JSON.stringify] of an object, given its defined fields in order. *)
Definition json_object (fields : list string) : string :=
  "{" +:+ String.concat "," fields +:+ "}".

(** A field of an object: absent when its value is undefined. *)
Definition json_field (name : string) (value : option string) : list string :=
  match value with
  | Some v => [jsonString name +:+ ":" +:+ v]
  | None => []
  end.

(** [JSON.stringify(q)] *)
Definition stringify_query (q : LocationQuery) : string :=
  json_object (json_field "city" (jsonString <$> city q)
    ++ json_field "country" (jsonString <$> country q)
    ++ json_field "lat" (numToString <$> lat q)
    ++ json_field "lon" (numToString <$> lon q)).

(** [keyOf(prefix, q, extra)], [extra] given by its fields. *)
Definition keyOf (prefix : string) (q : LocationQuery) (extra : list string)
    : string :=
  prefix +:+ ":" +:+ stringify_query q +:+ ":" +:+ json_object extra.

Definition units_field (units : Units) : list string :=
  json_field "units" (Some (jsonString units)).

Definition noProvider : Error :=
  mkError "No weather provider available. Please set API keys in .env".

Definition noHistorical : Error :=
  mkError "Historical data not available with current configuration.".

(** [currentCache.get(key)] *)
Definition current_get (key : string) : M State (option CurrentWeather) :=
  λ s, let '(r, c) := store_get (clock (sys s)) key (currentCache s) in
       (Ok r, mkState (sys s) c (forecastCache s) (historicalCache s)).

(** [currentCache.set(key, data)] *)
Definition current_set (key : string) (data : CurrentWeather) : M State unit :=
  λ s, (Ok tt, mkState (sys s)
                 (store_set (clock (sys s)) key data (currentCache s))
                 (forecastCache s) (historicalCache s)).

Definition forecast_get (key : string) : M State (option Forecast) :=
  λ s, let '(r, c) := store_get (clock (sys s)) key (forecastCache s) in
       (Ok r, mkState (sys s) (currentCache s) c (historicalCache s)).

Definition forecast_set (key : string) (data : Forecast) : M State unit :=
  λ s, (Ok tt, mkState (sys s) (currentCache s)
                 (store_set (clock (sys s)) key data (forecastCache s))
                 (historicalCache s)).

Definition historical_get (key : string) : M State (option HistoricalWeather) :=
  λ s, let '(r, c) := store_get (clock (sys s)) key (historicalCache s) in
       (Ok r, mkState (sys s) (currentCache s) (forecastCache s) c).

Definition historical_set (key : string) (data : HistoricalWeather)
    : M State unit :=
  λ s, (Ok tt, mkState (sys s) (currentCache s) (forecastCache s)
                 (store_set (clock (sys s)) key data (historicalCache s))).

(** [try { data = await call } catch (e) { console.warn(line, e.message) }]
    when the provider's key is configured; [null] otherwise and on
    failure. *)
Definition attempt {A} (key line : string) (call : M Sys A) : M State (option A) :=
  if nonempty key then
    try_catch (let! a := liftSys call in ret (Some a))
      (λ e, liftSys (console_log (line +:+ " " +:+ message e)) ;; ret None)
  else ret None.

(** [if (!data && key) data = await call]: the last provider is not
    guarded, its failure is the caller's. *)
Definition fallback {A} (data : option A) (key : string) (call : M Sys A)
    : M State (option A) :=
  match data with
  | Some a => ret (Some a)
  | None =>
      if nonempty key then let! a := liftSys call in ret (Some a)
      else ret None
  end.

(** [getCurrentWeather(q, units)] *)
Definition getCurrentWeather (q : LocationQuery) (units : Units)
    : M State CurrentWeather :=
  let key := keyOf "current" q (units_field units) in
  let! cached := current_get key in
  match cached with
  | Some w => ret w
  | None =>
      let! data := attempt (weatherApiKey config)
        "WeatherAPI current failed, falling back to OpenWeather:"
        (wa.getCurrent config q) in
      let! data := fallback data (openWeatherApiKey config)
        (ow.getCurrent config q units) in
      match data with
      | None => throw noProvider
      | Some w => current_set key w ;; ret w
      end
  end.

(** [getForecast(q, units, days)] *)
Definition getForecast (q : LocationQuery) (units : Units) (days : Q)
    : M State Forecast :=
  let key := keyOf "forecast" q
    (units_field units ++ json_field "days" (Some (numToString days))) in
  let! cached := forecast_get key in
  match cached with
  | Some f => ret f
  | None =>
      let! data := attempt (weatherApiKey config)
        "WeatherAPI forecast failed, falling back to OpenWeather:"
        (wa.getForecast config q days) in
      let! data := fallback data (openWeatherApiKey config)
        (ow.getForecast config q units days) in
      match data with
      | None => throw noProvider
      | Some f => forecast_set key f ;; ret f
      end
  end.

(** [getHistorical(q, dateISO)]: WeatherAPI only. *)
Definition getHistorical (q : LocationQuery) (dateISO : string)
    : M State HistoricalWeather :=
  let key := keyOf "historical" q (json_field "dateISO" (Some (jsonString dateISO))) in
  let! cached := historical_get key in
  match cached with
  | Some h => ret h
  | None =>
      let! data := attempt (weatherApiKey config) "WeatherAPI historical failed:"
        (wa.getHistorical config q dateISO) in
      match data with
      | None => throw noHistorical
      | Some h => historical_set key h ;; ret h
      end
  end.

(** ** The steps of an operation *)

Lemma liftSys_run {A} (m : M Sys A) s :
  liftSys m s = ((m (sys s)).1, set_sys (m (sys s)).2 s).
Proof. unfold liftSys, zoom. by destruct (m (sys s)). Qed.

Lemma attempt_unconfigured {A} key line (call : M Sys A) s :
  nonempty key = false → attempt key line call s = (Ok None, s).
Proof. unfold attempt. by intros ->. Qed.

Lemma attempt_success {A} key line (call : M Sys A) s a y :
  nonempty key = true → call (sys s) = (Ok a, y) →
  attempt key line call s = (Ok (Some a), set_sys y s).
Proof.
  unfold attempt, try_catch, bind, ret. intros -> Hc.
  by rewrite liftSys_run, Hc.
Qed.

(** A failure of a guarded provider is logged and absorbed. *)
Lemma attempt_failure {A} key line (call : M Sys A) s e y :
  nonempty key = true → call (sys s) = (Throw e, y) →
  attempt key line call s =
  (Ok None, set_sys (console_log (line +:+ " " +:+ message e) y).2 s).
Proof.
  unfold attempt, try_catch, bind, ret. intros -> Hc.
  by rewrite liftSys_run, Hc.
Qed.

(** A guarded provider never makes the operation throw. *)
Lemma attempt_total {A} key line (call : M Sys A) s :
  ∃ r s', attempt key line call s = (Ok r, s').
Proof.
  destruct (nonempty key) eqn:Hk; [|by erewrite attempt_unconfigured by done; eauto].
  destruct (call (sys s)) as [[a|e] y] eqn:Hc.
  - erewrite attempt_success by done. eauto.
  - erewrite attempt_failure by done. eauto.
Qed.

Lemma fallback_have {A} (a : A) key (call : M Sys A) s :
  fallback (Some a) key call s = (Ok (Some a), s).
Proof. done. Qed.

Lemma fallback_unconfigured {A} key (call : M Sys A) s :
  nonempty key = false → fallback None key call s = (Ok None, s).
Proof. unfold fallback. by intros ->. Qed.

Lemma fallback_success {A} key (call : M Sys A) s a y :
  nonempty key = true → call (sys s) = (Ok a, y) →
  fallback None key call s = (Ok (Some a), set_sys y s).
Proof.
  unfold fallback, bind, ret. intros -> Hc. by rewrite liftSys_run, Hc.
Qed.

(** A failure of the last provider is not absorbed. *)
Lemma fallback_failure {A} key (call : M Sys A) s e y :
  nonempty key = true → call (sys s) = (Throw e, y) →
  fallback None key call s = (Throw e, set_sys y s).
Proof.
  unfold fallback, bind, ret. intros -> Hc. by rewrite liftSys_run, Hc.
Qed.

(** ** The chain of providers *)

(** The two-provider chain of the current and forecast operations. *)
Definition chain2 {A} (k1 line : string) (c1 : M Sys A) (k2 : string)
    (c2 : M Sys A) : M State (option A) :=
  let! data := attempt k1 line c1 in fallback data k2 c2.

(** A computation that leaves the stores alone. *)
Definition frames {A} (m : M State A) : Prop :=
  ∀ s, (m s).2 = set_sys (sys (m s).2) s.

(** What a computation can answer. *)
Definition yields {S A} (m : M S A) (P : A → Prop) : Prop :=
  ∀ s a s', m s = (Ok a, s') → P a.

(** A computation under which the requests sent and the clock only grow. *)
Definition grows {A} (m : M State A) : Prop :=
  ∀ s, sys_le (sys s) (sys (m s).2).

Section chain.
Context {A : Type} (k1 line : string) (c1 : M Sys A) (k2 : string)
  (c2 : M Sys A).

Lemma chain2_first s a y :
  nonempty k1 = true → c1 (sys s) = (Ok a, y) →
  chain2 k1 line c1 k2 c2 s = (Ok (Some a), set_sys y s).
Proof. intros. unfold chain2, bind. by erewrite attempt_success by done. Qed.

Lemma chain2_fallback s e y1 a y2 :
  nonempty k1 = true → nonempty k2 = true →
  c1 (sys s) = (Throw e, y1) →
  c2 (console_log (line +:+ " " +:+ message e) y1).2 = (Ok a, y2) →
  chain2 k1 line c1 k2 c2 s = (Ok (Some a), set_sys y2 s).
Proof.
  intros. unfold chain2, bind. erewrite attempt_failure by done.
  by erewrite fallback_success by done.
Qed.

Lemma chain2_second s a y :
  nonempty k1 = false → nonempty k2 = true → c2 (sys s) = (Ok a, y) →
  chain2 k1 line c1 k2 c2 s = (Ok (Some a), set_sys y s).
Proof.
  intros. unfold chain2, bind. rewrite attempt_unconfigured by done.
  by erewrite fallback_success by done.
Qed.

Lemma chain2_unconfigured s :
  nonempty k1 = false → nonempty k2 = false →
  chain2 k1 line c1 k2 c2 s = (Ok None, s).
Proof.
  intros. unfold chain2, bind. rewrite attempt_unconfigured by done.
  by rewrite fallback_unconfigured by done.
Qed.

Lemma chain2_last_fails s e y :
  nonempty k1 = false → nonempty k2 = true → c2 (sys s) = (Throw e, y) →
  chain2 k1 line c1 k2 c2 s = (Throw e, set_sys y s).
Proof.
  intros. unfold chain2, bind. rewrite attempt_unconfigured by done.
  by erewrite fallback_failure by done.
Qed.

Lemma chain2_both_fail s e1 y1 e2 y2 :
  nonempty k1 = true → nonempty k2 = true →
  c1 (sys s) = (Throw e1, y1) →
  c2 (console_log (line +:+ " " +:+ message e1) y1).2 = (Throw e2, y2) →
  chain2 k1 line c1 k2 c2 s = (Throw e2, set_sys y2 s).
Proof.
  intros. unfold chain2, bind. erewrite attempt_failure by done.
  by erewrite fallback_failure by done.
Qed.

Lemma chain2_only_fails s e y :
  nonempty k1 = true → nonempty k2 = false → c1 (sys s) = (Throw e, y) →
  chain2 k1 line c1 k2 c2 s =
  (Ok None, set_sys (console_log (line +:+ " " +:+ message e) y).2 s).
Proof.
  intros. unfold chain2, bind. erewrite attempt_failure by done.
  by rewrite fallback_unconfigured by done.
Qed.

Lemma attempt_frames : frames (attempt k1 line c1).
Proof.
  intros s. destruct (nonempty k1) eqn:Hk;
    [|by rewrite attempt_unconfigured by done; destruct s].
  destruct (c1 (sys s)) as [[a|e] y] eqn:Hc.
  - by erewrite attempt_success by done.
  - by erewrite attempt_failure by done.
Qed.

Lemma fallback_frames data : frames (fallback data k2 c2).
Proof.
  intros s. destruct data as [a|]; [by destruct s|].
  unfold fallback. destruct (nonempty k2); [|by destruct s].
  unfold bind. rewrite liftSys_run. by destruct (c2 (sys s)) as [[] ?].
Qed.

Lemma chain2_frames : frames (chain2 k1 line c1 k2 c2).
Proof.
  intros s. unfold chain2, bind. pose proof (attempt_frames s) as H1.
  destruct (attempt k1 line c1 s) as [[data|e] s1]; simpl in *; [|done].
  rewrite (fallback_frames data s1), H1. by destruct s.
Qed.

Lemma attempt_yields (P : A → Prop) :
  yields c1 P → yields (attempt k1 line c1) (from_option P True).
Proof.
  intros H1 s r s'. destruct (nonempty k1) eqn:Hk;
    [|by rewrite attempt_unconfigured by done; intros [= <- _]].
  destruct (c1 (sys s)) as [[a|e] y] eqn:Hc.
  - erewrite attempt_success by done. intros [= <- _]. by eapply H1.
  - erewrite attempt_failure by done. by intros [= <- _].
Qed.

Lemma fallback_yields (P : A → Prop) data :
  from_option P True data → yields c2 P →
  yields (fallback data k2 c2) (from_option P True).
Proof.
  intros Hd H2 s r s'. destruct data as [a|]; [by intros [= <- _]|].
  unfold fallback. destruct (nonempty k2); [|by intros [= <- _]].
  unfold bind. rewrite liftSys_run.
  destruct (c2 (sys s)) as [[a|e] y] eqn:Hc; [|done].
  intros [= <- _]. by eapply H2.
Qed.

Lemma chain2_yields (P : A → Prop) :
  yields c1 P → yields c2 P →
  yields (chain2 k1 line c1 k2 c2) (from_option P True).
Proof.
  intros H1 H2 s r s'. unfold chain2, bind.
  destruct (attempt k1 line c1 s) as [[data|e] s1] eqn:Ha; [|done].
  apply fallback_yields; [|done]. by eapply (attempt_yields P H1).
Qed.

Lemma liftSys_grows (m : M Sys A) : monotone m → grows (liftSys m).
Proof. intros Hm s. rewrite liftSys_run. apply Hm. Qed.

Lemma attempt_grows : monotone c1 → grows (attempt k1 line c1).
Proof.
  intros H1 s. destruct (nonempty k1) eqn:Hk;
    [|by rewrite attempt_unconfigured by done].
  pose proof (H1 (sys s)) as Hs.
  destruct (c1 (sys s)) as [[a|e] y] eqn:Hc.
  - by erewrite attempt_success by done.
  - erewrite attempt_failure by done. simpl. etrans; [done|].
    apply console_log_le.
Qed.

Lemma fallback_grows data : monotone c2 → grows (fallback data k2 c2).
Proof.
  intros H2 s. destruct data as [a|]; [done|].
  unfold fallback. destruct (nonempty k2); [|done].
  unfold bind. rewrite liftSys_run. pose proof (H2 (sys s)).
  by destruct (c2 (sys s)) as [[] ?].
Qed.

Lemma chain2_grows :
  monotone c1 → monotone c2 → grows (chain2 k1 line c1 k2 c2).
Proof.
  intros H1 H2 s. unfold chain2, bind. pose proof (attempt_grows H1 s) as Ha.
  destruct (attempt k1 line c1 s) as [[data|e] s1]; [|done].
  etrans; [done|]. by apply fallback_grows.
Qed.

End chain.

(** ** The common shape of the three operations *)

(** A store of the module: how it is read from the state and put back. *)
Record Slot (A : Type) : Type := mkSlot {
  view : State → C A;
  update : C A → State → State;
  view_update c s : view (update c s) = c;
  sys_update c s : sys (update c s) = sys s;
  view_set_sys y s : view (set_sys y s) = view s;
  update_view s : update (view s) s = s;
}.
Arguments view {A} _ _.
Arguments update {A} _ _ _.

Definition currentSlot : Slot CurrentWeather.
Proof.
  by refine (mkSlot _ currentCache
    (λ c s, mkState (sys s) c (forecastCache s) (historicalCache s))
    _ _ _ _); intros; try destruct s.
Defined.

Definition forecastSlot : Slot Forecast.
Proof.
  by refine (mkSlot _ forecastCache
    (λ c s, mkState (sys s) (currentCache s) c (historicalCache s))
    _ _ _ _); intros; try destruct s.
Defined.

Definition historicalSlot : Slot HistoricalWeather.
Proof.
  by refine (mkSlot _ historicalCache
    (λ c s, mkState (sys s) (currentCache s) (forecastCache s) c)
    _ _ _ _); intros; try destruct s.
Defined.

(** Read, then the chain, then write. *)
Definition cached {A} (sl : Slot A) (key : string) (chain : M State (option A))
    (err : Error) : M State A :=
  λ s, let '(r, c) := store_get (clock (sys s)) key (view sl s) in
       match r with
       | Some a => (Ok a, update sl c s)
       | None =>
           match chain (update sl c s) with
           | (Ok (Some a), s1) =>
               (Ok a, update sl (store_set (clock (sys s1)) key a (view sl s1)) s1)
           | (Ok None, s1) => (Throw err, s1)
           | (Throw e, s1) => (Throw e, s1)
           end
       end.

Definition current_key (q : LocationQuery) (units : Units) : string :=
  keyOf "current" q (units_field units).

Definition forecast_key (q : LocationQuery) (units : Units) (days : Q) : string :=
  keyOf "forecast" q
    (units_field units ++ json_field "days" (Some (numToString days))).

Definition historical_key (q : LocationQuery) (dateISO : string) : string :=
  keyOf "historical" q (json_field "dateISO" (Some (jsonString dateISO))).

Definition current_chain q units : M State (option CurrentWeather) :=
  chain2 (weatherApiKey config)
    "WeatherAPI current failed, falling back to OpenWeather:"
    (wa.getCurrent config q) (openWeatherApiKey config)
    (ow.getCurrent config q units).

Definition forecast_chain q units days : M State (option Forecast) :=
  chain2 (weatherApiKey config)
    "WeatherAPI forecast failed, falling back to OpenWeather:"
    (wa.getForecast config q days) (openWeatherApiKey config)
    (ow.getForecast config q units days).

Definition historical_chain q dateISO : M State (option HistoricalWeather) :=
  attempt (weatherApiKey config) "WeatherAPI historical failed:"
    (wa.getHistorical config q dateISO).

Lemma getCurrentWeather_cached q units s :
  getCurrentWeather q units s =
  cached currentSlot (current_key q units) (current_chain q units) noProvider s.
Proof.
  unfold getCurrentWeather, cached, current_chain, chain2, current_get, bind.
  fold (current_key q units). simpl.
  destruct (store_get _ _ _) as [[w|] c]; [done|].
  destruct (attempt _ _ _ _) as [[data|e] s1]; [|done].
  by destruct (fallback _ _ _ _) as [[[w|]|e] s2].
Qed.

Lemma getForecast_cached q units days s :
  getForecast q units days s =
  cached forecastSlot (forecast_key q units days) (forecast_chain q units days)
    noProvider s.
Proof.
  unfold getForecast, cached, forecast_chain, chain2, forecast_get, bind.
  fold (forecast_key q units days). simpl.
  destruct (store_get _ _ _) as [[w|] c]; [done|].
  destruct (attempt _ _ _ _) as [[data|e] s1]; [|done].
  by destruct (fallback _ _ _ _) as [[[w|]|e] s2].
Qed.

Lemma getHistorical_cached q dateISO s :
  getHistorical q dateISO s =
  cached historicalSlot (historical_key q dateISO) (historical_chain q dateISO)
    noHistorical s.
Proof.
  unfold getHistorical, cached, historical_chain, historical_get, bind.
  fold (historical_key q dateISO). simpl.
  destruct (store_get _ _ _) as [[w|] c]; [done|].
  by destruct (attempt _ _ _ _) as [[[w|]|e] s1].
Qed.

(** ** What the shape gives *)

(** The answer of the store at the time of the state, the state after the
    read, and the state after a write. *)
Definition lookup {A} (sl : Slot A) (key : string) (s : State) : option A :=
  (store_get (clock (sys s)) key (view sl s)).1.

Definition read {A} (sl : Slot A) (key : string) (s : State) : State :=
  update sl (store_get (clock (sys s)) key (view sl s)).2 s.

Definition write {A} (sl : Slot A) (key : string) (a : A) (s : State) : State :=
  update sl (store_set (clock (sys s)) key a (view sl s)) s.

(** Two stores of the module that are not the same one. *)
Definition apart {A B} (sl : Slot A) (sl' : Slot B) : Prop :=
  ∀ c s, view sl' (update sl c s) = view sl' s.

(** Every record a store can answer satisfies [P]. *)
Definition holds {A} (sl : Slot A) (P : A → Prop) (s : State) : Prop :=
  ∀ now k a, (store_get now k (view sl s)).1 = Some a → P a.

Section cached.
Context {A : Type} (sl : Slot A) (key : string) (chain : M State (option A))
  (err : Error).

Lemma cached_hit s a :
  lookup sl key s = Some a → cached sl key chain err s = (Ok a, read sl key s).
Proof.
  unfold cached, lookup, read.
  destruct (store_get _ _ _) as [r c]; simpl. by intros ->.
Qed.

Lemma cached_miss s :
  lookup sl key s = None →
  cached sl key chain err s =
  match chain (read sl key s) with
  | (Ok (Some a), s1) => (Ok a, write sl key a s1)
  | (Ok None, s1) => (Throw err, s1)
  | (Throw e, s1) => (Throw e, s1)
  end.
Proof.
  unfold cached, lookup, read.
  destruct (store_get _ _ _) as [r c]; simpl. by intros ->.
Qed.

Lemma cached_stored s a s1 :
  lookup sl key s = None → chain (read sl key s) = (Ok (Some a), s1) →
  cached sl key chain err s = (Ok a, write sl key a s1).
Proof. intros Hm Hc. by rewrite cached_miss, Hc. Qed.

Lemma cached_none s s1 :
  lookup sl key s = None → chain (read sl key s) = (Ok None, s1) →
  cached sl key chain err s = (Throw err, s1).
Proof. intros Hm Hc. by rewrite cached_miss, Hc. Qed.

Lemma cached_throw s e s1 :
  lookup sl key s = None → chain (read sl key s) = (Throw e, s1) →
  cached sl key chain err s = (Throw e, s1).
Proof. intros Hm Hc. by rewrite cached_miss, Hc. Qed.

(** The store after the operation: the store after the read, with the
    answer of the chain written at the time the chain ended. *)
Lemma cached_view s :
  frames chain →
  view sl (cached sl key chain err s).2 =
  match lookup sl key s, chain (read sl key s) with
  | None, (Ok (Some a), s1) =>
      store_set (clock (sys s1)) key a (view sl (read sl key s))
  | _, _ => view sl (read sl key s)
  end.
Proof.
  intros Hf. destruct (lookup sl key s) as [a|] eqn:Hl.
  - by erewrite cached_hit by done.
  - rewrite cached_miss by done. pose proof (Hf (read sl key s)) as Hs.
    destruct (chain _) as [[[a|]|e] s1]; simpl in *; rewrite Hs;
      unfold write; by rewrite ?view_update, ?view_set_sys.
Qed.

Lemma cached_other {B} (sl' : Slot B) s :
  apart sl sl' → frames chain →
  view sl' (cached sl key chain err s).2 = view sl' s.
Proof.
  intros Ha Hf. destruct (lookup sl key s) as [a|] eqn:Hl.
  - erewrite cached_hit by done. apply Ha.
  - rewrite cached_miss by done. pose proof (Hf (read sl key s)) as Hs.
    destruct (chain _) as [[[a|]|e] s1]; simpl in *; rewrite Hs;
      unfold write, read; by rewrite ?Ha, view_set_sys, Ha.
Qed.

Lemma cached_ok s :
  frames chain → store_ok (view sl s) →
  store_ok (view sl (cached sl key chain err s).2).
Proof.
  intros Hf Hok. rewrite cached_view by done. unfold read.
  rewrite view_update. repeat case_match;
    auto using store_get_ok, store_set_ok.
Qed.

Lemma cached_ttl s :
  frames chain →
  store_ttl (view sl (cached sl key chain err s).2) = store_ttl (view sl s).
Proof.
  intros Hf. rewrite cached_view by done. unfold read.
  rewrite view_update. repeat case_match;
    by rewrite ?store_set_ttl, store_get_ttl.
Qed.

Lemma cached_grows : grows chain → grows (cached sl key chain err).
Proof.
  intros Hg s. destruct (lookup sl key s) as [a|] eqn:Hl.
  - erewrite cached_hit by done. unfold read. simpl. by rewrite sys_update.
  - rewrite cached_miss by done. pose proof (Hg (read sl key s)) as Hs.
    unfold read in Hs at 1. rewrite sys_update in Hs.
    destruct (chain _) as [[[a|]|e] s1]; simpl in *; try done.
    unfold write. by rewrite sys_update.
Qed.

(** What the store holds is what it held or what the chain answered. *)
Lemma cached_holds (P : A → Prop) s :
  frames chain → yields chain (from_option P True) → holds sl P s →
  holds sl P (cached sl key chain err s).2.
Proof.
  intros Hf Hy Hs now k a. rewrite cached_view by done. unfold read.
  rewrite view_update. destruct (lookup sl key s);
    [by intros ?%store_get_sound; eapply Hs|].
  destruct (chain _) as [[[a'|]|e] s1] eqn:Hc;
    try by intros ?%store_get_sound; eapply Hs.
  intros [[_ ->]|?%store_get_sound]%store_set_sound; [|by eapply Hs].
  by apply (Hy _ _ _ Hc).
Qed.

Lemma cached_yields (P : A → Prop) s a s' :
  yields chain (from_option P True) → holds sl P s →
  cached sl key chain err s = (Ok a, s') → P a.
Proof.
  intros Hy Hs. destruct (lookup sl key s) as [a'|] eqn:Hl.
  - erewrite cached_hit by done. intros [= <- _]. by eapply Hs.
  - rewrite cached_miss by done.
    destruct (chain _) as [[[a'|]|e] s1] eqn:Hc; try done.
    intros [= <- _]. by apply (Hy _ _ _ Hc).
Qed.

End cached.

(** After a miss answered by the chain, the record is in the store for the
    time to live: an operation on the same key then answers it from the
    store, whatever its chain. *)
Lemma cached_again {A} (sl : Slot A) key chain err chain' err' s a s1 s2 :
  frames chain → store_ok (view sl s) →
  lookup sl key s = None → cached sl key chain err s = (Ok a, s1) →
  view sl s2 = view sl s1 →
  (clock (sys s2) - clock (sys s1) ≤ store_ttl (view sl s))%Z →
  cached sl key chain' err' s2 = (Ok a, read sl key s2).
Proof.
  intros Hf Hok Hm Hc Hv Ht. apply cached_hit. unfold lookup. rewrite Hv.
  pose proof (cached_view sl key chain err s Hf) as Hs.
  rewrite Hc, Hm in Hs. simpl in Hs. rewrite cached_miss in Hc by done.
  destruct (chain _) as [[[a'|]|e] s0]; simplify_eq/=.
  rewrite Hs. unfold write, read in *. rewrite sys_update in Ht.
  rewrite view_update.
  apply store_hit; [by apply store_get_ok|by rewrite store_get_ttl].
Qed.

(** Once the time to live has passed the store no longer answers it. *)
Lemma cached_expired {A} (sl : Slot A) key chain err s a s1 s2 :
  frames chain →
  lookup sl key s = None → cached sl key chain err s = (Ok a, s1) →
  view sl s2 = view sl s1 →
  store_ttl (view sl s) ≠ 0%Z →
  (store_ttl (view sl s) < clock (sys s2) - clock (sys s1))%Z →
  lookup sl key s2 = None.
Proof.
  intros Hf Hm Hc Hv Hz Ht. unfold lookup. rewrite Hv.
  pose proof (cached_view sl key chain err s Hf) as Hs.
  rewrite Hc, Hm in Hs. simpl in Hs. rewrite cached_miss in Hc by done.
  destruct (chain _) as [[[a'|]|e] s0]; simplify_eq/=.
  rewrite Hs. unfold write, read in *. rewrite sys_update in Ht.
  rewrite view_update. apply store_expired; by rewrite store_get_ttl.
Qed.

(** ** Current conditions *)

Notation warn_current e :=
  (console_log ("WeatherAPI current failed, falling back to OpenWeather:"
                +:+ " " +:+ message e)).

(** C4: on a hit the stored record is the answer and nothing else happens:
    no provider is asked, no request is sent, the clock and the console are
    those of the call. *)
Theorem getCurrentWeather_hit q units s w :
  lookup currentSlot (current_key q units) s = Some w →
  getCurrentWeather q units s = (Ok w, read currentSlot (current_key q units) s)
  ∧ sys (read currentSlot (current_key q units) s) = sys s.
Proof. intros Hhit. rewrite getCurrentWeather_cached. by erewrite cached_hit. Qed.

(** C2: first success wins: on a miss, when WeatherAPI is configured and
    answers, its record is the answer, it is stored under the key at the
    time the request ended, and OpenWeather is not asked. *)
Theorem getCurrentWeather_first q units s w y :
  lookup currentSlot (current_key q units) s = None →
  nonempty (weatherApiKey config) = true →
  wa.getCurrent config q (sys s) = (Ok w, y) →
  getCurrentWeather q units s =
  (Ok w, write currentSlot (current_key q units) w
           (set_sys y (read currentSlot (current_key q units) s))).
Proof.
  intros Hm Hk Hwa. rewrite getCurrentWeather_cached.
  eapply cached_stored; [done|]. by apply chain2_first.
Qed.

(** C1: fallback: on a miss, when WeatherAPI is configured and fails and
    OpenWeather is configured and answers, OpenWeather's record is the
    answer and is stored; the failure is written to the console and does
    not reach the caller. *)
Theorem getCurrentWeather_fallback q units s e y1 w y2 :
  lookup currentSlot (current_key q units) s = None →
  nonempty (weatherApiKey config) = true →
  nonempty (openWeatherApiKey config) = true →
  wa.getCurrent config q (sys s) = (Throw e, y1) →
  ow.getCurrent config q units (warn_current e y1).2 = (Ok w, y2) →
  getCurrentWeather q units s =
  (Ok w, write currentSlot (current_key q units) w
           (set_sys y2 (read currentSlot (current_key q units) s))).
Proof.
  intros Hm Hk1 Hk2 Hwa How. rewrite getCurrentWeather_cached.
  eapply cached_stored; [done|]. by eapply chain2_fallback.
Qed.

(** C32: with no provider configured the operation fails with the terminal
    error, sends no request and writes nothing. *)
Theorem getCurrentWeather_unconfigured q units s :
  lookup currentSlot (current_key q units) s = None →
  nonempty (weatherApiKey config) = false →
  nonempty (openWeatherApiKey config) = false →
  getCurrentWeather q units s =
  (Throw noProvider, read currentSlot (current_key q units) s).
Proof.
  intros Hm Hk1 Hk2. rewrite getCurrentWeather_cached.
  eapply cached_none; [done|]. by apply chain2_unconfigured.
Qed.

(** C10: the failure of OpenWeather, the last provider, is not absorbed:
    when both providers fail the caller receives OpenWeather's own error,
    not the terminal one, and nothing is stored. *)
Theorem getCurrentWeather_both_fail q units s e1 y1 e2 y2 :
  lookup currentSlot (current_key q units) s = None →
  nonempty (weatherApiKey config) = true →
  nonempty (openWeatherApiKey config) = true →
  wa.getCurrent config q (sys s) = (Throw e1, y1) →
  ow.getCurrent config q units (warn_current e1 y1).2 = (Throw e2, y2) →
  getCurrentWeather q units s =
  (Throw e2, set_sys y2 (read currentSlot (current_key q units) s)).
Proof.
  intros Hm Hk1 Hk2 Hwa How. rewrite getCurrentWeather_cached.
  eapply cached_throw; [done|]. by eapply chain2_both_fail.
Qed.

(** When WeatherAPI alone is configured and fails, the caller receives
    the terminal error, the same as when nothing is configured; the cause
    is on the console only. *)
Theorem getCurrentWeather_only_fails q units s e y :
  lookup currentSlot (current_key q units) s = None →
  nonempty (weatherApiKey config) = true →
  nonempty (openWeatherApiKey config) = false →
  wa.getCurrent config q (sys s) = (Throw e, y) →
  getCurrentWeather q units s =
  (Throw noProvider,
   set_sys (warn_current e y).2 (read currentSlot (current_key q units) s)).
Proof.
  intros Hm Hk1 Hk2 Hwa. rewrite getCurrentWeather_cached.
  eapply cached_none; [done|]. by eapply chain2_only_fails.
Qed.

(** C3: idempotence within the time to live: after a miss that was
    answered, a call with the same query and units made no later than the
    time to live after the first one ended gives the same record from the
    store and sends no request. *)
Theorem getCurrentWeather_again q units s w s1 s2 :
  store_ok (currentCache s) →
  lookup currentSlot (current_key q units) s = None →
  getCurrentWeather q units s = (Ok w, s1) →
  currentCache s2 = currentCache s1 →
  (clock (sys s2) - clock (sys s1) ≤ store_ttl (currentCache s))%Z →
  (getCurrentWeather q units s2).1 = Ok w
  ∧ sys (getCurrentWeather q units s2).2 = sys s2.
Proof.
  intros Hok Hm Hc Hv Ht. rewrite getCurrentWeather_cached in Hc.
  rewrite getCurrentWeather_cached.
  by erewrite (cached_again currentSlot) by eauto using chain2_frames.
Qed.

(** Expiry: once the time to live, when it is not zero, has passed
    since the first call ended, a call with the same query and units asks
    the providers again and answers what WeatherAPI answers then. *)
Theorem getCurrentWeather_refetch q units s w s1 s2 w' y :
  lookup currentSlot (current_key q units) s = None →
  getCurrentWeather q units s = (Ok w, s1) →
  currentCache s2 = currentCache s1 →
  store_ttl (currentCache s) ≠ 0%Z →
  (store_ttl (currentCache s) < clock (sys s2) - clock (sys s1))%Z →
  nonempty (weatherApiKey config) = true →
  wa.getCurrent config q (sys s2) = (Ok w', y) →
  (getCurrentWeather q units s2).1 = Ok w'.
Proof.
  intros Hm Hc Hv Hz Ht Hk Hwa. rewrite getCurrentWeather_cached in Hc.
  rewrite getCurrentWeather_cached. erewrite cached_stored; [done| |].
  - eapply (cached_expired currentSlot); eauto using chain2_frames.
  - by apply chain2_first.
Qed.

(** ** Forecast *)

Notation warn_forecast e :=
  (console_log ("WeatherAPI forecast failed, falling back to OpenWeather:"
                +:+ " " +:+ message e)).

(** A forecast in the store is the answer, and no request is sent. *)
Theorem getForecast_hit q units days s f :
  lookup forecastSlot (forecast_key q units days) s = Some f →
  getForecast q units days s =
  (Ok f, read forecastSlot (forecast_key q units days) s)
  ∧ sys (read forecastSlot (forecast_key q units days) s) = sys s.
Proof. intros Hhit. rewrite getForecast_cached. by erewrite cached_hit. Qed.

(** The forecast of WeatherAPI, when it is configured and answers, is
    the answer and is stored; OpenWeather is not asked. *)
Theorem getForecast_first q units days s f y :
  lookup forecastSlot (forecast_key q units days) s = None →
  nonempty (weatherApiKey config) = true →
  wa.getForecast config q days (sys s) = (Ok f, y) →
  getForecast q units days s =
  (Ok f, write forecastSlot (forecast_key q units days) f
           (set_sys y (read forecastSlot (forecast_key q units days) s))).
Proof.
  intros Hm Hk Hwa. rewrite getForecast_cached.
  eapply cached_stored; [done|]. by apply chain2_first.
Qed.

(** When WeatherAPI fails and OpenWeather answers, the forecast is
    OpenWeather's and is stored; OpenWeather runs after the failure was
    written to the console. *)
Theorem getForecast_fallback q units days s e y1 f y2 :
  lookup forecastSlot (forecast_key q units days) s = None →
  nonempty (weatherApiKey config) = true →
  nonempty (openWeatherApiKey config) = true →
  wa.getForecast config q days (sys s) = (Throw e, y1) →
  ow.getForecast config q units days (warn_forecast e y1).2 = (Ok f, y2) →
  getForecast q units days s =
  (Ok f, write forecastSlot (forecast_key q units days) f
           (set_sys y2 (read forecastSlot (forecast_key q units days) s))).
Proof.
  intros Hm Hk1 Hk2 Hwa How. rewrite getForecast_cached.
  eapply cached_stored; [done|]. by eapply chain2_fallback.
Qed.

(** A forecast answered on a miss is answered from the store, with no
    request, for the time to live of the forecast store. *)
Theorem getForecast_again q units days s f s1 s2 :
  store_ok (forecastCache s) →
  lookup forecastSlot (forecast_key q units days) s = None →
  getForecast q units days s = (Ok f, s1) →
  forecastCache s2 = forecastCache s1 →
  (clock (sys s2) - clock (sys s1) ≤ store_ttl (forecastCache s))%Z →
  (getForecast q units days s2).1 = Ok f
  ∧ sys (getForecast q units days s2).2 = sys s2.
Proof.
  intros Hok Hm Hc Hv Ht. rewrite getForecast_cached in Hc.
  rewrite getForecast_cached.
  by erewrite (cached_again forecastSlot) by eauto using chain2_frames.
Qed.

(** ** Past conditions *)

(** Without a WeatherAPI key the operation fails with its own error
    and sends no request: OpenWeather is never asked for the past. *)
Theorem getHistorical_unavailable q dateISO s :
  lookup historicalSlot (historical_key q dateISO) s = None →
  nonempty (weatherApiKey config) = false →
  getHistorical q dateISO s =
  (Throw noHistorical, read historicalSlot (historical_key q dateISO) s).
Proof.
  intros Hm Hk. rewrite getHistorical_cached.
  eapply cached_none; [done|]. by apply attempt_unconfigured.
Qed.

(** C38: a failure of WeatherAPI is absorbed: the caller receives the same
    error as without a key, and the cause is on the console only. *)
Theorem getHistorical_absorbed q dateISO s e y :
  lookup historicalSlot (historical_key q dateISO) s = None →
  nonempty (weatherApiKey config) = true →
  wa.getHistorical config q dateISO (sys s) = (Throw e, y) →
  getHistorical q dateISO s =
  (Throw noHistorical,
   set_sys (console_log ("WeatherAPI historical failed: " +:+ message e) y).2
     (read historicalSlot (historical_key q dateISO) s)).
Proof.
  intros Hm Hk Hwa. rewrite getHistorical_cached.
  eapply cached_none; [done|]. unfold historical_chain.
  by erewrite attempt_failure by done.
Qed.

(** The record of WeatherAPI is the answer and is stored. *)
Theorem getHistorical_first q dateISO s h y :
  lookup historicalSlot (historical_key q dateISO) s = None →
  nonempty (weatherApiKey config) = true →
  wa.getHistorical config q dateISO (sys s) = (Ok h, y) →
  getHistorical q dateISO s =
  (Ok h, write historicalSlot (historical_key q dateISO) h
           (set_sys y (read historicalSlot (historical_key q dateISO) s))).
Proof.
  intros Hm Hk Hwa. rewrite getHistorical_cached.
  eapply cached_stored; [done|]. by eapply attempt_success.
Qed.

(** ** Runs of the module

    The callers of the module (the tool handlers, the REST handlers, the
    command line) make requests one after another, time passing between
    them. *)

Inductive Request : Type :=
  | AskCurrent (q : LocationQuery) (units : Units)
  | AskForecast (q : LocationQuery) (units : Units) (days : Q)
  | AskHistorical (q : LocationQuery) (dateISO : string)
  | Wait (dt : N).

Definition handle (r : Request) (s : State) : State :=
  match r with
  | AskCurrent q units => (getCurrentWeather q units s).2
  | AskForecast q units days => (getForecast q units days s).2
  | AskHistorical q dateISO => (getHistorical q dateISO s).2
  | Wait dt => set_sys (advance (Z.of_N dt) (sys s)) s
  end.

Definition run (rs : list Request) (s : State) : State :=
  foldl (flip handle) s rs.

(** A record comes from one of the two providers. *)
Definition tagged (p : string) : Prop := p = "weatherapi" ∨ p = "openweather".

(** The invariant of the module: the three stores are well formed and
    answer only records of the providers. *)
Record Inv (s : State) : Prop := mkInv {
  current_ok : store_ok (currentCache s);
  forecast_ok : store_ok (forecastCache s);
  historical_ok : store_ok (historicalCache s);
  current_tagged : holds currentSlot (tagged ∘ provider) s;
  forecast_tagged : holds forecastSlot (tagged ∘ fc_provider) s;
  historical_tagged :
    holds historicalSlot (tagged ∘ provider ∘ hist_current) s;
}.

Lemma current_chain_yields q units :
  yields (current_chain q units) (from_option (tagged ∘ provider) True).
Proof.
  apply chain2_yields; intros s w s' Hw; simpl.
  - left. by eapply wa.wa_getCurrent_provider.
  - right. by eapply ow.ow_getCurrent_tagged.
Qed.

Lemma forecast_chain_yields q units days :
  yields (forecast_chain q units days)
    (from_option (tagged ∘ fc_provider) True).
Proof.
  apply chain2_yields; intros s f s' Hf; simpl.
  - left. by eapply wa.wa_getForecast_provider.
  - right. by apply ow.ow_getForecast_Ok in Hf as (?&?&_&_&->&_).
Qed.

Lemma historical_chain_yields q dateISO :
  yields (historical_chain q dateISO)
    (from_option (tagged ∘ provider ∘ hist_current) True).
Proof.
  apply attempt_yields. intros s h s' Hh. left.
  by eapply wa.wa_getHistorical_provider.
Qed.

Lemma apart_current_forecast : apart currentSlot forecastSlot.
Proof. done. Qed.
Lemma apart_current_historical : apart currentSlot historicalSlot.
Proof. done. Qed.
Lemma apart_forecast_current : apart forecastSlot currentSlot.
Proof. done. Qed.
Lemma apart_forecast_historical : apart forecastSlot historicalSlot.
Proof. done. Qed.
Lemma apart_historical_current : apart historicalSlot currentSlot.
Proof. done. Qed.
Lemma apart_historical_forecast : apart historicalSlot forecastSlot.
Proof. done. Qed.

Lemma holds_other {A B} (sl : Slot A) (sl' : Slot B) key chain err P s :
  apart sl sl' → frames chain → holds sl' P s →
  holds sl' P (cached sl key chain err s).2.
Proof. intros Ha Hf Hs now k a. rewrite cached_other by done. apply Hs. Qed.

Lemma current_chain_frames q units : frames (current_chain q units).
Proof. apply chain2_frames. Qed.

Lemma forecast_chain_frames q units days :
  frames (forecast_chain q units days).
Proof. apply chain2_frames. Qed.

Lemma historical_chain_frames q dateISO : frames (historical_chain q dateISO).
Proof. apply attempt_frames. Qed.

#[local] Hint Resolve current_chain_frames forecast_chain_frames
  historical_chain_frames current_chain_yields
  forecast_chain_yields historical_chain_yields apart_current_forecast
  apart_current_historical apart_forecast_current apart_forecast_historical
  apart_historical_current apart_historical_forecast : core.

Lemma getCurrentWeather_Inv q units s :
  Inv s → Inv (getCurrentWeather q units s).2.
Proof.
  intros []. rewrite getCurrentWeather_cached. split.
  - by apply (cached_ok currentSlot).
  - change forecastCache with (view forecastSlot). by rewrite cached_other.
  - change historicalCache with (view historicalSlot). by rewrite cached_other.
  - by apply cached_holds.
  - by apply holds_other.
  - by apply holds_other.
Qed.

Lemma getForecast_Inv q units days s :
  Inv s → Inv (getForecast q units days s).2.
Proof.
  intros []. rewrite getForecast_cached. split.
  - change currentCache with (view currentSlot). by rewrite cached_other.
  - by apply (cached_ok forecastSlot).
  - change historicalCache with (view historicalSlot). by rewrite cached_other.
  - by apply holds_other.
  - by apply cached_holds.
  - by apply holds_other.
Qed.

Lemma getHistorical_Inv q dateISO s :
  Inv s → Inv (getHistorical q dateISO s).2.
Proof.
  intros []. rewrite getHistorical_cached. split.
  - change currentCache with (view currentSlot). by rewrite cached_other.
  - change forecastCache with (view forecastSlot). by rewrite cached_other.
  - by apply (cached_ok historicalSlot).
  - by apply holds_other.
  - by apply holds_other.
  - by apply cached_holds.
Qed.

(** The invariant is about the stores only. *)
Lemma Inv_set_sys y s : Inv s → Inv (set_sys y s).
Proof. by intros []. Qed.

Lemma handle_Inv r s : Inv s → Inv (handle r s).
Proof.
  destruct r; simpl; auto using getCurrentWeather_Inv, getForecast_Inv,
    getHistorical_Inv, Inv_set_sys.
Qed.

Lemma run_Inv rs s : Inv s → Inv (run rs s).
Proof.
  revert s. induction rs as [|r rs IH]; intros s Hs; [done|].
  apply IH. by apply handle_Inv.
Qed.

(** Every record the module answers, in any state a run leads to from a
    state that satisfies the invariant, comes from one of the two
    providers: the store never answers a record that no provider gave. *)
Lemma getCurrentWeather_tagged rs s0 q units w s' :
  Inv s0 →
  getCurrentWeather q units (run rs s0) = (Ok w, s') →
  tagged (provider w).
Proof.
  intros Hs%(run_Inv rs). rewrite getCurrentWeather_cached.
  apply (cached_yields _ _ _ _ (tagged ∘ provider)); [done|by destruct Hs].
Qed.

Lemma handle_grows r s : sys_le (sys s) (sys (handle r s)).
Proof.
  destruct r as [q units|q units days|q dateISO|dt]; simpl;
    rewrite ?getCurrentWeather_cached, ?getForecast_cached,
      ?getHistorical_cached.
  - apply cached_grows, chain2_grows;
      [apply wa.wa_getCurrent_monotone|apply ow.ow_getCurrent_monotone].
  - apply cached_grows, chain2_grows;
      [apply wa.wa_getForecast_monotone|apply ow.ow_getForecast_monotone].
  - apply cached_grows, attempt_grows, wa.wa_getHistorical_monotone.
  - repeat split; simpl; try done; [lia|by exists []; rewrite app_nil_r ..].
Qed.

(** Along a run the clock never goes back and the requests sent and
    the console only grow: no operation forgets a request or rewrites the
    log. *)
Theorem run_grows rs s : sys_le (sys s) (sys (run rs s)).
Proof.
  revert s. induction rs as [|r rs IH]; intros s; [done|].
  etrans; [apply (handle_grows r)|apply IH].
Qed.

End aggregator.

Arguments State : clear implicits.

(** The stores of the program: 500 entries each, the time to live of the
    configuration in milliseconds. *)
Definition currentCache0 (config : Config) : LRUCache CurrentWeather :=
  create 500 (cacheTtlSeconds config * 1000).

Definition forecastCache0 (config : Config) : LRUCache Forecast :=
  create 500 (forecastCacheTtlSeconds config * 1000).

Definition historicalCache0 (config : Config) : LRUCache HistoricalWeather :=
  create 500 (cacheTtlSeconds config * 1000).

(** The state of the module when it is loaded at time [t]. *)
Definition init (config : Config) (t : Z) : State LRUCache :=
  mkState (sys_init t) (currentCache0 config) (forecastCache0 config)
    (historicalCache0 config).

(** C11: the store of current conditions refines a map of timestamped
    records: along any sequence of reads and writes at times that do not
    go back, each read answers either nothing or the record the map holds
    for the key, written no longer ago than the configured time to live.
    The store forgets (capacity, expiry) and never invents. *)
Theorem currentCache0_refines config (os : list (op (V := CurrentWeather))) t0 :
  clock_from t0 os →
  Forall2 answers_agree (run_cache os (currentCache0 config))
    (run_map (cacheTtlSeconds config * 1000) os ∅).
Proof.
  intros Hclock. unfold currentCache0.
  by apply (run_refines os t0 (create 500 _) ∅).
Qed.

Lemma init_Inv config t : Inv (init config t).
Proof. split; try done; split; first [apply create_wf|simpl; lia]. Qed.

(** C24: from the moment it is loaded, whatever is asked of the module and
    however time passes, every record it answers for current conditions
    comes from one of the two providers. *)
Theorem getCurrentWeather_provenance {host : Host} {net : Net} config t rs q
    units w s' :
  getCurrentWeather config q units (run config rs (init config t)) = (Ok w, s') →
  provider w = "weatherapi" ∨ provider w = "openweather".
Proof. apply getCurrentWeather_tagged, init_Inv. Qed.

(** ** A scenario

    London is asked for with both keys configured, against three networks:
    one where both providers answer, one where WeatherAPI is down, one
    where everything is down.  Every request takes 40 ms. *)

Import Dates.

Definition london : LocationQuery :=
  {| city := Some "London"; country := Some "UK"; lat := None; lon := None |}.

Definition both_keys : Config := mkConfig 3000 "ow-key" "wa-key" metric 300 900 300 "".
Definition wa_only : Config := mkConfig 3000 "" "wa-key" metric 300 900 300 "".

Definition wa_london : WaCurrent :=
  mkWaCurrent (mkWaLocation "London" 51.52 (-0.11) (Some "UK"))
    (mkWaCurrentBlock (Some "2024-03-01") 10 50 None None (Some 81%Q) None
       None (Some "SW") None None None).

Definition ow_london : OwCurrent :=
  mkOwCurrent (Some "London") (mkOwCoord 51.51 (-0.13)) (Some "GB")
    1709251200 11 9 (Some 80%Q) None 5 None
    [mkOwWeather (Some "light rain") (Some "10d") (Some 500%Q)].

Definition wa_days : WaForecast :=
  mkWaForecast (mkWaLocation "London" 51.52 (-0.11) (Some "UK"))
    (Some [mkWaForecastDay "2024-03-01" None; mkWaForecastDay "2024-03-02" None]).

Definition ow_days : OwForecast :=
  mkOwForecast (Some "London") (mkOwCoord 51.51 (-0.13)) (Some "GB")
    ow.example_slots.

Definition wa_past : WaHistory :=
  mkWaHistory (mkWaLocation "London" 51.52 (-0.11) (Some "UK"))
    (Some (mkWaHistoryDay (Some "2024-02-01") None)) None.

Definition ow_table : list (string * result Response) :=
  [("https://api.openweathermap.org/data/2.5/weather?q=London,UK&appid=ow-key&units=metric",
    Ok (OwCurrentBody ow_london));
   ("https://api.openweathermap.org/data/2.5/forecast?q=London,UK&appid=ow-key&units=metric",
    Ok (OwForecastBody ow_days))].

Definition wa_table : list (string * result Response) :=
  [("https://api.weatherapi.com/v1/current.json?key=wa-key&q=London,UK&aqi=no",
    Ok (WaCurrentBody wa_london));
   ("https://api.weatherapi.com/v1/forecast.json?key=wa-key&q=London,UK&days=3&aqi=no&alerts=no",
    Ok (WaForecastBody wa_days));
   ("https://api.weatherapi.com/v1/history.json?key=wa-key&q=London,UK&dt=2024-02-01",
    Ok (WaHistoryBody wa_past))].

Definition both_up : Net := tableNet (wa_table ++ ow_table) 40.
Definition wa_down : Net := tableNet ow_table 40.
Definition all_down : Net := tableNet [] 40.

(** The state after London was asked for at time 0, and that state [dt]
    milliseconds later. *)
Definition asked (net : Net) : State LRUCache :=
  (getCurrentWeather both_keys london metric (init both_keys 0)).2.

Definition later (dt : Z) (s : State LRUCache) : State LRUCache :=
  set_sys (advance dt (sys s)) s.

(** With WeatherAPI down the answer is OpenWeather's, after two requests
    and one line on the console; asked again, it comes from the store. *)
Example scenario_fallback :
  let '(r, s) := getCurrentWeather (net := wa_down) both_keys london metric
                   (init both_keys 0) in
  (provider <$> value_of r, temperatureC <$> value_of r, clock (sys s),
   length (calls (sys s)), console (sys s)) =
  (Some "openweather", Some 11%Q, 80%Z, 2,
   ["WeatherAPI current failed, falling back to OpenWeather: connect ECONNREFUSED"])
  ∧ getCurrentWeather (net := all_down) both_keys london metric (later 1000 s)
    = (r, later 1000 s).
Proof. by vm_compute. Qed.

(** The record OpenWeather's body is normalized to. *)
Definition ow_london_record : CurrentWeather :=
  ow.current_of metric ow_london.

(** ** The theorems at the scenario *)

Notation key0 := (current_key london metric).
Notation fkey0 := (forecast_key london metric 3).
Notation hkey0 := (historical_key london "2024-02-01").

Lemma getCurrentWeather_hit_witness :
  ∃ w, getCurrentWeather (net := all_down) both_keys london metric (asked both_up)
       = (Ok w, read currentSlot key0 (asked both_up))
     ∧ sys (read currentSlot key0 (asked both_up)) = sys (asked both_up).
Proof.
  eexists. apply (getCurrentWeather_hit (net := all_down)). by vm_compute.
Defined.

Lemma getCurrentWeather_first_witness :
  ∃ w y, getCurrentWeather (net := both_up) both_keys london metric
           (init both_keys 0)
         = (Ok w, write currentSlot key0 w
                    (set_sys y (read currentSlot key0 (init both_keys 0)))).
Proof.
  eexists _, _. apply (getCurrentWeather_first (net := both_up)); by vm_compute.
Defined.

Lemma getCurrentWeather_fallback_witness :
  ∃ w y, getCurrentWeather (net := wa_down) both_keys london metric
           (init both_keys 0)
         = (Ok w, write currentSlot key0 w
                    (set_sys y (read currentSlot key0 (init both_keys 0)))).
Proof.
  eexists _, _.
  eapply (getCurrentWeather_fallback (net := wa_down)); by vm_compute.
Defined.

Lemma getCurrentWeather_unconfigured_witness :
  getCurrentWeather (net := both_up) defaultConfig london metric
    (init defaultConfig 0)
  = (Throw noProvider, read currentSlot key0 (init defaultConfig 0)).
Proof.
  apply (getCurrentWeather_unconfigured (net := both_up)); by vm_compute.
Defined.

Lemma getCurrentWeather_both_fail_witness :
  ∃ y, getCurrentWeather (net := all_down) both_keys london metric
         (init both_keys 0)
       = (Throw refused, set_sys y (read currentSlot key0 (init both_keys 0))).
Proof.
  eexists. eapply (getCurrentWeather_both_fail (net := all_down));
    by vm_compute.
Defined.

Lemma getCurrentWeather_only_fails_witness :
  getCurrentWeather (net := all_down) wa_only london metric (init wa_only 0)
  = (Throw noProvider,
     set_sys (mkSys 40
                ["https://api.weatherapi.com/v1/current.json?key=wa-key&q=London,UK&aqi=no"]
                ["WeatherAPI current failed, falling back to OpenWeather: connect ECONNREFUSED"])
       (read currentSlot key0 (init wa_only 0))).
Proof.
  apply (getCurrentWeather_only_fails (net := all_down) wa_only london metric
           (init wa_only 0) refused
           (mkSys 40
              ["https://api.weatherapi.com/v1/current.json?key=wa-key&q=London,UK&aqi=no"]
              [])); by vm_compute.
Defined.

Lemma getCurrentWeather_again_witness :
  ∃ w, (getCurrentWeather (net := both_up) both_keys london metric
          (later 300000 (asked both_up))).1 = Ok w
     ∧ sys (getCurrentWeather (net := both_up) both_keys london metric
              (later 300000 (asked both_up))).2
       = sys (later 300000 (asked both_up)).
Proof.
  eexists.
  eapply (getCurrentWeather_again (net := both_up) both_keys london metric
            (init both_keys 0) _ (asked both_up));
    [apply (current_ok _ (init_Inv _ _))|by vm_compute..].
Defined.

Lemma getCurrentWeather_provenance_witness :
  provider ow_london_record = "weatherapi"
  ∨ provider ow_london_record = "openweather".
Proof.
  eapply (getCurrentWeather_provenance (net := wa_down) both_keys 0
            [AskForecast london metric 3; Wait 1000] london metric).
  by vm_compute.
Defined.

(** A write, a read within the time to live, a read after it. *)
Lemma currentCache0_refines_witness :
  Forall2 answers_agree
    (run_cache [OpSet 0 "k" ow_london_record; OpGet 300000 "k"; OpGet 300001 "k"]
       (currentCache0 both_keys))
    (run_map (cacheTtlSeconds both_keys * 1000)
       [OpSet 0 "k" ow_london_record; OpGet 300000 "k"; OpGet 300001 "k"] ∅).
Proof. apply (currentCache0_refines both_keys _ 0). simpl. lia. Defined.

Lemma getCurrentWeather_refetch_witness :
  ∃ w, (getCurrentWeather (net := both_up) both_keys london metric
          (later 300001 (asked both_up))).1 = Ok w.
Proof.
  eexists.
  eapply (getCurrentWeather_refetch (net := both_up) both_keys london metric
            (init both_keys 0) _ (asked both_up)); by vm_compute.
Defined.

(** The state after the forecast was asked for at time 0. *)
Definition forecast_asked (net : Net) : State LRUCache :=
  (getForecast both_keys london metric 3 (init both_keys 0)).2.

Lemma getForecast_hit_witness :
  ∃ f, getForecast (net := all_down) both_keys london metric 3
         (forecast_asked both_up)
       = (Ok f, read forecastSlot fkey0 (forecast_asked both_up))
     ∧ sys (read forecastSlot fkey0 (forecast_asked both_up))
       = sys (forecast_asked both_up).
Proof. eexists. apply (getForecast_hit (net := all_down)). by vm_compute. Defined.

Lemma getForecast_first_witness :
  ∃ f y, getForecast (net := both_up) both_keys london metric 3
           (init both_keys 0)
         = (Ok f, write forecastSlot fkey0 f
                    (set_sys y (read forecastSlot fkey0 (init both_keys 0)))).
Proof.
  eexists _, _. apply (getForecast_first (net := both_up)); by vm_compute.
Defined.

Lemma getForecast_fallback_witness :
  ∃ f y, getForecast (net := wa_down) both_keys london metric 3
           (init both_keys 0)
         = (Ok f, write forecastSlot fkey0 f
                    (set_sys y (read forecastSlot fkey0 (init both_keys 0)))).
Proof.
  eexists _, _. eapply (getForecast_fallback (net := wa_down)); by vm_compute.
Defined.

Lemma getForecast_again_witness :
  ∃ f, (getForecast (net := both_up) both_keys london metric 3
          (later 900000 (forecast_asked both_up))).1 = Ok f
     ∧ sys (getForecast (net := both_up) both_keys london metric 3
              (later 900000 (forecast_asked both_up))).2
       = sys (later 900000 (forecast_asked both_up)).
Proof.
  eexists.
  eapply (getForecast_again (net := both_up) both_keys london metric 3
            (init both_keys 0) _ (forecast_asked both_up));
    [apply (forecast_ok _ (init_Inv _ _))|by vm_compute..].
Defined.

Lemma getHistorical_unavailable_witness :
  getHistorical (net := both_up) defaultConfig london "2024-02-01"
    (init defaultConfig 0)
  = (Throw noHistorical, read historicalSlot hkey0 (init defaultConfig 0)).
Proof. apply (getHistorical_unavailable (net := both_up)); by vm_compute. Defined.

Lemma getHistorical_absorbed_witness :
  getHistorical (net := all_down) both_keys london "2024-02-01" (init both_keys 0)
  = (Throw noHistorical,
     set_sys (mkSys 40
                ["https://api.weatherapi.com/v1/history.json?key=wa-key&q=London,UK&dt=2024-02-01"]
                ["WeatherAPI historical failed: connect ECONNREFUSED"])
       (read historicalSlot hkey0 (init both_keys 0))).
Proof.
  apply (getHistorical_absorbed (net := all_down) both_keys london "2024-02-01"
           (init both_keys 0) refused
           (mkSys 40
              ["https://api.weatherapi.com/v1/history.json?key=wa-key&q=London,UK&dt=2024-02-01"]
              [])); by vm_compute.
Defined.

Lemma getHistorical_first_witness :
  ∃ h y, getHistorical (net := both_up) both_keys london "2024-02-01"
           (init both_keys 0)
         = (Ok h, write historicalSlot hkey0 h
                    (set_sys y (read historicalSlot hkey0 (init both_keys 0)))).
Proof.
  eexists _, _. apply (getHistorical_first (net := both_up)); by vm_compute.
Defined.

End Aggregator.
