(* ===== verification/Concurrent.v ===== *)
(** * Concurrent: two calls of the aggregator that overlap

    An operation of the aggregator is an [async] function: it reads its
    store, and on a miss it awaits the providers and writes the answer when
    they have answered.  While it waits another call can run.  The other
    files take each call as one step; this file splits a call at its await
    and runs two calls of the same operation under a schedule, to show what
    the one-step view leaves out: two calls for the same key that overlap
    both miss and both ask the providers.  A call is split in two turns,
    before and after the await; the request to a provider, which the
    program sends in the first turn and whose answer it awaits, is sent
    and answered in the second, so the requests of two overlapping calls
    follow each other on the clock where the program has them in flight
    together, and the chain of providers, which awaits once per provider,
    is one turn.  [run_alone] and [current_calls_in_turn] check the split
    against the operation of [Aggregator] it was cut from. *)

From S2P Require Import Prelude Types Upstream World Dates Cache WeatherApi.
From S2P Require Import OpenWeather Aggregator.
Import Cache Aggregator.

Module Concurrent.

(** A call in flight: not started, suspended at the awaits after a miss, or
    answered. *)
Inductive Task (A : Type) : Type :=
| Waiting
| Suspended
| Answered (r : result A).
Arguments Waiting {A}.
Arguments Suspended {A}.
Arguments Answered {A} r.

(** Whose turn it is. *)
Inductive Turn : Type := first_call | second_call.

Definition other (x : Turn) : Turn :=
  match x with first_call => second_call | second_call => first_call end.

Section concurrent.
Context {host : Host} {net : Net} {C : Type → Type} {store : TtlStore C}
  (config : Config).

Notation State := (Aggregator.State C).

Section tasks.
Context {A : Type} (sl : Slot (C := C) A) (key : string)
  (chain : M State (option A))
  (err : Error).

(** The call up to its first await: the read of the store. *)
Definition start (s : State) : Task A * State :=
  let '(r, c) := store_get (clock (sys s)) key (view A sl s) in
  (match r with Some a => Answered (Ok a) | None => Suspended end,
   update A sl c s).

(** The call from its first await on: the providers, then the write. *)
Definition resume (s : State) : Task A * State :=
  match chain s with
  | (Ok (Some a), s1) =>
      (Answered (Ok a),
       update A sl (store_set (clock (sys s1)) key a (view A sl s1)) s1)
  | (Ok None, s1) => (Answered (Throw err), s1)
  | (Throw e, s1) => (Answered (Throw e), s1)
  end.

(** One turn of a call. *)
Definition turn (t : Task A) (s : State) : Task A * State :=
  match t with
  | Waiting => start s
  | Suspended => resume s
  | Answered _ => (t, s)
  end.

(** Two calls of the operation under a schedule. *)
Fixpoint run (schedule : list Turn) (ts : Task A * Task A) (s : State)
    : (Task A * Task A) * State :=
  match schedule with
  | [] => (ts, s)
  | first_call :: rest => let '(t, s') := turn ts.1 s in run rest (t, ts.2) s'
  | second_call :: rest => let '(t, s') := turn ts.2 s in run rest (ts.1, t) s'
  end.

(** ** Schedules *)

Lemma run_app sch1 sch2 ts s :
  run (sch1 ++ sch2) ts s = let '(ts', s') := run sch1 ts s in run sch2 ts' s'.
Proof.
  revert ts s. induction sch1 as [|[] sch1 IH]; intros ts s; simpl.
  - done.
  - destruct (turn ts.1 s). apply IH.
  - destruct (turn ts.2 s). apply IH.
Qed.

(** The two calls are treated alike. *)
Lemma run_swap sch (t1 t2 : Task A) s :
  run (other <$> sch) (t1, t2) s
  = let '((u2, u1), s') := run sch (t2, t1) s in ((u1, u2), s').
Proof.
  revert t1 t2 s. induction sch as [|[] sch IH]; intros t1 t2 s; simpl.
  - done.
  - destruct (turn t2 s). apply IH.
  - destruct (turn t1 s). apply IH.
Qed.

(** ** A call alone *)

Lemma start_hit s a :
  lookup sl key s = Some a → start s = (Answered (Ok a), read sl key s).
Proof.
  unfold start, lookup, read. destruct (store_get _ _ _) as [r c]; simpl.
  by intros ->.
Qed.

Lemma start_miss s :
  lookup sl key s = None → start s = (Suspended, read sl key s).
Proof.
  unfold start, lookup, read. destruct (store_get _ _ _) as [r c]; simpl.
  by intros ->.
Qed.

Lemma resume_stored s a s1 :
  chain s = (Ok (Some a), s1) → resume s = (Answered (Ok a), write sl key a s1).
Proof. unfold resume. by intros ->. Qed.

(** A call whose two turns follow each other is the operation of the
    aggregator: the one-step view is right for calls that do not
    overlap. *)
Theorem run_alone (t : Task A) s :
  run [first_call; first_call] (Waiting, t) s
  = ((Answered (cached sl key chain err s).1, t), (cached sl key chain err s).2).
Proof.
  simpl. destruct (lookup sl key s) as [a|] eqn:Hl.
  - rewrite (start_hit s a), (cached_hit sl key chain err s a) by done. done.
  - rewrite start_miss, cached_miss by done. simpl. unfold resume.
    by destruct (chain _) as [[[a|]|e] s1].
Qed.

(** ** Two calls that overlap *)

(** The read of a call that misses leaves the miss for the next. *)
Lemma lookup_read s : lookup sl key (read sl key s) = lookup sl key s.
Proof.
  unfold lookup, read. rewrite view_update, sys_update.
  by apply store_get_get.
Qed.

(** When the second call starts before the first has its answer, both
    miss, both run the chain of providers, and both write: the store ends
    with the record of the second. *)
Theorem run_overlapped s a s1 b s2 :
  lookup sl key s = None →
  chain (read sl key (read sl key s)) = (Ok (Some a), s1) →
  chain (write sl key a s1) = (Ok (Some b), s2) →
  run [first_call; second_call; first_call; second_call] (Waiting, Waiting) s
  = ((Answered (Ok a), Answered (Ok b)), write sl key b s2).
Proof.
  intros Hmiss Ha Hb. simpl. rewrite start_miss by done. simpl.
  rewrite start_miss by by rewrite lookup_read. simpl.
  rewrite (resume_stored _ a s1) by done. simpl.
  by rewrite (resume_stored _ b s2).
Qed.

End tasks.

(** ** Two overlapping calls of [getCurrentWeather] *)

(** Two calls for the current conditions of the same place in the same
    units, under a schedule. *)
Definition current_calls (q : LocationQuery) (units : Units)
    (schedule : list Turn) (s : State)
    : (Task CurrentWeather * Task CurrentWeather) * State :=
  run currentSlot (current_key q units) (current_chain config q units)
    noProvider schedule (Waiting, Waiting) s.

Lemma sys_set_sys y (s : State) : sys (set_sys y s) = y.
Proof. done. Qed.

Lemma sys_read {A} (sl : Slot (C := C) A) key s : sys (read sl key s) = sys s.
Proof. apply sys_update. Qed.

Lemma sys_write {A} (sl : Slot (C := C) A) key a s : sys (write sl key a s) = sys s.
Proof. apply sys_update. Qed.

(** The split loses nothing: under the schedule that lets the first call
    finish before the second starts, the two tasks are two calls of
    [getCurrentWeather], one after the other.  This relates the split of
    this file to the operation of [Aggregator]; it says nothing of the
    program beyond what the two definitions say. *)
Lemma current_calls_in_turn q units s :
  current_calls q units [first_call; first_call; second_call; second_call] s
  = let '(r1, s1) := getCurrentWeather config q units s in
    let '(r2, s2) := getCurrentWeather config q units s1 in
    ((Answered r1, Answered r2), s2).
Proof.
  unfold current_calls.
  change [first_call; first_call; second_call; second_call]
    with ([first_call; first_call] ++ (other <$> [first_call; first_call])).
  rewrite run_app, run_alone, <-getCurrentWeather_cached.
  destruct (getCurrentWeather config q units s) as [r1 s1]. cbv beta iota.
  rewrite run_swap, run_alone, <-getCurrentWeather_cached. simpl.
  by destruct (getCurrentWeather config q units s1) as [r2 s2].
Qed.

(** C13: two calls that overlap both miss and both ask WeatherAPI: two
    requests are sent where calls in turn would send one, each call
    answers the record its own request brought, and the store keeps the
    second. *)
Theorem current_calls_overlapped q units qStr s a y1 b y2 :
  lookup currentSlot (current_key q units) s = None →
  nonempty (weatherApiKey config) = true →
  wa.resolveQuery q = Ok qStr →
  wa.getCurrent config q (sys s) = (Ok a, y1) →
  wa.getCurrent config q y1 = (Ok b, y2) →
  let key := current_key q units in
  current_calls q units [first_call; second_call; first_call; second_call] s
  = ((Answered (Ok a), Answered (Ok b)),
     write currentSlot key b
       (set_sys y2
          (write currentSlot key a
             (set_sys y1 (read currentSlot key (read currentSlot key s))))))
  ∧ calls y2
    = calls (sys s) ++ [wa.current_url config qStr; wa.current_url config qStr].
Proof.
  intros Hmiss Hkey Hq Ha Hb. split.
  - eapply run_overlapped; [done|..]; by eapply chain2_first.
  - pose proof (wa.wa_getCurrent_one_call config q qStr (sys s) Hq) as H1.
    pose proof (wa.wa_getCurrent_one_call config q qStr y1 Hq) as H2.
    rewrite Ha in H1. rewrite Hb in H2. simpl in *.
    by rewrite H2, H1, <-app_assoc.
Qed.

End concurrent.

(** ** The theorems at the scenario of the aggregator

    London asked for twice from the state at load, both providers up and
    every request taking 40 ms. *)

Import Dates.

Definition london_calls (schedule : list Turn)
    : (Task CurrentWeather * Task CurrentWeather) * Aggregator.State LRUCache :=
  current_calls (net := both_up) both_keys london metric schedule
    (init both_keys 0).

(** In turn the second call is answered from the store; overlapped it
    sends a request of its own. *)
Example requests_in_turn_and_overlapped :
  length (calls (sys (london_calls
            [first_call; first_call; second_call; second_call]).2)) = 1%nat
  ∧ length (calls (sys (london_calls
              [first_call; second_call; first_call; second_call]).2)) = 2%nat
  ∧ length (calls (sys (london_calls
              [first_call; second_call; second_call; first_call]).2)) = 2%nat.
Proof. by vm_compute. Qed.

Lemma current_calls_overlapped_witness :
  ∃ a b s' url,
    london_calls [first_call; second_call; first_call; second_call]
    = ((Answered (Ok a), Answered (Ok b)), s')
    ∧ calls (sys s') = [url; url].
Proof.
  destruct (wa.getCurrent (net := both_up) both_keys london (sys_init 0))
    as [[a|e] y1] eqn:Ha; [|by vm_compute in Ha].
  destruct (wa.getCurrent (net := both_up) both_keys london y1)
    as [[b|e] y2] eqn:Hb; [|by vm_compute in Ha; injection Ha as <- <-; vm_compute in Hb].
  destruct (current_calls_overlapped (net := both_up) both_keys london metric
              "London,UK" (init both_keys 0) a y1 b y2) as [Hrun Hcalls];
    [by vm_compute|done|by vm_compute|done|done|].
  eexists a, b, _, _. split; [exact Hrun|]. rewrite sys_write. exact Hcalls.
Defined.

End Concurrent.
