(* ===== verification/Agent.v ===== *)
(** * Agent: the language-model agent behind the insight tools

    [agents/weatherAgent.ts]: the two module variables that hold the agent
    and its runner once built, [initializeWeatherAgent], which builds them
    the first time a provider key of a language model is configured, and
    the two functions the tools call, [getWeatherInsights] and
    [getEnhancedWeatherSummary], which fetch the weather, ask the model
    and fall back to a fixed text.

    The model itself is outside the program: [Llm] gives the reply to a
    prompt, or the exception of the call, and the time it took.  The
    rendering of a record in the prompt ([JSON.stringify] with an indent)
    is a parameter, and so is what [console.error] prints of the exception
    it is handed when the model fails ([inspect_error]: the object with
    its name, message and stack, where the aggregator prints the message
    alone). *)

From S2P Require Import Prelude Types Upstream World Dates Cache Aggregator.
Import Cache Aggregator.

Module Agent.

(** What [AgentBuilder] is given: the agent it builds. *)
Record LlmAgent : Type := mkAgent {
  agent_name : string;
  description : string;
  instruction : string;
  model : string;
}.

(** The runner of an agent. *)
Record Runner : Type := mkRunner { runs : LlmAgent }.

(** What [initializeWeatherAgent] returns when the agent is there. *)
Record AgentData : Type := mkData {
  data_agent : LlmAgent;
  data_runner : option Runner;
}.

(** The response of the runner: its [text], and what [toString()] gives. *)
Record Reply : Type := mkReply {
  reply_text : option string;
  reply_string : string;
}.

(** The language model: the outcome of asking [agent] the [prompt] at time
    [t], and how long it took (milliseconds). *)
Class Llm : Type := {
  llm_ask : LlmAgent → string → Z → result Reply * Z;
  llm_ask_duration agent prompt t : (0 ≤ (llm_ask agent prompt t).2)%Z;
}.

(** The [TypeError] of calling [ask] on a runner that is [null]. *)
Definition nullRunner : Error :=
  mkError "TypeError: Cannot read properties of null (reading 'ask')".

(** [await runner.ask(prompt)] *)
Definition ask `{Llm} (runner : option Runner) (prompt : string) : M Sys Reply :=
  match runner with
  | Some r => λ s, let '(reply, dt) := llm_ask (runs r) prompt (clock s) in
                   (reply, advance dt s)
  | None => throw nullRunner
  end.

(** [response.text || response.toString()] *)
Definition text_of (response : Reply) : string :=
  if truthy (reply_text response) then default EmptyString (reply_text response)
  else reply_string response.

(** The instruction of the agent. *)
Definition weatherInstruction : string :=
  unlines [
      EmptyString;
      "You are a weather analysis expert integrated into a WeatherWise MCP server. Your role is to:";
      EmptyString;
      "1. Analyze weather data and provide intelligent insights";
      "2. Give practical recommendations based on weather conditions";
      "3. Assess activity suitability and risk levels";
      "4. Provide context-aware weather summaries";
      "5. Help users understand weather implications for their activities";
      EmptyString;
      "When responding:";
      "- Be concise but informative";
      "- Focus on practical implications";
      "- Consider safety and comfort factors";
      "- Provide actionable recommendations";
      "- Use clear, non-technical language when possible";
      EmptyString;
      "You have access to current weather and forecast data through function calls.";
      "    " ].

(** [AgentBuilder.create(..).withDescription(..).withInstruction(..)
    .withModel(model).build()] *)
Definition build (model : string) : LlmAgent * Runner :=
  let agent :=
    mkAgent "weatherwise_mcp_agent"
      "Intelligent weather analysis agent that provides insights, recommendations, and contextual weather information."
      weatherInstruction model in
  (agent, mkRunner agent).

(** [getBasicInsights(activity, location)] *)
Definition getBasicInsights (activity : string) (location : LocationQuery)
    : string :=
  "Basic weather insights for " +:+ dquote +:+ activity +:+ dquote +:+ " at " +:+ shown (city location) +:+ ", " +:+ shown (country location) +:+ ". Enable LLM provider (GOOGLE_API_KEY or OPENAI_API_KEY) for AI-powered analysis and recommendations.".

(** [days || 3]: an absent count and the count zero both become three. *)
Definition days_or_three (days : option Q) : Q :=
  if truthy_num days then default 3%Q days else 3%Q.

Section agent.
Context {host : Host} {net : Net} {llm : Llm} {C : Type → Type}
  {store : TtlStore C} (config : Config) (env : Env).

(** [JSON.stringify(current, null, 2)] and [JSON.stringify(forecast, null, 2)] *)
Context (stringify_current : CurrentWeather → string)
  (stringify_forecast : Forecast → string).

(** What [console.error] prints of an exception passed to it as an argument
    of its own: the inspected object (name, message and stack), not the
    message alone. *)
Context (inspect_error : Error → string).

(** The state of the module: the aggregator it calls, and its two
    variables [weatherAgent] and [agentRunner]. *)
Record State : Type := mkState {
  agg : Aggregator.State C;
  weatherAgent : option LlmAgent;
  agentRunner : option Runner;
}.

Definition set_agg (g : Aggregator.State C) (s : State) : State :=
  mkState g (weatherAgent s) (agentRunner s).

Definition liftAgg {A} (m : M (Aggregator.State C) A) : M State A :=
  zoom agg set_agg m.

Definition liftW {A} (m : M Sys A) : M State A := liftAgg (liftSys m).

(** [!!config.googleApiKey] and [!!process.env.OPENAI_API_KEY] *)
Definition hasGoogleKey : bool := nonempty (googleApiKey config).
Definition hasOpenAIKey : bool := truthy (env "OPENAI_API_KEY").

(** [initializeWeatherAgent()] *)
Definition initializeWeatherAgent : M State (option AgentData) :=
  let! s := get_st in
  match weatherAgent s with
  | Some agent => ret (Some (mkData agent (agentRunner s)))
  | None =>
      if negb hasGoogleKey && negb hasOpenAIKey then
        liftW (console_log
                 "No LLM provider key found. ADK-TS agent will be disabled.") ;;
        ret None
      else
        let model := if hasGoogleKey then "gemini-2.5-flash" else "gpt-4o-mini" in
        let '(agent, runner) := build model in
        modify_st (λ s, mkState (agg s) (Some agent) (Some runner)) ;;
        liftW (console_log ("Weather agent initialized with model: " +:+ model)) ;;
        ret (Some (mkData agent (Some runner)))
  end.

(** The prompt of [getWeatherInsights]. *)
Definition insights_prompt (activity : string) (location : LocationQuery)
    (current : CurrentWeather) (forecast : Forecast) : string :=
  unlines [
      EmptyString;
      "Analyze the weather conditions for "
        +:+ dquote
        +:+ activity
        +:+ dquote
        +:+ " at "
        +:+ shown (city location)
        +:+ ", "
        +:+ shown (country location)
        +:+ ".";
      EmptyString;
      "Current Weather:";
      stringify_current current;
      EmptyString;
      "3-Day Forecast:";
      stringify_forecast forecast;
      EmptyString;
      "Provide intelligent insights about:";
      "1. Current suitability for the activity (scale 1-10)";
      "2. Key weather factors to consider";
      "3. Specific recommendations or precautions";
      "4. Best timing within the forecast period";
      "5. What to prepare or bring";
      EmptyString;
      "Be practical and actionable in your response.";
      "  " ].

(** [getWeatherInsights], once the agent is there: the weather, the
    prompt, the question and the fallback. *)
Definition analyse (runner : option Runner) (activity : string)
    (location : LocationQuery) : M State string :=
  let! current := liftAgg (getCurrentWeather config location
                             (defaultUnits config)) in
  let! forecast := liftAgg (getForecast config location
                              (defaultUnits config) 3%Q) in
  let prompt := insights_prompt activity location current forecast in
  try_catch
    (let! response := liftW (ask runner prompt) in ret (text_of response))
    (λ e, liftW (console_log ("Agent analysis failed:" +:+ " "
                              +:+ inspect_error e)) ;;
          ret (getBasicInsights activity location)).

(** [getWeatherInsights(activity, location)] *)
Definition getWeatherInsights (activity : string) (location : LocationQuery)
    : M State string :=
  let! agentData := initializeWeatherAgent in
  match agentData with
  | None => ret (getBasicInsights activity location)
  | Some data => analyse (data_runner data) activity location
  end.

(** The prompt of [getEnhancedWeatherSummary]. *)
Definition summary_prompt (location : LocationQuery)
    (current : CurrentWeather) (forecast : Forecast) : string :=
  unlines [
      EmptyString;
      "Provide an intelligent weather summary for "
        +:+ shown (city location)
        +:+ ", "
        +:+ shown (country location)
        +:+ ".";
      EmptyString;
      "Current Weather:";
      stringify_current current;
      EmptyString;
      "Forecast:";
      stringify_forecast forecast;
      EmptyString;
      "Create a concise, human-friendly summary that includes:";
      "1. Current conditions overview";
      "2. Key changes expected in the forecast";
      "3. Notable weather patterns or trends";
      "4. General recommendations for the period";
      "5. Any weather alerts or concerns";
      EmptyString;
      "Make it conversational and practical for everyday planning.";
      "  " ].

Definition noSummary : string :=
  "Weather data available via basic tools. Enable LLM provider for enhanced summaries.".

Definition summaryUnavailable : string :=
  "Enhanced summary unavailable. Raw weather data accessible via other tools.".

(** [getEnhancedWeatherSummary], once the agent is there. *)
Definition summarise (runner : option Runner) (location : LocationQuery)
    (days : option Q) : M State string :=
  let! current := liftAgg (getCurrentWeather config location
                             (defaultUnits config)) in
  let! forecast := liftAgg (getForecast config location
                              (defaultUnits config) (days_or_three days)) in
  let prompt := summary_prompt location current forecast in
  try_catch
    (let! response := liftW (ask runner prompt) in ret (text_of response))
    (λ e, liftW (console_log ("Agent summary failed:" +:+ " "
                              +:+ inspect_error e)) ;;
          ret summaryUnavailable).

(** [getEnhancedWeatherSummary(location, days)] *)
Definition getEnhancedWeatherSummary (location : LocationQuery)
    (days : option Q) : M State string :=
  let! agentData := initializeWeatherAgent in
  match agentData with
  | None => ret noSummary
  | Some data => summarise (data_runner data) location days
  end.

(** ** The reference: which agent the configuration gives *)

(** A provider key of a language model is configured. *)
Definition enabled : bool := hasGoogleKey || hasOpenAIKey.

(** The model the configuration selects: Google's when its key is there. *)
Definition chosen_model : string :=
  if hasGoogleKey then "gemini-2.5-flash" else "gpt-4o-mini".

(** The state with one more line on the console. *)
Definition logged (line : string) (s : State) : State :=
  set_agg (set_sys (console_log line (sys (agg s))).2 (agg s)) s.

(** The state once the agent of the configuration is built. *)
Definition built (s : State) : State :=
  logged ("Weather agent initialized with model: " +:+ chosen_model)
    (mkState (agg s) (Some (build chosen_model).1) (Some (build chosen_model).2)).

(** The two variables are set together, to the agent and the runner the
    configuration gives, and only when a key is configured. *)
Definition agent_ok (s : State) : Prop :=
  (weatherAgent s = None ∧ agentRunner s = None)
  ∨ (enabled = true ∧ weatherAgent s = Some (build chosen_model).1
     ∧ agentRunner s = Some (build chosen_model).2).

Definition Inv (s : State) : Prop := agent_ok s ∧ Aggregator.Inv (agg s).

(** The operations of the module, and the requests other callers make of
    the aggregator in between. *)
Inductive step : State → State → Prop :=
| step_initialize s : step s (initializeWeatherAgent s).2
| step_insights activity location s :
    step s (getWeatherInsights activity location s).2
| step_summary location days s :
    step s (getEnhancedWeatherSummary location days s).2
| step_request r s : step s (set_agg (Aggregator.handle config r (agg s)) s).

(** ** Running the primitives *)

Lemma agent_liftAgg_run {A} (m : M (Aggregator.State C) A) s :
  liftAgg m s = ((m (agg s)).1, set_agg (m (agg s)).2 s).
Proof. unfold liftAgg, zoom. by destruct (m (agg s)). Qed.

Lemma agent_liftW_run {A} (m : M Sys A) s :
  liftW m s = ((m (sys (agg s))).1, set_agg (set_sys (m (sys (agg s))).2 (agg s)) s).
Proof. unfold liftW. by rewrite agent_liftAgg_run, liftSys_run. Qed.

Lemma log_run line s : liftW (console_log line) s = (Ok tt, logged line s).
Proof. by rewrite agent_liftW_run. Qed.

Lemma enabled_false : enabled = false ↔ negb hasGoogleKey && negb hasOpenAIKey = true.
Proof. unfold enabled. destruct hasGoogleKey, hasOpenAIKey; naive_solver. Qed.

(** ** [initializeWeatherAgent] on each branch *)

Lemma initializeWeatherAgent_ready s agent :
  weatherAgent s = Some agent →
  initializeWeatherAgent s = (Ok (Some (mkData agent (agentRunner s))), s).
Proof. unfold initializeWeatherAgent, bind, get_st. by intros ->. Qed.

Lemma initializeWeatherAgent_disabled s :
  weatherAgent s = None → enabled = false →
  initializeWeatherAgent s
  = (Ok None, logged "No LLM provider key found. ADK-TS agent will be disabled." s).
Proof.
  intros Hs Hd%enabled_false. unfold initializeWeatherAgent, bind at 1, get_st.
  rewrite Hs, Hd. unfold bind. by rewrite log_run.
Qed.

Lemma initializeWeatherAgent_builds s :
  weatherAgent s = None → enabled = true →
  initializeWeatherAgent s
  = (Ok (Some (mkData (build chosen_model).1 (Some (build chosen_model).2))),
     built s).
Proof.
  intros Hs He. unfold initializeWeatherAgent, bind at 1, get_st. rewrite Hs.
  destruct (negb hasGoogleKey && negb hasOpenAIKey) eqn:Hd.
  { apply enabled_false in Hd. congruence. }
  unfold built, chosen_model, build, bind, modify_st. cbv beta iota.
  by rewrite log_run.
Qed.

(** Initialization does not throw. *)
Lemma initializeWeatherAgent_total s : is_ok (initializeWeatherAgent s).1 = true.
Proof.
  destruct (weatherAgent s) as [agent|] eqn:Hs.
  { by rewrite (initializeWeatherAgent_ready s agent). }
  destruct enabled eqn:He.
  - by rewrite initializeWeatherAgent_builds.
  - by rewrite initializeWeatherAgent_disabled.
Qed.

(** C19: once the agent is there, initializing again answers the same agent
    and changes nothing: with a key configured, two initializations in a
    row build one agent and print one line. *)
Theorem initializeWeatherAgent_once s :
  enabled = true →
  initializeWeatherAgent (initializeWeatherAgent s).2 = initializeWeatherAgent s.
Proof.
  intros He. destruct (weatherAgent s) as [agent|] eqn:Hs.
  - rewrite (initializeWeatherAgent_ready s agent) by done.
    by apply initializeWeatherAgent_ready.
  - rewrite (initializeWeatherAgent_builds s) by done. simpl.
    by rewrite (initializeWeatherAgent_ready (built s) (build chosen_model).1).
Qed.

(** Without a key nothing is remembered: every initialization, and so
    every call of a tool of the agent, prints the warning once more. *)
Theorem initializeWeatherAgent_warns_again s :
  enabled = false → weatherAgent s = None →
  let s' := (initializeWeatherAgent (initializeWeatherAgent s).2).2 in
  console (sys (agg s'))
  = console (sys (agg s))
    ++ ["No LLM provider key found. ADK-TS agent will be disabled.";
        "No LLM provider key found. ADK-TS agent will be disabled."].
Proof.
  intros Hd Hs. rewrite (initializeWeatherAgent_disabled s) by done. simpl.
  rewrite initializeWeatherAgent_disabled by done. simpl.
  by rewrite <-app_assoc.
Qed.

(** ** The invariant *)

Lemma agent_ok_set_agg g s : agent_ok (set_agg g s) ↔ agent_ok s.
Proof. done. Qed.

Lemma Inv_logged line s : Inv s → Inv (logged line s).
Proof. intros [??]. split; [done|]. by apply Inv_set_sys. Qed.

Notation keeps := (preserves Inv).

Lemma agent_keeps_liftAgg {A} (m : M (Aggregator.State C) A) :
  preserves Aggregator.Inv m → keeps (liftAgg m).
Proof. intros Hm s [??]. rewrite agent_liftAgg_run. split; [done|by apply Hm]. Qed.

Lemma agent_keeps_liftW {A} (m : M Sys A) : keeps (liftW m).
Proof.
  apply agent_keeps_liftAgg. intros g Hg. rewrite liftSys_run. by apply Inv_set_sys.
Qed.

Lemma agent_keeps_getCurrentWeather q units :
  keeps (liftAgg (getCurrentWeather config q units)).
Proof. apply agent_keeps_liftAgg. intros g. apply getCurrentWeather_Inv. Qed.

Lemma agent_keeps_getForecast q units days :
  keeps (liftAgg (getForecast config q units days)).
Proof. apply agent_keeps_liftAgg. intros g. apply getForecast_Inv. Qed.

Lemma keeps_initializeWeatherAgent : keeps initializeWeatherAgent.
Proof.
  intros s Hs. destruct (weatherAgent s) as [agent|] eqn:Ha.
  { by rewrite (initializeWeatherAgent_ready s agent). }
  destruct enabled eqn:He.
  - rewrite initializeWeatherAgent_builds by done. apply Inv_logged.
    split; [by right|apply Hs].
  - rewrite initializeWeatherAgent_disabled by done. by apply Inv_logged.
Qed.

#[local] Hint Resolve agent_keeps_liftW agent_keeps_getCurrentWeather agent_keeps_getForecast
  keeps_initializeWeatherAgent : weather.

(** Prove that a computation built from the operations keeps the
    invariant: decompose binds and handlers, split on every match. *)
Ltac solve_keeps :=
  repeat first
    [ progress eauto with weather
    | apply preserves_bind; [|intros ?]
    | apply preserves_catch; [|intros ?]
    | case_match ].

Lemma keeps_getWeatherInsights activity location :
  keeps (getWeatherInsights activity location).
Proof. unfold getWeatherInsights, analyse. solve_keeps. Qed.

Lemma keeps_getEnhancedWeatherSummary location days :
  keeps (getEnhancedWeatherSummary location days).
Proof. unfold getEnhancedWeatherSummary, summarise. solve_keeps. Qed.

Lemma agent_step_Inv s s' : step s s' → Inv s → Inv s'.
Proof.
  destruct 1; intros Hs.
  - by apply keeps_initializeWeatherAgent.
  - by apply keeps_getWeatherInsights.
  - by apply keeps_getEnhancedWeatherSummary.
  - destruct Hs. split; [done|by apply handle_Inv].
Qed.

(** C25: whatever is called and in whatever order, the two variables of the
    module stay set together, to the agent and the runner of the
    configuration, and the stores of the aggregator stay well formed. *)
Theorem agent_reachable_Inv s s' : Inv s → rtc step s s' → Inv s'.
Proof. intros Hs Hr. induction Hr; eauto using agent_step_Inv. Qed.

(** ** [getWeatherInsights] *)

(** Without a key the answer is the fixed text: nothing is requested and
    nothing is asked, the warning is printed. *)
Theorem getWeatherInsights_disabled activity location s :
  enabled = false → weatherAgent s = None →
  getWeatherInsights activity location s
  = (Ok (getBasicInsights activity location),
     logged "No LLM provider key found. ADK-TS agent will be disabled." s).
Proof.
  intros Hd Hs. unfold getWeatherInsights, bind.
  by rewrite initializeWeatherAgent_disabled.
Qed.

Lemma getWeatherInsights_ready activity location s agent :
  weatherAgent s = Some agent →
  getWeatherInsights activity location s
  = analyse (agentRunner s) activity location s.
Proof.
  intros Hs. unfold getWeatherInsights, bind.
  by rewrite (initializeWeatherAgent_ready s agent).
Qed.

(** C28: the fallback covers the model and not the weather: when the current
    conditions cannot be had, the call fails with the error of the
    aggregator, the forecast is not asked for and neither is the model. *)
Theorem getWeatherInsights_weather_fails activity location s agent e g :
  weatherAgent s = Some agent →
  getCurrentWeather config location (defaultUnits config) (agg s) = (Throw e, g) →
  getWeatherInsights activity location s = (Throw e, set_agg g s).
Proof.
  intros Hs Hw. rewrite (getWeatherInsights_ready _ _ _ agent) by done.
  unfold analyse, bind at 1. by rewrite agent_liftAgg_run, Hw.
Qed.

Section asked.
Context (activity : string) (location : LocationQuery) (s : State)
  (agent : LlmAgent) (r : Runner) (w : CurrentWeather) (f : Forecast)
  (g g' : Aggregator.State C).
Context (Hagent : weatherAgent s = Some agent) (Hrunner : agentRunner s = Some r).
Context (Hw : getCurrentWeather config location (defaultUnits config) (agg s)
              = (Ok w, g)).
Context (Hf : getForecast config location (defaultUnits config) 3%Q g = (Ok f, g')).

Let prompt := insights_prompt activity location w f.

Lemma analyse_asks :
  getWeatherInsights activity location s
  = try_catch
      (let! response := liftW (ask (Some r) prompt) in ret (text_of response))
      (λ e, liftW (console_log ("Agent analysis failed:" +:+ " "
                                +:+ inspect_error e)) ;;
            ret (getBasicInsights activity location))
      (set_agg g' s).
Proof.
  rewrite (getWeatherInsights_ready _ _ _ agent), Hrunner by done.
  unfold analyse, bind at 1. rewrite agent_liftAgg_run, Hw. simpl.
  unfold bind at 1. by rewrite agent_liftAgg_run; simpl; rewrite Hf.
Qed.

(** With the weather at hand the model is asked once, with the prompt of
    the activity, the place and both records; its reply is the answer,
    and the time it took has passed. *)
Theorem getWeatherInsights_answers reply dt :
  llm_ask (runs r) prompt (clock (sys g')) = (Ok reply, dt) →
  getWeatherInsights activity location s
  = (Ok (text_of reply), set_agg (set_sys (advance dt (sys g')) g') s).
Proof.
  intros Hask. rewrite analyse_asks. unfold try_catch, bind.
  rewrite agent_liftW_run. simpl. by rewrite Hask.
Qed.

(** C17: when the model fails the answer is the fixed text, the exception is
    printed after the words [Agent analysis failed:] the way [console.error]
    prints an object, and the caller sees no error. *)
Theorem getWeatherInsights_model_fails e dt :
  llm_ask (runs r) prompt (clock (sys g')) = (Throw e, dt) →
  getWeatherInsights activity location s
  = (Ok (getBasicInsights activity location),
     logged ("Agent analysis failed: " +:+ inspect_error e)
       (set_agg (set_sys (advance dt (sys g')) g') s)).
Proof.
  intros Hask. rewrite analyse_asks. unfold try_catch, bind at 1.
  rewrite agent_liftW_run. simpl. rewrite Hask. simpl.
  unfold bind. by rewrite log_run.
Qed.

End asked.

(** ** [getEnhancedWeatherSummary] *)

(** [days || 3] keeps every count but zero. *)
Lemma days_or_three_spec (days : option Q) :
  days_or_three days
  = match days with
    | Some d => if Qeq_bool d 0 then 3%Q else d
    | None => 3%Q
    end.
Proof. unfold days_or_three. destruct days as [d|]; simpl; [|done].
  by destruct (Qeq_bool d 0).
Qed.

Theorem getEnhancedWeatherSummary_disabled location days s :
  enabled = false → weatherAgent s = None →
  getEnhancedWeatherSummary location days s
  = (Ok noSummary,
     logged "No LLM provider key found. ADK-TS agent will be disabled." s).
Proof.
  intros Hd Hs. unfold getEnhancedWeatherSummary, bind.
  by rewrite initializeWeatherAgent_disabled.
Qed.

(** A summary asked for zero days is the summary of three: the count
    falls back on the default as an absent one does. *)
Theorem getEnhancedWeatherSummary_zero_days location s :
  getEnhancedWeatherSummary location (Some 0%Q) s
  = getEnhancedWeatherSummary location None s.
Proof. done. Qed.

End agent.

Arguments State C : clear implicits.

(** ** The theorems at a scenario

    The aggregator's scenario (London, both weather providers) with a
    scripted model: every question takes [latency] milliseconds and has
    the same outcome. *)

Import Dates.

#[refine] Instance scriptedLlm (outcome : result Reply) (latency : N) : Llm := {|
  llm_ask _ _ _ := (outcome, Z.of_N latency);
|}.
Proof. intros; simpl; lia. Defined.

Definition init (config : Config) (t : Z) : State LRUCache :=
  mkState (Aggregator.init config t) None None.

Lemma agent_init_Inv config env t : Inv config env (init config t).
Proof. split; [by left|apply init_Inv]. Qed.

Definition with_google : Config :=
  mkConfig 3000 "ow-key" "wa-key" metric 300 900 300 "google-key".

Definition no_env : Env := λ _, None.
Definition openai_env : Env :=
  λ name, if String.eqb name "OPENAI_API_KEY" then Some "openai-key" else None.

Definition sunny : Llm := scriptedLlm (Ok (mkReply (Some "Go for it.") "[object]")) 900.
Definition mute : Llm := scriptedLlm (Ok (mkReply (Some EmptyString) "[object]")) 900.
Definition broken : Llm := scriptedLlm (Throw (mkError "quota exceeded")) 900.

Definition show_current (w : CurrentWeather) : string := provider w.
Definition show_forecast (f : Forecast) : string := fc_provider f.
Definition print_error (e : Error) : string := "Error: " +:+ Prelude.message e.

Definition insights (config : Config) (env : Env) (net : Net) (llm : Llm)
    (s : State LRUCache) : result string * State LRUCache :=
  getWeatherInsights config env show_current show_forecast print_error
    "Running" london s.

(** The first call builds the agent of Google's model, fetches both
    records (two requests of 40 ms), asks the model (900 ms) and answers
    its text; an empty text gives way to the rendering of the reply; with
    OpenAI's key alone the other model is chosen. *)
Example insights_scenario :
  let '(r, s) := insights with_google no_env both_up sunny (init with_google 0) in
  (r, model <$> weatherAgent s, clock (sys (agg s)), length (calls (sys (agg s))),
   console (sys (agg s)))
  = (Ok "Go for it.", Some "gemini-2.5-flash", 980%Z, 2,
     ["Weather agent initialized with model: gemini-2.5-flash"])
  ∧ (insights with_google no_env both_up mute (init with_google 0)).1
    = Ok "[object]"
  ∧ (model <$> weatherAgent
       (insights both_keys openai_env both_up sunny (init both_keys 0)).2)
    = Some "gpt-4o-mini".
Proof. by vm_compute. Qed.

(** A place given by its coordinates has no city to print: the fixed text
    names it [undefined, undefined]. *)
Example basic_insights_by_coordinates :
  getBasicInsights "Running" (mkLocationQuery None None (Some 51.5%Q) (Some 0%Q))
  = "Basic weather insights for " +:+ dquote +:+ "Running" +:+ dquote
    +:+ " at undefined, undefined. Enable LLM provider (GOOGLE_API_KEY or OPENAI_API_KEY) for AI-powered analysis and recommendations.".
Proof. done. Qed.

Lemma initializeWeatherAgent_once_witness :
  initializeWeatherAgent with_google no_env
    (initializeWeatherAgent with_google no_env
       (init with_google 0)).2
  = initializeWeatherAgent with_google no_env (init with_google 0).
Proof. by apply initializeWeatherAgent_once. Defined.

Lemma initializeWeatherAgent_warns_again_witness :
  let s' := (initializeWeatherAgent both_keys no_env
               (initializeWeatherAgent both_keys no_env
                  (init both_keys 0)).2).2 in
  console (sys (agg s'))
  = console (sys (agg (init both_keys 0)))
    ++ ["No LLM provider key found. ADK-TS agent will be disabled.";
        "No LLM provider key found. ADK-TS agent will be disabled."].
Proof. by apply initializeWeatherAgent_warns_again. Defined.

Lemma agent_reachable_Inv_witness :
  Inv with_google no_env
    (insights with_google no_env both_up sunny (init with_google 0)).2.
Proof.
  eapply (agent_reachable_Inv (net := both_up) (llm := sunny) with_google no_env
            show_current show_forecast print_error (init with_google 0)).
  - apply agent_init_Inv.
  - apply rtc_once, step_insights.
Defined.

Lemma getWeatherInsights_disabled_witness :
  insights both_keys no_env both_up sunny (init both_keys 0)
  = (Ok (getBasicInsights "Running" london),
     logged "No LLM provider key found. ADK-TS agent will be disabled."
       (init both_keys 0)).
Proof. by apply getWeatherInsights_disabled. Defined.

(** The state of the scenario once the process has initialized the agent. *)
Definition ready : State LRUCache :=
  (initializeWeatherAgent with_google no_env (init with_google 0)).2.

Lemma getWeatherInsights_weather_fails_witness :
  ∃ g, insights with_google no_env all_down sunny ready
       = (Throw refused, set_agg g ready).
Proof.
  eexists. eapply (getWeatherInsights_weather_fails (net := all_down)
                     (llm := sunny)); by vm_compute.
Defined.

Lemma getWeatherInsights_answers_witness :
  ∃ g, insights with_google no_env both_up sunny ready
       = (Ok "Go for it.", set_agg g ready).
Proof.
  eexists.
  eapply (getWeatherInsights_answers (net := both_up) (llm := sunny))
    with (reply := mkReply (Some "Go for it.") "[object]") (dt := 900%Z);
    by vm_compute.
Defined.

Lemma getWeatherInsights_model_fails_witness :
  ∃ s', insights with_google no_env both_up broken ready
        = (Ok (getBasicInsights "Running" london),
           logged "Agent analysis failed: Error: quota exceeded" s').
Proof.
  eexists.
  eapply (getWeatherInsights_model_fails (net := both_up) (llm := broken))
    with (e := mkError "quota exceeded") (dt := 900%Z); by vm_compute.
Defined.

End Agent.
