(* ===== verification/Examples.v ===== *)
(** * Examples: the two demonstration scripts

    [examples/adk-agent.ts] builds an agent with an HTTP tool, asks it one
    question about the REST routes and prints the answer; a failure
    reaches the rejection handler of [main], which prints it and exits
    with code 1.  [examples/adk-mcp-integration.ts] prints how to try the
    tools, then does the same with an MCP client tool inside a [try], so
    that its rejection handler has nothing left to handle.

    A script runs in a process: the system state and the exit code.  The
    language model is the interface [Llm] of [Agent]; how the runtime
    prints an object ([console.log] of a reply without text,
    [console.error] of an error) is a parameter. *)

From S2P Require Import Prelude World Agent.

Module Examples.
Import Agent.

(** The tools an agent is built with. *)
Inductive Tool : Type :=
| HttpRequestTool
| McpClientTool (url : string).

(** What [AgentBuilder ... .withTools(..).build()] gives a script. *)
Record DemoAgent : Type := mkDemo {
  demo_agent : LlmAgent;
  demo_tools : list Tool;
}.

(** The process of a script: the system, and the code it exited with. *)
Record Proc : Type := mkProc {
  proc_sys : Sys;
  exitCode : option Z;
}.

Definition start (t : Z) : Proc := mkProc (sys_init t) None.

Definition liftW {A} (m : M Sys A) : M Proc A :=
  zoom proc_sys (λ y p, mkProc y (exitCode p)) m.

(** [process.exit(code)] *)
Definition process_exit (code : Z) : M Proc unit :=
  modify_st (λ p, mkProc (proc_sys p) (Some code)).

(** [console.log(a, b)] of two strings: both, with a space between. *)
Definition console_log2 (a b : string) : M Sys unit :=
  console_log (a +:+ " " +:+ b).

Section scripts.
Context `{llm : Llm}.
Context (inspect : Reply → string) (inspect_error : Error → string).

(** [response.text ?? response], as [console.log] prints it. *)
Definition answer_of (response : Reply) : string :=
  nullish (reply_text response) (inspect response).

(** [main().catch((err) => { console.error(err); process.exit(1); })] *)
Definition rejected (err : Error) : M Proc unit :=
  liftW (console_log (inspect_error err)) ;; process_exit 1.

(** ** [examples/adk-agent.ts] *)

Definition rest_build : DemoAgent * Runner :=
  let agent :=
    mkAgent "weatherwise_demo"
      "Agent that queries WeatherWise REST endpoints to get weather and forecast."
      "When asked for weather, call the local WeatherWise REST endpoints (http://localhost:3000/api/current and /api/forecast)."
      "gemini-2.5-flash" in
  (mkDemo agent [HttpRequestTool], mkRunner agent).

Definition rest_question : string :=
  "What's the 3-day forecast for London, UK? Use http://localhost:3000/api/forecast?city=London&country=UK&days=3".

Definition rest_main : M Proc unit :=
  let '(_, runner) := rest_build in
  let question := rest_question in
  let! response := liftW (ask (Some runner) question) in
  liftW (console_log2 ("Agent response:" +:+ newline) (answer_of response)).

Definition rest_script : M Proc unit := try_catch rest_main rejected.

(** ** [examples/adk-mcp-integration.ts] *)

Definition mcp_build : DemoAgent * Runner :=
  let agent :=
    mkAgent "mcp_client_demo"
      "Demo agent that connects to WeatherWise MCP server"
      "Use the WeatherWise MCP tools to get weather information and insights."
      "gemini-2.5-flash" in
  (mkDemo agent [McpClientTool "http://localhost:3000/mcp"], mkRunner agent).

Definition mcp_question : string :=
  "What are the weather insights for running in London, UK today?".

(** What the script prints before it builds its agent. *)
Definition mcp_banner : list string := [
  "=== WeatherWise MCP + ADK-TS Integration Demo ===" +:+ newline;
  "This example shows ADK-TS integrated WITHIN the MCP server.";
  "The MCP tools use ADK-TS agents internally for intelligent responses." +:+ newline;
  "To test the integration:";
  "1. Start WeatherWise MCP server: npm run dev:http";
  "2. Use MCP Inspector: npx @modelcontextprotocol/inspector";
  "3. Connect to: http://localhost:3000/mcp";
  "4. Try AI-powered tools:";
  "   - weather_insights: Get intelligent activity recommendations";
  "   - get_weather_summary: Get conversational weather summaries";
  "   - Standard tools: get_current_weather, get_forecast, etc." +:+ newline ].

(** The body of the [try]. *)
Definition mcp_demo : M Proc unit :=
  let '(_, runner) := mcp_build in
  let question := mcp_question in
  liftW (console_log ("Question: " +:+ question)) ;;
  let! response := liftW (ask (Some runner) question) in
  liftW (console_log2 ("MCP Response:" +:+ newline) (answer_of response)).

(** The body of the [catch]. *)
Definition mcp_failed (error : Error) : M Proc unit :=
  liftW (console_log2 "MCP client demo failed (server may not be running):"
           (Prelude.message error)) ;;
  liftW (console_log (newline +:+ "The main integration is inside the MCP server itself.")) ;;
  liftW (console_log "Use MCP Inspector to test the AI-powered tools directly.").

Definition mcp_main : M Proc unit :=
  liftW (for_each mcp_banner console_log) ;;
  try_catch mcp_demo mcp_failed.

Definition mcp_script : M Proc unit := try_catch mcp_main rejected.

(** ** Reference definitions *)

(** The process after [dt] milliseconds and with [lines] printed. *)
Definition printed (dt : Z) (lines : list string) (p : Proc) : Proc :=
  mkProc (mkSys (clock (proc_sys p) + dt) (calls (proc_sys p))
            (console (proc_sys p) ++ lines))
         (exitCode p).

(** ** Running the primitives *)

Lemma examples_liftW_run {A} (m : M Sys A) p :
  liftW m p = ((m (proc_sys p)).1, mkProc (m (proc_sys p)).2 (exitCode p)).
Proof. unfold liftW, zoom. by destruct (m (proc_sys p)). Qed.

Lemma printed_nil p : printed 0 [] p = p.
Proof.
  destruct p as [[t c o] x]. unfold printed; simpl.
  by rewrite Z.add_0_r, app_nil_r.
Qed.

Lemma printed_printed dt1 l1 dt2 l2 p :
  printed dt2 l2 (printed dt1 l1 p) = printed (dt1 + dt2) (l1 ++ l2) p.
Proof. unfold printed; simpl. by rewrite Z.add_assoc, app_assoc. Qed.

Lemma log_printed line p :
  liftW (console_log line) p = (Ok tt, printed 0 [line] p).
Proof.
  rewrite examples_liftW_run. unfold printed; simpl. by rewrite Z.add_0_r.
Qed.

Lemma for_each_log lines s :
  for_each lines console_log s
  = (Ok tt, mkSys (clock s) (calls s) (console s ++ lines)).
Proof.
  revert s. induction lines as [|l lines IH]; intros s; simpl.
  - rewrite app_nil_r. by destruct s.
  - unfold bind. rewrite console_log_spec, IH; simpl.
    by rewrite <-app_assoc.
Qed.

Lemma banner_printed lines p :
  liftW (for_each lines console_log) p = (Ok tt, printed 0 lines p).
Proof.
  rewrite examples_liftW_run, for_each_log. unfold printed; simpl.
  by rewrite Z.add_0_r.
Qed.

Lemma ask_printed runner question p :
  liftW (ask (Some runner) question) p
  = let '(r, dt) := llm_ask (runs runner) question (clock (proc_sys p)) in
    (r, printed dt [] p).
Proof.
  rewrite examples_liftW_run. unfold ask, printed, advance.
  destruct (llm_ask _ _ _) as [r dt]; simpl. by rewrite app_nil_r.
Qed.

Lemma ask_then {A} runner question (k : Reply → M Proc A) p :
  bind (liftW (ask (Some runner) question)) k p
  = match llm_ask (runs runner) question (clock (proc_sys p)) with
    | (Ok response, dt) => k response (printed dt [] p)
    | (Throw e, dt) => (Throw e, printed dt [] p)
    end.
Proof.
  unfold bind. rewrite ask_printed. by destruct (llm_ask _ _ _) as [[r|e] dt].
Qed.

Lemma log2_printed a b p :
  liftW (console_log2 a b) p = (Ok tt, printed 0 [a +:+ " " +:+ b] p).
Proof. apply log_printed. Qed.

Lemma rejected_run e p :
  rejected e p = (Ok tt, mkProc (proc_sys (printed 0 [inspect_error e] p)) (Some 1%Z)).
Proof. unfold rejected, bind. by rewrite log_printed. Qed.

(** ** [examples/adk-agent.ts] *)

Section rest.
Context (p : Proc).

Let agent := (rest_build).1.

(** The answer of the model is printed after the heading. *)
Theorem rest_script_answers response dt :
  llm_ask (demo_agent agent) rest_question (clock (proc_sys p)) = (Ok response, dt) →
  rest_script p
  = (Ok tt, printed dt [("Agent response:" +:+ newline) +:+ " " +:+ answer_of response] p).
Proof.
  intros Hask. unfold rest_script, try_catch, rest_main, rest_build. cbv beta iota zeta.
  rewrite ask_then. change (runs _) with (demo_agent agent). rewrite Hask.
  by rewrite log2_printed, printed_printed, Z.add_0_r.
Qed.

(** A failure of the model ends the process with code 1, after the error
    is printed; nothing is printed under the heading. *)
Theorem rest_script_fails e dt :
  llm_ask (demo_agent agent) rest_question (clock (proc_sys p)) = (Throw e, dt) →
  rest_script p
  = (Ok tt, mkProc (proc_sys (printed dt [inspect_error e] p)) (Some 1%Z)).
Proof.
  intros Hask. unfold rest_script, try_catch, rest_main, rest_build. cbv beta iota zeta.
  rewrite ask_then. change (runs _) with (demo_agent agent). rewrite Hask.
  by rewrite rejected_run, printed_printed, Z.add_0_r.
Qed.

End rest.

(** ** [examples/adk-mcp-integration.ts] *)

Section mcp.
Context (p : Proc).

Let agent := (mcp_build).1.
Let asked := mcp_banner ++ ["Question: " +:+ mcp_question].

Lemma mcp_main_asks :
  mcp_main p
  = match llm_ask (demo_agent agent) mcp_question (clock (proc_sys p)) with
    | (Ok response, dt) =>
        (Ok tt, printed dt (asked ++ [("MCP Response:" +:+ newline) +:+ " "
                                      +:+ answer_of response]) p)
    | (Throw e, dt) => mcp_failed e (printed dt asked p)
    end.
Proof.
  unfold mcp_main. unfold bind at 1. rewrite banner_printed.
  unfold try_catch, mcp_demo, mcp_build. cbv beta iota zeta.
  unfold bind at 1. rewrite log_printed, printed_printed, ask_then.
  change (runs _) with (demo_agent agent).
  change (clock (proc_sys (printed _ _ p))) with (clock (proc_sys p) + (0 + 0))%Z.
  rewrite Z.add_0_r.
  destruct (llm_ask _ _ _) as [[response|e] dt];
    rewrite ?log2_printed, !printed_printed, ?Z.add_0_r; done.
Qed.

(** The answer of the model is printed after the banner and the
    question. *)
Theorem mcp_script_answers response dt :
  llm_ask (demo_agent agent) mcp_question (clock (proc_sys p)) = (Ok response, dt) →
  mcp_script p
  = (Ok tt,
     printed dt (mcp_banner
                 ++ ["Question: " +:+ mcp_question;
                     ("MCP Response:" +:+ newline) +:+ " " +:+ answer_of response]) p).
Proof.
  intros Hask. unfold mcp_script, try_catch. rewrite mcp_main_asks, Hask.
  unfold asked. by rewrite <-app_assoc.
Qed.

(** A failure of the model is absorbed by the script: it prints the
    message and two lines of advice, and ends normally. *)
Theorem mcp_script_fails e dt :
  llm_ask (demo_agent agent) mcp_question (clock (proc_sys p)) = (Throw e, dt) →
  mcp_script p
  = (Ok tt,
     printed dt (mcp_banner
                 ++ ["Question: " +:+ mcp_question;
                     "MCP client demo failed (server may not be running): "
                       +:+ Prelude.message e;
                     newline +:+ "The main integration is inside the MCP server itself.";
                     "Use MCP Inspector to test the AI-powered tools directly."]) p).
Proof.
  intros Hask. unfold mcp_script, try_catch. rewrite mcp_main_asks, Hask.
  unfold mcp_failed, bind. rewrite log2_printed, !log_printed, !printed_printed.
  unfold asked. by rewrite <-!app_assoc, !Z.add_0_r.
Qed.

(** Whatever the model does, the second script ends normally and sets no
    exit code: its rejection handler never runs. *)
Theorem mcp_script_never_exits :
  (mcp_script p).1 = Ok tt ∧ exitCode (mcp_script p).2 = exitCode p.
Proof.
  destruct (llm_ask (demo_agent agent) mcp_question (clock (proc_sys p)))
    as [[response|e] dt] eqn:Hask.
  - by rewrite (mcp_script_answers _ _ Hask).
  - by rewrite (mcp_script_fails _ _ Hask).
Qed.

End mcp.

(** [??] keeps a text that is empty, where [weatherAgent.ts] prints the
    rendering of the reply instead. *)
Lemma answer_of_empty s :
  answer_of (mkReply (Some EmptyString) s) = EmptyString
  ∧ text_of (mkReply (Some EmptyString) s) = s.
Proof. done. Qed.

End scripts.

(** ** A scenario *)

Definition show_reply (r : Reply) : string := reply_string r.
Definition show_error (e : Error) : string := "Error: " +:+ Prelude.message e.

(** With a model that fails, the first script exits with code 1 and the
    second ends normally; both have asked their question once. *)
Example scripts_on_failure :
  let r := rest_script (llm := broken) show_reply show_error (start 0) in
  let m := mcp_script (llm := broken) show_reply show_error (start 0) in
  exitCode r.2 = Some 1%Z ∧ console (proc_sys r.2) = ["Error: quota exceeded"]
  ∧ exitCode m.2 = None ∧ length (console (proc_sys m.2)) = 15%nat
  ∧ clock (proc_sys r.2) = 900%Z ∧ clock (proc_sys m.2) = 900%Z.
Proof. by vm_compute. Qed.

Lemma rest_script_answers_witness :
  rest_script (llm := sunny) show_reply show_error (start 0)
  = (Ok tt, printed 900 [("Agent response:" +:+ newline) +:+ " Go for it."] (start 0)).
Proof.
  by apply (rest_script_answers (llm := sunny) show_reply show_error (start 0)
              (mkReply (Some "Go for it.") "[object]") 900).
Defined.

Lemma rest_script_fails_witness :
  rest_script (llm := broken) show_reply show_error (start 0)
  = (Ok tt, mkProc (mkSys 900 [] ["Error: quota exceeded"]) (Some 1%Z)).
Proof.
  by apply (rest_script_fails (llm := broken) show_reply show_error (start 0)
              (mkError "quota exceeded") 900).
Defined.

Lemma mcp_script_fails_witness :
  (mcp_script (llm := broken) show_reply show_error (start 0)).1 = Ok tt.
Proof.
  by rewrite (mcp_script_fails (llm := broken) show_reply show_error (start 0)
                (mkError "quota exceeded") 900).
Defined.

End Examples.
