(* ===== verification/Alerts.v ===== *)
(** * Alerts: the registry, the evaluator and the scheduler

    [services/alertService.ts]: the alert types, the registry (a [Map] from
    id to alert, in insertion order), [registerAlert], [removeAlert],
    [listAlerts], the threshold adjustment, the evaluation of one alert
    against the aggregator, the sweep over all alerts and the two scheduler
    operations.

    An alert is an object shared between the registry and the sweep's
    snapshot: [notify] stamps the object, so the stamp is seen through the
    registry.  A sweep runs here without another handler in between, so the
    object in the snapshot is the one the registry holds under its id, and
    the stamp is a write to the registry's entry. *)

From stdpp Require Import pretty.
From S2P Require Import Prelude OrderedMap Types Upstream World Dates Cache OpenWeather Aggregator.
Import Cache Aggregator.

Module Alerts.

Inductive AlertConditionType : Type := rain | temp_above | temp_below | wind_above.

Record WeatherAlertCondition : Type := mkCondition {
  type : AlertConditionType;
  threshold : option Q;
  daysAhead : option Q;
}.

Inductive AlertChannel : Type := to_console | webhook.

Inductive Sensitivity : Type := low | medium | high.

(** [Omit<WeatherAlert, "id" | "createdAt">]: what [registerAlert] is given. *)
Record AlertInput : Type := mkInput {
  in_name : option string;
  in_location : LocationQuery;
  in_condition : WeatherAlertCondition;
  in_channel : AlertChannel;
  in_webhookUrl : option string;
  in_sensitivity : option Sensitivity;
  in_lastTriggeredAt : option string;
}.

Record WeatherAlert : Type := mkAlert {
  alert_id : string;
  alert_name : option string;
  alert_location : LocationQuery;
  alert_condition : WeatherAlertCondition;
  alert_channel : AlertChannel;
  alert_webhookUrl : option string;
  alert_sensitivity : option Sensitivity;
  createdAt : string;
  lastTriggeredAt : option string;
}.

(** What a notification carries. *)
Inductive Payload : Type :=
| ForecastPayload (f : Forecast)
| CurrentPayload (w : CurrentWeather).

#[export] Instance AlertConditionType_eq_dec : EqDecision AlertConditionType.
Proof. solve_decision. Defined.
#[export] Instance AlertChannel_eq_dec : EqDecision AlertChannel.
Proof. solve_decision. Defined.
#[export] Instance Sensitivity_eq_dec : EqDecision Sensitivity.
Proof. solve_decision. Defined.

(** [adjustThreshold(base, sensitivity)] *)
Definition adjustThreshold (base : Q) (sensitivity : option Sensitivity) : Q :=
  match sensitivity with
  | None | Some medium => base
  | Some high => base * 0.9
  | Some low => base * 1.1
  end.

(** [alert.lastTriggeredAt = stamp] *)
Definition stamped (stamp : string) (a : WeatherAlert) : WeatherAlert :=
  mkAlert (alert_id a) (alert_name a) (alert_location a) (alert_condition a)
    (alert_channel a) (alert_webhookUrl a) (alert_sensitivity a) (createdAt a)
    (Some stamp).

Section alerts.
Context {host : Host} {net : Net} {C : Type → Type} {store : TtlStore C}
  (config : Config).

(** What the code calls and does not define: the values
    [Math.random().toString(36).slice(2)] takes, in the order they are
    drawn; how the console prints a payload; the JSON of the body of a
    webhook request. *)
Context (random : nat → string) (inspect : Payload → string)
  (webhook_body : WeatherAlert → string → option Payload → string).

(** The state of the module: the aggregator it calls, the registry, the two
    variables of the scheduler, the number of ids drawn so far, and the
    runtime's table of interval timers (handle and period). *)
Record State : Type := mkState {
  agg : Aggregator.State C;
  alerts : list (string * WeatherAlert);
  schedulerStarted : bool;
  intervalHandle : option nat;
  drawn : nat;
  timers : list (nat * Z);
  nextTimer : nat;
}.

Definition set_agg (g : Aggregator.State C) (s : State) : State :=
  mkState g (alerts s) (schedulerStarted s) (intervalHandle s) (drawn s)
    (timers s) (nextTimer s).

Definition set_alerts (m : list (string * WeatherAlert)) (s : State) : State :=
  mkState (agg s) m (schedulerStarted s) (intervalHandle s) (drawn s)
    (timers s) (nextTimer s).

(** A computation of the aggregator, and one on the system, run here. *)
Definition liftAgg {A} (m : M (Aggregator.State C) A) : M State A :=
  zoom agg set_agg m.

Definition liftW {A} (m : M Sys A) : M State A := liftAgg (liftSys m).

(** [new Date().toISOString()] *)
Definition timestamp : M State string :=
  let! t := liftW now in ret (toISOString t).

(** [generateId()] *)
Definition generateId : M State string :=
  λ s, (Ok (random (drawn s)),
        mkState (agg s) (alerts s) (schedulerStarted s) (intervalHandle s)
          (S (drawn s)) (timers s) (nextTimer s)).

(** [listAlerts()] *)
Definition listAlerts : M State (list WeatherAlert) :=
  λ s, (Ok (omap.values (alerts s)), s).

(** [removeAlert(id)] *)
Definition removeAlert (id : string) : M State bool :=
  λ s, (Ok (omap.has id (alerts s)), set_alerts (omap.delete id (alerts s)) s).

(** [registerAlert(alert)] *)
Definition registerAlert (alert : AlertInput) : M State WeatherAlert :=
  let! id := generateId in
  let! created := timestamp in
  let full := mkAlert id (in_name alert) (in_location alert)
                (in_condition alert) (in_channel alert) (in_webhookUrl alert)
                (in_sensitivity alert) created (in_lastTriggeredAt alert) in
  modify_st (λ s, set_alerts (omap.set id full (alerts s)) s) ;;
  ret full.

(** The write [alert.lastTriggeredAt = stamp], seen through the registry
    when the alert is still registered. *)
Definition stamp_alert (alert : WeatherAlert) (stamp : string) : M State unit :=
  modify_st (λ s,
    if omap.has (alert_id alert) (alerts s)
    then set_alerts (omap.set (alert_id alert) (stamped stamp alert) (alerts s)) s
    else s).

(** [notify(alert, message, payload)] *)
Definition notify (alert : WeatherAlert) (message : string)
    (payload : option Payload) : M State unit :=
  let! stamp := timestamp in
  stamp_alert alert stamp ;;
  match alert_channel alert with
  | to_console =>
      liftW (console_log ("[ALERT " +:+ alert_id alert +:+ "] " +:+ message
                          +:+ " " +:+ from_option inspect "" payload))
  | webhook =>
      if truthy (alert_webhookUrl alert) then
        try_catch
          (liftW (axios_post (default "" (alert_webhookUrl alert))
                    (webhook_body (stamped stamp alert) message payload)))
          (λ e, liftW (console_log ("Webhook notify failed:" +:+ " "
                                    +:+ Prelude.message e)))
      else ret tt
  end.

(** [JSON.stringify(forecast.location)] *)
Definition stringify_location (l : Location) : string :=
  json_object (json_field "name" (Some (jsonString (loc_name l)))
    ++ json_field "lat" (Some (numToString (loc_lat l)))
    ++ json_field "lon" (Some (numToString (loc_lon l)))
    ++ json_field "country" (jsonString <$> loc_country l)).

(** [forecast.days.some(d => (d.chanceOfRainPct ?? 0) >= threshold)] *)
Definition raining (f : Forecast) (sensitivity : option Sensitivity) : bool :=
  existsb (λ d, nullish (chanceOfRainPct d) 0%Q >=? adjustThreshold 50 sensitivity)
    (days f).

(** [evaluateAlert(alert)] *)
Definition evaluateAlert (alert : WeatherAlert) : M State unit :=
  let cond := alert_condition alert in
  match type cond with
  | rain =>
      let days := nullish (daysAhead cond) 1%Q in
      let! forecast := liftAgg (getForecast config (alert_location alert)
                                  (defaultUnits config) days) in
      if raining forecast (alert_sensitivity alert) then
        notify alert
          ("Rain expected within " +:+ numToString days +:+ " day(s) at "
           +:+ stringify_location (fc_location forecast))
          (Some (ForecastPayload forecast))
      else ret tt
  | temp_above =>
      let! current := liftAgg (getCurrentWeather config (alert_location alert)
                                 (defaultUnits config)) in
      match threshold cond with
      | Some base =>
          let threshold := adjustThreshold base (alert_sensitivity alert) in
          if temperatureC current >=? threshold then
            notify alert
              ("Temperature above " +:+ numToString threshold +:+ "°C at "
               +:+ loc_name (location current))
              (Some (CurrentPayload current))
          else ret tt
      | None => ret tt
      end
  | temp_below =>
      let! current := liftAgg (getCurrentWeather config (alert_location alert)
                                 (defaultUnits config)) in
      match threshold cond with
      | Some base =>
          let threshold := adjustThreshold base (alert_sensitivity alert) in
          if num_le (temperatureC current) threshold then
            notify alert
              ("Temperature below " +:+ numToString threshold +:+ "°C at "
               +:+ loc_name (location current))
              (Some (CurrentPayload current))
          else ret tt
      | None => ret tt
      end
  | wind_above =>
      let! current := liftAgg (getCurrentWeather config (alert_location alert)
                                 (defaultUnits config)) in
      match threshold cond with
      | Some base =>
          let threshold := adjustThreshold base (alert_sensitivity alert) in
          let wind := nullish (windKph current) 0%Q in
          if wind >=? threshold then
            notify alert
              ("Wind speed above " +:+ numToString threshold +:+ " kph at "
               +:+ loc_name (location current))
              (Some (CurrentPayload current))
          else ret tt
      | None => ret tt
      end
  end.

(** The body of the loop of [pollAlerts]. *)
Definition guarded (a : WeatherAlert) : M State unit :=
  try_catch (evaluateAlert a)
    (λ e, liftW (console_log ("Alert evaluation failed:" +:+ " " +:+ alert_id a
                              +:+ " " +:+ Prelude.message e))).

(** [pollAlerts()] *)
Definition pollAlerts : M State unit :=
  let! items := listAlerts in
  for_each items guarded.

(** [setInterval(pollAlerts, ms)]: a new timer in the runtime's table. *)
Definition setInterval (ms : Z) : M State nat :=
  λ s, (Ok (nextTimer s),
        mkState (agg s) (alerts s) (schedulerStarted s) (intervalHandle s)
          (drawn s) (timers s ++ [(nextTimer s, ms)]) (S (nextTimer s))).

(** [clearInterval(handle)] *)
Definition clearInterval (handle : nat) : M State unit :=
  modify_st (λ s,
    mkState (agg s) (alerts s) (schedulerStarted s) (intervalHandle s)
      (drawn s) (filter (λ t, t.1 ≠ handle) (timers s)) (nextTimer s)).

(** [startAlertScheduler()] *)
Definition startAlertScheduler : M State unit :=
  let! s := get_st in
  if schedulerStarted s then ret tt
  else
    modify_st (λ s, mkState (agg s) (alerts s) true (intervalHandle s)
                      (drawn s) (timers s) (nextTimer s)) ;;
    let! handle := setInterval (alertPollIntervalSeconds config * 1000) in
    modify_st (λ s, mkState (agg s) (alerts s) (schedulerStarted s)
                      (Some handle) (drawn s) (timers s) (nextTimer s)) ;;
    liftW (console_log ("Alert scheduler started (every "
                        +:+ numToString (inject_Z (alertPollIntervalSeconds config))
                        +:+ "s)")).

(** [stopAlertScheduler()] *)
Definition stopAlertScheduler : M State unit :=
  let! s := get_st in
  match intervalHandle s with
  | Some handle => clearInterval handle
  | None => ret tt
  end ;;
  modify_st (λ s, mkState (agg s) (alerts s) false None (drawn s) (timers s)
                    (nextTimer s)).

(** ** The threshold adjustment *)

(** What the test of a threshold alert answers on a record: the reference
    the evaluator is compared with. *)
Definition due (a : WeatherAlert) (w : CurrentWeather) : bool :=
  match type (alert_condition a), threshold (alert_condition a) with
  | temp_above, Some base =>
      temperatureC w >=? adjustThreshold base (alert_sensitivity a)
  | temp_below, Some base =>
      num_le (temperatureC w) (adjustThreshold base (alert_sensitivity a))
  | wind_above, Some base =>
      nullish (windKph w) 0%Q >=? adjustThreshold base (alert_sensitivity a)
  | _, _ => false
  end.

(** The message of a threshold alert. *)
Definition message_of (a : WeatherAlert) (w : CurrentWeather) : string :=
  let th := numToString (adjustThreshold
              (default 0%Q (threshold (alert_condition a)))
              (alert_sensitivity a)) in
  match type (alert_condition a) with
  | temp_above => "Temperature above " +:+ th +:+ "°C at " +:+ loc_name (location w)
  | temp_below => "Temperature below " +:+ th +:+ "°C at " +:+ loc_name (location w)
  | _ => "Wind speed above " +:+ th +:+ " kph at " +:+ loc_name (location w)
  end.

(** ** The steps *)

Lemma liftAgg_run {A} (m : M (Aggregator.State C) A) s :
  liftAgg m s = ((m (agg s)).1, set_agg (m (agg s)).2 s).
Proof. unfold liftAgg, zoom. by destruct (m (agg s)). Qed.

Lemma liftW_run {A} (m : M Sys A) s :
  liftW m s =
  ((m (sys (agg s))).1, set_agg (set_sys (m (sys (agg s))).2 (agg s)) s).
Proof. unfold liftW. by rewrite liftAgg_run, liftSys_run. Qed.

Lemma set_agg_id s : set_agg (agg s) s = s.
Proof. by destruct s. Qed.

Lemma set_sys_id (g : Aggregator.State C) : set_sys (sys g) g = g.
Proof. by destruct g. Qed.

Lemma timestamp_run s :
  timestamp s = (Ok (toISOString (clock (sys (agg s)))), s).
Proof.
  unfold timestamp, bind, ret. rewrite liftW_run. simpl.
  by rewrite set_sys_id, set_agg_id.
Qed.

(** The state after the stamp. *)
Definition stamp_state (a : WeatherAlert) (s : State) : State :=
  (stamp_alert a (toISOString (clock (sys (agg s)))) s).2.

(** [notify] is the stamp, then the dispatch. *)
Lemma notify_run a msg p s :
  notify a msg p s =
  let stamp := toISOString (clock (sys (agg s))) in
  match alert_channel a with
  | to_console =>
      liftW (console_log ("[ALERT " +:+ alert_id a +:+ "] " +:+ msg
                          +:+ " " +:+ from_option inspect "" p))
        (stamp_state a s)
  | webhook =>
      if truthy (alert_webhookUrl a) then
        try_catch
          (liftW (axios_post (default "" (alert_webhookUrl a))
                    (webhook_body (stamped stamp a) msg p)))
          (λ e, liftW (console_log ("Webhook notify failed:" +:+ " "
                                    +:+ Prelude.message e)))
          (stamp_state a s)
      else (Ok tt, stamp_state a s)
  end.
Proof.
  unfold notify. unfold bind at 1. rewrite timestamp_run.
  unfold bind, stamp_state, stamp_alert, modify_st. simpl.
  by repeat case_match.
Qed.

(** What a computation does to the registry. *)
Definition registry_of {A} (m : M State A) (s : State)
    : list (string * WeatherAlert) := alerts (m s).2.

Lemma liftW_alerts {A} (m : M Sys A) s : alerts (liftW m s).2 = alerts s.
Proof. by rewrite liftW_run. Qed.

Lemma liftAgg_alerts {A} (m : M (Aggregator.State C) A) s :
  alerts (liftAgg m s).2 = alerts s.
Proof. by rewrite liftAgg_run. Qed.

Lemma try_liftW_alerts {A} (m : M Sys A) (h : Error → M Sys A) s :
  alerts (try_catch (liftW m) (λ e, liftW (h e)) s).2 = alerts s.
Proof.
  unfold try_catch. pose proof (liftW_alerts m s) as Hm.
  destruct (liftW m s) as [[a|e] s1]; [done|].
  by rewrite liftW_alerts.
Qed.

Lemma try_liftW_total (m : M Sys unit) (h : Error → M Sys unit) s :
  (∀ e y, (h e y).1 = Ok tt) →
  (try_catch (liftW m) (λ e, liftW (h e)) s).1 = Ok tt.
Proof.
  intros Hh. unfold try_catch. rewrite liftW_run.
  destruct (m (sys (agg s))) as [[[]|e] y]; [done|].
  simpl. rewrite liftW_run. apply Hh.
Qed.

(** The registry after the stamp: the entry of the alert, when it is
    registered, is the stamped alert; nothing else changes. *)
Lemma stamp_state_alerts a s :
  alerts (stamp_state a s) =
  if omap.has (alert_id a) (alerts s)
  then omap.set (alert_id a)
         (stamped (toISOString (clock (sys (agg s)))) a) (alerts s)
  else alerts s.
Proof. unfold stamp_state, stamp_alert, modify_st. simpl. by case_match. Qed.

Lemma notify_alerts a msg p s :
  alerts (notify a msg p s).2 = alerts (stamp_state a s).
Proof.
  rewrite notify_run. simpl. destruct (alert_channel a).
  - by rewrite liftW_alerts.
  - case_match; [|done]. by rewrite try_liftW_alerts.
Qed.

(** A notification never fails: a failure of the webhook is logged and
    swallowed. *)
Lemma notify_total a msg p s : (notify a msg p s).1 = Ok tt.
Proof.
  rewrite notify_run. simpl. destruct (alert_channel a).
  - by rewrite liftW_run.
  - case_match; [|done]. by apply try_liftW_total.
Qed.

(** ** The evaluation of one alert *)

(** A threshold alert asks for the current conditions, with the default
    units, and notifies when the test holds. *)
Lemma evaluateAlert_current a s w g :
  type (alert_condition a) ≠ rain →
  getCurrentWeather config (alert_location a) (defaultUnits config) (agg s)
    = (Ok w, g) →
  evaluateAlert a s =
  if due a w then notify a (message_of a w) (Some (CurrentPayload w)) (set_agg g s)
  else (Ok tt, set_agg g s).
Proof.
  intros Ht Hw. unfold evaluateAlert, due, message_of.
  destruct (type (alert_condition a)); [done|..];
    unfold bind; rewrite liftAgg_run, Hw; simpl;
    destruct (threshold (alert_condition a)); by try case_match.
Qed.

(** The failure of the aggregator is the failure of the evaluation. *)
Lemma evaluateAlert_current_fails a s e g :
  type (alert_condition a) ≠ rain →
  getCurrentWeather config (alert_location a) (defaultUnits config) (agg s)
    = (Throw e, g) →
  evaluateAlert a s = (Throw e, set_agg g s).
Proof.
  intros Ht Hw. unfold evaluateAlert.
  destruct (type (alert_condition a)); [done|..];
    unfold bind; by rewrite liftAgg_run, Hw.
Qed.

(** A rain alert asks for the forecast of [daysAhead] days, one when it is
    not given, and notifies when a day reaches the adjusted chance. *)
Lemma evaluateAlert_rain a s :
  type (alert_condition a) = rain →
  evaluateAlert a s =
  let days := nullish (daysAhead (alert_condition a)) 1%Q in
  match getForecast config (alert_location a) (defaultUnits config) days (agg s) with
  | (Ok f, g) =>
      if raining f (alert_sensitivity a) then
        notify a ("Rain expected within " +:+ numToString days +:+ " day(s) at "
                  +:+ stringify_location (fc_location f))
          (Some (ForecastPayload f)) (set_agg g s)
      else (Ok tt, set_agg g s)
  | (Throw e, g) => (Throw e, set_agg g s)
  end.
Proof.
  intros Ht. unfold evaluateAlert. rewrite Ht. unfold bind.
  rewrite liftAgg_run. simpl. destruct (getForecast _ _ _ _ _) as [[f|e] g]; [|done].
  simpl. by case_match.
Qed.

(** ** The registry *)

(** The registry is keyed by the id of its alerts, once each. *)
Definition registry_ok (m : list (string * WeatherAlert)) : Prop :=
  omap.wf m ∧ ∀ k a, (k, a) ∈ m → alert_id a = k.

Lemma registry_ok_empty : registry_ok [].
Proof. split; [apply omap.wf_empty|]. by intros ?? ?%elem_of_nil. Qed.

Lemma registry_ok_set a m :
  registry_ok m → registry_ok (omap.set (alert_id a) a m).
Proof.
  intros [Hwf Hid]. split; [by apply omap.wf_set|].
  intros k b Hb%(omap.elem_get _ _ _ (omap.wf_set _ _ _ Hwf)).
  destruct (decide (alert_id a = k)) as [<-|Hne].
  - rewrite omap.get_set_eq in Hb. by simplify_eq.
  - rewrite omap.get_set_ne in Hb by done. by apply Hid, omap.get_Some_elem.
Qed.

Lemma registry_ok_delete id m : registry_ok m → registry_ok (omap.delete id m).
Proof.
  intros [Hwf Hid]. split; [by apply omap.wf_delete|].
  intros k b Hb. apply Hid. unfold omap.delete in Hb.
  by apply list_elem_of_filter in Hb as [_ ?].
Qed.

Lemma stamp_state_ok a s :
  registry_ok (alerts s) → registry_ok (alerts (stamp_state a s)).
Proof.
  intros Hok. rewrite stamp_state_alerts. case_match; [|done].
  by apply (registry_ok_set (stamped _ a)).
Qed.

Lemma stamp_state_keys a s :
  omap.keys (alerts (stamp_state a s)) = omap.keys (alerts s).
Proof.
  rewrite stamp_state_alerts. case_match eqn:Hh; [|done].
  apply omap.keys_set_present, omap.get_is_Some.
  by apply bool_decide_eq_true in Hh.
Qed.

(** The registry after an evaluation: the registry before, the entry of the
    alert stamped or not. *)
Lemma evaluateAlert_alerts a s :
  alerts (evaluateAlert a s).2 = alerts s
  ∨ ∃ s', alerts s' = alerts s ∧ alerts (evaluateAlert a s).2 = alerts (stamp_state a s').
Proof.
  destruct (decide (type (alert_condition a) = rain)) as [Ht|Ht].
  - rewrite evaluateAlert_rain by done. simpl.
    destruct (getForecast _ _ _ _ _) as [[f|e] g]; [|by left].
    case_match; [|by left]. right. exists (set_agg g s). by rewrite notify_alerts.
  - destruct (getCurrentWeather config (alert_location a) (defaultUnits config)
                (agg s)) as [[w|e] g] eqn:Hw.
    + erewrite evaluateAlert_current by done.
      case_match; [|by left]. right. exists (set_agg g s). by rewrite notify_alerts.
    + erewrite evaluateAlert_current_fails by done. by left.
Qed.

Lemma evaluateAlert_ok a s :
  registry_ok (alerts s) → registry_ok (alerts (evaluateAlert a s).2).
Proof.
  intros Hok. destruct (evaluateAlert_alerts a s) as [->|(s' & Hs & ->)];
    [done|]. apply stamp_state_ok. by rewrite Hs.
Qed.

Lemma evaluateAlert_keys a s :
  omap.keys (alerts (evaluateAlert a s).2) = omap.keys (alerts s).
Proof.
  destruct (evaluateAlert_alerts a s) as [->|(s' & Hs & ->)]; [done|].
  by rewrite stamp_state_keys, Hs.
Qed.

(** ** The sweep *)

Lemma guarded_run a s :
  guarded a s =
  match evaluateAlert a s with
  | (Ok _, s1) => (Ok tt, s1)
  | (Throw e, s1) =>
      (Ok tt, set_agg (set_sys (console_log
         ("Alert evaluation failed: " +:+ alert_id a +:+ " " +:+ Prelude.message e)
         (sys (agg s1))).2 (agg s1)) s1)
  end.
Proof.
  unfold guarded, try_catch. destruct (evaluateAlert a s) as [[[]|e] s1]; [done|].
  by rewrite liftW_run.
Qed.

Lemma guarded_total a s : (guarded a s).1 = Ok tt.
Proof. rewrite guarded_run. by destruct (evaluateAlert a s) as [[] ?]. Qed.

Lemma guarded_alerts a s :
  alerts (guarded a s).2 = alerts (evaluateAlert a s).2.
Proof. rewrite guarded_run. by destruct (evaluateAlert a s) as [[] ?]. Qed.

(** The sweep is the fold of the guarded evaluation over the alerts
    registered when it starts, in their order of registration. *)
Lemma pollAlerts_run s :
  pollAlerts s = (Ok tt, foldl (λ s a, (guarded a s).2) s (omap.values (alerts s))).
Proof.
  unfold pollAlerts, listAlerts. unfold bind at 1.
  apply for_each_fold. intros. apply guarded_total.
Qed.

(** C8: failure isolation: when the evaluation of the first alert fails,
    the failure is written to the console with the id of the alert, the
    other alerts are evaluated from there, and the sweep does not fail. *)
Theorem pollAlerts_isolation s a rest e s1 :
  omap.values (alerts s) = a :: rest →
  evaluateAlert a s = (Throw e, s1) →
  pollAlerts s
  = for_each rest guarded
      (set_agg (set_sys (console_log
         ("Alert evaluation failed: " +:+ alert_id a +:+ " " +:+ Prelude.message e)
         (sys (agg s1))).2 (agg s1)) s1)
  ∧ (pollAlerts s).1 = Ok tt.
Proof.
  intros Hitems Ha. split.
  - unfold pollAlerts, listAlerts. unfold bind at 1. rewrite Hitems. simpl.
    unfold bind. by rewrite guarded_run, Ha.
  - by rewrite pollAlerts_run.
Qed.

Lemma pollAlerts_invariant (I : list (string * WeatherAlert) → Prop) s :
  (∀ a s, I (alerts s) → I (alerts (evaluateAlert a s).2)) →
  I (alerts s) → I (alerts (pollAlerts s).2).
Proof.
  intros Hstep. rewrite pollAlerts_run. simpl.
  generalize (omap.values (alerts s)). intros items. revert s.
  induction items as [|a items IH]; intros s Hs; [done|].
  simpl. apply IH. rewrite guarded_alerts. by apply Hstep.
Qed.

(** A sweep neither registers nor removes an alert: the ids of the
    registry, in order, are those before the sweep. *)
Theorem pollAlerts_keys s :
  omap.keys (alerts (pollAlerts s).2) = omap.keys (alerts s).
Proof.
  apply (pollAlerts_invariant (λ m, omap.keys m = omap.keys (alerts s)));
    [|done].
  intros a s' <-. apply evaluateAlert_keys.
Qed.

Lemma pollAlerts_ok s :
  registry_ok (alerts s) → registry_ok (alerts (pollAlerts s).2).
Proof. apply pollAlerts_invariant. intros. by apply evaluateAlert_ok. Qed.

(** ** Registration and removal *)

(** The alert [registerAlert] builds in a state. *)
Definition full_of (input : AlertInput) (s : State) : WeatherAlert :=
  mkAlert (random (drawn s)) (in_name input) (in_location input)
    (in_condition input) (in_channel input) (in_webhookUrl input)
    (in_sensitivity input) (toISOString (clock (sys (agg s))))
    (in_lastTriggeredAt input).

Lemma registerAlert_run input s :
  registerAlert input s =
  (Ok (full_of input s),
   mkState (agg s) (omap.set (random (drawn s)) (full_of input s) (alerts s))
     (schedulerStarted s) (intervalHandle s) (S (drawn s)) (timers s)
     (nextTimer s)).
Proof.
  unfold registerAlert. unfold bind at 1. simpl. unfold bind at 1.
  rewrite timestamp_run. by destruct s.
Qed.

(** Registration with an id that is not in use: the alert returned
    carries that id and the time of the call, and the list of alerts is the
    list before followed by it. *)
Theorem registerAlert_listed input s :
  random (drawn s) ∉ omap.keys (alerts s) →
  let '(r, s') := registerAlert input s in
  r = Ok (full_of input s)
  ∧ (listAlerts s').1 = Ok (omap.values (alerts s) ++ [full_of input s]).
Proof.
  intros Hfresh. rewrite registerAlert_run. split; [done|].
  simpl. by rewrite omap.values_set_fresh.
Qed.

(** C34: the id is drawn at random and not checked: when it is the id of a
    registered alert, that alert is replaced by the new one, and the
    registry has as many alerts as before. *)
Theorem registerAlert_collision input s old :
  omap.get (random (drawn s)) (alerts s) = Some old →
  let s' := (registerAlert input s).2 in
  omap.get (random (drawn s)) (alerts s') = Some (full_of input s)
  ∧ length (alerts s') = length (alerts s).
Proof.
  intros Hold. rewrite registerAlert_run. simpl. split.
  - apply omap.get_set_eq.
  - apply omap.length_set_present, omap.get_is_Some. by rewrite Hold.
Qed.

Lemma registerAlert_ok input s :
  registry_ok (alerts s) → registry_ok (alerts (registerAlert input s).2).
Proof.
  intros Hok. rewrite registerAlert_run. simpl.
  by apply (registry_ok_set (full_of input s)).
Qed.

(** Removal answers whether the id was registered; afterwards it is
    not, and the other alerts are as before. *)
Theorem removeAlert_spec id s :
  (removeAlert id s).1 = Ok (bool_decide (id ∈ omap.keys (alerts s)))
  ∧ omap.get id (alerts (removeAlert id s).2) = None
  ∧ ∀ id', id ≠ id' →
      omap.get id' (alerts (removeAlert id s).2) = omap.get id' (alerts s).
Proof.
  split_and!; simpl.
  - unfold omap.has. f_equal. apply bool_decide_ext, omap.get_is_Some.
  - apply omap.get_delete_eq.
  - intros id' Hne. by apply omap.get_delete_ne.
Qed.

(** Removing an alert just registered under a fresh id gives back the
    registry as it was. *)
Theorem register_remove input s :
  random (drawn s) ∉ omap.keys (alerts s) →
  let '(r, s1) := registerAlert input s in
  ∃ a, r = Ok a ∧ removeAlert (alert_id a) s1 = (Ok true, set_alerts (alerts s) s1).
Proof.
  intros Hfresh. rewrite registerAlert_run. eexists. split; [done|].
  unfold removeAlert. simpl. rewrite omap.delete_set_fresh by done.
  f_equal. f_equal. unfold omap.has. apply bool_decide_eq_true.
  by rewrite omap.get_set_eq.
Qed.

(** ** Sensitivity *)

(** For a threshold that is not negative, [high] lowers it and [low]
    raises it. *)
Lemma adjustThreshold_order (base : Q) :
  (0 <= base)%Q →
  (adjustThreshold base (Some high) <= adjustThreshold base None)%Q
  ∧ (adjustThreshold base None <= adjustThreshold base (Some low))%Q.
Proof. unfold adjustThreshold. intros. split; lra. Qed.

(** The alert with another sensitivity. *)
Definition with_sensitivity (o : option Sensitivity) (a : WeatherAlert)
    : WeatherAlert :=
  mkAlert (alert_id a) (alert_name a) (alert_location a) (alert_condition a)
    (alert_channel a) (alert_webhookUrl a) o (createdAt a) (lastTriggeredAt a).

(** For an alert on a high temperature or a strong wind with a
    threshold that is not negative, more sensitivity never loses a
    notification: whatever trips the alert at [low] trips it at [medium],
    and whatever trips it at [medium] trips it at [high]. *)
Theorem due_above_monotone a w base :
  type (alert_condition a) ∈ [temp_above; wind_above] →
  threshold (alert_condition a) = Some base → (0 <= base)%Q →
  (due (with_sensitivity (Some low) a) w = true →
   due (with_sensitivity (Some medium) a) w = true)
  ∧ (due (with_sensitivity (Some medium) a) w = true →
     due (with_sensitivity (Some high) a) w = true).
Proof.
  intros Ht Hb Hbase. unfold due. simpl. rewrite Hb.
  destruct (adjustThreshold_order base Hbase).
  set_unfold in Ht. destruct Ht as [->| [->|[]]]; simpl;
    rewrite !num_ge_spec; split; intros; lra.
Qed.

(** C35: for an alert on a low temperature the adjustment goes the other
    way: with a positive threshold, [high] makes the alert trip at fewer
    temperatures than [medium], not more. *)
Theorem due_below_inverted a base :
  type (alert_condition a) = temp_below →
  threshold (alert_condition a) = Some base → (0 < base)%Q →
  (∀ w, due (with_sensitivity (Some high) a) w = true →
        due (with_sensitivity (Some medium) a) w = true)
  ∧ ∃ t, ∀ w, temperatureC w = t →
       due (with_sensitivity (Some medium) a) w = true
       ∧ due (with_sensitivity (Some high) a) w = false.
Proof.
  intros Ht Hb Hbase. unfold due. simpl. rewrite Ht, Hb. simpl. split.
  - intros w. rewrite !num_le_spec. lra.
  - exists base. intros w ->. split; [apply num_le_spec; lra|].
    apply num_le_false. lra.
Qed.

(** ** Notification *)

(** C40: a webhook alert without a URL is stamped and nothing is sent or
    written: the notification is lost in silence. *)
Theorem notify_webhook_no_url a msg p s :
  alert_channel a = webhook → truthy (alert_webhookUrl a) = false →
  notify a msg p s = (Ok tt, stamp_state a s)
  ∧ agg (stamp_state a s) = agg s.
Proof.
  intros Hc Hu. rewrite notify_run, Hc, Hu. split; [done|].
  unfold stamp_state, stamp_alert, modify_st. simpl. by case_match.
Qed.

(** A registered alert that is notified carries the time of the
    notification in the registry afterwards, whatever the channel and
    whatever becomes of the webhook request. *)
Lemma notify_stamps a msg p s :
  alert_id a ∈ omap.keys (alerts s) →
  omap.get (alert_id a) (alerts (notify a msg p s).2)
  = Some (stamped (toISOString (clock (sys (agg s)))) a).
Proof.
  intros Hin. rewrite notify_alerts, stamp_state_alerts.
  unfold omap.has. rewrite bool_decide_eq_true_2 by by apply omap.get_is_Some.
  apply omap.get_set_eq.
Qed.

(** C9: the evaluation of a registered threshold alert against the record
    the aggregator answers: the alert is stamped with the time the answer
    came exactly when the record passes the test at the adjusted
    threshold, and is left as it was otherwise. *)
Theorem evaluateAlert_trips a s w g :
  type (alert_condition a) ≠ rain →
  alert_id a ∈ omap.keys (alerts s) →
  getCurrentWeather config (alert_location a) (defaultUnits config) (agg s)
    = (Ok w, g) →
  omap.get (alert_id a) (alerts (evaluateAlert a s).2)
  = if due a w then Some (stamped (toISOString (clock (sys g))) a)
    else omap.get (alert_id a) (alerts s).
Proof.
  intros Ht Hin Hw. erewrite evaluateAlert_current by done.
  destruct (due a w); [|done]. by rewrite notify_stamps.
Qed.

(** ** The scheduler *)

Definition period : Z := alertPollIntervalSeconds config * 1000.

Definition started_line : string :=
  "Alert scheduler started (every "
  +:+ numToString (inject_Z (alertPollIntervalSeconds config)) +:+ "s)".

Lemma startAlertScheduler_run s :
  startAlertScheduler s =
  if schedulerStarted s then (Ok tt, s)
  else (Ok tt,
        mkState (set_sys (console_log started_line (sys (agg s))).2 (agg s))
          (alerts s) true (Some (nextTimer s)) (drawn s)
          (timers s ++ [(nextTimer s, period)]) (S (nextTimer s))).
Proof.
  unfold startAlertScheduler. unfold bind at 1. simpl.
  destruct (schedulerStarted s); [done|].
  unfold bind, modify_st. simpl. by rewrite liftW_run.
Qed.

Lemma stopAlertScheduler_run s :
  stopAlertScheduler s =
  (Ok tt,
   mkState (agg s) (alerts s) false None (drawn s)
     (match intervalHandle s with
      | Some h => filter (λ t, t.1 ≠ h) (timers s)
      | None => timers s
      end) (nextTimer s)).
Proof.
  unfold stopAlertScheduler. unfold bind at 1. simpl.
  by destruct (intervalHandle s).
Qed.

(** A second start is a no-op: the state after two starts is the state
    after one, with one timer set and one line written. *)
Theorem startAlertScheduler_idempotent s :
  startAlertScheduler (startAlertScheduler s).2
  = (Ok tt, (startAlertScheduler s).2).
Proof.
  rewrite (startAlertScheduler_run s).
  destruct (schedulerStarted s) eqn:Hs; simpl;
    rewrite startAlertScheduler_run; simpl; by rewrite ?Hs.
Qed.

(** The two variables of the scheduler and the timers of the runtime agree:
    started with its one timer, or stopped with none. *)
Definition scheduler_ok (s : State) : Prop :=
  match intervalHandle s with
  | Some h =>
      schedulerStarted s = true ∧ timers s = [(h, period)]
      ∧ (h < nextTimer s)%nat
  | None => schedulerStarted s = false ∧ timers s = []
  end.

Lemma startAlertScheduler_ok s :
  scheduler_ok s → scheduler_ok (startAlertScheduler s).2.
Proof.
  unfold scheduler_ok. rewrite startAlertScheduler_run.
  destruct (schedulerStarted s) eqn:Hs; simpl; [by rewrite Hs|].
  destruct (intervalHandle s); [by intros (?&?&?)|].
  intros [_ ->]. split_and!; [done..|lia].
Qed.

Lemma stopAlertScheduler_ok s :
  scheduler_ok s → scheduler_ok (stopAlertScheduler s).2.
Proof.
  unfold scheduler_ok. rewrite stopAlertScheduler_run. simpl.
  destruct (intervalHandle s) as [h|]; [|by intros [??]].
  intros (_ & -> & _). split; [done|].
  by rewrite filter_cons_False, filter_nil by naive_solver.
Qed.

(** Stopping a started scheduler clears its timer, and a start after
    that sets a new one: no timer is left behind by a stop. *)
Theorem stop_then_start s :
  scheduler_ok s →
  timers (stopAlertScheduler s).2 = []
  ∧ timers (startAlertScheduler (stopAlertScheduler s).2).2
    = [(nextTimer s, period)].
Proof.
  intros Hok%stopAlertScheduler_ok. revert Hok.
  rewrite startAlertScheduler_run, stopAlertScheduler_run. simpl.
  unfold scheduler_ok. simpl. by intros [_ ->].
Qed.

(** ** The module as a transition system

    A state changes by a registration, a removal, a start or a stop of the
    scheduler, a sweep when a timer of the period is set, or a request to
    the aggregator by another caller. *)

Inductive step : State → State → Prop :=
| step_register input s : step s (registerAlert input s).2
| step_remove id s : step s (removeAlert id s).2
| step_start s : step s (startAlertScheduler s).2
| step_stop s : step s (stopAlertScheduler s).2
| step_sweep h s : (h, period) ∈ timers s → step s (pollAlerts s).2
| step_request r s : step s (set_agg (Aggregator.handle config r (agg s)) s).

(** What every operation but the two of the scheduler keeps: the scheduler
    consistent and the stores of the aggregator well formed. *)
Definition steady (s : State) : Prop :=
  scheduler_ok s ∧ Aggregator.Inv (agg s).

Definition keeps {A} (m : M State A) : Prop := ∀ s, steady s → steady (m s).2.

Lemma keeps_ret {A} (a : A) : keeps (ret a).
Proof. by intros s. Qed.

Lemma keeps_bind {A B} (m : M State A) (k : A → M State B) :
  keeps m → (∀ a, keeps (k a)) → keeps (bind m k).
Proof.
  intros Hm Hk s Hs. unfold bind. specialize (Hm s Hs).
  destruct (m s) as [[a|e] s1]; [by apply Hk|done].
Qed.

Lemma keeps_catch {A} (m : M State A) (h : Error → M State A) :
  keeps m → (∀ e, keeps (h e)) → keeps (try_catch m h).
Proof.
  intros Hm Hh s Hs. unfold try_catch. specialize (Hm s Hs).
  destruct (m s) as [[a|e] s1]; [done|by apply Hh].
Qed.

Lemma keeps_liftAgg {A} (m : M (Aggregator.State C) A) :
  (∀ g, Aggregator.Inv g → Aggregator.Inv (m g).2) → keeps (liftAgg m).
Proof. intros Hm s [??]. rewrite liftAgg_run. split; [done|by apply Hm]. Qed.

Lemma keeps_liftW {A} (m : M Sys A) : keeps (liftW m).
Proof. apply keeps_liftAgg. intros g Hg. rewrite liftSys_run. by apply Inv_set_sys. Qed.

Lemma keeps_stamp_alert a stamp : keeps (stamp_alert a stamp).
Proof. intros s Hs. unfold stamp_alert, modify_st. simpl. by case_match. Qed.

Lemma keeps_for_each {A} (xs : list A) (body : A → M State unit) :
  (∀ x, keeps (body x)) → keeps (for_each xs body).
Proof.
  intros Hb. induction xs as [|x xs IH]; [apply keeps_ret|].
  by apply keeps_bind.
Qed.

Lemma keeps_getCurrentWeather q units :
  keeps (liftAgg (getCurrentWeather config q units)).
Proof. apply keeps_liftAgg. intros. by apply getCurrentWeather_Inv. Qed.

Lemma keeps_getForecast q units days :
  keeps (liftAgg (getForecast config q units days)).
Proof. apply keeps_liftAgg. intros. by apply getForecast_Inv. Qed.

#[local] Hint Resolve keeps_ret keeps_liftW keeps_stamp_alert
  keeps_getCurrentWeather keeps_getForecast : weather.

Ltac solve_keeps :=
  repeat first
    [ progress eauto with weather
    | apply keeps_bind; [|intros ?]
    | apply keeps_catch; [|intros ?]
    | apply keeps_for_each; intros ?
    | case_match ].

Lemma keeps_notify a msg p : keeps (notify a msg p).
Proof. unfold notify, timestamp. solve_keeps. Qed.

Lemma keeps_evaluateAlert a : keeps (evaluateAlert a).
Proof. pose proof keeps_notify. unfold evaluateAlert. solve_keeps. Qed.

Lemma keeps_pollAlerts : keeps pollAlerts.
Proof.
  pose proof keeps_evaluateAlert. unfold pollAlerts, guarded, listAlerts.
  apply keeps_bind; [by intros s|intros items]. solve_keeps.
Qed.

(** The invariant of the module. *)
Record Inv (s : State) : Prop := mkInv {
  inv_registry : registry_ok (alerts s);
  inv_steady : steady s;
}.

Lemma step_Inv s s' : Inv s → step s s' → Inv s'.
Proof.
  intros [Hr [Hs Ha]] Hstep. destruct Hstep.
  - split; [by apply registerAlert_ok|]. by rewrite registerAlert_run.
  - split; [by apply registry_ok_delete|done].
  - split; [|split; [by apply startAlertScheduler_ok|]];
      rewrite startAlertScheduler_run; case_match; try done.
    by apply Inv_set_sys.
  - split; [|split; [by apply stopAlertScheduler_ok|]];
      by rewrite stopAlertScheduler_run.
  - split; [by apply pollAlerts_ok|by apply keeps_pollAlerts].
  - split; [done|]. split; [done|by apply handle_Inv].
Qed.

Lemma reachable_Inv s s' : Inv s → rtc step s s' → Inv s'.
Proof. intros Hs Hrtc. induction Hrtc; eauto using step_Inv. Qed.

(** The invariant does not depend on what the aggregator holds beyond the
    aggregator's own. *)
Lemma Inv_set_agg g s : Inv s → Aggregator.Inv g → Inv (set_agg g s).
Proof. intros [Hr [Hs _]] Hg. by split; [|split]. Qed.

(** C7: however the operations of the module are called and the timer
    fires, at most one timer is set, and one is set exactly when the
    scheduler is started: the sweep never runs twice per period. *)
Theorem at_most_one_timer s s' :
  Inv s → rtc step s s' →
  timers s' = (if schedulerStarted s' then
                 (λ h, (h, period)) <$> option_list (intervalHandle s')
               else [])
  ∧ (length (timers s') ≤ 1)%nat.
Proof.
  intros Hs Hrtc. destruct (reachable_Inv s s' Hs Hrtc) as [_ [Hok _]].
  unfold scheduler_ok in Hok.
  destruct (intervalHandle s') as [h|]; [destruct Hok as (-> & -> & _)|
    destruct Hok as (-> & ->)]; simpl; split; (done || lia).
Qed.

(** In every state the module reaches, the registry holds each id once
    and each alert under its own id: [listAlerts] never shows an alert
    twice, and [removeAlert] of a listed alert's id removes that alert. *)
Theorem reachable_registry_ok s s' :
  Inv s → rtc step s s' →
  NoDup (alert_id <$> omap.values (alerts s'))
  ∧ ∀ a, a ∈ omap.values (alerts s') → omap.get (alert_id a) (alerts s') = Some a.
Proof.
  intros Hs Hrtc. destruct (reachable_Inv s s' Hs Hrtc) as [[Hwf Hid] _].
  assert (alert_id <$> omap.values (alerts s') = omap.keys (alerts s')) as ->.
  { unfold omap.values, omap.keys. rewrite <-list_fmap_compose.
    apply Forall_fmap_ext_1, Forall_forall. intros [k a] Hka. by apply Hid. }
  split; [done|]. intros a ((k & a') & -> & Hin)%list_elem_of_fmap.
  simpl. rewrite (Hid _ _ Hin). by apply omap.elem_get.
Qed.

(** C26: a sweep runs to its end and returns normally whatever the providers
    and the webhooks answer: every alert registered when it starts is
    evaluated once, in the order of registration, and the registry holds
    the same ids afterwards. *)
Theorem pollAlerts_completes s :
  pollAlerts s
  = (Ok tt, foldl (λ s a, (guarded a s).2) s (omap.values (alerts s)))
  ∧ omap.keys (alerts (pollAlerts s).2) = omap.keys (alerts s).
Proof.
  split; [apply pollAlerts_run|].
  apply (pollAlerts_invariant (λ m, omap.keys m = omap.keys (alerts s))); [|done].
  intros a s1 <-. apply evaluateAlert_keys.
Qed.

(** ** The sweep reaches the alerts that are due *)

(** The alert registered under [k] has been triggered. *)
Definition triggered (k : string) (m : list (string * WeatherAlert)) : Prop :=
  ∃ a, omap.get k m = Some a ∧ is_Some (lastTriggeredAt a).

Lemma triggered_stamp k a s :
  triggered k (alerts s) → triggered k (alerts (stamp_state a s)).
Proof.
  intros (b & Hb & Hl). rewrite stamp_state_alerts. case_match; [|by exists b].
  destruct (decide (alert_id a = k)) as [<-|Hne].
  - eexists. by rewrite omap.get_set_eq.
  - exists b. by rewrite omap.get_set_ne.
Qed.

Lemma triggered_evaluateAlert k a s :
  triggered k (alerts s) → triggered k (alerts (evaluateAlert a s).2).
Proof.
  intros Hk. destruct (evaluateAlert_alerts a s) as [->|(s' & Hs & ->)]; [done|].
  apply triggered_stamp. by rewrite Hs.
Qed.

(** A trigger is not undone by the rest of the sweep. *)
Lemma triggered_sweep k items s :
  triggered k (alerts s) →
  triggered k (alerts (foldl (λ s a, (guarded a s).2) s items)).
Proof.
  revert s. induction items as [|a items IH]; intros s Hk; [done|].
  simpl. apply IH. rewrite guarded_alerts. by apply triggered_evaluateAlert.
Qed.

(** While the scheduler is started its timer is set: the sweep is a step
    the module can take. *)
Lemma sweep_enabled s :
  Inv s → schedulerStarted s = true → step s (pollAlerts s).2.
Proof.
  intros [_ [Hok _]] Hs. unfold scheduler_ok in Hok.
  destruct (intervalHandle s) as [h|]; [|destruct Hok; congruence].
  destruct Hok as (_ & Ht & _). apply (step_sweep h). rewrite Ht. by left.
Qed.

(** C14: in every state the module reaches with the scheduler started, the
    firing of the timer is a step, and it triggers the alert registered
    first when the current conditions pass its test: an alert that is due
    does not wait longer than one period. *)
Theorem sweep_triggers s s' a rest w g :
  Inv s → rtc step s s' → schedulerStarted s' = true →
  omap.values (alerts s') = a :: rest →
  type (alert_condition a) ≠ rain →
  getCurrentWeather config (alert_location a) (defaultUnits config) (agg s')
    = (Ok w, g) →
  due a w = true →
  step s' (pollAlerts s').2 ∧ triggered (alert_id a) (alerts (pollAlerts s').2).
Proof.
  intros Hs Hrtc Hstarted Hitems Ht Hw Hdue.
  pose proof (reachable_Inv s s' Hs Hrtc) as Hs'.
  split; [by apply sweep_enabled|].
  rewrite pollAlerts_run, Hitems. simpl. apply triggered_sweep.
  rewrite guarded_alerts. erewrite evaluateAlert_current by done. rewrite Hdue.
  eexists. split; [apply notify_stamps|done]. simpl.
  destruct Hs' as [[_ Hid] _]. destruct (alerts s') as [|[k b] m]; [done|].
  injection Hitems as -> _. rewrite (Hid k a) by left. by left.
Qed.

End alerts.

Arguments State : clear implicits.

(** The state of the module when it is loaded at time [t]. *)
Definition init (config : Config) (t : Z) : State LRUCache :=
  mkState (Aggregator.init config t) [] false None 0 [] 0.

Lemma alerts_init_Inv config t : Inv config (init config t).
Proof.
  split; [apply registry_ok_empty|]. split; [done|apply Aggregator.init_Inv].
Qed.

(** ** A scenario

    WeatherAPI reports 28 degrees in London.  Two alerts on a temperature
    above 30 are registered, one at [high] and one at [low], and a sweep
    runs: the first is notified, at the threshold 27, the second is not. *)

Import Dates.

Definition hot_london : WaCurrent :=
  mkWaCurrent (mkWaLocation "London" 51.52 (-0.11) (Some "UK"))
    (mkWaCurrentBlock (Some "2024-07-01") 28 82.4 None None None (Some 12%Q)
       None None None None None).

Definition hot_net : Net :=
  tableNet
    [("https://api.weatherapi.com/v1/current.json?key=wa-key&q=London,UK&aqi=no",
      Ok (WaCurrentBody hot_london))] 40.

Definition ids (n : nat) : string := "alert-" +:+ pretty n.
Definition same_id (n : nat) : string := "alert".
Definition show (p : Payload) : string := "(payload)".
Definition body_of (a : WeatherAlert) (msg : string) (p : option Payload)
    : string := msg.

Definition above30 (o : option Sensitivity) (ch : AlertChannel) : AlertInput :=
  mkInput None london (mkCondition temp_above (Some 30%Q) None) ch None o None.

(** The two alerts registered at time 0. *)
Definition two_alerts : State LRUCache :=
  (registerAlert ids (above30 (Some low) to_console)
     (registerAlert ids (above30 (Some high) to_console)
        (init both_keys 0)).2).2.

Example sensitivity_scenario :
  let s := (pollAlerts (net := hot_net) both_keys show body_of two_alerts).2 in
  (λ a, (alert_id a, lastTriggeredAt a)) <$> omap.values (alerts s)
  = [("alert-0", Some "1970-01-01T00:00:00.040Z"); ("alert-1", None)]
  ∧ console (sys (agg s))
    = ["[ALERT alert-0] Temperature above 27°C at London (payload)"]
  ∧ length (calls (sys (agg s))) = 1%nat.
Proof. by vm_compute. Qed.

(** ** The theorems at the scenario *)

Lemma registerAlert_listed_witness :
  let '(r, s') := registerAlert ids (above30 None webhook) two_alerts in
  r = Ok (full_of ids (above30 None webhook) two_alerts)
  ∧ (listAlerts s').1
    = Ok (omap.values (alerts two_alerts)
          ++ [full_of ids (above30 None webhook) two_alerts]).
Proof.
  apply (registerAlert_listed ids (above30 None webhook)
           two_alerts).
  vm_compute. by intros [[=]|[[=]|[]%elem_of_nil]%elem_of_cons]%elem_of_cons.
Defined.

(** Drawing the same id twice. *)
Definition one_alert : State LRUCache :=
  (registerAlert same_id (above30 (Some high) to_console) (init both_keys 0)).2.

Lemma registerAlert_collision_witness :
  let s' := (registerAlert same_id (above30 None webhook) one_alert).2 in
  omap.get "alert" (alerts s')
  = Some (full_of same_id (above30 None webhook) one_alert)
  ∧ length (alerts s') = 1%nat.
Proof.
  by eapply (registerAlert_collision same_id
               (above30 None webhook) one_alert).
Defined.

Lemma register_remove_witness :
  let '(r, s1) := registerAlert ids (above30 None webhook) two_alerts in
  ∃ a, r = Ok a
    ∧ removeAlert (alert_id a) s1 = (Ok true, set_alerts (alerts two_alerts) s1).
Proof.
  apply (register_remove ids (above30 None webhook) two_alerts).
  vm_compute. by intros [[=]|[[=]|[]%elem_of_nil]%elem_of_cons]%elem_of_cons.
Defined.

Lemma pollAlerts_isolation_witness :
  ∃ a rest e s1,
    pollAlerts (net := all_down) both_keys show body_of two_alerts
    = for_each rest (guarded (net := all_down) both_keys show body_of)
        (set_agg (set_sys (console_log
           ("Alert evaluation failed: " +:+ alert_id a +:+ " "
            +:+ Prelude.message e) (sys (agg s1))).2 (agg s1)) s1)
    ∧ (pollAlerts (net := all_down) both_keys show body_of two_alerts).1 = Ok tt.
Proof.
  eexists _, _, _, _. apply (pollAlerts_isolation (net := all_down)).
  - by vm_compute.
  - by vm_compute.
Defined.

(** The alert on 30 degrees and the record of 28 degrees. *)
Definition hot_alert : WeatherAlert :=
  full_of ids (above30 None to_console) (init both_keys 0).

Definition hot_record : CurrentWeather :=
  ow.current_of metric
    (mkOwCurrent (Some "London") (mkOwCoord 51.51 (-0.13)) None 0 28 28 None
       None 5 None []).

Lemma due_above_monotone_witness :
  (due (with_sensitivity (Some low) hot_alert) hot_record = true →
   due (with_sensitivity (Some medium) hot_alert) hot_record = true)
  ∧ (due (with_sensitivity (Some medium) hot_alert) hot_record = true →
     due (with_sensitivity (Some high) hot_alert) hot_record = true).
Proof.
  apply (due_above_monotone hot_alert hot_record 30);
    [by left|done|by vm_compute].
Defined.

(** The alert on a temperature below 10 degrees. *)
Definition cold_alert : WeatherAlert :=
  mkAlert "cold" None london (mkCondition temp_below (Some 10%Q) None)
    webhook None None "" None.

Lemma due_below_inverted_witness :
  (∀ w, due (with_sensitivity (Some high) cold_alert) w = true →
        due (with_sensitivity (Some medium) cold_alert) w = true)
  ∧ ∃ t, ∀ w, temperatureC w = t →
       due (with_sensitivity (Some medium) cold_alert) w = true
       ∧ due (with_sensitivity (Some high) cold_alert) w = false.
Proof. apply (due_below_inverted cold_alert 10); by vm_compute. Defined.

Lemma notify_webhook_no_url_witness :
  notify (net := hot_net) show body_of cold_alert "cold" None (init both_keys 0)
  = (Ok tt, stamp_state cold_alert (init both_keys 0))
  ∧ agg (stamp_state cold_alert (init both_keys 0)) = agg (init both_keys 0).
Proof. by apply (notify_webhook_no_url (net := hot_net)). Defined.

(** The alert of the scenario at [high]. *)
Definition high_alert : WeatherAlert :=
  full_of ids (above30 (Some high) to_console) (init both_keys 0).

Lemma evaluateAlert_trips_witness :
  ∃ w (g : Aggregator.State LRUCache),
    omap.get (alert_id high_alert)
      (alerts (evaluateAlert (net := hot_net) both_keys show body_of high_alert
                 two_alerts).2)
    = if due high_alert w
      then Some (stamped (toISOString (clock (sys g))) high_alert)
      else omap.get (alert_id high_alert) (alerts two_alerts).
Proof.
  eexists _, _. apply (evaluateAlert_trips (net := hot_net));
    [done|vm_compute; left|by vm_compute].
Defined.

(** The state after the scheduler was started. *)
Definition started : State LRUCache :=
  (startAlertScheduler both_keys (init both_keys 0)).2.

Lemma stop_then_start_witness :
  timers (stopAlertScheduler started).2 = []
  ∧ timers (startAlertScheduler both_keys (stopAlertScheduler started).2).2
    = [(1%nat, 300000%Z)].
Proof.
  apply (stop_then_start both_keys ids started).
  apply startAlertScheduler_ok, alerts_init_Inv.
Defined.

Lemma at_most_one_timer_witness :
  timers started
  = (if schedulerStarted started then
       (λ h, (h, 300000%Z)) <$> option_list (intervalHandle started)
     else [])
  ∧ (length (timers started) ≤ 1)%nat.
Proof.
  apply (at_most_one_timer (net := hot_net) both_keys ids show body_of
           (init both_keys 0) started (alerts_init_Inv _ _)).
  apply rtc_once, step_start.
Defined.

(** The two alerts registered and the scheduler started. *)
Definition watching : State LRUCache :=
  (startAlertScheduler both_keys two_alerts).2.

Lemma sweep_triggers_witness :
  step (net := hot_net) both_keys ids show body_of watching
    (pollAlerts (net := hot_net) both_keys show body_of watching).2
  ∧ triggered (alert_id high_alert)
      (alerts (pollAlerts (net := hot_net) both_keys show body_of watching).2).
Proof.
  eapply (sweep_triggers (net := hot_net) both_keys ids show body_of
            (init both_keys 0) watching high_alert).
  - apply alerts_init_Inv.
  - eapply rtc_l; [apply (step_register _ _ _ _ (above30 (Some high) to_console))|].
    eapply rtc_l; [apply (step_register _ _ _ _ (above30 (Some low) to_console))|].
    apply rtc_once, step_start.
  - done.
  - by vm_compute.
  - done.
  - by vm_compute.
  - by vm_compute.
Defined.

Lemma reachable_registry_ok_witness :
  NoDup (alert_id <$> omap.values (alerts two_alerts))
  ∧ ∀ a, a ∈ omap.values (alerts two_alerts) →
         omap.get (alert_id a) (alerts two_alerts) = Some a.
Proof.
  apply (reachable_registry_ok (net := hot_net) both_keys ids show body_of
           (init both_keys 0) two_alerts (alerts_init_Inv _ _)).
  eapply rtc_l; [apply step_register|apply rtc_once, step_register].
Defined.

End Alerts.
