(* ===== verification/Sweep.v ===== *)
(** * Sweep: the sweep interleaved with the handlers of the registry

    [alerts/alertService.ts]: [pollAlerts] takes the list of the alerts
    once and evaluates them one by one, waiting for the aggregator and for
    the webhook in between; while it waits, the handlers that register and
    remove alerts run.  Here the evaluation of an alert is split where it
    waits for the aggregator: [request] is [evaluateAlert] up to the
    answer, [settle] is [evaluateAlert] from the answer on, and a sweep in
    progress is the alerts still to evaluate and the one whose answer is
    in.  [run] executes a sweep under a schedule of actions: the sweep
    advances, or a handler runs.

    The handlers of the registry touch the registry and the aggregator
    does not, so a handler that runs while a request is under way does
    what it does before or after it ([remove_commutes]).  The points at
    which a schedule can place a handler are: before each alert, and
    between the answer of the aggregator and the rest of the evaluation.
    They are not exactly those of the program.  The program also waits
    for the webhook, inside [notify], once the alert is stamped and the
    line printed; a handler that it runs during that wait runs after
    [settle] here, where it finds the same registry and a later clock.  And
    the program does not wait for an event when the aggregator answers
    from its store, where a schedule may still place a handler.

    [notify] stamps the entry the registry holds under the id of the alert
    ([Alerts.stamp_alert]).  The program stamps the object the sweep took
    from the list.  The two are the same write unless the alert was
    removed and another was registered under the same id while the sweep
    was waiting; the theorems of this file on the ids of the registry and
    on the console do not depend on which entry carries the stamp.

    [sweep_alone] checks the split against [Alerts.pollAlerts], from which
    it was cut: it relates two definitions of this development, and is no
    statement about the program. *)

From S2P Require Import Prelude OrderedMap Types Upstream World Dates Cache.
From S2P Require Import Aggregator Alerts.
Import Cache Aggregator Alerts.

Module Sweep.

(** What the evaluation of an alert has in hand when it goes on. *)
Inductive Fetched : Type :=
| FetchedForecast (days : Q) (forecast : Forecast)
| FetchedCurrent (current : CurrentWeather).

(** A sweep in progress: the alerts of the list not yet begun, and the one
    whose answer has come. *)
Record Progress : Type := mkProgress {
  pending : list WeatherAlert;
  inflight : option (WeatherAlert * Fetched);
}.

(** What runs next: the sweep, or a handler of the registry. *)
Inductive Action : Type :=
| Advance
| Register (input : AlertInput)
| Remove (id : string).

Section sweep.
Context {host : Host} {net : Net} {C : Type → Type} {store : TtlStore C}
  (config : Config).
Context (random : nat → string) (inspect : Payload → string)
  (webhook_body : WeatherAlert → string → option Payload → string).

Notation State := (Alerts.State C).
Notation evaluateAlert := (Alerts.evaluateAlert config inspect webhook_body).
Notation guarded := (Alerts.guarded config inspect webhook_body).
Notation pollAlerts := (Alerts.pollAlerts config inspect webhook_body).
Notation notify := (Alerts.notify inspect webhook_body).
Notation registerAlert := (Alerts.registerAlert random).

(** [evaluateAlert], up to the answer of the aggregator. *)
Definition request (alert : WeatherAlert) : M State Fetched :=
  let cond := alert_condition alert in
  match type cond with
  | rain =>
      let days := nullish (daysAhead cond) 1%Q in
      let! forecast := liftAgg (getForecast config (alert_location alert)
                                  (defaultUnits config) days) in
      ret (FetchedForecast days forecast)
  | _ =>
      let! current := liftAgg (getCurrentWeather config (alert_location alert)
                                 (defaultUnits config)) in
      ret (FetchedCurrent current)
  end.

(** [evaluateAlert], from the answer on: the test of the condition and the
    notification. *)
Definition settle (alert : WeatherAlert) (x : Fetched) : M State unit :=
  match x with
  | FetchedForecast days forecast =>
      if raining forecast (alert_sensitivity alert) then
        notify alert
          ("Rain expected within " +:+ numToString days +:+ " day(s) at "
           +:+ stringify_location (fc_location forecast))
          (Some (ForecastPayload forecast))
      else ret tt
  | FetchedCurrent current =>
      if due alert current then
        notify alert (message_of alert current) (Some (CurrentPayload current))
      else ret tt
  end.

(** The [catch] of the loop. *)
Definition failed (a : WeatherAlert) (e : Error) : M State unit :=
  liftW (console_log ("Alert evaluation failed:" +:+ " " +:+ alert_id a
                      +:+ " " +:+ Prelude.message e)).

(** The body of the loop up to the answer: the answer, or nothing when
    the request failed and the failure is logged. *)
Definition begin (a : WeatherAlert) : M State (option Fetched) :=
  try_catch (let! x := request a in ret (Some x))
    (λ e, failed a e ;; ret None).

(** The body of the loop from the answer on. *)
Definition complete (a : WeatherAlert) (x : Fetched) : M State unit :=
  try_catch (settle a x) (failed a).

(** [const items = listAlerts()] *)
Definition snapshot (s : State) : Progress :=
  mkProgress (omap.values (alerts s)) None.

(** The sweep goes on until it waits again. *)
Definition advance (s : State) (p : Progress) : State * Progress :=
  match inflight p, pending p with
  | Some (a, x), _ => ((complete a x s).2, mkProgress (pending p) None)
  | None, a :: rest =>
      match begin a s with
      | (Ok (Some x), s') => (s', mkProgress rest (Some (a, x)))
      | (_, s') => (s', mkProgress rest None)
      end
  | None, [] => (s, p)
  end.

(** One action of a schedule. *)
Definition act (sp : State * Progress) (a : Action) : State * Progress :=
  match a with
  | Advance => advance sp.1 sp.2
  | Register input => ((registerAlert input sp.1).2, sp.2)
  | Remove id => ((removeAlert id sp.1).2, sp.2)
  end.

(** A sweep that starts in [s], under a schedule. *)
Definition run (acts : list Action) (s : State) : State * Progress :=
  foldl act (s, snapshot s) acts.

(** ** Reference definitions *)

(** The sweep has nothing left to do. *)
Definition finished (p : Progress) : Prop := pending p = [] ∧ inflight p = None.

(** The handlers of a schedule, without the sweep. *)
Definition handlers (acts : list Action) (s : State) : State :=
  foldl (λ s a, match a with
                | Advance => s
                | Register input => (registerAlert input s).2
                | Remove id => (removeAlert id s).2
                end) s acts.

(** The alerts a sweep in progress will still evaluate or notify. *)
Definition remaining (p : Progress) : list WeatherAlert :=
  from_option (λ ax, [ax.1]) [] (inflight p) ++ pending p.

(** ** The split is the evaluation *)

Lemma request_current a s :
  type (alert_condition a) ≠ rain →
  request a s
  = let '(r, g) := getCurrentWeather config (alert_location a)
                     (defaultUnits config) (agg s) in
    (map_result FetchedCurrent r, set_agg g s).
Proof.
  intros Ht. unfold request, bind, ret. destruct (type _); [done|..];
    rewrite liftAgg_run; by destruct (getCurrentWeather _ _ _ _) as [[w|e] g].
Qed.

Lemma request_rain a s :
  type (alert_condition a) = rain →
  request a s
  = let days := nullish (daysAhead (alert_condition a)) 1%Q in
    let '(r, g) := getForecast config (alert_location a) (defaultUnits config)
                     days (agg s) in
    (map_result (FetchedForecast days) r, set_agg g s).
Proof.
  intros Ht. unfold request, bind, ret. rewrite Ht, liftAgg_run.
  by destruct (getForecast _ _ _ _ _) as [[f|e] g].
Qed.

(** [evaluateAlert] is the request and then the rest. *)
Lemma evaluateAlert_split a s :
  evaluateAlert a s = (let! x := request a in settle a x) s.
Proof.
  unfold bind. destruct (decide (type (alert_condition a) = rain)) as [Ht|Ht].
  - rewrite evaluateAlert_rain, request_rain by done. cbv zeta.
    destruct (getForecast _ _ _ _ _) as [[f|e] g]; simpl; [|done].
    by destruct (raining _ _).
  - rewrite request_current by done.
    destruct (getCurrentWeather _ _ _ _) as [[w|e] g] eqn:Hw; simpl.
    + rewrite (evaluateAlert_current _ _ _ a s w g) by done.
      by destruct (due a w).
    + by rewrite (evaluateAlert_current_fails _ _ _ a s e g).
Qed.

Lemma settle_total a x s : (settle a x s).1 = Ok tt.
Proof.
  destruct x; simpl; case_match; by rewrite ?notify_total.
Qed.

Lemma complete_run a x s : complete a x s = (Ok tt, (settle a x s).2).
Proof.
  unfold complete, try_catch. pose proof (settle_total a x s) as Hs.
  destruct (settle a x s) as [[[]|e] s']; by simplify_eq/=.
Qed.

(** The body of the loop is [begin] and, when the answer came,
    [complete]. *)
Lemma guarded_split a s :
  guarded a s
  = (let! o := begin a in
     match o with Some x => complete a x | None => ret tt end) s.
Proof.
  rewrite guarded_run, evaluateAlert_split.
  unfold begin, try_catch, bind, ret, failed.
  destruct (request a s) as [[x|e] s1]; simpl.
  - rewrite complete_run. pose proof (settle_total a x s1) as Hs.
    destruct (settle a x s1) as [[[]|e] s2]; by simplify_eq/=.
  - done.
Qed.

(** ** A sweep left alone *)

Lemma advance_answered a rest s x s1 :
  begin a s = (Ok (Some x), s1) →
  advance s (mkProgress (a :: rest) None) = (s1, mkProgress rest (Some (a, x))).
Proof. intros Hb. unfold advance; simpl. by rewrite Hb. Qed.

Lemma advance_unanswered a rest s r s1 :
  begin a s = (r, s1) → (∀ x, r ≠ Ok (Some x)) →
  advance s (mkProgress (a :: rest) None) = (s1, mkProgress rest None).
Proof.
  intros Hb Hr. unfold advance; simpl. rewrite Hb.
  destruct r as [[x|]|e]; [by destruct (Hr x)|done..].
Qed.

Lemma advance_inflight a x items s :
  advance s (mkProgress items (Some (a, x)))
  = ((complete a x s).2, mkProgress items None).
Proof. done. Qed.

Lemma advance_pending a rest s :
  ∃ n, (1 ≤ n ≤ 2)%nat
    ∧ foldl act (s, mkProgress (a :: rest) None) (replicate n Advance)
      = ((guarded a s).2, mkProgress rest None).
Proof.
  rewrite guarded_split. unfold bind.
  destruct (begin a s) as [r s1] eqn:Hb. destruct r as [[x|]|e].
  - exists 2%nat. split; [lia|]. simpl.
    rewrite (advance_answered a rest s x s1 Hb). cbn [fst snd].
    by rewrite advance_inflight.
  - exists 1%nat. split; [lia|]. simpl.
    by rewrite (advance_unanswered a rest s _ s1 Hb).
  - exists 1%nat. split; [lia|]. simpl.
    by rewrite (advance_unanswered a rest s _ s1 Hb).
Qed.

Lemma drain items : ∀ s,
  ∃ n, (n ≤ 2 * length items)%nat
    ∧ foldl act (s, mkProgress items None) (replicate n Advance)
      = (foldl (λ s a, (guarded a s).2) s items, mkProgress [] None).
Proof.
  induction items as [|a rest IH]; intros s; [by exists 0%nat|].
  destruct (advance_pending a rest s) as (n1 & Hn1 & H1).
  destruct (IH (guarded a s).2) as (n2 & Hn2 & H2).
  exists (n1 + n2)%nat. split; [simpl; lia|].
  by rewrite replicate_add, foldl_app, H1, H2.
Qed.

(** The split loses nothing: a sweep that no handler interrupts is
    [pollAlerts]; after at most two steps for each alert it has finished,
    in the state [pollAlerts] reaches. *)
Lemma sweep_alone s :
  ∃ n, (n ≤ 2 * length (alerts s))%nat
    ∧ run (replicate n Advance) s = ((pollAlerts s).2, mkProgress [] None).
Proof.
  destruct (drain (omap.values (alerts s)) s) as (n & Hn & Hrun).
  exists n. unfold omap.values in Hn. rewrite length_fmap in Hn.
  split; [done|]. unfold run, snapshot. by rewrite Hrun, pollAlerts_run.
Qed.

(** ** What the sweep leaves alone *)

(** What a registration or a removal depends on and changes: the ids of
    the registry, in order, and the number of ids drawn. *)
Definition ids_of (s : State) : list string * nat :=
  (omap.keys (alerts s), drawn s).

(** A computation that leaves them as they are. *)
Definition framed {A} (m : M State A) : Prop :=
  ∀ k, preserves (λ s, ids_of s = k) m.

Lemma framed_ret {A} (a : A) : framed (ret a).
Proof. intros k. apply preserves_ret. Qed.

Lemma framed_bind {A B} (m : M State A) (f : A → M State B) :
  framed m → (∀ a, framed (f a)) → framed (bind m f).
Proof. intros Hm Hf k. apply preserves_bind; [apply Hm|intros a; apply Hf]. Qed.

Lemma framed_catch {A} (m : M State A) (h : Error → M State A) :
  framed m → (∀ e, framed (h e)) → framed (try_catch m h).
Proof. intros Hm Hh k. apply preserves_catch; [apply Hm|intros e; apply Hh]. Qed.

Lemma framed_liftAgg {A} (m : M (Aggregator.State C) A) : framed (liftAgg m).
Proof. intros k s Hs. by rewrite liftAgg_run. Qed.

Lemma framed_liftW {A} (m : M Sys A) : framed (liftW m).
Proof. apply framed_liftAgg. Qed.

Lemma framed_stamp_alert a stamp : framed (stamp_alert a stamp).
Proof.
  intros k s <-. unfold stamp_alert, modify_st, ids_of, omap.has; simpl.
  case_bool_decide as Hin; [|done]. simpl.
  by rewrite omap.keys_set_present by by apply omap.get_is_Some.
Qed.

Lemma framed_notify a msg p : framed (notify a msg p).
Proof.
  unfold Alerts.notify, timestamp.
  repeat (apply framed_bind; [|intros ?]);
    auto using framed_liftW, framed_ret, framed_stamp_alert.
  destruct (alert_channel a); [apply framed_liftW|].
  case_match; [|apply framed_ret].
  apply framed_catch; [|intros e]; apply framed_liftW.
Qed.

Lemma framed_request a : framed (request a).
Proof.
  unfold request. destruct (type _);
    (apply framed_bind; [apply framed_liftAgg|intros ?; apply framed_ret]).
Qed.

Lemma framed_settle a x : framed (settle a x).
Proof.
  destruct x; simpl; case_match; auto using framed_notify, framed_ret.
Qed.

Lemma framed_begin a : framed (begin a).
Proof.
  apply framed_catch; [|intros e];
    (apply framed_bind; [|intros ?; apply framed_ret]).
  - apply framed_request.
  - apply framed_liftW.
Qed.

Lemma framed_complete a x : framed (complete a x).
Proof. apply framed_catch; [apply framed_settle|intros e; apply framed_liftW]. Qed.

Lemma advance_ids s p : ids_of (advance s p).1 = ids_of s.
Proof.
  unfold advance. destruct (inflight p) as [[a x]|]; simpl.
  - by apply framed_complete.
  - destruct (pending p) as [|a rest]; [done|].
    pose proof (framed_begin a _ s eq_refl) as Hb.
    by destruct (begin a s) as [[[x|]|e] s1].
Qed.

Lemma act_ids sp s' a :
  ids_of sp.1 = ids_of s' → ids_of (act sp a).1 = ids_of (handlers [a] s').
Proof.
  intros [= Hkeys Hdrawn].
  destruct a as [|input|id]; cbn [act handlers foldl fst snd].
  - rewrite advance_ids. unfold ids_of. by rewrite Hkeys, Hdrawn.
  - rewrite !registerAlert_run. unfold ids_of; simpl.
    by rewrite !omap.keys_set, Hkeys, Hdrawn.
  - unfold ids_of; simpl. by rewrite !omap.keys_delete, Hkeys, Hdrawn.
Qed.

Lemma foldl_act_ids acts : ∀ sp s',
  ids_of sp.1 = ids_of s' → ids_of (foldl act sp acts).1 = ids_of (handlers acts s').
Proof.
  induction acts as [|a acts IH]; intros sp s' Hsp; [done|].
  simpl. apply IH. by apply act_ids.
Qed.

(** C12: however the sweep and the handlers interleave, the registry has the
    ids the handlers alone give it, in their order: the sweep registers
    nothing and removes nothing, and brings back no alert that was
    removed. *)
Theorem run_ids acts s :
  omap.keys (alerts (run acts s).1) = omap.keys (alerts (handlers acts s)).
Proof.
  pose proof (foldl_act_ids acts (s, snapshot s) s eq_refl) as Hids.
  by injection Hids.
Qed.

(** ** The invariant of the module *)

Notation keeps := (Alerts.keeps config).

Lemma keeps_request a : keeps (request a).
Proof.
  unfold request. destruct (type _);
    (apply keeps_bind; [|intros ?; apply keeps_ret]);
    auto using keeps_getForecast, keeps_getCurrentWeather.
Qed.

Lemma keeps_settle a x : keeps (settle a x).
Proof. destruct x; simpl; case_match; auto using keeps_notify, keeps_ret. Qed.

Lemma begin_alerts a s : alerts (begin a s).2 = alerts s.
Proof.
  unfold begin, try_catch, bind, ret, failed.
  assert (alerts (request a s).2 = alerts s) as Hr.
  { destruct (decide (type (alert_condition a) = rain)).
    - rewrite request_rain by done. cbv zeta.
      by destruct (getForecast _ _ _ _ _).
    - rewrite request_current by done. by destruct (getCurrentWeather _ _ _ _). }
  destruct (request a s) as [[x|e] s1]; [done|]. simpl in *. by rewrite <-Hr.
Qed.

Lemma settle_ok a x s :
  registry_ok (alerts s) → registry_ok (alerts (settle a x s).2).
Proof.
  intros Hs. destruct x; simpl; case_match; try done;
    rewrite notify_alerts; by apply stamp_state_ok.
Qed.

Lemma begin_Inv a s : Inv config s → Inv config (begin a s).2.
Proof.
  intros [Hr Hs]. split; [by rewrite begin_alerts|].
  apply keeps_catch; [|intros e|done];
    (apply keeps_bind; [|intros ?; apply keeps_ret]);
    [apply keeps_request|apply keeps_liftW].
Qed.

Lemma complete_Inv a x s : Inv config s → Inv config (complete a x s).2.
Proof.
  intros [Hr Hs]. rewrite complete_run. split; [by apply settle_ok|].
  by apply keeps_settle.
Qed.

Lemma advance_Inv s p : Inv config s → Inv config (advance s p).1.
Proof.
  intros Hs. unfold advance. destruct (inflight p) as [[a x]|]; simpl.
  - by apply complete_Inv.
  - destruct (pending p) as [|a rest]; [done|].
    pose proof (begin_Inv a s Hs) as Hb.
    by destruct (begin a s) as [[[x|]|e] s1].
Qed.

Lemma act_Inv sp a : Inv config sp.1 → Inv config (act sp a).1.
Proof.
  intros Hs. destruct a as [|input|id]; cbn [act fst snd].
  - by apply advance_Inv.
  - apply (step_Inv config random inspect webhook_body sp.1); [done|].
    apply step_register.
  - apply (step_Inv config random inspect webhook_body sp.1); [done|].
    apply step_remove.
Qed.

(** In every state an interleaving of the sweep and the handlers passes
    through, the registry is keyed by the ids of its alerts, the scheduler
    has its one timer and the stores are well formed. *)
Theorem sweep_run_Inv acts s : Inv config s → Inv config (run acts s).1.
Proof.
  unfold run. change s with (s, snapshot s).1 at 1. generalize (s, snapshot s).
  intros sp Hs. induction acts as [|a acts IH] in sp, Hs |- *; [done|].
  simpl. apply IH. by apply act_Inv.
Qed.

(** ** The list of the sweep *)

Lemma advance_remaining s p : remaining (advance s p).2 `suffix_of` remaining p.
Proof.
  unfold advance, remaining. destruct p as [items [[a x]|]]; simpl.
  - by apply suffix_cons_r.
  - destruct items as [|a rest]; [done|].
    destruct (begin a s) as [[[x|]|e] s1]; simpl; [done|by apply suffix_cons_r..].
Qed.

(** The sweep evaluates alerts of its list only: what is left to evaluate
    is an end of the list taken when it started, whatever was registered
    since. *)
Theorem run_remaining acts s :
  remaining (run acts s).2 `suffix_of` omap.values (alerts s).
Proof.
  unfold run. assert (remaining (s, snapshot s).2 `suffix_of` omap.values (alerts s))
    as Hs by done.
  revert Hs. generalize (s, snapshot s). intros sp Hs.
  induction acts as [|a acts IH] in sp, Hs |- *; [done|].
  simpl. apply IH. destruct a; cbn [act fst snd]; [|done..].
  etrans; [apply advance_remaining|done].
Qed.

(** ** A removal during the sweep *)

(** A removal and a request to the aggregator do not see each other: a
    handler that removes an alert while the sweep waits for a provider
    leaves the state it would have left before the request. *)
Lemma remove_commutes {A} id (m : M (Aggregator.State C) A) s :
  (removeAlert id (liftAgg m s).2).2 = (liftAgg m (removeAlert id s).2).2
  ∧ (removeAlert id (liftAgg m s).2).1 = (removeAlert id s).1
  ∧ (liftAgg m (removeAlert id s).2).1 = (liftAgg m s).1.
Proof.
  rewrite !liftAgg_run. unfold removeAlert; simpl.
  by destruct (m (agg s)).
Qed.

(** C15: an alert of the list that is removed before the sweep comes to it is
    evaluated all the same: it notifies once more, and stays removed. *)
Theorem removed_alert_notifies a rest w g s :
  type (alert_condition a) ≠ rain → alert_channel a = to_console →
  getCurrentWeather config (alert_location a) (defaultUnits config) (agg s)
    = (Ok w, g) →
  due a w = true →
  let sp := foldl act (s, mkProgress (a :: rest) None)
              [Remove (alert_id a); Advance; Advance] in
  omap.get (alert_id a) (alerts sp.1) = None
  ∧ console (sys (agg sp.1))
    = console (sys g)
      ++ ["[ALERT " +:+ alert_id a +:+ "] " +:+ message_of a w +:+ " "
          +:+ inspect (CurrentPayload w)]
  ∧ sp.2 = mkProgress rest None.
Proof.
  intros Ht Hch Hw Hdue. cbn [foldl act fst snd].
  set (s1 := (removeAlert (alert_id a) s).2).
  assert (begin a s1 = (Ok (Some (FetchedCurrent w)), set_agg g s1)) as Hb.
  { unfold begin, try_catch, bind. rewrite request_current by done.
    change (agg s1) with (agg s). by rewrite Hw. }
  rewrite (advance_answered a rest s1 _ _ Hb). cbn [fst snd].
  rewrite advance_inflight, complete_run. cbn [fst snd settle].
  rewrite Hdue, notify_run, Hch, liftW_run. unfold stamp_state.
  assert (omap.has (alert_id a) (alerts s1) = false) as Hgone.
  { unfold omap.has. apply bool_decide_eq_false. intros [b Hb'].
    unfold s1 in Hb'. simpl in Hb'. by rewrite omap.get_delete_eq in Hb'. }
  unfold stamp_alert, modify_st. cbn [fst snd]. change (alerts (set_agg g s1))
    with (alerts s1). rewrite Hgone. split_and!; [|done..].
  simpl. apply omap.get_delete_eq.
Qed.

End sweep.

(** ** A scenario *)

Import Dates.

Definition interleaved (acts : list Action) (s : State LRUCache)
    : State LRUCache * Progress :=
  run (net := hot_net) both_keys ids show body_of acts s.

(** What an interleaving leaves: the ids registered, the alerts that were
    triggered, and the notifications on the console. *)
Definition outcome (sp : State LRUCache * Progress)
    : list string * list string * nat :=
  (omap.keys (alerts sp.1),
   alert_id <$> filter (λ a, is_Some (lastTriggeredAt a)) (omap.values (alerts sp.1)),
   length (console (sys (agg sp.1)))).

(** Two alerts are registered and London is at 28 degrees; the first
    trips.  Left alone the sweep is [pollAlerts]; when the first alert is
    removed as the sweep starts, it stays removed and is notified all the
    same; an alert registered during the sweep is not evaluated by it. *)
Example sweep_scenario :
  interleaved (replicate 4 Advance) two_alerts
  = ((pollAlerts (net := hot_net) both_keys show body_of two_alerts).2,
     mkProgress [] None)
  ∧ outcome (interleaved (replicate 4 Advance) two_alerts)
    = (["alert-0"; "alert-1"], ["alert-0"], 1%nat)
  ∧ outcome (interleaved (Remove "alert-0" :: replicate 4 Advance) two_alerts)
    = (["alert-1"], [], 1%nat)
  ∧ outcome (interleaved (Register (above30 (Some high) to_console)
                            :: replicate 4 Advance) two_alerts)
    = (["alert-0"; "alert-1"; "alert-2"], ["alert-0"], 1%nat).
Proof. by vm_compute. Qed.

Lemma removed_alert_notifies_witness :
  let sp := interleaved [Remove "alert-0"; Advance; Advance] two_alerts in
  omap.get "alert-0" (alerts sp.1) = None
  ∧ length (console (sys (agg sp.1))) = 1%nat.
Proof.
  edestruct (removed_alert_notifies (net := hot_net) both_keys ids show body_of
               high_alert (drop 1 (omap.values (alerts two_alerts))))
    with (s := two_alerts)
    as (Hgone & Hconsole & _); [done|done|by vm_compute|by vm_compute|].
  split; [exact Hgone|].
  exact (eq_trans (f_equal length Hconsole) ltac:(by vm_compute)).
Defined.

Lemma sweep_run_Inv_witness :
  Inv both_keys (interleaved [Advance; Remove "alert-0"; Advance] two_alerts).1.
Proof.
  apply (sweep_run_Inv (net := hot_net) both_keys ids show body_of).
  apply (reachable_Inv (net := hot_net) both_keys ids show body_of (init both_keys 0));
    [apply alerts_init_Inv|].
  eapply rtc_l; [apply (step_register _ _ _ _ (above30 (Some high) to_console))|].
  apply rtc_once, (step_register _ _ _ _ (above30 (Some low) to_console)).
Defined.

End Sweep.
