(* ===== verification/Server.v ===== *)
(** * Server: the tools, the REST routes and the start of the process

    [server.ts]: the input schemas, the eight tools registered with the MCP
    server, each with the schema of its arguments and its handler, the
    routes [/api/current] and [/api/forecast], and the callback of
    [app.listen], which starts the alert scheduler.

    A tool is called with arguments of the shape its schema declares; the
    schema then checks what a shape does not say (the two unit systems, the
    range of the day count, the form of the webhook URL), and the handler
    runs on arguments that passed.  The answer of a tool is its structured
    content; the text rendering of the same value is not modelled.  Of what
    the SDK does around a handler only the check of the arguments is here
    ([callTool]): an answer is not checked against the output schema, and
    an exception of a handler is the outcome of the call, where the SDK
    turns it into an answer marked as an error.

    A route reads its parameters from the query as optional strings,
    without a schema.  Coordinates go through [parseFloat] and the day
    count through [parseInt]; a route is defined ([Some]) on the queries
    for which these answer a number. *)

From stdpp Require Import pretty.
From S2P Require Import Prelude Parse OrderedMap Types Upstream World Dates Cache.
From S2P Require Import OpenWeather Insights Aggregator Alerts.
Import Cache Aggregator Alerts.

Module Server.

(** [UnitsSchema]: [z.enum(["metric", "imperial"]).optional()] *)
Definition UnitsSchema (units : option string) : bool :=
  match units with
  | None => true
  | Some u => bool_decide (declared u)
  end.

(** [z.number().min(1).max(7).optional()] *)
Definition DaysSchema (days : option Q) : bool :=
  match days with
  | None => true
  | Some n => num_le 1 n && num_le n 7
  end.

(** The arguments of [set_weather_alert]. *)
Record AlertArgs : Type := mkAlertArgs {
  arg_name : option string;
  arg_location : LocationQuery;
  arg_condition : WeatherAlertCondition;
  arg_channel : AlertChannel;
  arg_webhookUrl : option string;
  arg_sensitivity : option Sensitivity;
}.

(** A call of a tool: its name and its arguments. *)
Inductive ToolCall : Type :=
| get_current_weather (location : LocationQuery) (units : option string)
| get_forecast (location : LocationQuery) (units : option string) (days : option Q)
| get_historical (location : LocationQuery) (dateISO : string)
| weather_insights (activity : string) (location : LocationQuery)
| set_weather_alert (input : AlertArgs)
| list_weather_alerts
| remove_weather_alert (id : string)
| provider_status.

(** The structured content of an answer. *)
Inductive Content : Type :=
| CurrentContent (data : CurrentWeather)
| ForecastContent (data : Forecast)
| HistoricalContent (data : HistoricalWeather)
| InsightContent (insight : Insights.InsightResult)
| AlertContent (alert : WeatherAlert)
| AlertsContent (items : list WeatherAlert)
| RemovedContent (removed : bool) (id : string)
| StatusContent (openWeather weatherApi : bool).

(** The query string of a REST request: the value of each parameter it
    gives. *)
Record Query : Type := mkQuery {
  q_city : option string;
  q_country : option string;
  q_lat : option string;
  q_lon : option string;
  q_units : option string;
  q_days : option string;
}.

(** The answer of a REST route: [res.json(data)], or
    [res.status(400).json({ error })]. *)
Inductive RestReply (A : Type) : Type :=
| Json (data : A)
| BadRequest (error : string).
Arguments Json {A} data.
Arguments BadRequest {A} error.

(** [lat != null ? parseFloat(lat) : undefined]: [None] when the
    parameter is there and has no number to read. *)
Definition coordinate (p : option string) : option (option Q) :=
  match p with
  | Some s => Some <$> Parse.parseFloat s
  | None => Some None
  end.

(** The [location] a route builds from its query. *)
Definition location_of_query (q : Query) : option LocationQuery :=
  lat ← coordinate (q_lat q);
  lon ← coordinate (q_lon q);
  Some (mkLocationQuery (q_city q) (q_country q) lat lon).

(** [days ? parseInt(days, 10) : 3] *)
Definition days_of_query (p : option string) : option Q :=
  if truthy p then inject_Z <$> Parse.parseInt (default EmptyString p)
  else Some 3%Q.

(** What the MCP server answers when the arguments fail the schema. *)
Definition invalidArguments : Error := mkError "Invalid arguments for tool".

Section server.
Context {host : Host} {net : Net} {C : Type → Type} {store : TtlStore C}
  (config : Config).
Context (random : nat → string) (inspect : Payload → string)
  (webhook_body : WeatherAlert → string → option Payload → string).

(** [z.string().url()]: which strings parse as a URL is the library's. *)
Context (is_url : string → bool).

Notation State := (Alerts.State C).

(** The input schema of each tool, on arguments of its shape. *)
Definition inputSchema (call : ToolCall) : bool :=
  match call with
  | get_current_weather _ units => UnitsSchema units
  | get_forecast _ units days => UnitsSchema units && DaysSchema days
  | set_weather_alert input => from_option is_url true (arg_webhookUrl input)
  | _ => true
  end.

(** A parameter with a default value: [units = config.defaultUnits]. *)
Definition units_or_default (units : option string) : Units :=
  default (defaultUnits config) units.

(** The handler of each tool. *)
Definition handler (call : ToolCall) : M State Content :=
  match call with
  | get_current_weather location units =>
      let! data := liftAgg (getCurrentWeather config location
                              (units_or_default units)) in
      ret (CurrentContent data)
  | get_forecast location units days =>
      let! data := liftAgg (getForecast config location (units_or_default units)
                              (nullish days 3%Q)) in
      ret (ForecastContent data)
  | get_historical location dateISO =>
      let! data := liftAgg (getHistorical config location dateISO) in
      ret (HistoricalContent data)
  | weather_insights activity location =>
      let! current := liftAgg (getCurrentWeather config location
                                 (defaultUnits config)) in
      let! forecast := liftAgg (getForecast config location
                                  (defaultUnits config) 3%Q) in
      ret (InsightContent (Insights.assessActivity activity current (Some forecast)))
  | set_weather_alert input =>
      let! alert := registerAlert random
        (mkInput (arg_name input) (arg_location input) (arg_condition input)
           (arg_channel input) (arg_webhookUrl input) (arg_sensitivity input)
           None) in
      ret (AlertContent alert)
  | list_weather_alerts =>
      let! items := listAlerts in
      ret (AlertsContent items)
  | remove_weather_alert id =>
      let! ok := removeAlert id in
      ret (RemovedContent ok id)
  | provider_status =>
      let status := hasProviderKeys config in
      ret (StatusContent status.1 status.2)
  end.

(** A call of a registered tool: the schema, then the handler. *)
Definition callTool (call : ToolCall) : M State Content :=
  if inputSchema call then handler call else throw invalidArguments.

(** [GET /api/current], on a query whose coordinates are numbers. *)
Definition api_current (q : Query) : option (M State (RestReply CurrentWeather)) :=
  location ← location_of_query q;
  Some (try_catch
          (let! data := liftAgg (getCurrentWeather config location
                                   (units_or_default (q_units q))) in
           ret (Json data))
          (λ e, ret (BadRequest (Prelude.message e)))).

(** [GET /api/forecast], on a query whose numbers are numbers. *)
Definition api_forecast (q : Query) : option (M State (RestReply Forecast)) :=
  location ← location_of_query q;
  days ← days_of_query (q_days q);
  Some (try_catch
          (let! data := liftAgg (getForecast config location
                                   (units_or_default (q_units q)) days) in
           ret (Json data))
          (λ e, ret (BadRequest (Prelude.message e)))).

(** The callback of [app.listen]. *)
Definition listening : M State unit :=
  liftW (console_log ("WeatherWise MCP running on http://localhost:"
                      +:+ numToString (inject_Z (port config)) +:+ "/mcp")) ;;
  startAlertScheduler config.

(** ** The schema *)

(** A call whose arguments fail the schema is refused before its
    handler runs: nothing is requested, registered or removed. *)
Theorem callTool_refused call s :
  inputSchema call = false → callTool call s = (Throw invalidArguments, s).
Proof. unfold callTool. by intros ->. Qed.

(** The units a validated call asks the aggregator for are declared when
    those of the configuration are. *)
Lemma units_or_default_declared units :
  UnitsSchema units = true → declared (defaultUnits config) →
  declared (units_or_default units).
Proof.
  unfold units_or_default. destruct units as [u|]; simpl; [|done].
  by intros ?%bool_decide_eq_true.
Qed.

(** The schema of the day count checks the range and not that the
    count is whole: every number from 1 to 7 passes, so a call for two and
    a half days reaches the aggregator. *)
Theorem DaysSchema_range (n : Q) :
  DaysSchema (Some n) = true ↔ (1 <= n <= 7)%Q.
Proof.
  unfold DaysSchema. by rewrite andb_true_iff, !num_le_spec.
Qed.

(** ** The handlers as steps of the alert module *)

Notation step := (Alerts.step config random inspect webhook_body).

Lemma liftAgg_current_step q units s :
  step s (liftAgg (getCurrentWeather config q units) s).2.
Proof. rewrite liftAgg_run. apply (step_request _ _ _ _ (AskCurrent q units)). Qed.

Lemma liftAgg_forecast_step q units days s :
  step s (liftAgg (getForecast config q units days) s).2.
Proof.
  rewrite liftAgg_run. apply (step_request _ _ _ _ (AskForecast q units days)).
Qed.

Lemma liftAgg_historical_step q dateISO s :
  step s (liftAgg (getHistorical config q dateISO) s).2.
Proof.
  rewrite liftAgg_run. apply (step_request _ _ _ _ (AskHistorical q dateISO)).
Qed.

(** The state after a computation followed by [ret] of its answer. *)
Lemma bind_ret_state {S A B} (m : M S A) (f : A → B) s :
  (bind m (λ a, ret (f a)) s).2 = (m s).2.
Proof. unfold bind, ret. by destruct (m s) as [[] ?]. Qed.

(** Every handler is a sequence of steps of the alert module: the requests
    of another caller, a registration or a removal. *)
Lemma handler_steps call s : rtc step s (handler call s).2.
Proof.
  destruct call as [q u|q u d|q d|a q|input| |id|]; unfold handler;
    rewrite ?bind_ret_state.
  - apply rtc_once, liftAgg_current_step.
  - apply rtc_once, liftAgg_forecast_step.
  - apply rtc_once, liftAgg_historical_step.
  - unfold bind at 1.
    pose proof (liftAgg_current_step q (defaultUnits config) s) as H1.
    destruct (liftAgg _ s) as [[w|e] s1]; simpl in *; [|by apply rtc_once].
    eapply rtc_l; [done|]. rewrite bind_ret_state.
    apply rtc_once, liftAgg_forecast_step.
  - apply rtc_once, step_register.
  - done.
  - apply rtc_once, (step_remove _ _ _ _ id).
  - done.
Qed.

Lemma callTool_steps call s : rtc step s (callTool call s).2.
Proof. unfold callTool. case_match; [apply handler_steps|done]. Qed.

(** Every call of a tool keeps the invariant of the alert module: the
    registry keyed by id, the scheduler with at most its one timer, the
    stores well formed and holding records of the providers only. *)
Theorem callTool_Inv call s :
  Alerts.Inv config s → Alerts.Inv config (callTool call s).2.
Proof. intros Hs. eapply reachable_Inv; [done|apply callTool_steps]. Qed.

(** The process starts the scheduler once it listens: from the state
    at load, one timer of the configured period is set and the scheduler
    is started. *)
Theorem listening_starts s :
  schedulerStarted s = false → timers s = [] →
  let s' := (listening s).2 in
  schedulerStarted s' = true
  ∧ timers s' = [(nextTimer s, alertPollIntervalSeconds config * 1000)%Z]
  ∧ alerts s' = alerts s.
Proof.
  intros Hs Ht. unfold listening, bind. rewrite liftW_run. simpl.
  rewrite startAlertScheduler_run. simpl. by rewrite Hs, Ht.
Qed.

(** ** The tools *)

(** When the current conditions cannot be had, the insights tool
    fails with that error and does not ask for the forecast. *)
Theorem weather_insights_current_fails activity location s e g :
  getCurrentWeather config location (defaultUnits config) (agg s) = (Throw e, g) →
  callTool (weather_insights activity location) s = (Throw e, set_agg g s).
Proof.
  intros Hw. unfold callTool. simpl. unfold bind at 1.
  by rewrite liftAgg_run, Hw.
Qed.

(** The insights tool assesses the activity on the current conditions
    and the three-day forecast the aggregator answers, in that order. *)
Theorem weather_insights_assesses activity location s w g f g' :
  getCurrentWeather config location (defaultUnits config) (agg s) = (Ok w, g) →
  getForecast config location (defaultUnits config) 3%Q g = (Ok f, g') →
  callTool (weather_insights activity location) s
  = (Ok (InsightContent (Insights.assessActivity activity w (Some f))),
     set_agg g' s).
Proof.
  intros Hw Hf. unfold callTool. simpl. unfold bind at 1.
  rewrite liftAgg_run, Hw. simpl. unfold bind. by rewrite liftAgg_run; simpl; rewrite Hf.
Qed.

(** C27: an alert set through the tool, under an id not in use, is the last
    of the list the list tool answers next; the removal tool then answers
    that it removed it, and the list tool answers the list there was
    before the alert was set. *)
Theorem set_list_remove input s :
  inputSchema (set_weather_alert input) = true →
  random (drawn s) ∉ omap.keys (alerts s) →
  ∃ a s1 s2,
    callTool (set_weather_alert input) s = (Ok (AlertContent a), s1)
    ∧ (callTool list_weather_alerts s1).1
      = Ok (AlertsContent (omap.values (alerts s) ++ [a]))
    ∧ callTool (remove_weather_alert (alert_id a)) s1
      = (Ok (RemovedContent true (alert_id a)), s2)
    ∧ (callTool list_weather_alerts s2).1 = Ok (AlertsContent (omap.values (alerts s))).
Proof.
  intros Hv Hfresh. unfold callTool. rewrite Hv. unfold handler.
  unfold bind at 1. rewrite registerAlert_run. eexists _, _, _. split; [done|].
  unfold bind, listAlerts, removeAlert, ret; simpl.
  rewrite omap.values_set_fresh, omap.delete_set_fresh by done.
  unfold omap.has. by rewrite omap.get_set_eq.
Qed.

(** The schema of an alert does not ask a webhook alert for its URL:
    such an alert is registered, and its notifications are then lost. *)
Theorem set_weather_alert_without_url input s :
  arg_channel input = webhook → arg_webhookUrl input = None →
  ∃ a, (callTool (set_weather_alert input) s).1 = Ok (AlertContent a)
    ∧ alert_channel a = webhook ∧ truthy (alert_webhookUrl a) = false.
Proof.
  intros Hc Hu. unfold callTool, inputSchema, handler. rewrite Hu.
  cbn [from_option]. unfold bind. rewrite registerAlert_run.
  eexists. split; [done|]. simpl. by rewrite Hc.
Qed.

(** ** The REST routes *)

Lemma coordinate_absent : coordinate None = Some None.
Proof. done. Qed.

Lemma days_of_query_absent : days_of_query None = Some 3%Q.
Proof. done. Qed.

Lemma days_of_query_empty : days_of_query (Some EmptyString) = Some 3%Q.
Proof. done. Qed.

Lemma days_of_query_numeral (z : Z) (rest : string) :
  Parse.ends_number rest →
  days_of_query (Some (pretty z +:+ rest)) = Some (inject_Z z).
Proof.
  intros Hrest. unfold days_of_query. rewrite truthy_Some.
  rewrite (proj2 (nonempty_true _) (Parse.numeral_nonempty z rest Hrest)).
  simpl. by rewrite Parse.parseInt_prefix.
Qed.

(** C30: a route answers every request: what the aggregator answers is sent
    as it is, and what it throws becomes a 400 with the message of the
    error.  No exception leaves the handler. *)
Theorem api_current_answers q location s :
  location_of_query q = Some location →
  ∃ m, api_current q = Some m ∧
    m s = match getCurrentWeather config location
                  (units_or_default (q_units q)) (agg s) with
          | (Ok w, g) => (Ok (Json w), set_agg g s)
          | (Throw e, g) => (Ok (BadRequest (Prelude.message e)), set_agg g s)
          end.
Proof.
  intros Hl. unfold api_current. rewrite Hl. eexists. split; [done|].
  unfold try_catch, bind. rewrite liftAgg_run.
  by destruct (getCurrentWeather _ _ _ _) as [[w|e] g].
Qed.

(** C21: the forecast route reads the day count and does not check it: a count
    written in decimal reaches the aggregator whatever its value, also
    one the schema of the forecast tool refuses; an absent or empty one
    is three. *)
Theorem api_forecast_days q location (z : Z) (rest : string) s :
  location_of_query q = Some location →
  q_days q = Some (pretty z +:+ rest) → Parse.ends_number rest →
  ∃ m, api_forecast q = Some m ∧
    m s = match getForecast config location (units_or_default (q_units q))
                  (inject_Z z) (agg s) with
          | (Ok f, g) => (Ok (Json f), set_agg g s)
          | (Throw e, g) => (Ok (BadRequest (Prelude.message e)), set_agg g s)
          end.
Proof.
  intros Hl Hd Hrest. unfold api_forecast.
  rewrite Hl, Hd, days_of_query_numeral by done. eexists. split; [done|].
  unfold try_catch, bind. rewrite liftAgg_run.
  by destruct (getForecast _ _ _ _ _) as [[w|e] g].
Qed.

(** A route answers every request: the errors of the aggregator become
    answers. *)
Lemma caught_answers {S A} (m : M S A) s :
  ∃ r, (try_catch (let! data := m in ret (Json data))
          (λ e, ret (BadRequest (Prelude.message e))) s).1 = Ok r.
Proof. unfold try_catch, bind, ret. destruct (m s) as [[a|e] s']; by eexists. Qed.

Lemma api_current_total q m s : api_current q = Some m → ∃ r, (m s).1 = Ok r.
Proof.
  unfold api_current. intros; simplify_option_eq. apply caught_answers.
Qed.

Lemma api_forecast_total q m s : api_forecast q = Some m → ∃ r, (m s).1 = Ok r.
Proof.
  unfold api_forecast. intros; simplify_option_eq. apply caught_answers.
Qed.

(** The routes are requests to the aggregator: they keep the invariant of
    the process. *)
Theorem api_routes_Inv q s :
  Alerts.Inv config s →
  (∀ m, api_current q = Some m → Alerts.Inv config (m s).2)
  ∧ (∀ m, api_forecast q = Some m → Alerts.Inv config (m s).2).
Proof.
  intros Hs. split; intros m Hm;
    (eapply reachable_Inv; [done|]); apply rtc_once.
  - unfold api_current in Hm. simplify_option_eq.
    unfold try_catch, bind.
    pose proof (liftAgg_current_step H (units_or_default (q_units q)) s) as Hstep.
    by destruct (liftAgg _ s) as [[w|e] s1].
  - unfold api_forecast in Hm. simplify_option_eq.
    unfold try_catch, bind.
    pose proof (liftAgg_forecast_step H (units_or_default (q_units q)) H0 s) as Hstep.
    by destruct (liftAgg _ s) as [[w|e] s1].
Qed.

End server.

(** ** The theorems at a scenario

    The process of the alert scenario: both keys configured, London at 28
    degrees, every request taking 40 ms. *)

Import Dates.

Definition looks_like_url (s : string) : bool := String.prefix "http" s.

Definition s0 : Alerts.State LRUCache := Alerts.init both_keys 0.

Definition tool (net : Net) (call : ToolCall) (s : Alerts.State LRUCache)
    : result Content * Alerts.State LRUCache :=
  callTool both_keys ids looks_like_url call s.

Example fractional_days_pass : DaysSchema (Some 2.5%Q) = true.
Proof. done. Qed.

Lemma callTool_refused_witness :
  tool hot_net (get_forecast london None (Some 8%Q)) s0
  = (Throw invalidArguments, s0).
Proof. by apply callTool_refused. Defined.

Lemma callTool_Inv_witness :
  Alerts.Inv both_keys
    (tool hot_net (get_current_weather london (Some "metric")) s0).2.
Proof.
  apply (callTool_Inv (net := hot_net) both_keys ids show body_of), Alerts.alerts_init_Inv.
Defined.

Lemma listening_starts_witness :
  let s' := (listening (C := LRUCache) both_keys s0).2 in
  schedulerStarted s' = true
  ∧ timers s' = [(0%nat, 300000%Z)]
  ∧ alerts s' = [].
Proof. by apply (listening_starts both_keys s0). Defined.

Lemma weather_insights_current_fails_witness :
  ∃ g, tool all_down (weather_insights "Running" london) s0
       = (Throw refused, set_agg g s0).
Proof.
  eexists. apply (weather_insights_current_fails (net := all_down)).
  by vm_compute.
Defined.

Lemma weather_insights_assesses_witness :
  ∃ w f g, tool both_up (weather_insights "Running" london) s0
           = (Ok (InsightContent
                    (Insights.assessActivity "Running" w (Some f))),
              set_agg g s0).
Proof.
  eexists _, _, _.
  eapply (weather_insights_assesses (net := both_up)); by vm_compute.
Defined.

Definition no_url_args : AlertArgs :=
  mkAlertArgs (Some "heat") london (mkCondition temp_above (Some 30%Q) None)
    webhook None (Some high).

Lemma set_list_remove_witness :
  ∃ a s1 s2,
    tool hot_net (set_weather_alert no_url_args) s0 = (Ok (AlertContent a), s1)
    ∧ (tool hot_net list_weather_alerts s1).1
      = Ok (AlertsContent (omap.values (alerts s0) ++ [a]))
    ∧ tool hot_net (remove_weather_alert (alert_id a)) s1
      = (Ok (RemovedContent true (alert_id a)), s2)
    ∧ (tool hot_net list_weather_alerts s2).1
      = Ok (AlertsContent (omap.values (alerts s0))).
Proof.
  apply (set_list_remove (net := hot_net) both_keys ids looks_like_url
           no_url_args s0); [done|]. apply not_elem_of_nil.
Defined.

Lemma set_weather_alert_without_url_witness :
  ∃ a, (tool hot_net (set_weather_alert no_url_args) s0).1 = Ok (AlertContent a)
    ∧ alert_channel a = webhook ∧ truthy (alert_webhookUrl a) = false.
Proof. by apply (set_weather_alert_without_url (net := hot_net)). Defined.

(** The REST routes at the scenario. *)

Definition london_query : Query :=
  mkQuery (Some "London") (Some "UK") None None None (Some "30").

Definition current_route (net : Net) (config : Config) (q : Query)
    : option (M (Alerts.State LRUCache) (RestReply CurrentWeather)) :=
  api_current config q.

(** The day count a tool refuses passes the route; a count that is not a
    number, and a coordinate that is not one, are where the model ends. *)
Example rest_days :
  DaysSchema (Some 30%Q) = false ∧ days_of_query (Some "30") = Some 30%Q
  ∧ days_of_query (Some "0") = Some 0%Q ∧ days_of_query (Some "-1") = Some (-1)%Q
  ∧ days_of_query (Some "week") = None ∧ coordinate (Some "north") = None
  ∧ (Qred <$> mjoin (coordinate (Some "51.52N"))) = Some (1288 # 25)%Q.
Proof. by vm_compute. Qed.

(** The route hands the unit system of the query to the aggregator as it
    is written: Oslo at 20 degrees, asked for in ["Metric"] of OpenWeather
    alone, is answered as 6.67 degrees below zero beside 68 Fahrenheit. *)
Example rest_undeclared_units :
  let q := mkQuery (Some "Oslo") None None None (Some "Metric") None in
  (m ← current_route ow.oslo_net ow.ow_config q;
   match (m (Alerts.init ow.ow_config 0)).1 with
   | Ok (Json w) => Some (Qred (temperatureC w), Qred (temperatureF w))
   | _ => None
   end) = Some ((-20) # 3, 68)%Q.
Proof. by vm_compute. Qed.

Lemma api_current_answers_witness :
  ∃ m, current_route all_down both_keys london_query = Some m ∧
    m s0 = match getCurrentWeather (net := all_down) both_keys london
                  (units_or_default both_keys (q_units london_query)) (agg s0) with
           | (Ok w, g) => (Ok (Json w), set_agg g s0)
           | (Throw e, g) => (Ok (BadRequest (Prelude.message e)), set_agg g s0)
           end.
Proof. by apply (api_current_answers (net := all_down) both_keys london_query london s0). Defined.

Lemma api_forecast_days_witness :
  ∃ m, api_forecast (net := both_up) both_keys london_query = Some m ∧
    m s0 = match getForecast (net := both_up) both_keys london
                  (units_or_default both_keys (q_units london_query))
                  (inject_Z 30) (agg s0) with
           | (Ok f, g) => (Ok (Json f), set_agg g s0)
           | (Throw e, g) => (Ok (BadRequest (Prelude.message e)), set_agg g s0)
           end.
Proof.
  by apply (api_forecast_days (net := both_up) both_keys london_query london
              30 EmptyString s0).
Defined.

Lemma api_routes_Inv_witness :
  (∀ m, current_route both_up both_keys london_query = Some m →
        Alerts.Inv both_keys (m s0).2)
  ∧ (∀ m, api_forecast (net := both_up) both_keys london_query = Some m →
          Alerts.Inv both_keys (m s0).2).
Proof.
  apply (api_routes_Inv (net := both_up) both_keys ids show body_of),
    Alerts.alerts_init_Inv.
Defined.

End Server.
