(* ===== verification/Index.v ===== *)
(** * Index: the process with the agent

    [index.ts]: the variant of [server.ts] whose insight tools go through
    the language-model agent.  It registers nine tools (the eight of
    [server.ts], of which [weather_insights] now asks the agent, and
    [get_weather_summary]), serves the same two REST routes, and on
    listening initializes the agent before it starts the alert scheduler.

    The state is that of the alert module with the two variables of the
    agent module beside it; a function of either module runs on its part.
    The tools shared with [server.ts] are written again here, as they are
    in the source, and proved to agree with those of [Server]. *)

From stdpp Require Import pretty.
From S2P Require Import Prelude Parse OrderedMap Types Upstream World Dates Cache.
From S2P Require Import Insights Aggregator Agent Alerts Server.
Import Cache Aggregator.

Module Index.

(** [UnitsSchema]: [z.enum(["metric", "imperial"]).optional()] *)
Definition UnitsSchema (units : option string) : bool :=
  match units with
  | None => true
  | Some u => bool_decide (declared u)
  end.

(** [z.number().min(1).max(7).optional()] *)
Definition DaysSchema (days : option Q) : bool :=
  match days with
  | None => true
  | Some n => num_le 1 n && num_le n 7
  end.

(** A call of a tool: its name and its arguments. *)
Inductive ToolCall : Type :=
| get_current_weather (location : LocationQuery) (units : option string)
| get_forecast (location : LocationQuery) (units : option string) (days : option Q)
| get_weather_summary (location : LocationQuery) (days : option Q)
| get_historical (location : LocationQuery) (dateISO : string)
| weather_insights (activity : string) (location : LocationQuery)
| set_weather_alert (input : Server.AlertArgs)
| list_weather_alerts
| remove_weather_alert (id : string)
| provider_status.

(** The structured content of an answer: an object with the value in a
    field ([data], [alert], [items], [status]), or with several. *)
Inductive Content : Type :=
| DataCurrent (data : CurrentWeather)
| DataForecast (data : Forecast)
| SummaryContent (location : LocationQuery) (days : option Q) (summary : string)
| DataHistorical (data : HistoricalWeather)
| InsightsContent (activity : string) (location : LocationQuery) (insights : string)
| AlertField (alert : Alerts.WeatherAlert)
| ItemsField (items : list Alerts.WeatherAlert)
| RemovedContent (removed : bool) (id : string)
| StatusField (openWeather weatherApi : bool).

Section index.
Context {host : Host} {net : Net} {llm : Agent.Llm} {C : Type → Type}
  {store : TtlStore C} (config : Config) (env : Env).
Context (random : nat → string) (inspect : Alerts.Payload → string)
  (webhook_body : Alerts.WeatherAlert → string → option Alerts.Payload → string).
Context (is_url : string → bool).
Context (stringify_current : CurrentWeather → string)
  (stringify_forecast : Forecast → string)
  (inspect_error : Error → string).

(** The state of the process: that of the alert module, which holds the
    aggregator, and the two variables of the agent module. *)
Record State : Type := mkState {
  base : Alerts.State C;
  weatherAgent : option Agent.LlmAgent;
  agentRunner : option Agent.Runner;
}.

Definition set_base (a : Alerts.State C) (s : State) : State :=
  mkState a (weatherAgent s) (agentRunner s).

(** The part of the state the agent module sees, and writing it back. *)
Definition agent_view (s : State) : Agent.State C :=
  Agent.mkState (Alerts.agg (base s)) (weatherAgent s) (agentRunner s).

Definition set_agent_view (a : Agent.State C) (s : State) : State :=
  mkState (Alerts.set_agg (Agent.agg a) (base s)) (Agent.weatherAgent a)
    (Agent.agentRunner a).

(** A computation of the alert module, of the aggregator and of the agent
    module, run here. *)
Definition liftAlerts {A} (m : M (Alerts.State C) A) : M State A :=
  zoom base set_base m.

Definition liftAgg {A} (m : M (Aggregator.State C) A) : M State A :=
  liftAlerts (Alerts.liftAgg m).

Definition liftAgent {A} (m : M (Agent.State C) A) : M State A :=
  zoom agent_view set_agent_view m.

(** The input schema of each tool, on arguments of its shape. *)
Definition inputSchema (call : ToolCall) : bool :=
  match call with
  | get_current_weather _ units => UnitsSchema units
  | get_forecast _ units days => UnitsSchema units && DaysSchema days
  | get_weather_summary _ days => DaysSchema days
  | set_weather_alert input => from_option is_url true (Server.arg_webhookUrl input)
  | _ => true
  end.

(** A parameter with a default value: [units = config.defaultUnits]. *)
Definition units_or_default (units : option string) : Units :=
  default (defaultUnits config) units.

(** The handler of each tool. *)
Definition handler (call : ToolCall) : M State Content :=
  match call with
  | get_current_weather location units =>
      let! data := liftAgg (getCurrentWeather config location
                              (units_or_default units)) in
      ret (DataCurrent data)
  | get_forecast location units days =>
      let! data := liftAgg (getForecast config location (units_or_default units)
                              (nullish days 3%Q)) in
      ret (DataForecast data)
  | get_weather_summary location days =>
      let! summary := liftAgent (Agent.getEnhancedWeatherSummary config env
                                   stringify_current stringify_forecast
                                   inspect_error
                                   location days) in
      ret (SummaryContent location days summary)
  | get_historical location dateISO =>
      let! data := liftAgg (getHistorical config location dateISO) in
      ret (DataHistorical data)
  | weather_insights activity location =>
      let! insights := liftAgent (Agent.getWeatherInsights config env
                                    stringify_current stringify_forecast
                                    inspect_error
                                    activity location) in
      ret (InsightsContent activity location insights)
  | set_weather_alert input =>
      let! alert := liftAlerts (Alerts.registerAlert random
        (Alerts.mkInput (Server.arg_name input) (Server.arg_location input)
           (Server.arg_condition input) (Server.arg_channel input)
           (Server.arg_webhookUrl input) (Server.arg_sensitivity input) None)) in
      ret (AlertField alert)
  | list_weather_alerts =>
      let! items := liftAlerts Alerts.listAlerts in
      ret (ItemsField items)
  | remove_weather_alert id =>
      let! ok := liftAlerts (Alerts.removeAlert id) in
      ret (RemovedContent ok id)
  | provider_status =>
      let status := hasProviderKeys config in
      ret (StatusField status.1 status.2)
  end.

(** A call of a registered tool: the schema, then the handler. *)
Definition callTool (call : ToolCall) : M State Content :=
  if inputSchema call then handler call else throw Server.invalidArguments.

(** [GET /api/current], on a query whose coordinates are numbers. *)
Definition api_current (q : Server.Query)
    : option (M State (Server.RestReply CurrentWeather)) :=
  location ← Server.location_of_query q;
  Some (try_catch
          (let! data := liftAgg (getCurrentWeather config location
                                   (units_or_default (Server.q_units q))) in
           ret (Server.Json data))
          (λ e, ret (Server.BadRequest (Prelude.message e)))).

(** [GET /api/forecast], on a query whose numbers are numbers. *)
Definition api_forecast (q : Server.Query)
    : option (M State (Server.RestReply Forecast)) :=
  location ← Server.location_of_query q;
  days ← Server.days_of_query (Server.q_days q);
  Some (try_catch
          (let! data := liftAgg (getForecast config location
                                   (units_or_default (Server.q_units q)) days) in
           ret (Server.Json data))
          (λ e, ret (Server.BadRequest (Prelude.message e)))).

(** The callback of [app.listen]. *)
Definition listening : M State unit :=
  liftAgg (liftSys (console_log ("WeatherWise MCP running on http://localhost:"
                                 +:+ numToString (inject_Z (port config))
                                 +:+ "/mcp"))) ;;
  liftAgent (Agent.initializeWeatherAgent config env) ;;
  liftAlerts (Alerts.startAlertScheduler config).

(** ** The correspondence with [server.ts] *)

(** A call of a tool of [server.ts], made of [index.ts]. *)
Definition import (call : Server.ToolCall) : ToolCall :=
  match call with
  | Server.get_current_weather location units => get_current_weather location units
  | Server.get_forecast location units days => get_forecast location units days
  | Server.get_historical location dateISO => get_historical location dateISO
  | Server.weather_insights activity location => weather_insights activity location
  | Server.set_weather_alert input => set_weather_alert input
  | Server.list_weather_alerts => list_weather_alerts
  | Server.remove_weather_alert id => remove_weather_alert id
  | Server.provider_status => provider_status
  end.

(** The tools both processes answer from the same code: all of
    [server.ts] but [weather_insights]. *)
Definition shared (call : Server.ToolCall) : bool :=
  match call with
  | Server.weather_insights _ _ => false
  | _ => true
  end.

(** An answer of [index.ts] is that of [server.ts] in a field. *)
Inductive wraps : Server.Content → Content → Prop :=
| wraps_current data : wraps (Server.CurrentContent data) (DataCurrent data)
| wraps_forecast data : wraps (Server.ForecastContent data) (DataForecast data)
| wraps_historical data :
    wraps (Server.HistoricalContent data) (DataHistorical data)
| wraps_alert alert : wraps (Server.AlertContent alert) (AlertField alert)
| wraps_items items : wraps (Server.AlertsContent items) (ItemsField items)
| wraps_removed removed id :
    wraps (Server.RemovedContent removed id) (RemovedContent removed id)
| wraps_status ow wa : wraps (Server.StatusContent ow wa) (StatusField ow wa).

Definition agrees (r : result Server.Content) (r' : result Content) : Prop :=
  match r, r' with
  | Ok c, Ok c' => wraps c c'
  | Throw e, Throw e' => e = e'
  | _, _ => False
  end.

(** The invariant of the process: that of the alert module and that of
    the agent module, each on its part of the state. *)
Definition Inv (s : State) : Prop :=
  Alerts.Inv config (base s) ∧ Agent.agent_ok config env (agent_view s).

(** ** Running a part *)

Lemma liftAlerts_run {A} (m : M (Alerts.State C) A) s :
  liftAlerts m s = ((m (base s)).1, set_base (m (base s)).2 s).
Proof. unfold liftAlerts, zoom. by destruct (m (base s)). Qed.

Lemma liftAgent_run {A} (m : M (Agent.State C) A) s :
  liftAgent m s = ((m (agent_view s)).1, set_agent_view (m (agent_view s)).2 s).
Proof. unfold liftAgent, zoom. by destruct (m (agent_view s)). Qed.

(** A handler that answers what a computation of the alert module
    answers, in a field. *)
Lemma wrapped_run {A} (m : M (Alerts.State C) A) (f : A → Server.Content)
    (f' : A → Content) s :
  (∀ a, wraps (f a) (f' a)) →
  agrees (bind m (λ a, ret (f a)) (base s)).1
         (bind (liftAlerts m) (λ a, ret (f' a)) s).1
  ∧ (bind (liftAlerts m) (λ a, ret (f' a)) s).2
    = set_base (bind m (λ a, ret (f a)) (base s)).2 s.
Proof.
  intros Hf. unfold bind. rewrite liftAlerts_run.
  destruct (m (base s)) as [[a|e] s1]; simpl; [by split|done].
Qed.

(** What the agent module and the aggregator leave alone: the registry
    and the scheduler of the alert module. *)
Definition same_alerts (a a' : Alerts.State C) : Prop :=
  ∃ g, a' = Alerts.set_agg g a.

#[export] Instance same_alerts_preorder : PreOrder same_alerts.
Proof.
  split.
  - intros a. exists (Alerts.agg a). by destruct a.
  - intros a1 a2 a3 [g ->] [g' ->]. by exists g'.
Qed.

Lemma same_alerts_scheduler a a' :
  same_alerts a a' →
  Alerts.schedulerStarted a' = Alerts.schedulerStarted a
  ∧ Alerts.timers a' = Alerts.timers a ∧ Alerts.alerts a' = Alerts.alerts a.
Proof. by intros [g ->]. Qed.

Lemma liftAgent_same {A} (m : M (Agent.State C) A) s :
  same_alerts (base s) (base (liftAgent m s).2).
Proof. rewrite liftAgent_run. by eexists. Qed.

Lemma liftAgg_same {A} (m : M (Aggregator.State C) A) s :
  same_alerts (base s) (base (liftAgg m s).2).
Proof.
  unfold liftAgg. rewrite liftAlerts_run, Alerts.liftAgg_run. by eexists.
Qed.

(** ** Equivalence *)

(** C16: on every tool they share the two processes do the same: the call
    passes the schema of one when it passes that of the other, the answers
    carry the same value, the same error is thrown, and the alert module
    and the aggregator are left in the same state. *)
Theorem callTool_agrees call s :
  shared call = true →
  agrees (Server.callTool config random is_url call (base s)).1
         (callTool (import call) s).1
  ∧ (callTool (import call) s).2
    = set_base (Server.callTool config random is_url call (base s)).2 s.
Proof.
  intros Hshared. unfold callTool, Server.callTool.
  assert (inputSchema (import call) = Server.inputSchema is_url call) as ->
    by by destruct call.
  destruct (Server.inputSchema is_url call); [|by destruct s].
  destruct call; try done; try (apply wrapped_run; constructor).
  split; [constructor|by destruct s].
Qed.

(** The REST routes of the two processes are the same. *)
Theorem api_routes_agree q s :
  match api_current q, Server.api_current config q with
  | Some m, Some m' => m s = ((m' (base s)).1, set_base (m' (base s)).2 s)
  | None, None => True
  | _, _ => False
  end
  ∧ match api_forecast q, Server.api_forecast config q with
    | Some m, Some m' => m s = ((m' (base s)).1, set_base (m' (base s)).2 s)
    | None, None => True
    | _, _ => False
    end.
Proof.
  unfold api_current, api_forecast, Server.api_current, Server.api_forecast.
  destruct (Server.location_of_query q) as [location|]; simpl; [|done].
  split; [|destruct (Server.days_of_query _) as [days|]; simpl; [|done]].
  all: unfold try_catch, bind, liftAgg; rewrite liftAlerts_run.
  all: by destruct (Alerts.liftAgg _ (base s)) as [[a|e] s1].
Qed.

Lemma index_api_current_total q m s :
  api_current q = Some m → ∃ r, (m s).1 = Ok r.
Proof.
  unfold api_current. intros; simplify_option_eq. apply Server.caught_answers.
Qed.

Lemma index_api_forecast_total q m s :
  api_forecast q = Some m → ∃ r, (m s).1 = Ok r.
Proof.
  unfold api_forecast. intros; simplify_option_eq. apply Server.caught_answers.
Qed.

(** ** The invariant *)

Notation keeps := (preserves Inv).
Notation alert_step := (Alerts.step config random inspect webhook_body).

Lemma keeps_liftAlerts {A} (m : M (Alerts.State C) A) :
  (∀ a, rtc alert_step a (m a).2) → keeps (liftAlerts m).
Proof.
  intros Hm s [Ha Hg]. rewrite liftAlerts_run. split; [|done].
  by eapply Alerts.reachable_Inv.
Qed.

Lemma keeps_liftAgent {A} (m : M (Agent.State C) A) :
  preserves (Agent.Inv config env) m → keeps (liftAgent m).
Proof.
  intros Hm. apply (preserves_zoom _ (Agent.Inv config env)); [|done|].
  - intros s [Ha Hg]. split; [done|apply Ha].
  - intros a s [Ha Hg] [Hok Hagg]. split; [by apply Alerts.Inv_set_agg|done].
Qed.

Lemma keeps_console line : keeps (liftAgg (liftSys (console_log line))).
Proof.
  intros s [Ha Hg]. unfold liftAgg. rewrite liftAlerts_run, Alerts.liftAgg_run.
  split; [|done]. apply Alerts.Inv_set_agg; [done|].
  rewrite liftSys_run. apply Inv_set_sys, Ha.
Qed.

Lemma keeps_liftAgg_current q units :
  keeps (liftAgg (getCurrentWeather config q units)).
Proof.
  apply keeps_liftAlerts. intros a.
  apply rtc_once, Server.liftAgg_current_step.
Qed.

Lemma keeps_liftAgg_forecast q units days :
  keeps (liftAgg (getForecast config q units days)).
Proof.
  apply keeps_liftAlerts. intros a.
  apply rtc_once, Server.liftAgg_forecast_step.
Qed.

Lemma keeps_liftAgg_historical q dateISO :
  keeps (liftAgg (getHistorical config q dateISO)).
Proof.
  apply keeps_liftAlerts. intros a.
  apply rtc_once, Server.liftAgg_historical_step.
Qed.

Lemma keeps_registerAlert input : keeps (liftAlerts (Alerts.registerAlert random input)).
Proof. apply keeps_liftAlerts. intros a. apply rtc_once, Alerts.step_register. Qed.

Lemma keeps_removeAlert id : keeps (liftAlerts (Alerts.removeAlert id)).
Proof.
  apply keeps_liftAlerts. intros a.
  apply rtc_once, (Alerts.step_remove _ _ _ _ id).
Qed.

Lemma keeps_listAlerts : keeps (liftAlerts Alerts.listAlerts).
Proof. by apply keeps_liftAlerts. Qed.

Lemma keeps_startAlertScheduler : keeps (liftAlerts (Alerts.startAlertScheduler config)).
Proof. apply keeps_liftAlerts. intros a. apply rtc_once, Alerts.step_start. Qed.

Lemma keeps_insights activity location :
  keeps (liftAgent (Agent.getWeatherInsights config env stringify_current
                      stringify_forecast inspect_error activity location)).
Proof. apply keeps_liftAgent, Agent.keeps_getWeatherInsights. Qed.

Lemma keeps_summary location days :
  keeps (liftAgent (Agent.getEnhancedWeatherSummary config env stringify_current
                      stringify_forecast inspect_error location days)).
Proof. apply keeps_liftAgent, Agent.keeps_getEnhancedWeatherSummary. Qed.

Lemma keeps_initialize : keeps (liftAgent (Agent.initializeWeatherAgent config env)).
Proof. apply keeps_liftAgent, Agent.keeps_initializeWeatherAgent. Qed.

#[local] Hint Resolve keeps_console keeps_liftAgg_current keeps_liftAgg_forecast
  keeps_liftAgg_historical keeps_registerAlert keeps_removeAlert
  keeps_listAlerts keeps_startAlertScheduler keeps_insights keeps_summary
  keeps_initialize : weather.

Ltac solve_keeps :=
  repeat first
    [ progress eauto with weather
    | apply preserves_bind; [|intros ?]
    | apply preserves_catch; [|intros ?]
    | case_match ].

Lemma keeps_handler call : keeps (handler call).
Proof. unfold handler. solve_keeps. Qed.

Lemma keeps_listening : keeps listening.
Proof. unfold listening. solve_keeps. Qed.

(** Every call of a tool, every request of a route and the start of the
    process keep the invariant: the registry keyed by id, at most one
    timer, the stores well formed, and the agent either absent or the one
    of the configuration with its runner. *)
Theorem index_Inv call q :
  keeps (callTool call) ∧ keeps listening
  ∧ (∀ m, api_current q = Some m → keeps m)
  ∧ (∀ m, api_forecast q = Some m → keeps m).
Proof.
  split_and!.
  - unfold callTool. case_match; [apply keeps_handler|apply preserves_throw].
  - apply keeps_listening.
  - unfold api_current. intros m Hm. simplify_option_eq. solve_keeps.
  - unfold api_forecast. intros m Hm. simplify_option_eq. solve_keeps.
Qed.

(** ** The agent tools and the start *)

(** Without a key of a language model the insights tool answers the
    fixed text for every activity and place: the weather is not asked for
    and the assessment [server.ts] makes is not made. *)
Theorem weather_insights_disabled activity location s :
  Agent.enabled config env = false → weatherAgent s = None →
  callTool (weather_insights activity location) s
  = (Ok (InsightsContent activity location
           (Agent.getBasicInsights activity location)),
     set_agent_view
       (Agent.logged "No LLM provider key found. ADK-TS agent will be disabled."
          (agent_view s)) s).
Proof.
  intros Hd Hs. unfold callTool. simpl. unfold bind.
  by rewrite liftAgent_run, Agent.getWeatherInsights_disabled.
Qed.

(** The process starts by printing its address, building the agent when
    a key is configured, and starting the scheduler, in that order. *)
Theorem listening_ready s :
  Agent.enabled config env = true → weatherAgent s = None →
  Alerts.schedulerStarted (base s) = false →
  let s' := (listening s).2 in
  weatherAgent s' = Some (Agent.build (Agent.chosen_model config)).1
  ∧ agentRunner s' = Some (Agent.build (Agent.chosen_model config)).2
  ∧ Alerts.schedulerStarted (base s') = true
  ∧ Alerts.alerts (base s') = Alerts.alerts (base s)
  ∧ console (sys (Alerts.agg (base s')))
    = console (sys (Alerts.agg (base s)))
      ++ ["WeatherWise MCP running on http://localhost:"
          +:+ numToString (inject_Z (port config)) +:+ "/mcp";
          "Weather agent initialized with model: "
          +:+ Agent.chosen_model config;
          Alerts.started_line config].
Proof.
  intros He Hs Hsched. unfold listening, bind, liftAgg.
  rewrite liftAlerts_run, Alerts.liftAgg_run, liftSys_run. simpl.
  rewrite liftAgent_run, Agent.initializeWeatherAgent_builds by done. simpl.
  rewrite liftAlerts_run, Alerts.startAlertScheduler_run. simpl.
  rewrite Hsched. simpl. split_and!; try done.
  by rewrite <-!app_assoc.
Qed.

End index.

Arguments State C : clear implicits.

(** ** The theorems at a scenario

    The process with Google's key and both weather providers, London, a
    model that answers in 900 ms. *)

Import Dates.

Definition init (config : Config) (t : Z) : State LRUCache :=
  mkState (Alerts.init config t) None None.

Lemma index_init_Inv config env t : Inv config env (init config t).
Proof. split; [apply Alerts.alerts_init_Inv|by left]. Qed.

Definition tool (net : Net) (llm : Agent.Llm) (config : Config) (env : Env)
    (call : ToolCall) (s : State LRUCache) : result Content * State LRUCache :=
  callTool config env Alerts.ids Server.looks_like_url Agent.show_current
    Agent.show_forecast Agent.print_error call s.

Definition i0 : State LRUCache := init Agent.with_google 0.

(** The insights tool of the two processes on the same request: the text
    of the model here, the assessment there. *)
Example insights_of_both :
  (tool both_up Agent.sunny Agent.with_google Agent.no_env
     (weather_insights "Running" london) i0).1
  = Ok (InsightsContent "Running" london "Go for it.")
  ∧ (λ c, match c with
           | Server.InsightContent r => Some (Insights.riskLevel r)
           | _ => None
           end)
      <$> value_of (Server.tool both_up
                      (Server.weather_insights "Running" london) Server.s0).1
    = Some (Some Insights.low).
Proof. by vm_compute. Qed.

Lemma callTool_agrees_witness :
  let call := Server.get_current_weather london (Some "metric") in
  agrees
    (Server.callTool (net := both_up) Agent.with_google Alerts.ids
       Server.looks_like_url call (base i0)).1
    (tool both_up Agent.sunny Agent.with_google Agent.no_env (import call) i0).1
  ∧ (tool both_up Agent.sunny Agent.with_google Agent.no_env (import call) i0).2
    = set_base
        (Server.callTool (net := both_up) Agent.with_google Alerts.ids
           Server.looks_like_url call (base i0)).2 i0.
Proof. by apply (callTool_agrees (net := both_up) (llm := Agent.sunny)). Defined.

Lemma weather_insights_disabled_witness :
  tool all_down Agent.sunny both_keys Agent.no_env
    (weather_insights "Running" london) (init both_keys 0)
  = (Ok (InsightsContent "Running" london
           (Agent.getBasicInsights "Running" london)),
     set_agent_view
       (Agent.logged "No LLM provider key found. ADK-TS agent will be disabled."
          (agent_view (init both_keys 0))) (init both_keys 0)).
Proof. by apply weather_insights_disabled. Defined.

Lemma listening_ready_witness :
  let s' := (listening Agent.with_google Agent.no_env i0).2 in
  (Agent.model <$> weatherAgent s') = Some "gemini-2.5-flash"
  ∧ Alerts.schedulerStarted (base s') = true
  ∧ console (sys (Alerts.agg (base s')))
    = ["WeatherWise MCP running on http://localhost:3000/mcp";
       "Weather agent initialized with model: gemini-2.5-flash";
       "Alert scheduler started (every 300s)"].
Proof.
  destruct (listening_ready Agent.with_google Agent.no_env i0)
    as (Ha & _ & Hs & _ & Hc); [done..|].
  split; [by rewrite Ha|]. split; [done|]. by rewrite Hc.
Defined.

Lemma index_Inv_witness :
  Inv Agent.with_google Agent.no_env
    (tool both_up Agent.sunny Agent.with_google Agent.no_env
       (weather_insights "Running" london) i0).2.
Proof.
  apply (index_Inv (net := both_up) (llm := Agent.sunny) Agent.with_google
           Agent.no_env Alerts.ids Alerts.show Alerts.body_of
           Server.looks_like_url Agent.show_current Agent.show_forecast
           Agent.print_error
           (weather_insights "Running" london) Server.london_query),
    index_init_Inv.
Defined.

End Index.
