(* ===== verification/Page.v ===== *)
(** * Page: the script of the test page

    [public/app.js]: what the script does when the page loads (four labels
    filled in from the address of the page, the listeners registered), the
    handler of the copy buttons with its timer, and the two handlers of
    the REST playground, which build a query from the form, fetch a route
    and show the answer.

    The document is a finite map from ids to elements, with of an element
    what the script reads and writes: its text, its [data-target]
    attribute, whether it matches [.copy].  The page itself
    ([public/index.html]) is not among the sources, so nothing is known of
    how its elements nest, and the map has no nesting: an assignment to
    [textContent] changes the text of its element and nothing else, which
    is what the program does when the elements the script writes (the four
    labels, the copy buttons, the output) hold text only; in a document
    where one of them holds other elements the assignment would remove
    those.  The inputs of the form are the
    user's: the script reads them and never writes them, so a click comes
    with what they hold ([Form]; a field is [None] when the document has
    no such input).  The server is behind the interface [Backend], which
    [server.ts] and [index.ts] both implement; a fetch runs the route on
    the server's state.  That [URLSearchParams] and the query parser of
    the server are inverse to each other is taken for granted.  A handler
    is defined where the route it fetches is. *)

From stdpp Require Import gmap pretty.
From S2P Require Import Prelude Parse OrderedMap Types Upstream World Dates Cache.
From S2P Require Import Insights Aggregator Alerts Server Index.

Module Page.

(** An element of the document. *)
Record Element : Type := mkElement {
  textContent : string;
  data_target : option string;
  copy_class : bool;
}.

Definition with_text (text : string) (el : Element) : Element :=
  mkElement text (data_target el) (copy_class el).

Notation Document := (gmap string Element).

(** The listeners the script has registered. *)
Record Listeners : Type := mkListeners {
  on_copy : bool;
  on_current : bool;
  on_forecast : bool;
}.

(** The browser: the document, the listeners, the clipboard and whether
    the page may write it, whether the server can be reached, the buttons
    with a timer pending, the dialogs shown. *)
Record Browser : Type := mkBrowser {
  document : Document;
  listeners : Listeners;
  clipboard : string;
  clipboard_granted : bool;
  online : bool;
  timeouts : list string;
  dialogs : list string;
}.

Definition set_document (d : Document) (b : Browser) : Browser :=
  mkBrowser d (listeners b) (clipboard b) (clipboard_granted b) (online b)
    (timeouts b) (dialogs b).

Definition set_listeners (l : Listeners) (b : Browser) : Browser :=
  mkBrowser (document b) l (clipboard b) (clipboard_granted b) (online b)
    (timeouts b) (dialogs b).

Definition set_clipboard (text : string) (b : Browser) : Browser :=
  mkBrowser (document b) (listeners b) text (clipboard_granted b) (online b)
    (timeouts b) (dialogs b).

Definition set_timeouts (ts : list string) (b : Browser) : Browser :=
  mkBrowser (document b) (listeners b) (clipboard b) (clipboard_granted b)
    (online b) ts (dialogs b).

Definition set_dialogs (ds : list string) (b : Browser) : Browser :=
  mkBrowser (document b) (listeners b) (clipboard b) (clipboard_granted b)
    (online b) (timeouts b) ds.

(** What the inputs of the form hold at a click. *)
Record Form : Type := mkForm {
  f_city : option string;
  f_country : option string;
  f_units : option string;
  f_days : option string;
}.

(** A [URLSearchParams]: names and values, in the order they were set. *)
Notation Params := (list (string * string)).

(** The page and the server it talks to. *)
Record World (S : Type) : Type := mkWorld {
  browser : Browser;
  server : S;
}.
Arguments mkWorld {S} browser server.
Arguments browser {S} w.
Arguments server {S} w.

(** What the page needs of a server: the two routes, each answering every
    request it is defined on, and defined on the requests that carry no
    coordinates and a day count that is a number or absent. *)
Class Backend (S : Type) : Type := {
  route_current : Server.Query → option (M S (Server.RestReply CurrentWeather));
  route_forecast : Server.Query → option (M S (Server.RestReply Forecast));
  route_current_answers q m s : route_current q = Some m → ∃ r, (m s).1 = Ok r;
  route_forecast_answers q m s : route_forecast q = Some m → ∃ r, (m s).1 = Ok r;
  route_current_defined q :
    Server.q_lat q = None → Server.q_lon q = None → is_Some (route_current q);
  route_forecast_defined q :
    Server.q_lat q = None → Server.q_lon q = None →
    is_Some (Server.days_of_query (Server.q_days q)) → is_Some (route_forecast q);
}.

(** The [TypeError]s of the script, and that of a fetch that reaches no
    server; [String(e)] of each is its message. *)
Definition nullValue : Error :=
  mkError "TypeError: Cannot read properties of null (reading 'value')".
Definition nullText : Error :=
  mkError "TypeError: Cannot set properties of null (setting 'textContent')".
Definition nullListener : Error :=
  mkError "TypeError: Cannot read properties of null (reading 'addEventListener')".
Definition failedToFetch : Error := mkError "TypeError: Failed to fetch".

(** [setText(id, text)] *)
Definition setText (id text : string) : M Browser unit :=
  modify_st (λ b, set_document (alter (with_text text) id (document b)) b).

(** [$(id).textContent = text] *)
Definition assign (id text : string) : M Browser unit :=
  let! b := get_st in
  match document b !! id with
  | Some _ => setText id text
  | None => throw nullText
  end.

(** [$(id).addEventListener("click", ..)] *)
Definition listen (id : string) (f : Listeners → Listeners) : M Browser unit :=
  let! b := get_st in
  match document b !! id with
  | Some _ => modify_st (λ b, set_listeners (f (listeners b)) b)
  | None => throw nullListener
  end.

(** The label a copy button gets back when its timer fires. *)
Definition copy_label (el : Element) : string :=
  match data_target el with
  | Some t => if Insights.includes t "URL" then "Copy URL" else "Copy"
  | None => "Copy"
  end.

(** The click handler of a copy button. *)
Definition copy_click (btn : string) : M Browser unit :=
  let! b := get_st in
  match document b !! btn with
  | None => ret tt
  | Some el =>
      let target := document b !! default "null" (data_target el) in
      let text := default EmptyString (textContent <$> target) in
      if clipboard_granted b then
        modify_st (set_clipboard text) ;;
        setText btn "Copied!" ;;
        modify_st (λ b, set_timeouts (timeouts b ++ [btn]) b)
      else
        modify_st (λ b, set_dialogs
                          (dialogs b ++ ["Copy failed. Please copy manually."]) b)
  end.

(** The callback of [setTimeout(.., 1200)], for the timer set first. *)
Definition timeout_fires : M Browser unit :=
  let! b := get_st in
  match timeouts b with
  | [] => ret tt
  | btn :: rest =>
      modify_st (set_timeouts rest) ;;
      match document b !! btn with
      | Some el => setText btn (copy_label el)
      | None => ret tt
      end
  end.

(** [q.set(name, value)] when the value is not empty. *)
Definition set_if (name value : string) (q : Params) : Params :=
  if nonempty value then omap.set name value q else q.

(** [params()] *)
Definition params (form : Form) : result Params :=
  match f_city form, f_country form, f_units form with
  | Some city, Some country, Some units =>
      let city := Parse.trim city in
      let country := Parse.trim country in
      Ok (set_if "units" units (set_if "country" country (set_if "city" city [])))
  | _, _, _ => Throw nullValue
  end.

(** The parameters of the forecast request: [params()] and the days. *)
Definition forecast_params (form : Form) : result Params :=
  match params form with
  | Ok q =>
      match f_days form with
      | Some days => Ok (set_if "days" days q)
      | None => Throw nullValue
      end
  | Throw e => Throw e
  end.

(** The query the server reads from the parameters sent. *)
Definition query_of (q : Params) : Server.Query :=
  Server.mkQuery (omap.get "city" q) (omap.get "country" q) (omap.get "lat" q)
    (omap.get "lon" q) (omap.get "units" q) (omap.get "days" q).

Section page.
Context {host : Host} {S : Type} {backend : Backend S}.
Context (origin location_port : string).
Context (stringify_current : CurrentWeather → string)
  (stringify_forecast : Forecast → string).

Definition set_browser (b : Browser) (w : World S) : World S :=
  mkWorld b (server w).

Definition set_server (s : S) (w : World S) : World S :=
  mkWorld (browser w) s.

Definition liftB {A} (m : M Browser A) : M (World S) A :=
  zoom browser set_browser m.

(** [baseUrl], [mcpUrl] and [port] *)
Definition baseUrl : string := origin.
Definition mcpUrl : string := baseUrl +:+ "/mcp".
Definition port : string :=
  if nonempty location_port then location_port else "3000".

(** The script, run when the page has loaded. *)
Definition load : M Browser unit :=
  setText "baseUrl" baseUrl ;;
  setText "mcpUrl" mcpUrl ;;
  setText "connectUrl" mcpUrl ;;
  setText "cmdStartPort" ("$env:PORT=" +:+ port +:+ "; npm run dev:http") ;;
  modify_st (λ b, set_listeners
                    (mkListeners true (on_current (listeners b))
                       (on_forecast (listeners b))) b) ;;
  listen "btnCurrent" (λ l, mkListeners (on_copy l) true (on_forecast l)) ;;
  listen "btnForecast" (λ l, mkListeners (on_copy l) (on_current l) true).

(** [await fetch(url)] and [await res.json()]: the body the route
    answers. *)
Definition fetch {A} (route : M S (Server.RestReply A))
    : M (World S) (Server.RestReply A) :=
  let! w := get_st in
  if online (browser w) then zoom server set_server route
  else throw failedToFetch.

(** [JSON.stringify(data, null, 2)] of a body. *)
Definition stringify {A} (show : A → string) (body : Server.RestReply A) : string :=
  match body with
  | Server.Json data => show data
  | Server.BadRequest error =>
      unlines ["{"; "  " +:+ dquote +:+ "error" +:+ dquote +:+ ": "
                    +:+ jsonString error; "}"]
  end.

(** [try { .. } catch(e) { $("output").textContent = String(e) }] *)
Definition shown_on_failure (body : M (World S) unit) : M (World S) unit :=
  try_catch body (λ e, liftB (assign "output" (Prelude.message e))).

(** The request of a handler and what it does with the answer. *)
Definition playground {A} (show : A → string) (q : result Params)
    (route : Server.Query → option (M S (Server.RestReply A)))
    : option (M (World S) unit) :=
  match q with
  | Ok q =>
      m ← route (query_of q);
      Some (shown_on_failure
              (let! data := fetch m in
               liftB (assign "output" (stringify show data))))
  | Throw e => Some (shown_on_failure (throw e))
  end.

(** The click handler of [btnCurrent]. *)
Definition click_current (form : Form) : option (M (World S) unit) :=
  playground stringify_current (params form) route_current.

(** The click handler of [btnForecast]. *)
Definition click_forecast (form : Form) : option (M (World S) unit) :=
  playground stringify_forecast (forecast_params form) route_forecast.

(** What happens on the page. *)
Inductive Event : Type :=
| ClickCopy (btn : string)
| ClickCurrent (form : Form)
| ClickForecast (form : Form)
| TimerFires.

(** A handler runs when its listener is registered. *)
Definition when_listening (flag : Listeners → bool) (m : M (World S) unit)
    : M (World S) unit :=
  let! w := get_st in
  if flag (listeners (browser w)) then m else ret tt.

Definition copies (btn : string) (b : Browser) : bool :=
  match document b !! btn with
  | Some el => copy_class el && on_copy (listeners b)
  | None => false
  end.

(** The handler an event runs. *)
Definition dispatch (ev : Event) : option (M (World S) unit) :=
  match ev with
  | ClickCopy btn =>
      Some (let! w := get_st in
            if copies btn (browser w) then liftB (copy_click btn) else ret tt)
  | ClickCurrent form => when_listening on_current <$> click_current form
  | ClickForecast form => when_listening on_forecast <$> click_forecast form
  | TimerFires => Some (liftB timeout_fires)
  end.

(** ** Reference definitions *)

(** The text of an element, when the document has it. *)
Definition text_of (id : string) (b : Browser) : option string :=
  textContent <$> document b !! id.

(** A form whose four inputs are in the document. *)
Definition filled (city country units days : string) : Form :=
  mkForm (Some city) (Some country) (Some units) (Some days).

(** A value as a parameter: absent when empty. *)
Definition sent (value : string) : option string :=
  if nonempty value then Some value else None.

(** ** Running the primitives *)

Lemma liftB_run {A} (m : M Browser A) w :
  liftB m w = ((m (browser w)).1, set_browser (m (browser w)).2 w).
Proof. unfold liftB, zoom. by destruct (m (browser w)). Qed.

Lemma alter_absent (f : Element → Element) id (d : Document) :
  d !! id = None → alter f id d = d.
Proof.
  intros Hid. apply map_eq; intros j. rewrite lookup_alter.
  case_decide; [subst; by rewrite Hid|done].
Qed.

Lemma setText_absent id text b :
  document b !! id = None → setText id text b = (Ok tt, b).
Proof.
  intros Hid. unfold setText, modify_st. rewrite alter_absent by done.
  by destruct b.
Qed.

Lemma text_of_setText id text j b :
  text_of j (setText id text b).2
  = if decide (id = j) then (λ _, text) <$> document b !! id else text_of j b.
Proof.
  unfold text_of; simpl. rewrite lookup_alter. case_decide; [|done].
  by destruct (document b !! id).
Qed.

Lemma assign_present id text b :
  is_Some (document b !! id) → assign id text b = setText id text b.
Proof. intros [el Hel]. unfold assign, bind, get_st. by rewrite Hel. Qed.

Lemma assign_absent id text b :
  document b !! id = None → assign id text b = (Throw nullText, b).
Proof. intros Hid. unfold assign, bind, get_st. by rewrite Hid. Qed.

(** ** The query of the playground *)

Lemma query_of_set_if city country units :
  query_of (set_if "units" units (set_if "country" country (set_if "city" city [])))
  = Server.mkQuery (sent city) (sent country) None None (sent units) None.
Proof.
  unfold set_if, sent, query_of.
  by destruct (nonempty city), (nonempty country), (nonempty units).
Qed.

(** The query the page sends for the current conditions: the city and the
    country trimmed, the units, each only when not empty; no coordinates
    and no day count. *)
Theorem params_query city country units days :
  map_result query_of (params (filled city country units days))
  = Ok (Server.mkQuery (sent (Parse.trim city)) (sent (Parse.trim country))
          None None (sent units) None).
Proof. unfold params, filled; simpl. by rewrite query_of_set_if. Qed.

(** The query of the forecast adds the day count as typed. *)
Theorem forecast_params_query city country units days :
  map_result query_of (forecast_params (filled city country units days))
  = Ok (Server.mkQuery (sent (Parse.trim city)) (sent (Parse.trim country))
          None None (sent units) (sent days)).
Proof.
  unfold forecast_params, params, filled, set_if, sent, query_of; simpl.
  by destruct (nonempty (Parse.trim city)), (nonempty (Parse.trim country)),
    (nonempty units), (nonempty days).
Qed.

Lemma forecast_params_filled city country units days :
  ∃ q, forecast_params (filled city country units days) = Ok q
    ∧ query_of q
      = Server.mkQuery (sent (Parse.trim city)) (sent (Parse.trim country))
          None None (sent units) (sent days).
Proof.
  pose proof (forecast_params_query city country units days) as Hq.
  destruct (forecast_params _) as [q|e]; [|done].
  exists q. split; [done|]. cbv [map_result] in Hq. congruence.
Qed.

Lemma params_no_coordinates form q :
  params form = Ok q →
  Server.q_lat (query_of q) = None ∧ Server.q_lon (query_of q) = None
  ∧ Server.q_days (query_of q) = None.
Proof.
  unfold params. intros Hq. repeat case_match; simplify_eq.
  by rewrite query_of_set_if.
Qed.

(** The handler of [btnCurrent] is defined on every form: the page sends
    no coordinates, so the route has no number to misread. *)
Theorem click_current_defined form : is_Some (click_current form).
Proof.
  unfold click_current, playground.
  destruct (params form) as [q|e] eqn:Hq; [|by eexists].
  destruct (params_no_coordinates _ _ Hq) as (Hlat & Hlon & _).
  destruct (route_current_defined (query_of q) Hlat Hlon) as [m ->]. by eexists.
Qed.

(** ** The handlers of the playground *)

Section shows.
Context {A : Type} (show : A → string) (q : Params) (w : World S)
  (route : Server.Query → option (M S (Server.RestReply A)))
  (m : M S (Server.RestReply A)).
Context (Hroute : route (query_of q) = Some m).

Lemma playground_online body :
  online (browser w) = true → (m (server w)).1 = Ok body →
  ∃ h, playground show (Ok q) route = Some h ∧
    h w = liftB (assign "output" (stringify show body))
            (set_server (m (server w)).2 w).
Proof.
  intros Hon Hbody. unfold playground. rewrite Hroute. eexists; split; [done|].
  unfold shown_on_failure, try_catch, bind at 1, fetch, bind at 1, get_st.
  rewrite Hon. unfold zoom. destruct (m (server w)) as [r s'].
  simpl in Hbody; subst r. rewrite !liftB_run. simpl.
  destruct (document (browser w) !! "output") as [el|] eqn:Hout.
  - by rewrite assign_present by (by eexists).
  - rewrite assign_absent by done. simpl. rewrite liftB_run; simpl.
    by rewrite assign_absent.
Qed.

Lemma playground_offline :
  online (browser w) = false →
  ∃ h, playground show (Ok q) route = Some h ∧
    h w = liftB (assign "output" (Prelude.message failedToFetch)) w.
Proof.
  intros Hoff. unfold playground. rewrite Hroute. eexists; split; [done|].
  unfold shown_on_failure, try_catch, bind at 1, fetch, bind at 1, get_st.
  by rewrite Hoff.
Qed.

End shows.

Lemma playground_thrown {A} (show : A → string) route e w :
  ∃ h, playground show (Throw e) route = Some h ∧
    h w = liftB (assign "output" (Prelude.message e)) w.
Proof. by eexists. Qed.

Section clicks.
Context (city country units days : string) (w : World S).
Context (Hout : is_Some (document (browser w) !! "output")).

Let form := filled city country units days.
Let current_query :=
  Server.mkQuery (sent (Parse.trim city)) (sent (Parse.trim country))
    None None (sent units) None.
Let forecast_query :=
  Server.mkQuery (sent (Parse.trim city)) (sent (Parse.trim country))
    None None (sent units) (sent days).

(** C31: online, a click on [btnCurrent] runs the route on the query of the
    form and the output shows the body it answers, be it the record or
    the error of a request the server refused; nothing else of the page
    changes. *)
Theorem click_current_shows route :
  route_current current_query = Some route →
  online (browser w) = true →
  ∃ h body, click_current form = Some h
    ∧ (route (server w)).1 = Ok body
    ∧ h w = (Ok tt, mkWorld (setText "output" (stringify stringify_current body)
                               (browser w)).2
                      (route (server w)).2).
Proof.
  intros Hroute Hon.
  destruct (route_current_answers _ _ (server w) Hroute) as [body Hbody].
  unfold current_query in Hroute. rewrite <-query_of_set_if in Hroute.
  destruct (playground_online stringify_current _ w _ _ Hroute body Hon Hbody)
    as (h & Hh & Hrun).
  exists h, body. split_and!; [done..|].
  by rewrite Hrun, liftB_run, assign_present.
Qed.

(** The same for [btnForecast], with the day count as typed. *)
Theorem click_forecast_shows route :
  route_forecast forecast_query = Some route →
  online (browser w) = true →
  ∃ h body, click_forecast form = Some h
    ∧ (route (server w)).1 = Ok body
    ∧ h w = (Ok tt, mkWorld (setText "output" (stringify stringify_forecast body)
                               (browser w)).2
                      (route (server w)).2).
Proof.
  intros Hroute Hon.
  destruct (route_forecast_answers _ _ (server w) Hroute) as [body Hbody].
  destruct (forecast_params_filled city country units days) as (q & Hp & Hq).
  unfold forecast_query in Hroute. rewrite <-Hq in Hroute.
  destruct (playground_online stringify_forecast _ w _ _ Hroute body Hon Hbody)
    as (h & Hh & Hrun).
  exists h, body. unfold click_forecast, form. rewrite Hp. split_and!; [done..|].
  by rewrite Hrun, liftB_run, assign_present.
Qed.

(** When the server cannot be reached, the output shows the error of the
    fetch and the server is left alone. *)
Theorem click_current_offline :
  online (browser w) = false →
  ∃ h, click_current form = Some h
    ∧ h w = (Ok tt, set_browser (setText "output" "TypeError: Failed to fetch"
                                   (browser w)).2 w).
Proof.
  intros Hoff.
  destruct (route_current_defined current_query eq_refl eq_refl) as [route Hroute].
  unfold current_query in Hroute. rewrite <-query_of_set_if in Hroute.
  destruct (playground_offline stringify_current _ w _ _ Hroute Hoff)
    as (h & Hh & Hrun).
  exists h. split; [done|]. by rewrite Hrun, liftB_run, assign_present.
Qed.

End clicks.

(** A form without one of its inputs sends nothing: the error of reading
    the input is shown, whether or not the server can be reached. *)
Theorem click_current_missing_input form w :
  f_city form = None → is_Some (document (browser w) !! "output") →
  ∃ h, click_current form = Some h
    ∧ h w = (Ok tt, set_browser (setText "output" (Prelude.message nullValue)
                                   (browser w)).2 w).
Proof.
  intros Hcity Hout. unfold click_current, params. rewrite Hcity.
  eexists; split; [done|].
  unfold shown_on_failure, try_catch, throw.
  by rewrite liftB_run, assign_present.
Qed.

(** Without an element to show it, the answer is lost and the handler
    ends with an error no one catches; the request has been served. *)
Theorem click_current_no_output city country units days w route :
  route_current (Server.mkQuery (sent (Parse.trim city)) (sent (Parse.trim country))
                   None None (sent units) None) = Some route →
  online (browser w) = true → document (browser w) !! "output" = None →
  ∃ h, click_current (filled city country units days) = Some h
    ∧ h w = (Throw nullText, set_server (route (server w)).2 w).
Proof.
  intros Hroute Hon Hout.
  destruct (route_current_answers _ _ (server w) Hroute) as [body Hbody].
  rewrite <-query_of_set_if in Hroute.
  destruct (playground_online stringify_current _ w _ _ Hroute body Hon Hbody)
    as (h & Hh & Hrun).
  exists h. split; [done|]. rewrite Hrun, liftB_run, assign_absent by done.
  by destruct w.
Qed.

(** ** Loading the page *)

(** The labels the script fills in. *)
Definition labels : list (string * string) :=
  [("baseUrl", baseUrl); ("mcpUrl", mcpUrl); ("connectUrl", mcpUrl);
   ("cmdStartPort", "$env:PORT=" +:+ port +:+ "; npm run dev:http")].

Definition labelled (b : Browser) : Browser :=
  foldl (λ b l, (setText l.1 l.2 b).2) b labels.

Lemma labelled_button id b :
  id ∉ labels.*1 → document (labelled b) !! id = document b !! id.
Proof.
  intros Hid. unfold labelled, labels; simpl.
  rewrite !lookup_alter_ne; [done|intros <-; apply Hid; set_solver..].
Qed.

Lemma document_set_listeners l b : document (set_listeners l b) = document b.
Proof. done. Qed.

Lemma listen_present id f b :
  is_Some (document b !! id) →
  listen id f b = (Ok tt, set_listeners (f (listeners b)) b).
Proof. intros [el Hel]. unfold listen, bind, get_st. by rewrite Hel. Qed.

Lemma listen_absent id f b :
  document b !! id = None → listen id f b = (Throw nullListener, b).
Proof. intros Hid. unfold listen, bind, get_st. by rewrite Hid. Qed.

Lemma load_run b :
  load b
  = (listen "btnCurrent" (λ l, mkListeners (on_copy l) true (on_forecast l)) ;;
     listen "btnForecast" (λ l, mkListeners (on_copy l) (on_current l) true))
      (set_listeners (mkListeners true (on_current (listeners b))
                        (on_forecast (listeners b))) (labelled b)).
Proof. done. Qed.

(** With both buttons in the document, the script runs to its end: the
    labels are filled in and the three listeners registered. *)
Theorem load_ready b :
  is_Some (document b !! "btnCurrent") → is_Some (document b !! "btnForecast") →
  load b = (Ok tt, set_listeners (mkListeners true true true) (labelled b)).
Proof.
  intros Hc Hf. rewrite load_run. unfold bind.
  rewrite listen_present by (by rewrite !document_set_listeners, labelled_button by set_solver).
  by rewrite listen_present by (by rewrite !document_set_listeners, labelled_button by set_solver).
Qed.

(** Without [btnCurrent] the script stops at its listener: the forecast
    button, though in the document, gets none. *)
Theorem load_without_current b :
  document b !! "btnCurrent" = None →
  load b = (Throw nullListener,
            set_listeners (mkListeners true (on_current (listeners b))
                             (on_forecast (listeners b))) (labelled b)).
Proof.
  intros Hc. rewrite load_run. unfold bind.
  by rewrite listen_absent by (by rewrite !document_set_listeners, labelled_button by set_solver).
Qed.

(** The address to connect to is the address of the MCP route. *)
Theorem labelled_urls b :
  text_of "mcpUrl" (labelled b) = (λ _, origin +:+ "/mcp") <$> document b !! "mcpUrl"
  ∧ text_of "connectUrl" (labelled b)
    = (λ _, origin +:+ "/mcp") <$> document b !! "connectUrl".
Proof.
  unfold text_of, labelled, labels, mcpUrl, baseUrl; simpl.
  rewrite (lookup_alter_ne _ _ "cmdStartPort" "mcpUrl") by done.
  rewrite (lookup_alter_ne _ _ "connectUrl" "mcpUrl") by done.
  rewrite (lookup_alter_ne _ _ "cmdStartPort" "connectUrl") by done.
  rewrite !lookup_alter_eq, !lookup_alter_ne by done.
  by destruct (document b !! "mcpUrl"), (document b !! "connectUrl").
Qed.

(** ** The copy buttons *)

(** A click copies the text of the target (nothing, when there is no
    target), relabels the button and sets its timer. *)
Theorem copy_click_copies btn el b :
  document b !! btn = Some el → clipboard_granted b = true →
  let b' := (copy_click btn b).2 in
  clipboard b' = default EmptyString (text_of (default "null" (data_target el)) b)
  ∧ text_of btn b' = Some "Copied!"
  ∧ timeouts b' = timeouts b ++ [btn]
  ∧ dialogs b' = dialogs b.
Proof.
  intros Hbtn Hok. unfold copy_click, bind, get_st. rewrite Hbtn, Hok; simpl.
  unfold text_of; simpl. by rewrite lookup_alter_eq, Hbtn.
Qed.

(** When the page may not write the clipboard, the click shows a dialog
    and changes nothing else. *)
Theorem copy_click_denied btn el b :
  document b !! btn = Some el → clipboard_granted b = false →
  copy_click btn b
  = (Ok tt, set_dialogs (dialogs b ++ ["Copy failed. Please copy manually."]) b).
Proof. intros Hbtn Hno. unfold copy_click, bind, get_st. by rewrite Hbtn, Hno. Qed.

(** When the timer of a click fires, the button reads [Copy URL] or
    [Copy] by its target, whatever it read before the click. *)
Theorem copy_then_timeout btn el b :
  document b !! btn = Some el → clipboard_granted b = true → timeouts b = [] →
  let b' := (timeout_fires (copy_click btn b).2).2 in
  text_of btn b' = Some (copy_label el) ∧ timeouts b' = [].
Proof.
  intros Hbtn Hok Hno. unfold copy_click, bind, get_st. rewrite Hbtn, Hok; simpl.
  unfold timeout_fires, bind, get_st; simpl. rewrite Hno; simpl.
  rewrite lookup_alter_eq, Hbtn; simpl.
  unfold text_of; simpl. by rewrite !lookup_alter_eq, Hbtn.
Qed.

(** The test for [URL] is in capitals and the ids the script fills in are
    not: a button that copies one of them reads [Copy] afterwards, also
    when it copies an address. *)
Theorem copy_label_own_targets el id :
  data_target el = Some id → id ∈ labels.*1 → copy_label el = "Copy".
Proof.
  intros Hid Hin. unfold copy_label. rewrite Hid.
  unfold labels in Hin; simpl in Hin.
  repeat (apply elem_of_cons in Hin as [->|Hin]; [done|]).
  by apply elem_of_nil in Hin.
Qed.

End page.

(** ** The two servers *)

Section servers.
Context {host : Host} {net : Net} {C : Type → Type} {store : Cache.TtlStore C}
  (config : Config).

(** [server.ts] behind the page. *)
#[refine] Instance serverBackend : Backend (Alerts.State C) := {|
  route_current := Server.api_current config;
  route_forecast := Server.api_forecast config;
|}.
Proof.
  - apply Server.api_current_total.
  - apply Server.api_forecast_total.
  - intros [] ; simpl; intros -> ->. by eexists.
  - intros []; simpl; intros -> -> [d Hd].
    unfold Server.api_forecast; simpl. rewrite Hd. by eexists.
Defined.

(** [index.ts] behind the page. *)
#[refine] Instance indexBackend : Backend (Index.State C) := {|
  route_current := Index.api_current config;
  route_forecast := Index.api_forecast config;
|}.
Proof.
  - apply Index.index_api_current_total.
  - apply Index.index_api_forecast_total.
  - intros []; simpl; intros -> ->. by eexists.
  - intros []; simpl; intros -> -> [d Hd].
    unfold Index.api_forecast; simpl. rewrite Hd. by eexists.
Defined.

Context (origin location_port : string).
Context (stringify_current : CurrentWeather → string)
  (stringify_forecast : Forecast → string).

Lemma sent_numeral (z : Z) : sent (pretty z) = Some (pretty z).
Proof.
  unfold sent. rewrite (proj2 (nonempty_true _)); [done|].
  rewrite <-(Parse.app_empty_r (pretty z)). by apply Parse.numeral_nonempty.
Qed.

(** C22: from the form to the providers: with a numeral in the days input, a
    click on [btnForecast] of a page served by [server.ts] asks the
    aggregator for that many days, whatever the number, for the place
    typed and no coordinates, and the output shows the forecast or the
    error the route answered. *)
Theorem page_forecast_days city country units (z : Z) w :
  online (browser w) = true → is_Some (document (browser w) !! "output") →
  let location :=
    mkLocationQuery (sent (Parse.trim city)) (sent (Parse.trim country)) None None in
  ∃ h, click_forecast stringify_forecast (filled city country units (pretty z))
       = Some h
    ∧ h w
      = match Aggregator.getForecast config location
                (default (defaultUnits config) (sent units)) (inject_Z z)
                (Alerts.agg (server w)) with
        | (r, g) =>
            (Ok tt,
             mkWorld (setText "output"
                        (stringify stringify_forecast
                           match r with
                           | Ok f => Server.Json f
                           | Throw e => Server.BadRequest (Prelude.message e)
                           end) (browser w)).2
                     (Alerts.set_agg g (server w)))
        end.
Proof.
  intros Hon Hout location.
  destruct (forecast_params_filled city country units (pretty z)) as (q & Hp & Hq).
  unfold click_forecast. rewrite Hp. unfold playground. simpl route_forecast.
  unfold Server.api_forecast at 1. rewrite Hq, sent_numeral. simpl.
  rewrite <-(Parse.app_empty_r (pretty z)), Server.days_of_query_numeral by done.
  simpl. eexists; split; [done|].
  unfold shown_on_failure, try_catch, bind at 1, fetch, bind at 1, get_st.
  rewrite Hon. unfold zoom, try_catch, bind, ret. rewrite Alerts.liftAgg_run.
  destruct (Aggregator.getForecast _ _ _ _ _) as [[f|e] g]; simpl;
    by rewrite liftB_run, assign_present.
Qed.

End servers.

(** ** A scenario *)

Import Dates Cache Aggregator.

(** A test page: the four labels, a copy button for the address and one
    for the command, the two buttons of the playground, the output. *)
Definition label : Element := mkElement EmptyString None false.

Definition test_page : Document :=
  list_to_map [
    ("baseUrl", label); ("mcpUrl", label); ("connectUrl", label);
    ("cmdStartPort", label);
    ("copyConnect", mkElement "Copy URL" (Some "connectUrl") true);
    ("copyCommand", mkElement "Copy command" (Some "cmdStartPort") true);
    ("btnCurrent", label); ("btnForecast", label); ("output", label) ].

Definition opened (d : Document) (granted reachable : bool) : Browser :=
  mkBrowser d (mkListeners false false false) EmptyString granted reachable [] [].

Definition served (b : Browser) : World (Alerts.State Cache.LRUCache) :=
  mkWorld b (Alerts.init Aggregator.both_keys 0).

Definition show_current (w : CurrentWeather) : string :=
  loc_name (location w) +:+ " by " +:+ provider w.
Definition show_forecast (f : Forecast) : string :=
  pretty (length (days f)) +:+ " days by " +:+ fc_provider f.

Definition loaded : Browser :=
  (load "http://localhost:3000" "3000" (opened test_page true true)).2.

Definition events (net : Net) (evs : list Event)
    (w : World (Alerts.State Cache.LRUCache))
    : option (World (Alerts.State Cache.LRUCache)) :=
  foldl (λ o ev, w ← o;
                 h ← dispatch (backend := serverBackend Aggregator.both_keys)
                        show_current show_forecast ev;
                 Some (h w).2)
        (Some w) evs.

(** The page is loaded, the address is copied and the timer fires, and
    London is asked for with blanks around it: the labels show the
    address, the clipboard holds it, the button that read [Copy URL] reads
    [Copy], one request has gone to the first provider and the output
    shows its record. *)
Example page_scenario :
  (w ← events Aggregator.both_up
         [ClickCopy "copyConnect"; TimerFires;
          ClickCurrent (filled "  London " "UK" "" "")] (served loaded);
   Some (text_of "connectUrl" (browser w), clipboard (browser w),
         text_of "copyConnect" (browser w), text_of "output" (browser w),
         length (calls (Aggregator.sys (Alerts.agg (server w))))))
  = Some (Some "http://localhost:3000/mcp", "http://localhost:3000/mcp",
          Some "Copy", Some "London by weatherapi", 1%nat).
Proof. by vm_compute. Qed.

(** The button that read [Copy command] reads [Copy] after its timer; a
    day count that is no number is where the model ends; one of 30 is
    asked of the providers, of which the second answers the days it has. *)
Example page_edge_cases :
  (w ← events Aggregator.both_up [ClickCopy "copyCommand"; TimerFires] (served loaded);
   Some (text_of "copyCommand" (browser w), clipboard (browser w)))
  = Some (Some "Copy", "$env:PORT=3000; npm run dev:http")
  ∧ events Aggregator.both_up [ClickForecast (filled "London" "UK" "" "soon")]
      (served loaded) = None
  ∧ (w ← events Aggregator.both_up
           [ClickForecast (filled "London" "UK" "" "30")] (served loaded);
     Some (text_of "output" (browser w)))
    = Some (Some "2 days by openweather").
Proof. by vm_compute. Qed.

Lemma click_current_shows_witness :
  ∃ h body,
    click_current (backend := serverBackend (net := Aggregator.both_up)
                                Aggregator.both_keys)
      show_current (filled "  London " "UK" "" "") = Some h
    ∧ text_of "output" (browser (h (served loaded)).2)
      = Some (stringify show_current body).
Proof.
  edestruct (click_current_shows
               (backend := serverBackend (net := Aggregator.both_up)
                             Aggregator.both_keys)
               show_current "  London " "UK" "" "" (served loaded))
    as (h & body & Hh & _ & Hrun); [by eexists|done..|].
  exists h, body. split; [done|]. by rewrite Hrun.
Defined.

Lemma page_forecast_days_witness :
  ∃ h, click_forecast (backend := serverBackend (net := Aggregator.both_up)
                                    Aggregator.both_keys)
         show_forecast (filled "London" "UK" "" (pretty 30%Z)) = Some h
    ∧ text_of "output" (browser (h (served loaded)).2) = Some "2 days by openweather".
Proof.
  destruct (page_forecast_days (net := Aggregator.both_up) Aggregator.both_keys
              show_forecast "London" "UK" "" 30 (served loaded)
              eq_refl ltac:(by eexists))
    as (h & Hh & Hrun).
  exists h. split; [done|]. rewrite Hrun. by vm_compute.
Defined.

Lemma load_without_current_witness :
  (load "http://localhost:3000" "" (opened (delete "btnCurrent" test_page) true true)).1
  = Throw nullListener.
Proof.
  by rewrite (load_without_current "http://localhost:3000" ""
                (opened (delete "btnCurrent" test_page) true true)
                ltac:(by vm_compute)).
Defined.

Lemma copy_label_own_targets_witness :
  copy_label (mkElement "Copy URL" (Some "connectUrl") true) = "Copy".
Proof.
  apply (copy_label_own_targets "http://localhost:3000" "3000" _ "connectUrl");
    [done|set_solver].
Defined.

End Page.
