(* ===== verification/Cli.v ===== *)
(** * Cli: the command-line entry point

    [cli.ts]: the arguments of the command line ([getArg], [hasFlag] and
    the five settings read with them), the tools [createMcpServer]
    registers, the check of the [Authorization] header in front of the HTTP
    endpoint, and [main], which initializes the agent and then serves over
    standard input and output or over HTTP.

    The state is that of [Index]: the alert module, which holds the
    aggregator, and the variables of the agent module.  Which tool a
    request names and with which arguments is the transport's; a request
    is modelled by the call it makes. *)

From stdpp Require Import pretty.
From S2P Require Import Prelude Parse OrderedMap Types Upstream World Dates Cache.
From S2P Require Import Insights Aggregator Agent Alerts Server Index.
Import Cache Aggregator.
Import (hints) Index.

Module Cli.

(** [s.slice(n)] for [n] within the string. *)
Fixpoint slice (n : nat) (s : string) : string :=
  match n, s with
  | S n', String _ s' => slice n' s'
  | _, _ => s
  end.

(** The arguments of [register_alert]; the channel is optional. *)
Record AlertArgs : Type := mkAlertArgs {
  arg_name : option string;
  arg_location : LocationQuery;
  arg_condition : Alerts.WeatherAlertCondition;
  arg_channel : option Alerts.AlertChannel;
  arg_webhookUrl : option string;
  arg_sensitivity : option Alerts.Sensitivity;
}.

(** A call of a tool: its name and its arguments. *)
Inductive ToolCall : Type :=
| get_current_weather (location : LocationQuery) (units : option string)
| get_forecast (location : LocationQuery) (units : option string) (days : option Q)
| get_historical (location : LocationQuery) (dateISO : string) (units : option string)
| provider_status
| weather_insights (location : LocationQuery) (activity : string)
| get_weather_summary (location : LocationQuery) (days : option Q)
| list_alerts
| register_alert (input : AlertArgs)
| remove_alert (id : string).

(** The answer of a tool: its structured content, and its text where the
    handler writes it out. *)
Inductive Content : Type :=
| DataCurrent (data : CurrentWeather)
| DataForecast (data : Forecast)
| DataHistorical (data : HistoricalWeather)
| HasKeys (openWeather weatherApi : bool)
| InsightsContent (location : LocationQuery) (activity : string) (insights : string)
| SummaryContent (location : LocationQuery) (days : option Q) (summary : string)
| AlertsField (alerts : list Alerts.WeatherAlert)
| Registered (text : string) (ok : Alerts.WeatherAlert)
| Removed (text : string) (ok : bool).

(** What the endpoint answers: 401, or what the transport makes of the
    call. *)
Inductive McpReply : Type :=
| Unauthorized
| Handled (answer : result Content).

(** ** Strings *)

Lemma prefix_app (p s : string) : String.prefix p (p +:+ s) = true.
Proof.
  induction p as [|c p IH]; simpl; [by destruct s|].
  by rewrite IH; destruct (Ascii.ascii_dec c c).
Qed.

Lemma slice_app (p s : string) : slice (String.length p) (p +:+ s) = s.
Proof. induction p as [|c p IH]; simpl; [by destruct s|done]. Qed.

Lemma includes_empty (s : string) : Insights.includes s EmptyString = true.
Proof. by destruct s. Qed.

Lemma find_first {A} (P : A → bool) (before : list A) (x : A) (after : list A) :
  Forall (λ a, P a = false) before → P x = true →
  List.find P (before ++ x :: after) = Some x.
Proof.
  intros Hbefore Hx. induction Hbefore as [|a before Ha _ IH]; simpl.
  - by rewrite Hx.
  - by rewrite Ha.
Qed.

Lemma includes_prefix (s sub : string) :
  String.prefix sub s = true → Insights.includes s sub = true.
Proof. destruct s; simpl; by intros ->. Qed.

Lemma includes_app (before sub after : string) :
  Insights.includes (before +:+ sub +:+ after) sub = true.
Proof.
  induction before as [|c before IH].
  - apply includes_prefix, (prefix_app sub after).
  - change (Insights.includes (String c (before +:+ sub +:+ after)) sub = true).
    simpl. by rewrite IH, orb_true_r.
Qed.

Section cli.
Context {host : Host} {net : Net} {llm : Agent.Llm} {C : Type → Type}
  {store : TtlStore C} (config : Config) (env : Env).
Context (random : nat → string) (inspect : Alerts.Payload → string)
  (webhook_body : Alerts.WeatherAlert → string → option Alerts.Payload → string).
Context (is_url : string → bool).
Context (stringify_current : CurrentWeather → string)
  (stringify_forecast : Forecast → string)
  (inspect_error : Error → string).

(** [process.argv] *)
Context (argv : list string).

Notation State := (Index.State C).

(** [getArg(key, defaultValue)] *)
Definition getArg (key defaultValue : string) : string :=
  let prefix := "--" +:+ key +:+ "=" in
  match List.find (String.prefix prefix) argv with
  | Some found => slice (String.length prefix) found
  | None => defaultValue
  end.

(** [hasFlag(key)] *)
Definition hasFlag (key : string) : bool := bool_decide ("--" +:+ key ∈ argv).

(** The settings of the process. *)
Definition transport : string := getArg "transport" "stdio".
Definition port : option Z := Parse.parseInt (getArg "port" (pretty (Types.port config))).
Definition listen_host : string := getArg "host" "0.0.0.0".
Definition requireAuth : bool := hasFlag "require-auth".
Definition bearerToken : string := getArg "token" EmptyString.

(** The input schema of each tool, on arguments of its shape. *)
Definition inputSchema (call : ToolCall) : bool :=
  match call with
  | get_current_weather _ units => Index.UnitsSchema units
  | get_forecast _ units days => Index.UnitsSchema units && Index.DaysSchema days
  | get_historical _ _ units => Index.UnitsSchema units
  | get_weather_summary _ days => Index.DaysSchema days
  | register_alert input => from_option is_url true (arg_webhookUrl input)
  | _ => true
  end.

Definition units_or_default (units : option string) : Units :=
  default (defaultUnits config) units.

(** The handler of each tool. *)
Definition handler (call : ToolCall) : M State Content :=
  match call with
  | get_current_weather location units =>
      let! data := Index.liftAgg (getCurrentWeather config location
                                    (units_or_default units)) in
      ret (DataCurrent data)
  | get_forecast location units days =>
      let! data := Index.liftAgg (getForecast config location
                                    (units_or_default units) (nullish days 3%Q)) in
      ret (DataForecast data)
  | get_historical location dateISO units =>
      let! data := Index.liftAgg (getHistorical config location dateISO) in
      ret (DataHistorical data)
  | provider_status =>
      let status := hasProviderKeys config in
      ret (HasKeys status.1 status.2)
  | weather_insights location activity =>
      let! insights := Index.liftAgent (Agent.getWeatherInsights config env
                                          stringify_current stringify_forecast
                                          inspect_error
                                          activity location) in
      ret (InsightsContent location activity insights)
  | get_weather_summary location days =>
      let! summary := Index.liftAgent (Agent.getEnhancedWeatherSummary config env
                                         stringify_current stringify_forecast
                                         inspect_error
                                         location days) in
      ret (SummaryContent location days summary)
  | list_alerts =>
      let! alerts := Index.liftAlerts Alerts.listAlerts in
      ret (AlertsField alerts)
  | register_alert input =>
      let! ok := Index.liftAlerts (Alerts.registerAlert random
        (Alerts.mkInput (arg_name input) (arg_location input)
           (arg_condition input) (nullish (arg_channel input) Alerts.to_console)
           (arg_webhookUrl input) (arg_sensitivity input) None)) in
      ret (Registered "alert_registered" ok)
  | remove_alert id =>
      let! ok := Index.liftAlerts (Alerts.removeAlert id) in
      ret (Removed (if ok then "alert_removed" else "alert_not_found") ok)
  end.

(** A call of a registered tool: the schema, then the handler. *)
Definition callTool (call : ToolCall) : M State Content :=
  if inputSchema call then handler call else throw Server.invalidArguments.

(** The check of the header: [!token || !token.includes(bearerToken)]
    answers 401. *)
Definition authorized (authorization : option string) : bool :=
  let token := default EmptyString (js_or authorization (Some EmptyString)) in
  negb (negb (nonempty token) || negb (Insights.includes token bearerToken)).

(** [POST /mcp] *)
Definition post_mcp (authorization : option string) (call : ToolCall)
    : M State McpReply :=
  if requireAuth && negb (authorized authorization) then ret Unauthorized
  else λ s, let '(answer, s') := callTool call s in (Ok (Handled answer), s').

(** [main()] *)
Definition main : M State unit :=
  Index.liftAgent (Agent.initializeWeatherAgent config env) ;;
  if String.eqb transport "stdio" then
    Index.liftAgg (liftSys (console_log
      "WeatherWise MCP (STDIO) ready. Launching via STDIO."))
  else if String.eqb transport "http" then
    Index.liftAlerts (Alerts.startAlertScheduler config) ;;
    Index.liftAgg (liftSys (console_log
      ("WeatherWise MCP (HTTP) running on http://" +:+ listen_host +:+ ":"
       +:+ from_option pretty "NaN" port +:+ "/mcp")))
  else ret tt.

(** ** The arguments *)

(** No argument gives [key] a value. *)
Definition no_argument (key : string) : Prop :=
  Forall (λ a, String.prefix ("--" +:+ key +:+ "=") a = false) argv.

Lemma getArg_default key defaultValue :
  no_argument key → getArg key defaultValue = defaultValue.
Proof.
  unfold getArg, no_argument. rewrite Forall_forall. intros Hno.
  destruct (List.find _ argv) as [found|] eqn:Hfind; [|done].
  apply find_some in Hfind as [Hin%list_elem_of_In Hp].
  by rewrite Hno in Hp.
Qed.

(** The first argument that gives [key] a value is the one read. *)
Lemma getArg_first key defaultValue before value after :
  argv = before ++ (("--" +:+ key +:+ "=") +:+ value) :: after →
  Forall (λ a, String.prefix ("--" +:+ key +:+ "=") a = false) before →
  getArg key defaultValue = value.
Proof.
  intros Hargv Hbefore. unfold getArg.
  rewrite Hargv, (find_first _ before _ after) by (done || apply prefix_app).
  apply slice_app.
Qed.

(** C20: without a [--port=] argument the port is that of the configuration:
    it is printed and read back. *)
Theorem port_default : no_argument "port" → port = Some (Types.port config).
Proof.
  intros Hno. unfold port. rewrite getArg_default by done.
  apply Parse.parseInt_pretty.
Qed.

(** A [--port=] argument is read as [parseInt] reads it: the digits it
    starts with, whatever follows them. *)
Theorem port_argument before (p : Z) rest after :
  argv = before ++ ("--port=" +:+ pretty p +:+ rest) :: after →
  Forall (λ a, String.prefix "--port=" a = false) before →
  Parse.ends_number rest → port = Some p.
Proof.
  intros Hargv Hbefore Hrest. unfold port.
  rewrite (getArg_first "port" _ before (pretty p +:+ rest) after) by done.
  by apply Parse.parseInt_prefix.
Qed.

(** ** The check of the header *)

Lemma authorized_absent : authorized None = false.
Proof. done. Qed.

Lemma authorized_Some h :
  authorized (Some h) = nonempty h && Insights.includes h bearerToken.
Proof.
  unfold authorized, js_or. rewrite truthy_Some.
  destruct (nonempty h) eqn:Hh; simpl; [|done].
  rewrite Hh. simpl. apply negb_involutive.
Qed.

(** C18: a process started with [--require-auth] and no [--token=] accepts
    every request that carries a header, whatever the header says: the
    empty token is part of every string. *)
Theorem authorized_without_token h :
  no_argument "token" → authorized (Some h) = nonempty h.
Proof.
  intros Hno. rewrite authorized_Some. unfold bearerToken.
  rewrite getArg_default by done. by rewrite includes_empty, andb_true_r.
Qed.

(** The header is not compared with the token: a header that contains the
    token anywhere is accepted. *)
Theorem authorized_contains before after :
  authorized (Some (before +:+ bearerToken +:+ after))
  = nonempty (before +:+ bearerToken +:+ after).
Proof. by rewrite authorized_Some, includes_app, andb_true_r. Qed.

(** A refused request changes nothing and calls no tool. *)
Theorem post_mcp_unauthorized authorization call s :
  requireAuth = true → authorized authorization = false →
  post_mcp authorization call s = (Ok Unauthorized, s).
Proof. unfold post_mcp. by intros -> ->. Qed.

(** ** [main] *)

Notation keeps := (preserves (Index.Inv config env)).

Lemma main_same s : Index.same_alerts (Index.base s) (Index.base (main s).2)
                    ∨ transport = "http".
Proof.
  unfold main, bind.
  pose proof (Index.liftAgent_same (Agent.initializeWeatherAgent config env) s) as H1.
  destruct (Index.liftAgent _ s) as [[r|e] s1]; simpl in *; [|by left].
  destruct (String.eqb_spec transport "stdio").
  - left. eapply (@transitivity _ _ _); [done|apply Index.liftAgg_same].
  - destruct (String.eqb_spec transport "http"); [by right|by left].
Qed.

(** C29: over standard input and output, and under a transport that is neither
    of the two, the scheduler is not started: the alerts a client
    registers there are never evaluated. *)
Theorem main_no_scheduler s :
  transport ≠ "http" →
  Alerts.schedulerStarted (Index.base (main s).2)
  = Alerts.schedulerStarted (Index.base s)
  ∧ Alerts.timers (Index.base (main s).2) = Alerts.timers (Index.base s).
Proof. intros Ht. by destruct (main_same s) as [[g ->]|?]. Qed.

Lemma start_started (a : Alerts.State C) :
  ∃ a', Alerts.startAlertScheduler config a = (Ok tt, a')
        ∧ Alerts.schedulerStarted a' = true.
Proof.
  rewrite Alerts.startAlertScheduler_run.
  destruct (Alerts.schedulerStarted a) eqn:Ha; by eexists.
Qed.

(** Over HTTP the scheduler is started. *)
Theorem main_http s :
  transport = "http" → Alerts.schedulerStarted (Index.base (main s).2) = true.
Proof.
  intros Ht. unfold main, bind. rewrite Ht. simpl.
  pose proof (Agent.initializeWeatherAgent_total config env (Index.agent_view s))
    as Hinit.
  rewrite Index.liftAgent_run.
  destruct (Agent.initializeWeatherAgent _ _ _) as [[r|e] a]; [cbn [fst snd]|done].
  rewrite Index.liftAlerts_run.
  destruct (start_started (Index.base (Index.set_agent_view a s)))
    as (a' & -> & Ha'). cbn [fst snd].
  match goal with |- context [Index.liftAgg ?log ?s1] =>
    destruct (Index.same_alerts_scheduler _ _ (Index.liftAgg_same log s1))
      as (-> & _)
  end. done.
Qed.

(** ** The invariant *)

(** ** The tools, against those of [index.ts] *)

(** The call of [index.ts] a call stands for: the same tool under the
    name it has there, the channel of an alert defaulted. *)
Definition export (call : ToolCall) : Index.ToolCall :=
  match call with
  | get_current_weather location units => Index.get_current_weather location units
  | get_forecast location units days => Index.get_forecast location units days
  | get_historical location dateISO _ => Index.get_historical location dateISO
  | provider_status => Index.provider_status
  | weather_insights location activity => Index.weather_insights activity location
  | get_weather_summary location days => Index.get_weather_summary location days
  | list_alerts => Index.list_weather_alerts
  | register_alert input =>
      Index.set_weather_alert
        (Server.mkAlertArgs (arg_name input) (arg_location input)
           (arg_condition input) (nullish (arg_channel input) Alerts.to_console)
           (arg_webhookUrl input) (arg_sensitivity input))
  | remove_alert id => Index.remove_weather_alert id
  end.

(** An answer of [cli.ts] carries the value of that of [index.ts]. *)
Inductive renames : Index.Content → Content → Prop :=
| renames_current data : renames (Index.DataCurrent data) (DataCurrent data)
| renames_forecast data : renames (Index.DataForecast data) (DataForecast data)
| renames_historical data :
    renames (Index.DataHistorical data) (DataHistorical data)
| renames_status ow wa : renames (Index.StatusField ow wa) (HasKeys ow wa)
| renames_insights activity location insights :
    renames (Index.InsightsContent activity location insights)
            (InsightsContent location activity insights)
| renames_summary location days summary :
    renames (Index.SummaryContent location days summary)
            (SummaryContent location days summary)
| renames_alerts items : renames (Index.ItemsField items) (AlertsField items)
| renames_registered alert :
    renames (Index.AlertField alert) (Registered "alert_registered" alert)
| renames_removed removed id :
    renames (Index.RemovedContent removed id)
            (Removed (if removed then "alert_removed" else "alert_not_found")
               removed).

Definition agrees (r : result Index.Content) (r' : result Content) : Prop :=
  match r, r' with
  | Ok c, Ok c' => renames c c'
  | Throw e, Throw e' => e = e'
  | _, _ => False
  end.

Lemma renamed_run {A} (m : M State A) (f : A → Index.Content) (f' : A → Content) s :
  (∀ a, renames (f a) (f' a)) →
  agrees (bind m (λ a, ret (f a)) s).1 (bind m (λ a, ret (f' a)) s).1
  ∧ (bind m (λ a, ret (f' a)) s).2 = (bind m (λ a, ret (f a)) s).2.
Proof.
  intros Hf. unfold bind. destruct (m s) as [[a|e] s1]; simpl; [by split|done].
Qed.

(** The handlers of [cli.ts] are those of [index.ts] under other names:
    the same value is answered, or the same error thrown, and the same
    state reached.  The registration tool answers [alert_registered]
    whenever it answers. *)
Theorem handler_agrees call s :
  agrees (Index.handler config env random stringify_current stringify_forecast
            inspect_error (export call) s).1 (handler call s).1
  ∧ (handler call s).2
    = (Index.handler config env random stringify_current stringify_forecast
         inspect_error (export call) s).2.
Proof.
  destruct call; try (apply renamed_run; constructor).
  split; [constructor|done].
Qed.

(** ** The invariant *)

Lemma keeps_callTool call : keeps (callTool call).
Proof.
  intros s Hs. unfold callTool. case_match; [|done].
  rewrite (proj2 (handler_agrees call s)).
  by apply (Index.keeps_handler config env random inspect webhook_body).
Qed.

(** Every request and the start of the process keep the invariant of
    [Index]. *)
Theorem cli_Inv authorization call :
  keeps (post_mcp authorization call) ∧ keeps main.
Proof.
  split.
  - intros s Hs. unfold post_mcp. case_match; [done|].
    pose proof (keeps_callTool call s Hs). by destruct (callTool call s).
  - unfold main.
    repeat first
      [ apply preserves_bind; [|intros ?] | case_match | apply preserves_ret
      | apply Index.keeps_console | apply Index.keeps_initialize
      | apply (Index.keeps_startAlertScheduler config env random inspect
                 webhook_body) ].
Qed.

End cli.

(** ** The theorems at a scenario

    The process of the agent's scenario, started over HTTP on a port with
    a stray character, with authorization required and no token given;
    and started with no argument at all. *)

Import Dates.

Definition argv_http : list string :=
  ["node"; "cli.js"; "--transport=http"; "--port=8080x"; "--require-auth"].

Definition argv_plain : list string := ["node"; "cli.js"].

Definition argv_token : list string :=
  ["node"; "cli.js"; "--transport=http"; "--require-auth"; "--token=s3cret"].

Example settings_http :
  transport argv_http = "http" ∧ port Agent.with_google argv_http = Some 8080%Z
  ∧ listen_host argv_http = "0.0.0.0" ∧ requireAuth argv_http = true
  ∧ bearerToken argv_http = EmptyString.
Proof. by vm_compute. Qed.

(** With a token the header is searched for it, not compared with it. *)
Example header_examples :
  authorized argv_token (Some "Bearer s3cret") = true
  ∧ authorized argv_token (Some "Basic xs3crety") = true
  ∧ authorized argv_token (Some "Bearer other") = false
  ∧ authorized argv_token None = false
  ∧ authorized argv_http (Some "anything") = true.
Proof. by vm_compute. Qed.

Definition run_main (argv : list string) (s : Index.State LRUCache)
    : result unit * Index.State LRUCache :=
  main Agent.with_google Agent.no_env argv s.

Definition request (net : Net) (argv : list string)
    (authorization : option string) (call : ToolCall) (s : Index.State LRUCache)
    : result McpReply * Index.State LRUCache :=
  post_mcp (llm := Agent.sunny) Agent.with_google Agent.no_env Alerts.ids
    Server.looks_like_url Agent.show_current Agent.show_forecast
    Agent.print_error argv
    authorization call s.

Example main_scenario :
  console (sys (Alerts.agg (Index.base (run_main argv_http Index.i0).2)))
  = ["Weather agent initialized with model: gemini-2.5-flash";
     "Alert scheduler started (every 300s)";
     "WeatherWise MCP (HTTP) running on http://0.0.0.0:8080/mcp"]
  ∧ console (sys (Alerts.agg (Index.base (run_main argv_plain Index.i0).2)))
    = ["Weather agent initialized with model: gemini-2.5-flash";
       "WeatherWise MCP (STDIO) ready. Launching via STDIO."].
Proof. by vm_compute. Qed.

Lemma port_default_witness : port Agent.with_google argv_plain = Some 3000%Z.
Proof. apply (port_default Agent.with_google argv_plain). by repeat constructor. Defined.

Lemma port_argument_witness : port Agent.with_google argv_http = Some 8080%Z.
Proof.
  apply (port_argument Agent.with_google argv_http
           ["node"; "cli.js"; "--transport=http"] 8080 "x" ["--require-auth"]);
    [done|by repeat constructor|done].
Defined.

Lemma authorized_without_token_witness :
  authorized argv_http (Some "anything") = nonempty "anything".
Proof. apply authorized_without_token. by repeat constructor. Defined.

Lemma post_mcp_unauthorized_witness :
  request both_up argv_token (Some "Bearer other") list_alerts Index.i0
  = (Ok Unauthorized, Index.i0).
Proof.
  apply (post_mcp_unauthorized (net := both_up) (llm := Agent.sunny)
           Agent.with_google Agent.no_env Alerts.ids Server.looks_like_url
           Agent.show_current Agent.show_forecast Agent.print_error argv_token
           (Some "Bearer other") list_alerts Index.i0); by vm_compute.
Defined.

Lemma main_no_scheduler_witness :
  Alerts.schedulerStarted (Index.base (run_main argv_plain Index.i0).2)
  = Alerts.schedulerStarted (Index.base Index.i0)
  ∧ Alerts.timers (Index.base (run_main argv_plain Index.i0).2)
    = Alerts.timers (Index.base Index.i0).
Proof.
  apply (main_no_scheduler Agent.with_google Agent.no_env argv_plain Index.i0).
  by vm_compute.
Defined.

Lemma main_http_witness :
  Alerts.schedulerStarted (Index.base (run_main argv_http Index.i0).2) = true.
Proof.
  apply (main_http Agent.with_google Agent.no_env argv_http Index.i0).
  by vm_compute.
Defined.

Lemma cli_Inv_witness :
  Index.Inv Agent.with_google Agent.no_env
    (request both_up argv_http (Some "anything")
       (weather_insights london "Running") Index.i0).2.
Proof.
  destruct (cli_Inv (net := both_up) (llm := Agent.sunny) Agent.with_google
              Agent.no_env Alerts.ids Alerts.show Alerts.body_of
              Server.looks_like_url Agent.show_current Agent.show_forecast
              Agent.print_error
              argv_http (Some "anything") (weather_insights london "Running"))
    as [Hrequest _].
  apply Hrequest, Index.index_init_Inv.
Defined.

End Cli.
